(** * Datepicker.js: a shallow embedding and its verified properties

    The development follows the second (range / schedule / confirm) revision
    of [Datepicker.js].  Modelling conventions:

    - a JavaScript Number that holds an integer is a [Z]; where the source
      can see [NaN] or [undefined] the value is an [option Z];
    - a [Date] object is its time value in milliseconds (or [InvalidDate]);
      the calendar getters are the ECMAScript algorithms [Day],
      [YearFromTime], [MonthFromTime], [DateFromTime], [WeekDay], [MakeDay],
      [MakeTime], [MakeDate].  Local time is taken with a fixed zero offset
      (no daylight saving), and the engine's [TimeClip] bound of 8.64e15 ms
      is not modelled;
    - strings are [String.string]; [String.prototype.replace] with a global
      literal pattern, [padStart], [split], [trim] and [join] are functions
      on them;
    - the widget is a record of the fields of [this]; DOM construction is
      left out, except for the flags that say whether an element exists,
      the value of the bound input, the number of dispatched [change]
      events and the log of callback invocations;
    - a method that throws before it changes a field returns an [outcome];
      [updateOptions], which can throw after it has changed fields, runs
      to a [completion] that keeps the state at the throw. *)

From Stdlib Require Import ZArith Lia List Bool String Ascii Sorting.Sorted
  Sorting.Permutation.
Import ListNotations.
Open Scope Z_scope.

(* ================================================================== *)
(** * ECMAScript date arithmetic *)
(* ================================================================== *)

Module ES.

Definition msPerMinute : Z := 60000.
Definition msPerHour : Z := 3600000.
Definition msPerDay : Z := 86400000.

Definition Day (t : Z) : Z := t / msPerDay.
Definition TimeWithinDay (t : Z) : Z := t mod msPerDay.

Definition DayFromYear (y : Z) : Z :=
  365 * (y - 1970) + (y - 1969) / 4 - (y - 1901) / 100 + (y - 1601) / 400.

Definition InLeapYear (y : Z) : bool :=
  (y mod 4 =? 0) && (negb (y mod 100 =? 0) || (y mod 400 =? 0)).

(** The largest year whose first day is not after day [n]: an estimate
    from the mean year length, corrected by at most one. *)
Definition YearFromDay (n : Z) : Z :=
  let y := 1970 + (n * 400) / 146097 in
  if n <? DayFromYear y then y - 1
  else if DayFromYear (y + 1) <=? n then y + 1
  else y.

Definition leapDays (y : Z) : Z := if InLeapYear y then 1 else 0.

(** Day within the year on which month [m] (0..11) starts. *)
Definition monthStart (m leap : Z) : Z :=
  match m with
  | 0 => 0
  | 1 => 31
  | 2 => 59 + leap
  | 3 => 90 + leap
  | 4 => 120 + leap
  | 5 => 151 + leap
  | 6 => 181 + leap
  | 7 => 212 + leap
  | 8 => 243 + leap
  | 9 => 273 + leap
  | 10 => 304 + leap
  | _ => 334 + leap
  end.

Definition DayWithinYear (n : Z) : Z := n - DayFromYear (YearFromDay n).

Definition monthOfYearDay (d leap : Z) : Z :=
  if d <? 31 then 0
  else if d <? 59 + leap then 1
  else if d <? 90 + leap then 2
  else if d <? 120 + leap then 3
  else if d <? 151 + leap then 4
  else if d <? 181 + leap then 5
  else if d <? 212 + leap then 6
  else if d <? 243 + leap then 7
  else if d <? 273 + leap then 8
  else if d <? 304 + leap then 9
  else if d <? 334 + leap then 10
  else 11.

Definition MonthFromDay (n : Z) : Z :=
  monthOfYearDay (DayWithinYear n) (leapDays (YearFromDay n)).

Definition DateFromDay (n : Z) : Z :=
  DayWithinYear n - monthStart (MonthFromDay n) (leapDays (YearFromDay n)) + 1.

Definition WeekDay (n : Z) : Z := (n + 4) mod 7.

Definition HourFromTime (t : Z) : Z := (t / msPerHour) mod 24.
Definition MinFromTime (t : Z) : Z := (t / msPerMinute) mod 60.

Definition MakeTime (hour min sec ms : Z) : Z :=
  hour * msPerHour + min * msPerMinute + sec * 1000 + ms.

Definition MakeDay (year month date : Z) : Z :=
  let ym := year + month / 12 in
  let mn := month mod 12 in
  DayFromYear ym + monthStart mn (leapDays ym) + date - 1.

Definition MakeDate (day time : Z) : Z := day * msPerDay + time.

End ES.

(* ================================================================== *)
(** * Date objects *)
(* ================================================================== *)

Inductive Date : Type :=
| InvalidDate : Date
| DateAt (t : Z) : Date.

(** A Number that may be [NaN]. *)
Definition num := option Z.

Definition getTime (d : Date) : num :=
  match d with InvalidDate => None | DateAt t => Some t end.

Definition getFullYear (d : Date) : num :=
  match d with InvalidDate => None | DateAt t => Some (ES.YearFromDay (ES.Day t)) end.

Definition getMonth (d : Date) : num :=
  match d with InvalidDate => None | DateAt t => Some (ES.MonthFromDay (ES.Day t)) end.

Definition getDate (d : Date) : num :=
  match d with InvalidDate => None | DateAt t => Some (ES.DateFromDay (ES.Day t)) end.

Definition getDay (d : Date) : num :=
  match d with InvalidDate => None | DateAt t => Some (ES.WeekDay (ES.Day t)) end.

Definition getHours (d : Date) : num :=
  match d with InvalidDate => None | DateAt t => Some (ES.HourFromTime t) end.

Definition getMinutes (d : Date) : num :=
  match d with InvalidDate => None | DateAt t => Some (ES.MinFromTime t) end.

(** [new Date(year, month, date, hours, minutes)]: a [NaN] argument gives
    an invalid date, a year in 0..99 means 1900 + year. *)
Definition new_Date (year month date hours minutes : num) : Date :=
  match year, month, date, hours, minutes with
  | Some y, Some m, Some d, Some h, Some mi =>
      let yr := if (0 <=? y) && (y <=? 99) then 1900 + y else y in
      DateAt (ES.MakeDate (ES.MakeDay yr m d) (ES.MakeTime h mi 0 0))
  | _, _, _, _, _ => InvalidDate
  end.

(** [new Date(year, month, date)] *)
Definition new_Date3 (year month date : num) : Date :=
  new_Date year month date (Some 0) (Some 0).

(** [new Date(d.getTime())] *)
Definition copy_Date (d : Date) : Date := d.

(** [d.setDate(dt)] *)
Definition setDate_day (d : Date) (dt : num) : Date :=
  match d, dt with
  | DateAt t, Some v =>
      let n := ES.Day t in
      DateAt (ES.MakeDate (ES.MakeDay (ES.YearFromDay n) (ES.MonthFromDay n) v)
                          (ES.TimeWithinDay t))
  | _, _ => InvalidDate
  end.

(** [d.setMonth(m)] *)
Definition setMonth (d : Date) (m : num) : Date :=
  match d, m with
  | DateAt t, Some v =>
      let n := ES.Day t in
      DateAt (ES.MakeDate (ES.MakeDay (ES.YearFromDay n) v (ES.DateFromDay n))
                          (ES.TimeWithinDay t))
  | _, _ => InvalidDate
  end.

Definition num_add (a : num) (b : Z) : num :=
  match a with Some x => Some (x + b) | None => None end.

(** [a < b] and [a > b] on Date objects: a comparison of time values that
    is false as soon as one side is [NaN]. *)
Definition date_lt (a b : Date) : bool :=
  match a, b with
  | DateAt x, DateAt y => x <? y
  | _, _ => false
  end.

Definition date_gt (a b : Date) : bool := date_lt b a.

Definition date_le (a b : Date) : bool :=
  match a, b with
  | DateAt x, DateAt y => x <=? y
  | _, _ => false
  end.

Definition num_eqb (a b : num) : bool :=
  match a, b with
  | Some x, Some y => x =? y
  | _, _ => false
  end.

(* ================================================================== *)
(** * Date/time utilities of Datepicker.js *)
(* ================================================================== *)

(** JavaScript's [%] on integers: the remainder takes the sign of the
    dividend. *)
Definition js_rem (a b : Z) : Z := Z.rem a b.

(** [Math.ceil(m / s)] for integers, [s > 0]. *)
Definition ceil_div (m s : Z) : Z := - ((- m) / s).

(** [clampMinuteToStep(minute, step)] *)
Definition clampMinuteToStep (minute step : Z) : Z :=
  let m := minute in
  let s := if step =? 0 then 5 else step in      (* Number(step) || 5 *)
  if s <=? 0 then m
  else
    let down := (m / s) * s in
    let up := ceil_div m s * s in
    if Z.abs (m - down) <=? Z.abs (up - m) then js_rem down 60
    else js_rem up 60.

Definition isValidDate (d : Date) : bool :=
  match d with InvalidDate => false | DateAt _ => true end.

Definition startOfDay (localDate : Date) : Date :=
  new_Date3 (getFullYear localDate) (getMonth localDate) (getDate localDate).

Definition areSameCalendarDate (a b : Date) : bool :=
  if negb (isValidDate a) || negb (isValidDate b) then false
  else num_eqb (getFullYear a) (getFullYear b)
       && num_eqb (getMonth a) (getMonth b)
       && num_eqb (getDate a) (getDate b).

Definition addDays (baseDate : Date) (days : Z) : Date :=
  let d := new_Date3 (getFullYear baseDate) (getMonth baseDate) (getDate baseDate) in
  setDate_day d (num_add (getDate d) days).

Definition addMonths (baseDate : Date) (months : Z) : Date :=
  let d := new_Date3 (getFullYear baseDate) (getMonth baseDate) (Some 1) in
  setMonth d (num_add (getMonth d) months).

Definition startOfMonth (date : Date) : Date :=
  new_Date3 (getFullYear date) (getMonth date) (Some 1).

Definition endOfMonth (date : Date) : Date :=
  new_Date3 (getFullYear date) (num_add (getMonth date) 1) (Some 0).

Definition startOfWeek (date : Date) (firstDayOfWeek : Z) : Date :=
  match getDay date with
  | Some day =>
      let diff := js_rem (day - firstDayOfWeek + 7) 7 in
      addDays date (- diff)
  | None => InvalidDate          (* addDays(date, NaN) *)
  end.

(** [isDateOutOfBounds(date, minDate, maxDate)]; [None] is [null]. *)
Definition isDateOutOfBounds (date : Date) (minDate maxDate : option Date) : bool :=
  if negb (isValidDate date) then true
  else if match minDate with
          | Some mn => isValidDate mn && date_lt date mn
          | None => false
          end then true
  else if match maxDate with
          | Some mx => isValidDate mx && date_gt date mx
          | None => false
          end then true
  else false.

(* ================================================================== *)
(** * Strings *)
(* ================================================================== *)

Open Scope string_scope.
Open Scope list_scope.
Open Scope Z_scope.

Infix "+++" := String.append (at level 60, right associativity).

Definition DEFAULT_FORMAT : string := "yyyy-MM-dd".

Definition digit_char (d : Z) : ascii := ascii_of_nat (48 + Z.to_nat d).

Definition is_digit (c : ascii) : bool :=
  let n := nat_of_ascii c in (48 <=? n)%nat && (n <=? 57)%nat.

Definition digit_val (c : ascii) : Z := Z.of_nat (nat_of_ascii c) - 48.

(** [\w] of a regular expression: ASCII letters, digits and underscore. *)
Definition is_word_char (c : ascii) : bool :=
  let n := nat_of_ascii c in
  ((48 <=? n)%nat && (n <=? 57)%nat)
  || ((65 <=? n)%nat && (n <=? 90)%nat)
  || ((97 <=? n)%nat && (n <=? 122)%nat)
  || (n =? 95)%nat.

(** White space removed by [trim] (the ASCII part of it). *)
Definition is_space (c : ascii) : bool :=
  let n := nat_of_ascii c in
  ((9 <=? n)%nat && (n <=? 13)%nat) || (n =? 32)%nat.

Fixpoint digits_of (fuel : nat) (n : Z) (acc : string) : string :=
  match fuel with
  | O => acc
  | S f =>
      let acc' := String (digit_char (n mod 10)) acc in
      if n <? 10 then acc' else digits_of f (n / 10) acc'
  end.

(** [String(n)] for an integer [n]. *)
Definition String_of_Z (n : Z) : string :=
  if n <? 0 then String "-" (digits_of (S (Z.to_nat (Z.log2 (- n)))) (- n) EmptyString)
  else digits_of (S (Z.to_nat (Z.log2 n))) n EmptyString.

Fixpoint repeat_char (c : ascii) (n : nat) : string :=
  match n with O => EmptyString | S k => String c (repeat_char c k) end.

(** [s.padStart(len, '0')] *)
Definition padStart0 (s : string) (len : nat) : string :=
  repeat_char "0" (len - String.length s) +++ s.

(** [padStartNumber(value, length)] *)
Definition padStartNumber (value : Z) (len : nat) : string :=
  padStart0 (String_of_Z value) len.

Fixpoint Number_acc (s : string) (acc : Z) : num :=
  match s with
  | EmptyString => Some acc
  | String c r => if is_digit c then Number_acc r (acc * 10 + digit_val c) else None
  end.

(** [Number(x)] where [x] is [undefined] or a string of decimal digits (the
    only arguments the source passes: named groups of a match). *)
Definition Number_of (x : option string) : num :=
  match x with
  | None => None
  | Some s => Number_acc s 0
  end.

Fixpoint strip_prefix (p s : string) : option string :=
  match p with
  | EmptyString => Some s
  | String a p' =>
      match s with
      | String b s' => if Ascii.eqb a b then strip_prefix p' s' else None
      | EmptyString => None
      end
  end.

Definition starts_with (p s : string) : bool :=
  match strip_prefix p s with Some _ => true | None => false end.

(** [s.replace(/tok/g, repl)] for a literal, non-empty [tok] and a
    replacement without [$]: scan from the left, [skip] counts the
    characters of a match still to be dropped. *)
Fixpoint replace_all_aux (tok repl : string) (skip : nat) (s : string) : string :=
  match s with
  | EmptyString => EmptyString
  | String c r =>
      match skip with
      | S k => replace_all_aux tok repl k r
      | O =>
          if starts_with tok s
          then repl +++ replace_all_aux tok repl (String.length tok - 1) r
          else String c (replace_all_aux tok repl 0 r)
      end
  end.

Definition replace_all (tok repl s : string) : string :=
  replace_all_aux tok repl 0 s.

Definition starts_with_word (s : string) : bool :=
  match s with
  | EmptyString => false
  | String c _ => is_word_char c
  end.

(** [s.replace(/\ba\b/g, repl)] when [trailing] is set and
    [s.replace(/\ba/g, repl)] otherwise; [prev] tells whether the
    character before the current position is a word character. *)
Fixpoint replace_word_a (trailing : bool) (repl : string) (prev : bool) (s : string)
  : string :=
  match s with
  | EmptyString => EmptyString
  | String c r =>
      if Ascii.eqb c "a" && negb prev && (negb trailing || negb (starts_with_word r))
      then repl +++ replace_word_a trailing repl true r
      else String c (replace_word_a trailing repl (is_word_char c) r)
  end.

(** [formatDate(date, formatString)] *)
Definition formatDate (date : Date) (formatString : string) : string :=
  match date with
  | InvalidDate => EmptyString
  | DateAt t =>
      let yyyy := ES.YearFromDay (ES.Day t) in
      let MM := padStartNumber (ES.MonthFromDay (ES.Day t) + 1) 2 in
      let dd := padStartNumber (ES.DateFromDay (ES.Day t)) 2 in
      let hours24 := ES.HourFromTime t in
      let HH := padStartNumber hours24 2 in
      let h12Raw := js_rem hours24 12 in
      let h12Val := if h12Raw =? 0 then 12 else h12Raw in
      let hh := padStartNumber h12Val 2 in
      let a := if 12 <=? hours24 then "PM" else "AM" in
      let mm := padStartNumber (ES.MinFromTime t) 2 in
      replace_word_a true a false
        (replace_all "mm" mm
          (replace_all "hh" hh
            (replace_all "HH" HH
              (replace_all "dd" dd
                (replace_all "MM" MM
                  (replace_all "yyyy" (String_of_Z yyyy) formatString))))))
  end.

(* ------------------------------------------------------------------ *)
(** ** The regular expressions that [parseDate] builds *)

Inductive group : Type :=
| GYear | GMonth | GDay | GHour24 | GHour12 | GMinute | GAmpm.

Definition group_eqb (a b : group) : bool :=
  match a, b with
  | GYear, GYear | GMonth, GMonth | GDay, GDay | GHour24, GHour24
  | GHour12, GHour12 | GMinute, GMinute | GAmpm, GAmpm => true
  | _, _ => false
  end.

(** Source text of each named group. *)
Definition group_src (g : group) : string :=
  match g with
  | GYear => "(?<year>\d{4})"
  | GMonth => "(?<month>\d{1,2})"
  | GDay => "(?<day>\d{1,2})"
  | GHour24 => "(?<hour24>\d{1,2})"
  | GHour12 => "(?<hour12>\d{1,2})"
  | GMinute => "(?<minute>\d{1,2})"
  | GAmpm => "(?<ampm>AM|PM|am|pm)"
  end.

Definition all_groups : list group :=
  [GYear; GMonth; GDay; GHour24; GHour12; GMinute; GAmpm].

Inductive atom : Type :=
| ALit (c : ascii)      (* a character that stands for itself *)
| AAny                  (* [.] *)
| AGroup (g : group).   (* one of the named groups above *)

(** The syntax characters of a regular expression: caret, dollar,
    backslash (code 92), dot, star, plus, question mark, the round, square
    and curly brackets, and the bar. *)
Definition is_syntax_char (c : ascii) : bool :=
  existsb (Ascii.eqb c)
    ["^"; "$"; "092"; "."; "*"; "+"; "?"; "("; ")"; "["; "]"; "{"; "}"; "|"]%char.

Definition is_line_terminator (c : ascii) : bool :=
  Ascii.eqb c "010" || Ascii.eqb c "013".

Inductive exn : Type :=
| SyntaxError   (* thrown by [new RegExp]: duplicate group name *)
| NotFoundError   (* thrown by [insertBefore]: the reference node is no child *)
| Unmodelled.   (* regular-expression syntax outside the fragment below *)

Inductive outcome (A : Type) : Type :=
| Done (a : A)
| Raise (e : exn).

Arguments Done {A} a.
Arguments Raise {A} e.

Definition bind {A B : Type} (m : outcome A) (k : A -> outcome B) : outcome B :=
  match m with
  | Done a => k a
  | Raise e => Raise e
  end.

Notation "x <- m ;; k" := (bind m (fun x => k))
  (at level 61, m at next level, right associativity).

Fixpoint find_group (gs : list group) (src : string) : option (group * string) :=
  match gs with
  | [] => None
  | g :: gs' =>
      match strip_prefix (group_src g) src with
      | Some r => Some (g, r)
      | None => find_group gs' src
      end
  end.

(** The pattern of a regular expression source, for the fragment made of
    the named groups, [.] and characters that stand for themselves. *)
Fixpoint regex_atoms (fuel : nat) (src : string) : option (list atom) :=
  match src with
  | EmptyString => Some []
  | String c r =>
      match fuel with
      | O => None
      | S f =>
          match find_group all_groups src with
          | Some (g, r') => option_map (cons (AGroup g)) (regex_atoms f r')
          | None =>
              if Ascii.eqb c "." then option_map (cons AAny) (regex_atoms f r)
              else if is_syntax_char c then None
              else option_map (cons (ALit c)) (regex_atoms f r)
          end
      end
  end.

Fixpoint atom_groups (atoms : list atom) : list group :=
  match atoms with
  | [] => []
  | AGroup g :: rest => g :: atom_groups rest
  | _ :: rest => atom_groups rest
  end.

Fixpoint has_duplicate (gs : list group) : bool :=
  match gs with
  | [] => false
  | g :: rest => existsb (group_eqb g) rest || has_duplicate rest
  end.

(** [new RegExp('^' + src + '$')] *)
Definition new_RegExp (src : string) : outcome (list atom) :=
  match regex_atoms (String.length src) src with
  | None => Raise Unmodelled
  | Some atoms =>
      if has_duplicate (atom_groups atoms) then Raise SyntaxError else Done atoms
  end.

Definition groups := group -> option string.

Definition no_groups : groups := fun _ => None.

Definition set_group (g : group) (v : string) (env : groups) : groups :=
  fun g' => if group_eqb g g' then Some v else env g'.

Fixpoint take_digits (n : nat) (s : string) : option (string * string) :=
  match n with
  | O => Some (EmptyString, s)
  | S k =>
      match s with
      | String c r =>
          if is_digit c then
            match take_digits k r with
            | Some (v, r') => Some (String c v, r')
            | None => None
            end
          else None
      | EmptyString => None
      end
  end.

Definition orelse {A : Type} (x y : option A) : option A :=
  match x with Some _ => x | None => y end.

(** Anchored backtracking match: greedy [\d{1,2}], alternatives from left
    to right; the result is the first match in the engine's order. *)
Fixpoint re_match (atoms : list atom) (s : string) (env : groups) : option groups :=
  match atoms with
  | [] => match s with EmptyString => Some env | _ => None end
  | ALit c :: rest =>
      match s with
      | String x s' => if Ascii.eqb x c then re_match rest s' env else None
      | EmptyString => None
      end
  | AAny :: rest =>
      match s with
      | String x s' => if is_line_terminator x then None else re_match rest s' env
      | EmptyString => None
      end
  | AGroup g :: rest =>
      let digits n :=
        match take_digits n s with
        | Some (v, s') => re_match rest s' (set_group g v env)
        | None => None
        end in
      let word w :=
        match strip_prefix w s with
        | Some s' => re_match rest s' (set_group g w env)
        | None => None
        end in
      match g with
      | GYear => digits 4%nat
      | GAmpm => orelse (word "AM") (orelse (word "PM") (orelse (word "am") (word "pm")))
      | _ => orelse (digits 2%nat) (digits 1%nat)
      end
  end.

(** [/pm/i.test(s)] *)
Fixpoint test_pm_i (s : string) : bool :=
  match s with
  | String c ((String c' _) as r) =>
      ((Ascii.eqb c "p" || Ascii.eqb c "P") && (Ascii.eqb c' "m" || Ascii.eqb c' "M"))
      || test_pm_i r
  | _ => false
  end.

Definition num_sub (a : num) (b : Z) : num :=
  match a with Some x => Some (x - b) | None => None end.

Definition num_rem (a : num) (b : Z) : num :=
  match a with Some x => Some (js_rem x b) | None => None end.

(** [Math.min(hi, Math.max(lo, n))] *)
Definition num_clamp (lo hi : Z) (n : num) : num :=
  match n with Some x => Some (Z.min hi (Z.max lo x)) | None => None end.

(** The matcher that [parseDate] builds from the format: each token is
    replaced by the source of its named group, and the result is compiled
    between [^] and [$]. *)
Definition date_regex (formatString : string) : outcome (list atom) :=
  let fmt := match formatString with EmptyString => DEFAULT_FORMAT | _ => formatString end in
  let esc :=
    replace_word_a false (group_src GAmpm) false
      (replace_all "mm" (group_src GMinute)
        (replace_all "hh" (group_src GHour12)
          (replace_all "HH" (group_src GHour24)
            (replace_all "dd" (group_src GDay)
              (replace_all "MM" (group_src GMonth)
                (replace_all "yyyy" (group_src GYear) fmt)))))) in
  new_RegExp esc.

(** [parseDate(value, formatString)]: [value] is [None] for [null]. *)
Definition parseDate (value : option string) (formatString : string)
  : outcome (option Date) :=
  match value with
  | None => Done None
  | Some EmptyString => Done None
  | Some v =>
      regex <- date_regex formatString ;;
      match re_match regex v no_groups with
      | None => Done None
      | Some groups =>
          let year := Number_of (groups GYear) in
          let monthIndex := num_sub (Number_of (groups GMonth)) 1 in
          let day := Number_of (groups GDay) in
          let hour :=
            match groups GHour24, groups GHour12 with
            | Some h24, _ => num_clamp 0 23 (Number_of (Some h24))
            | None, Some h12raw =>
                let h12 := num_clamp 1 12 (Number_of (Some h12raw)) in
                let ampm := match groups GAmpm with Some x => x | None => EmptyString end in
                let isPm := test_pm_i ampm in
                if isPm then num_add (num_rem h12 12) 12 else num_rem h12 12
            | None, None => Some 0
            end in
          let minute :=
            match groups GMinute with
            | Some mi => num_clamp 0 59 (Number_of (Some mi))
            | None => Some 0
            end in
          let d := new_Date year monthIndex day hour minute in
          Done (if isValidDate d then Some d else None)
      end
  end.

(* ------------------------------------------------------------------ *)
(** ** Weekday names *)

(** The loop of [buildWeekdayOrder]: [count] iterations are left, [i] is
    the loop variable. *)
Fixpoint buildWeekdayOrder_loop (firstDayOfWeek : Z) (count : nat) (i : Z)
  (order : list Z) : list Z :=
  match count with
  | O => order
  | S k =>
      buildWeekdayOrder_loop firstDayOfWeek k (i + 1)
        (order ++ [js_rem (firstDayOfWeek + i) 7])
  end.

(** [buildWeekdayOrder(firstDayOfWeek)] *)
Definition buildWeekdayOrder (firstDayOfWeek : Z) : list Z :=
  buildWeekdayOrder_loop firstDayOfWeek 7 0 [].

(** [arr[i]] for an integer [i]; [None] is [undefined]. *)
Definition array_get {A : Type} (arr : list A) (i : Z) : option A :=
  if i <? 0 then None else nth_error arr (Z.to_nat i).

(** The dates whose weekday names [buildDefaultI18n] collects in
    [weekdaysAll]: [new Date(2020, 10, 1 + idx)] for [idx] from 0 to 6. *)
Definition weekdaysAll_dates : list Date :=
  map (fun idx => new_Date3 (Some 2020) (Some 10) (Some (1 + idx))) [0; 1; 2; 3; 4; 5; 6].

(** [buildDefaultI18n(firstDayOfWeek).weekdays], that is
    [order.map((o) => weekdaysAll[o])]: each name is given by the date
    whose weekday name it is; [None] is [undefined]. *)
Definition buildDefaultI18n_weekdays (firstDayOfWeek : Z) : list (option Date) :=
  map (array_get weekdaysAll_dates) (buildWeekdayOrder firstDayOfWeek).

(* ================================================================== *)
(** * The widget *)
(* ================================================================== *)

Inductive schedule_mode : Type := ModeNone | ModeWeekly | ModeMonthly.

Definition mode_eqb (a b : schedule_mode) : bool :=
  match a, b with
  | ModeNone, ModeNone | ModeWeekly, ModeWeekly | ModeMonthly, ModeMonthly => true
  | _, _ => false
  end.

(** [this.options].  Of [options.i18n] the weekday names are kept, as
    [buildDefaultI18n] makes them (the [i18n] option of the constructor and
    of [updateOptions], which replaces texts, is outside the model); the
    other options that only steer the presentation (the other texts,
    position, analog clock, header texts) are left out. *)
Record Options : Type := mkOptions {
  format : string;   (* options.format *)
  firstDayOfWeek : Z;
  minDate : option Date;   (* [None] is null *)
  maxDate : option Date;
  disableDates : option (Date -> bool);   (* [None] is null *)
  onSelect : bool;   (* typeof options.onSelect === 'function' *)
  onSelectRange : bool;   (* likewise *)
  onSelectSchedule : bool;   (* likewise *)
  openOnFocus : bool;
  autoClose : bool;
  showOutsideDays : bool;
  inline : bool;
  enableTime : bool;
  timeStep : Z;
  hour12 : bool;
  range : bool;
  rangeSeparator : string;
  confirm : bool;
  scheduleMode : schedule_mode;
  scheduleWeeklyMulti : bool;
  scheduleMonthlyMulti : bool;
  i18n_weekdays : list (option Date)   (* options.i18n.weekdays *)
}.

(** One invocation of a consumer callback, with its arguments. *)
Inductive callback : Type :=
| OnSelect (date : option Date) (formatted source : string)
| OnSelectRange (start end_ : option Date) (formatted source : string)
| OnSelectSchedule (mode : schedule_mode) (weekly monthly array : list Z)
    (formatted source : string).

(** The fields of a [DatePicker] instance. *)
Record DatePicker : Type := mkDatePicker {
  options : Options;
  selectedDate : option Date;
  scheduleWeeklySelected : list Z;   (* a Set, in insertion order: 0..6, Sunday is 0 *)
  scheduleMonthlySelected : list Z;   (* a Set, in insertion order: 1..31 *)
  rangeStart : option Date;
  rangeEnd : option Date;
  hoveringDate : option Date;
  startHours : num;
  startMinutes : num;
  endHours : num;
  endMinutes : num;
  focusedDate : option Date;
  currentViewMonth : Date;
  isOpen : bool;
  timeHours : num;
  timeMinutes : num;
  daysGrid : bool;   (* the element exists *)
  timeRow : bool;   (* the element exists *)
  timeRangeRow : bool;   (* the element exists *)
  doneButton : bool;   (* the element exists *)
  inputValue : string;   (* inputElement.value *)
  changeEvents : nat;   (* change events dispatched on the input *)
  callbacks : list callback   (* callback invocations, oldest first *)
}.

(** Field updates ([this.f = v]). *)

Definition set_format (v : string) (o : Options) : Options :=
  mkOptions v (firstDayOfWeek o) (minDate o) (maxDate o) (disableDates o)
    (onSelect o) (onSelectRange o) (onSelectSchedule o) (openOnFocus o)
    (autoClose o) (showOutsideDays o) (inline o) (enableTime o) (timeStep o)
    (hour12 o) (range o) (rangeSeparator o) (confirm o) (scheduleMode o)
    (scheduleWeeklyMulti o) (scheduleMonthlyMulti o)
    (i18n_weekdays o).

Definition set_firstDayOfWeek (v : Z) (o : Options) : Options :=
  mkOptions (format o) v (minDate o) (maxDate o) (disableDates o) (onSelect
    o) (onSelectRange o) (onSelectSchedule o) (openOnFocus o) (autoClose o)
    (showOutsideDays o) (inline o) (enableTime o) (timeStep o) (hour12 o)
    (range o) (rangeSeparator o) (confirm o) (scheduleMode o)
    (scheduleWeeklyMulti o) (scheduleMonthlyMulti o)
    (i18n_weekdays o).

Definition set_minDate (v : option Date) (o : Options) : Options :=
  mkOptions (format o) (firstDayOfWeek o) v (maxDate o) (disableDates o)
    (onSelect o) (onSelectRange o) (onSelectSchedule o) (openOnFocus o)
    (autoClose o) (showOutsideDays o) (inline o) (enableTime o) (timeStep o)
    (hour12 o) (range o) (rangeSeparator o) (confirm o) (scheduleMode o)
    (scheduleWeeklyMulti o) (scheduleMonthlyMulti o)
    (i18n_weekdays o).

Definition set_maxDate (v : option Date) (o : Options) : Options :=
  mkOptions (format o) (firstDayOfWeek o) (minDate o) v (disableDates o)
    (onSelect o) (onSelectRange o) (onSelectSchedule o) (openOnFocus o)
    (autoClose o) (showOutsideDays o) (inline o) (enableTime o) (timeStep o)
    (hour12 o) (range o) (rangeSeparator o) (confirm o) (scheduleMode o)
    (scheduleWeeklyMulti o) (scheduleMonthlyMulti o)
    (i18n_weekdays o).

Definition set_disableDates (v : option (Date -> bool)) (o : Options) : Options :=
  mkOptions (format o) (firstDayOfWeek o) (minDate o) (maxDate o) v
    (onSelect o) (onSelectRange o) (onSelectSchedule o) (openOnFocus o)
    (autoClose o) (showOutsideDays o) (inline o) (enableTime o) (timeStep o)
    (hour12 o) (range o) (rangeSeparator o) (confirm o) (scheduleMode o)
    (scheduleWeeklyMulti o) (scheduleMonthlyMulti o)
    (i18n_weekdays o).

Definition set_onSelect (v : bool) (o : Options) : Options :=
  mkOptions (format o) (firstDayOfWeek o) (minDate o) (maxDate o)
    (disableDates o) v (onSelectRange o) (onSelectSchedule o) (openOnFocus
    o) (autoClose o) (showOutsideDays o) (inline o) (enableTime o) (timeStep
    o) (hour12 o) (range o) (rangeSeparator o) (confirm o) (scheduleMode o)
    (scheduleWeeklyMulti o) (scheduleMonthlyMulti o)
    (i18n_weekdays o).

Definition set_onSelectRange (v : bool) (o : Options) : Options :=
  mkOptions (format o) (firstDayOfWeek o) (minDate o) (maxDate o)
    (disableDates o) (onSelect o) v (onSelectSchedule o) (openOnFocus o)
    (autoClose o) (showOutsideDays o) (inline o) (enableTime o) (timeStep o)
    (hour12 o) (range o) (rangeSeparator o) (confirm o) (scheduleMode o)
    (scheduleWeeklyMulti o) (scheduleMonthlyMulti o)
    (i18n_weekdays o).

Definition set_onSelectSchedule (v : bool) (o : Options) : Options :=
  mkOptions (format o) (firstDayOfWeek o) (minDate o) (maxDate o)
    (disableDates o) (onSelect o) (onSelectRange o) v (openOnFocus o)
    (autoClose o) (showOutsideDays o) (inline o) (enableTime o) (timeStep o)
    (hour12 o) (range o) (rangeSeparator o) (confirm o) (scheduleMode o)
    (scheduleWeeklyMulti o) (scheduleMonthlyMulti o)
    (i18n_weekdays o).

Definition set_openOnFocus (v : bool) (o : Options) : Options :=
  mkOptions (format o) (firstDayOfWeek o) (minDate o) (maxDate o)
    (disableDates o) (onSelect o) (onSelectRange o) (onSelectSchedule o) v
    (autoClose o) (showOutsideDays o) (inline o) (enableTime o) (timeStep o)
    (hour12 o) (range o) (rangeSeparator o) (confirm o) (scheduleMode o)
    (scheduleWeeklyMulti o) (scheduleMonthlyMulti o)
    (i18n_weekdays o).

Definition set_autoClose (v : bool) (o : Options) : Options :=
  mkOptions (format o) (firstDayOfWeek o) (minDate o) (maxDate o)
    (disableDates o) (onSelect o) (onSelectRange o) (onSelectSchedule o)
    (openOnFocus o) v (showOutsideDays o) (inline o) (enableTime o)
    (timeStep o) (hour12 o) (range o) (rangeSeparator o) (confirm o)
    (scheduleMode o) (scheduleWeeklyMulti o) (scheduleMonthlyMulti o)
    (i18n_weekdays o).

Definition set_showOutsideDays (v : bool) (o : Options) : Options :=
  mkOptions (format o) (firstDayOfWeek o) (minDate o) (maxDate o)
    (disableDates o) (onSelect o) (onSelectRange o) (onSelectSchedule o)
    (openOnFocus o) (autoClose o) v (inline o) (enableTime o) (timeStep o)
    (hour12 o) (range o) (rangeSeparator o) (confirm o) (scheduleMode o)
    (scheduleWeeklyMulti o) (scheduleMonthlyMulti o)
    (i18n_weekdays o).

Definition set_inline (v : bool) (o : Options) : Options :=
  mkOptions (format o) (firstDayOfWeek o) (minDate o) (maxDate o)
    (disableDates o) (onSelect o) (onSelectRange o) (onSelectSchedule o)
    (openOnFocus o) (autoClose o) (showOutsideDays o) v (enableTime o)
    (timeStep o) (hour12 o) (range o) (rangeSeparator o) (confirm o)
    (scheduleMode o) (scheduleWeeklyMulti o) (scheduleMonthlyMulti o)
    (i18n_weekdays o).

Definition set_enableTime (v : bool) (o : Options) : Options :=
  mkOptions (format o) (firstDayOfWeek o) (minDate o) (maxDate o)
    (disableDates o) (onSelect o) (onSelectRange o) (onSelectSchedule o)
    (openOnFocus o) (autoClose o) (showOutsideDays o) (inline o) v (timeStep
    o) (hour12 o) (range o) (rangeSeparator o) (confirm o) (scheduleMode o)
    (scheduleWeeklyMulti o) (scheduleMonthlyMulti o)
    (i18n_weekdays o).

Definition set_timeStep (v : Z) (o : Options) : Options :=
  mkOptions (format o) (firstDayOfWeek o) (minDate o) (maxDate o)
    (disableDates o) (onSelect o) (onSelectRange o) (onSelectSchedule o)
    (openOnFocus o) (autoClose o) (showOutsideDays o) (inline o) (enableTime
    o) v (hour12 o) (range o) (rangeSeparator o) (confirm o) (scheduleMode
    o) (scheduleWeeklyMulti o) (scheduleMonthlyMulti o)
    (i18n_weekdays o).

Definition set_hour12 (v : bool) (o : Options) : Options :=
  mkOptions (format o) (firstDayOfWeek o) (minDate o) (maxDate o)
    (disableDates o) (onSelect o) (onSelectRange o) (onSelectSchedule o)
    (openOnFocus o) (autoClose o) (showOutsideDays o) (inline o) (enableTime
    o) (timeStep o) v (range o) (rangeSeparator o) (confirm o) (scheduleMode
    o) (scheduleWeeklyMulti o) (scheduleMonthlyMulti o)
    (i18n_weekdays o).

Definition set_range (v : bool) (o : Options) : Options :=
  mkOptions (format o) (firstDayOfWeek o) (minDate o) (maxDate o)
    (disableDates o) (onSelect o) (onSelectRange o) (onSelectSchedule o)
    (openOnFocus o) (autoClose o) (showOutsideDays o) (inline o) (enableTime
    o) (timeStep o) (hour12 o) v (rangeSeparator o) (confirm o)
    (scheduleMode o) (scheduleWeeklyMulti o) (scheduleMonthlyMulti o)
    (i18n_weekdays o).

Definition set_rangeSeparator (v : string) (o : Options) : Options :=
  mkOptions (format o) (firstDayOfWeek o) (minDate o) (maxDate o)
    (disableDates o) (onSelect o) (onSelectRange o) (onSelectSchedule o)
    (openOnFocus o) (autoClose o) (showOutsideDays o) (inline o) (enableTime
    o) (timeStep o) (hour12 o) (range o) v (confirm o) (scheduleMode o)
    (scheduleWeeklyMulti o) (scheduleMonthlyMulti o)
    (i18n_weekdays o).

Definition set_confirm (v : bool) (o : Options) : Options :=
  mkOptions (format o) (firstDayOfWeek o) (minDate o) (maxDate o)
    (disableDates o) (onSelect o) (onSelectRange o) (onSelectSchedule o)
    (openOnFocus o) (autoClose o) (showOutsideDays o) (inline o) (enableTime
    o) (timeStep o) (hour12 o) (range o) (rangeSeparator o) v (scheduleMode
    o) (scheduleWeeklyMulti o) (scheduleMonthlyMulti o)
    (i18n_weekdays o).

Definition set_scheduleMode (v : schedule_mode) (o : Options) : Options :=
  mkOptions (format o) (firstDayOfWeek o) (minDate o) (maxDate o)
    (disableDates o) (onSelect o) (onSelectRange o) (onSelectSchedule o)
    (openOnFocus o) (autoClose o) (showOutsideDays o) (inline o) (enableTime
    o) (timeStep o) (hour12 o) (range o) (rangeSeparator o) (confirm o) v
    (scheduleWeeklyMulti o) (scheduleMonthlyMulti o)
    (i18n_weekdays o).

Definition set_scheduleWeeklyMulti (v : bool) (o : Options) : Options :=
  mkOptions (format o) (firstDayOfWeek o) (minDate o) (maxDate o)
    (disableDates o) (onSelect o) (onSelectRange o) (onSelectSchedule o)
    (openOnFocus o) (autoClose o) (showOutsideDays o) (inline o) (enableTime
    o) (timeStep o) (hour12 o) (range o) (rangeSeparator o) (confirm o)
    (scheduleMode o) v (scheduleMonthlyMulti o)
    (i18n_weekdays o).

Definition set_scheduleMonthlyMulti (v : bool) (o : Options) : Options :=
  mkOptions (format o) (firstDayOfWeek o) (minDate o) (maxDate o)
    (disableDates o) (onSelect o) (onSelectRange o) (onSelectSchedule o)
    (openOnFocus o) (autoClose o) (showOutsideDays o) (inline o) (enableTime
    o) (timeStep o) (hour12 o) (range o) (rangeSeparator o) (confirm o)
    (scheduleMode o) (scheduleWeeklyMulti o) v
    (i18n_weekdays o).

Definition set_i18n_weekdays (v : list (option Date)) (o : Options) : Options :=
  mkOptions (format o) (firstDayOfWeek o) (minDate o) (maxDate o)
    (disableDates o) (onSelect o) (onSelectRange o) (onSelectSchedule o)
    (openOnFocus o) (autoClose o) (showOutsideDays o) (inline o) (enableTime
    o) (timeStep o) (hour12 o) (range o) (rangeSeparator o) (confirm o)
    (scheduleMode o) (scheduleWeeklyMulti o) (scheduleMonthlyMulti o) v.

Definition set_options (v : Options) (dp : DatePicker) : DatePicker :=
  mkDatePicker v (selectedDate dp) (scheduleWeeklySelected dp)
    (scheduleMonthlySelected dp) (rangeStart dp) (rangeEnd dp) (hoveringDate
    dp) (startHours dp) (startMinutes dp) (endHours dp) (endMinutes dp)
    (focusedDate dp) (currentViewMonth dp) (isOpen dp) (timeHours dp)
    (timeMinutes dp) (daysGrid dp) (timeRow dp) (timeRangeRow dp)
    (doneButton dp) (inputValue dp) (changeEvents dp) (callbacks dp).

Definition set_selectedDate (v : option Date) (dp : DatePicker) : DatePicker :=
  mkDatePicker (options dp) v (scheduleWeeklySelected dp)
    (scheduleMonthlySelected dp) (rangeStart dp) (rangeEnd dp) (hoveringDate
    dp) (startHours dp) (startMinutes dp) (endHours dp) (endMinutes dp)
    (focusedDate dp) (currentViewMonth dp) (isOpen dp) (timeHours dp)
    (timeMinutes dp) (daysGrid dp) (timeRow dp) (timeRangeRow dp)
    (doneButton dp) (inputValue dp) (changeEvents dp) (callbacks dp).

Definition set_scheduleWeeklySelected (v : list Z) (dp : DatePicker) : DatePicker :=
  mkDatePicker (options dp) (selectedDate dp) v (scheduleMonthlySelected dp)
    (rangeStart dp) (rangeEnd dp) (hoveringDate dp) (startHours dp)
    (startMinutes dp) (endHours dp) (endMinutes dp) (focusedDate dp)
    (currentViewMonth dp) (isOpen dp) (timeHours dp) (timeMinutes dp)
    (daysGrid dp) (timeRow dp) (timeRangeRow dp) (doneButton dp) (inputValue
    dp) (changeEvents dp) (callbacks dp).

Definition set_scheduleMonthlySelected (v : list Z) (dp : DatePicker) : DatePicker :=
  mkDatePicker (options dp) (selectedDate dp) (scheduleWeeklySelected dp) v
    (rangeStart dp) (rangeEnd dp) (hoveringDate dp) (startHours dp)
    (startMinutes dp) (endHours dp) (endMinutes dp) (focusedDate dp)
    (currentViewMonth dp) (isOpen dp) (timeHours dp) (timeMinutes dp)
    (daysGrid dp) (timeRow dp) (timeRangeRow dp) (doneButton dp) (inputValue
    dp) (changeEvents dp) (callbacks dp).

Definition set_rangeStart (v : option Date) (dp : DatePicker) : DatePicker :=
  mkDatePicker (options dp) (selectedDate dp) (scheduleWeeklySelected dp)
    (scheduleMonthlySelected dp) v (rangeEnd dp) (hoveringDate dp)
    (startHours dp) (startMinutes dp) (endHours dp) (endMinutes dp)
    (focusedDate dp) (currentViewMonth dp) (isOpen dp) (timeHours dp)
    (timeMinutes dp) (daysGrid dp) (timeRow dp) (timeRangeRow dp)
    (doneButton dp) (inputValue dp) (changeEvents dp) (callbacks dp).

Definition set_rangeEnd (v : option Date) (dp : DatePicker) : DatePicker :=
  mkDatePicker (options dp) (selectedDate dp) (scheduleWeeklySelected dp)
    (scheduleMonthlySelected dp) (rangeStart dp) v (hoveringDate dp)
    (startHours dp) (startMinutes dp) (endHours dp) (endMinutes dp)
    (focusedDate dp) (currentViewMonth dp) (isOpen dp) (timeHours dp)
    (timeMinutes dp) (daysGrid dp) (timeRow dp) (timeRangeRow dp)
    (doneButton dp) (inputValue dp) (changeEvents dp) (callbacks dp).

Definition set_hoveringDate (v : option Date) (dp : DatePicker) : DatePicker :=
  mkDatePicker (options dp) (selectedDate dp) (scheduleWeeklySelected dp)
    (scheduleMonthlySelected dp) (rangeStart dp) (rangeEnd dp) v (startHours
    dp) (startMinutes dp) (endHours dp) (endMinutes dp) (focusedDate dp)
    (currentViewMonth dp) (isOpen dp) (timeHours dp) (timeMinutes dp)
    (daysGrid dp) (timeRow dp) (timeRangeRow dp) (doneButton dp) (inputValue
    dp) (changeEvents dp) (callbacks dp).

Definition set_startHours (v : num) (dp : DatePicker) : DatePicker :=
  mkDatePicker (options dp) (selectedDate dp) (scheduleWeeklySelected dp)
    (scheduleMonthlySelected dp) (rangeStart dp) (rangeEnd dp) (hoveringDate
    dp) v (startMinutes dp) (endHours dp) (endMinutes dp) (focusedDate dp)
    (currentViewMonth dp) (isOpen dp) (timeHours dp) (timeMinutes dp)
    (daysGrid dp) (timeRow dp) (timeRangeRow dp) (doneButton dp) (inputValue
    dp) (changeEvents dp) (callbacks dp).

Definition set_startMinutes (v : num) (dp : DatePicker) : DatePicker :=
  mkDatePicker (options dp) (selectedDate dp) (scheduleWeeklySelected dp)
    (scheduleMonthlySelected dp) (rangeStart dp) (rangeEnd dp) (hoveringDate
    dp) (startHours dp) v (endHours dp) (endMinutes dp) (focusedDate dp)
    (currentViewMonth dp) (isOpen dp) (timeHours dp) (timeMinutes dp)
    (daysGrid dp) (timeRow dp) (timeRangeRow dp) (doneButton dp) (inputValue
    dp) (changeEvents dp) (callbacks dp).

Definition set_endHours (v : num) (dp : DatePicker) : DatePicker :=
  mkDatePicker (options dp) (selectedDate dp) (scheduleWeeklySelected dp)
    (scheduleMonthlySelected dp) (rangeStart dp) (rangeEnd dp) (hoveringDate
    dp) (startHours dp) (startMinutes dp) v (endMinutes dp) (focusedDate dp)
    (currentViewMonth dp) (isOpen dp) (timeHours dp) (timeMinutes dp)
    (daysGrid dp) (timeRow dp) (timeRangeRow dp) (doneButton dp) (inputValue
    dp) (changeEvents dp) (callbacks dp).

Definition set_endMinutes (v : num) (dp : DatePicker) : DatePicker :=
  mkDatePicker (options dp) (selectedDate dp) (scheduleWeeklySelected dp)
    (scheduleMonthlySelected dp) (rangeStart dp) (rangeEnd dp) (hoveringDate
    dp) (startHours dp) (startMinutes dp) (endHours dp) v (focusedDate dp)
    (currentViewMonth dp) (isOpen dp) (timeHours dp) (timeMinutes dp)
    (daysGrid dp) (timeRow dp) (timeRangeRow dp) (doneButton dp) (inputValue
    dp) (changeEvents dp) (callbacks dp).

Definition set_focusedDate (v : option Date) (dp : DatePicker) : DatePicker :=
  mkDatePicker (options dp) (selectedDate dp) (scheduleWeeklySelected dp)
    (scheduleMonthlySelected dp) (rangeStart dp) (rangeEnd dp) (hoveringDate
    dp) (startHours dp) (startMinutes dp) (endHours dp) (endMinutes dp) v
    (currentViewMonth dp) (isOpen dp) (timeHours dp) (timeMinutes dp)
    (daysGrid dp) (timeRow dp) (timeRangeRow dp) (doneButton dp) (inputValue
    dp) (changeEvents dp) (callbacks dp).

Definition set_currentViewMonth (v : Date) (dp : DatePicker) : DatePicker :=
  mkDatePicker (options dp) (selectedDate dp) (scheduleWeeklySelected dp)
    (scheduleMonthlySelected dp) (rangeStart dp) (rangeEnd dp) (hoveringDate
    dp) (startHours dp) (startMinutes dp) (endHours dp) (endMinutes dp)
    (focusedDate dp) v (isOpen dp) (timeHours dp) (timeMinutes dp) (daysGrid
    dp) (timeRow dp) (timeRangeRow dp) (doneButton dp) (inputValue dp)
    (changeEvents dp) (callbacks dp).

Definition set_isOpen (v : bool) (dp : DatePicker) : DatePicker :=
  mkDatePicker (options dp) (selectedDate dp) (scheduleWeeklySelected dp)
    (scheduleMonthlySelected dp) (rangeStart dp) (rangeEnd dp) (hoveringDate
    dp) (startHours dp) (startMinutes dp) (endHours dp) (endMinutes dp)
    (focusedDate dp) (currentViewMonth dp) v (timeHours dp) (timeMinutes dp)
    (daysGrid dp) (timeRow dp) (timeRangeRow dp) (doneButton dp) (inputValue
    dp) (changeEvents dp) (callbacks dp).

Definition set_timeHours (v : num) (dp : DatePicker) : DatePicker :=
  mkDatePicker (options dp) (selectedDate dp) (scheduleWeeklySelected dp)
    (scheduleMonthlySelected dp) (rangeStart dp) (rangeEnd dp) (hoveringDate
    dp) (startHours dp) (startMinutes dp) (endHours dp) (endMinutes dp)
    (focusedDate dp) (currentViewMonth dp) (isOpen dp) v (timeMinutes dp)
    (daysGrid dp) (timeRow dp) (timeRangeRow dp) (doneButton dp) (inputValue
    dp) (changeEvents dp) (callbacks dp).

Definition set_timeMinutes (v : num) (dp : DatePicker) : DatePicker :=
  mkDatePicker (options dp) (selectedDate dp) (scheduleWeeklySelected dp)
    (scheduleMonthlySelected dp) (rangeStart dp) (rangeEnd dp) (hoveringDate
    dp) (startHours dp) (startMinutes dp) (endHours dp) (endMinutes dp)
    (focusedDate dp) (currentViewMonth dp) (isOpen dp) (timeHours dp) v
    (daysGrid dp) (timeRow dp) (timeRangeRow dp) (doneButton dp) (inputValue
    dp) (changeEvents dp) (callbacks dp).

Definition set_daysGrid (v : bool) (dp : DatePicker) : DatePicker :=
  mkDatePicker (options dp) (selectedDate dp) (scheduleWeeklySelected dp)
    (scheduleMonthlySelected dp) (rangeStart dp) (rangeEnd dp) (hoveringDate
    dp) (startHours dp) (startMinutes dp) (endHours dp) (endMinutes dp)
    (focusedDate dp) (currentViewMonth dp) (isOpen dp) (timeHours dp)
    (timeMinutes dp) v (timeRow dp) (timeRangeRow dp) (doneButton dp)
    (inputValue dp) (changeEvents dp) (callbacks dp).

Definition set_timeRow (v : bool) (dp : DatePicker) : DatePicker :=
  mkDatePicker (options dp) (selectedDate dp) (scheduleWeeklySelected dp)
    (scheduleMonthlySelected dp) (rangeStart dp) (rangeEnd dp) (hoveringDate
    dp) (startHours dp) (startMinutes dp) (endHours dp) (endMinutes dp)
    (focusedDate dp) (currentViewMonth dp) (isOpen dp) (timeHours dp)
    (timeMinutes dp) (daysGrid dp) v (timeRangeRow dp) (doneButton dp)
    (inputValue dp) (changeEvents dp) (callbacks dp).

Definition set_timeRangeRow (v : bool) (dp : DatePicker) : DatePicker :=
  mkDatePicker (options dp) (selectedDate dp) (scheduleWeeklySelected dp)
    (scheduleMonthlySelected dp) (rangeStart dp) (rangeEnd dp) (hoveringDate
    dp) (startHours dp) (startMinutes dp) (endHours dp) (endMinutes dp)
    (focusedDate dp) (currentViewMonth dp) (isOpen dp) (timeHours dp)
    (timeMinutes dp) (daysGrid dp) (timeRow dp) v (doneButton dp)
    (inputValue dp) (changeEvents dp) (callbacks dp).

Definition set_doneButton (v : bool) (dp : DatePicker) : DatePicker :=
  mkDatePicker (options dp) (selectedDate dp) (scheduleWeeklySelected dp)
    (scheduleMonthlySelected dp) (rangeStart dp) (rangeEnd dp) (hoveringDate
    dp) (startHours dp) (startMinutes dp) (endHours dp) (endMinutes dp)
    (focusedDate dp) (currentViewMonth dp) (isOpen dp) (timeHours dp)
    (timeMinutes dp) (daysGrid dp) (timeRow dp) (timeRangeRow dp) v
    (inputValue dp) (changeEvents dp) (callbacks dp).

Definition set_inputValue (v : string) (dp : DatePicker) : DatePicker :=
  mkDatePicker (options dp) (selectedDate dp) (scheduleWeeklySelected dp)
    (scheduleMonthlySelected dp) (rangeStart dp) (rangeEnd dp) (hoveringDate
    dp) (startHours dp) (startMinutes dp) (endHours dp) (endMinutes dp)
    (focusedDate dp) (currentViewMonth dp) (isOpen dp) (timeHours dp)
    (timeMinutes dp) (daysGrid dp) (timeRow dp) (timeRangeRow dp)
    (doneButton dp) v (changeEvents dp) (callbacks dp).

Definition set_changeEvents (v : nat) (dp : DatePicker) : DatePicker :=
  mkDatePicker (options dp) (selectedDate dp) (scheduleWeeklySelected dp)
    (scheduleMonthlySelected dp) (rangeStart dp) (rangeEnd dp) (hoveringDate
    dp) (startHours dp) (startMinutes dp) (endHours dp) (endMinutes dp)
    (focusedDate dp) (currentViewMonth dp) (isOpen dp) (timeHours dp)
    (timeMinutes dp) (daysGrid dp) (timeRow dp) (timeRangeRow dp)
    (doneButton dp) (inputValue dp) v (callbacks dp).

Definition set_callbacks (v : list callback) (dp : DatePicker) : DatePicker :=
  mkDatePicker (options dp) (selectedDate dp) (scheduleWeeklySelected dp)
    (scheduleMonthlySelected dp) (rangeStart dp) (rangeEnd dp) (hoveringDate
    dp) (startHours dp) (startMinutes dp) (endHours dp) (endMinutes dp)
    (focusedDate dp) (currentViewMonth dp) (isOpen dp) (timeHours dp)
    (timeMinutes dp) (daysGrid dp) (timeRow dp) (timeRangeRow dp)
    (doneButton dp) (inputValue dp) (changeEvents dp) v.

(* ------------------------------------------------------------------ *)
(** ** Helpers: sets of numbers, arrays, more of [String.prototype] *)

(** A [Set] of numbers keeps its elements in insertion order. *)
Definition set_has (x : Z) (s : list Z) : bool := existsb (Z.eqb x) s.

Definition set_insert (x : Z) (s : list Z) : list Z :=
  if set_has x s then s else s ++ [x].

Definition set_delete (x : Z) (s : list Z) : list Z :=
  filter (fun y => negb (y =? x)) s.

Fixpoint insert_sorted (x : Z) (l : list Z) : list Z :=
  match l with
  | [] => [x]
  | y :: r => if x <=? y then x :: l else y :: insert_sorted x r
  end.

(** [arr.sort(function (a, b) { return a - b; })] *)
Fixpoint sort_asc (l : list Z) : list Z :=
  match l with
  | [] => []
  | x :: r => insert_sorted x (sort_asc r)
  end.

(** [arr.join(sep)] on an array of strings *)
Fixpoint join (sep : string) (l : list string) : string :=
  match l with
  | [] => EmptyString
  | x :: r => match r with [] => x | _ => x +++ sep +++ join sep r end
  end.

(** [s.split(sep)] for a non-empty separator; [cur] is the part being
    read and [skip] the characters of a separator still to be dropped. *)
Fixpoint split_aux (sep : string) (skip : nat) (cur s : string) : list string :=
  match s with
  | EmptyString => [cur]
  | String c r =>
      match skip with
      | S k => split_aux sep k cur r
      | O =>
          if starts_with sep s
          then cur :: split_aux sep (String.length sep - 1) EmptyString r
          else split_aux sep 0 (cur +++ String c EmptyString) r
      end
  end.

Definition split (sep s : string) : list string := split_aux sep 0 EmptyString s.

Fixpoint trim_left (s : string) : string :=
  match s with
  | EmptyString => EmptyString
  | String c r => if is_space c then trim_left r else s
  end.

Fixpoint trim_right (s : string) : string :=
  match s with
  | EmptyString => EmptyString
  | String c r =>
      match trim_right r with
      | EmptyString => if is_space c then EmptyString else String c EmptyString
      | r' => String c r'
      end
  end.

(** [s.trim()] *)
Definition trim (s : string) : string := trim_right (trim_left s).

(** [x || 0] on a Number *)
Definition or0 (x : num) : Z := match x with Some v => v | None => 0 end.

(** [clampMinuteToStep] on a Number that may be [NaN] ([NaN] stays [NaN]). *)
Definition clampMinute (m : num) (step : Z) : num :=
  match m with Some v => Some (clampMinuteToStep v step) | None => None end.

(** [source || 'api'] *)
Definition source_or_api (source : string) : string :=
  match source with EmptyString => "api" | _ => source end.

(* ------------------------------------------------------------------ *)
(** ** Arguments of the public setters *)

(** A [Date|string|null] argument; [ArgNull] stands for [null],
    [undefined] and a missing property. *)
Inductive js_arg : Type :=
| ArgNull
| ArgDate (d : Date)
| ArgString (s : string).

Definition falsy (a : js_arg) : bool :=
  match a with
  | ArgNull => true
  | ArgString EmptyString => true
  | _ => false
  end.

(** The argument of [setRange]: [null], a string, an array or an object
    with [start] and [end]; [RangeDate] is a Date object passed as the
    range itself (it has neither property). *)
Inductive range_arg : Type :=
| RangeNull
| RangeString (s : string)
| RangeArray (a b : js_arg)
| RangeObject (start end_ : js_arg)
| RangeDate (d : Date).

Definition arg_of_date (d : option Date) : js_arg :=
  match d with Some x => ArgDate x | None => ArgNull end.

(* ------------------------------------------------------------------ *)
(** ** Methods *)

Definition fire (cb : callback) (dp : DatePicker) : DatePicker :=
  set_callbacks (callbacks dp ++ [cb]) dp.

(** [inputElement.dispatchEvent(new Event('change', ...))] *)
Definition dispatchChange (dp : DatePicker) : DatePicker :=
  set_changeEvents (S (changeEvents dp)) dp.

(** [open()] and [close()]: what they do to the fields. *)
Definition open (dp : DatePicker) : DatePicker := set_isOpen true dp.
Definition close (dp : DatePicker) : DatePicker := set_isOpen false dp.

Definition is_disabled (o : Options) (d : Date) : bool :=
  match disableDates o with Some f => f d | None => false end.

Definition keep_time (keepTime : bool) (d : Date) : Date :=
  if keepTime then copy_Date d else startOfDay d.

(** [_normalizeDate(dateOrString)]; [o] is [None] while the constructor
    is still building [this.options]. *)
Definition _normalizeDate (o : option Options) (dateOrString : js_arg)
  : outcome (option Date) :=
  let keepTime := match o with Some opts => enableTime opts | None => false end in
  let fmt :=
    match o with
    | Some opts => match format opts with EmptyString => DEFAULT_FORMAT | f => f end
    | None => DEFAULT_FORMAT
    end in
  match dateOrString with
  | ArgNull => Done None
  | ArgString EmptyString => Done None
  | ArgDate d =>
      if isValidDate d then Done (Some (keep_time keepTime d))
      else
        (* String(invalidDate) is "Invalid Date" *)
        parsed <- parseDate (Some "Invalid Date") fmt ;;
        Done (option_map (keep_time keepTime) parsed)
  | ArgString s =>
      parsed <- parseDate (Some s) fmt ;;
      Done (option_map (keep_time keepTime) parsed)
  end.

Definition drop_out_of_bounds (o : Options) (x : option Date) : option Date :=
  match x with
  | Some d => if isDateOutOfBounds d (minDate o) (maxDate o) then None else x
  | None => None
  end.

Definition drop_disabled (o : Options) (x : option Date) : option Date :=
  match x with
  | Some d => if is_disabled o d then None else x
  | None => None
  end.

(** [if (a && b && b < a) swap] *)
Definition order_pair (a b : option Date) : option Date * option Date :=
  match a, b with
  | Some x, Some y => if date_lt y x then (b, a) else (a, b)
  | _, _ => (a, b)
  end.

(** [_parseRangeString(value)] *)
Definition _parseRangeString (o : Options) (value : string)
  : outcome (option (option Date * option Date)) :=
  let sep := match rangeSeparator o with EmptyString => " - " | s => s end in
  match split sep value with
  | [p0; p1] =>
      s <- parseDate (Some (trim p0)) (format o) ;;
      e <- parseDate (Some (trim p1)) (format o) ;;
      let keepTime := enableTime o in
      let start := option_map (keep_time keepTime) s in
      let end_ := option_map (keep_time keepTime) e in
      match start, end_ with
      | None, None => Done None
      | _, _ =>
          let '(rs, re) := order_pair start end_ in
          let rs := drop_out_of_bounds o rs in
          let re := drop_out_of_bounds o re in
          let rs := drop_disabled o rs in
          let re := drop_disabled o re in
          Done (Some (rs, re))
      end
  | _ => Done None
  end.

(** [_formatRangeString(start, end)] *)
Definition _formatRangeString (o : Options) (start end_ : option Date) : string :=
  let sep := match rangeSeparator o with EmptyString => " - " | s => s end in
  match start, end_ with
  | Some s, Some e => formatDate s (format o) +++ sep +++ formatDate e (format o)
  | Some s, None => formatDate s (format o)
  | None, _ => EmptyString
  end.

(** [_updateRangeTimeInputs()]: the selects are presentation, the four
    time fields are re-read from the endpoints. *)
Definition _updateRangeTimeInputs (dp : DatePicker) : DatePicker :=
  let o := options dp in
  if negb (enableTime o) || negb (range o) then dp
  else
    let '(sh, sm) :=
      match rangeStart dp with
      | Some d => (getHours d, clampMinute (getMinutes d) (timeStep o))
      | None => (startHours dp, startMinutes dp)
      end in
    let dp := set_startHours sh dp in
    let dp := set_startMinutes (clampMinute sm (timeStep o)) dp in
    let '(eh, em) :=
      match rangeEnd dp with
      | Some d => (getHours d, clampMinute (getMinutes d) (timeStep o))
      | None => (endHours dp, endMinutes dp)
      end in
    let dp := set_endHours eh dp in
    set_endMinutes (clampMinute em (timeStep o)) dp.

(** [_syncRangeValue(source)] *)
Definition _syncRangeValue (dp : DatePicker) (source : string) : DatePicker :=
  let o := options dp in
  let formatted := _formatRangeString o (rangeStart dp) (rangeEnd dp) in
  let dp := if negb (confirm o) then set_inputValue formatted dp else dp in
  let dp :=
    if onSelectRange o
    then fire (OnSelectRange (rangeStart dp) (rangeEnd dp) formatted
                 (source_or_api source)) dp
    else dp in
  if negb (confirm o) then dispatchChange dp else dp.

(** [setRange(null, source)]: the branch that empties the range. *)
Definition setRange_clear (dp : DatePicker) (source : string) : DatePicker :=
  let o := options dp in
  let dp := set_rangeStart None dp in
  let dp := set_rangeEnd None dp in
  let dp := set_hoveringDate None dp in
  let dp := if negb (confirm o) then set_inputValue EmptyString dp else dp in
  let dp :=
    if onSelectRange o
    then fire (OnSelectRange None None EmptyString (source_or_api source)) dp
    else dp in
  if negb (confirm o) then dispatchChange dp else dp.

(** The rest of [setRange] once [start] and [end] are read from the
    argument: ordering, bounds, storing, notification. *)
Definition setRange_store (dp : DatePicker) (start end_ : option Date) (source : string)
  : DatePicker :=
  let o := options dp in
  let '(start, end_) := order_pair start end_ in
  let start := drop_out_of_bounds o start in
  let end_ := drop_out_of_bounds o end_ in
  let start := drop_disabled o start in
  let end_ := drop_disabled o end_ in
  let dp := set_rangeStart start dp in
  let dp := set_rangeEnd end_ dp in
  let dp :=
    if enableTime o then
      let dp :=
        match rangeStart dp with
        | Some d =>
            set_startMinutes (clampMinute (getMinutes d) (timeStep o))
              (set_startHours (getHours d) dp)
        | None => dp
        end in
      let dp :=
        match rangeEnd dp with
        | Some d =>
            set_endMinutes (clampMinute (getMinutes d) (timeStep o))
              (set_endHours (getHours d) dp)
        | None => dp
        end in
      _updateRangeTimeInputs dp
    else dp in
  let dp :=
    match rangeStart dp with
    | Some d => set_currentViewMonth (startOfMonth d) dp
    | None => dp
    end in
  let formatted := _formatRangeString o (rangeStart dp) (rangeEnd dp) in
  let dp := if negb (confirm o) then set_inputValue formatted dp else dp in
  let dp :=
    if onSelectRange o
    then fire (OnSelectRange (rangeStart dp) (rangeEnd dp) formatted
                 (source_or_api source)) dp
    else dp in
  if negb (confirm o) then dispatchChange dp else dp.

(** [setRange(rangeOrString, source)] *)
Definition setRange (dp : DatePicker) (rangeOrString : range_arg) (source : string)
  : outcome DatePicker :=
  let o := options dp in
  if negb (range o) then Done dp
  else
    match rangeOrString with
    | RangeNull => Done (setRange_clear dp source)
    | RangeString EmptyString => Done (setRange_clear dp source)
    | RangeString s =>
        rg <- _parseRangeString o s ;;
        match rg with
        | Some (start, end_) => Done (setRange_store dp start end_ source)
        | None => Done (setRange_store dp None None source)
        end
    | RangeArray a b =>
        start <- _normalizeDate (Some o) a ;;
        end_ <- _normalizeDate (Some o) b ;;
        Done (setRange_store dp start end_ source)
    | RangeObject a b =>
        start <- _normalizeDate (Some o) a ;;
        end_ <- _normalizeDate (Some o) b ;;
        Done (setRange_store dp start end_ source)
    | RangeDate _ =>
        (* rangeOrString.start and rangeOrString.end are undefined *)
        start <- _normalizeDate (Some o) ArgNull ;;
        end_ <- _normalizeDate (Some o) ArgNull ;;
        Done (setRange_store dp start end_ source)
    end.

(** [new Date(d.getFullYear(), d.getMonth(), d.getDate(), h || 0, m || 0)] *)
Definition date_with_time (d : Date) (h m : num) : Date :=
  new_Date (getFullYear d) (getMonth d) (getDate d) (Some (or0 h)) (Some (or0 m)).

(** [_handleRangeClick(dayDate)] *)
Definition _handleRangeClick (dp : DatePicker) (dayDate : Date) : DatePicker :=
  let o := options dp in
  if negb (range o) then dp
  else
    match rangeStart dp, rangeEnd dp with
    | Some start, None =>
        let end_ :=
          if enableTime o then date_with_time dayDate (endHours dp) (endMinutes dp)
          else startOfDay dayDate in
        let dp :=
          if date_lt end_ start
          then set_rangeStart (Some end_) (set_rangeEnd (Some start) dp)
          else set_rangeEnd (Some end_) dp in
        let dp := set_hoveringDate None dp in
        let dp := _syncRangeValue dp "user" in
        let dp := _updateRangeTimeInputs dp in
        if negb (confirm o) && autoClose o && negb (inline o) then close dp else dp
    | _, _ =>
        let rs :=
          if enableTime o then date_with_time dayDate (startHours dp) (startMinutes dp)
          else startOfDay dayDate in
        let dp := set_rangeStart (Some rs) dp in
        let dp := set_rangeEnd None dp in
        let dp := set_hoveringDate None dp in
        let dp := _syncRangeValue dp "user" in
        _updateRangeTimeInputs dp
    end.

(** [_initTimeFromDate(d)] *)
Definition _initTimeFromDate (dp : DatePicker) (d : Date) : DatePicker :=
  if negb (isValidDate d) then dp
  else
    let dp := set_timeHours (getHours d) dp in
    set_timeMinutes (clampMinute (getMinutes d) (timeStep (options dp))) dp.

(** [_updateTimeInputs()]: re-snaps the minute held by the widget. *)
Definition _updateTimeInputs (dp : DatePicker) : DatePicker :=
  let o := options dp in
  if negb (enableTime o) || negb (timeRow dp) then dp
  else
    let step := if 0 <? timeStep o then timeStep o else 5 in
    set_timeMinutes (clampMinute (timeMinutes dp) step) dp.

(** [_applySelection(dateTime, source)] *)
Definition _applySelection (dp : DatePicker) (dateTime : Date) (source : string)
  : DatePicker :=
  let o := options dp in
  let selected := copy_Date dateTime in
  let dp := set_selectedDate (Some selected) dp in
  let formatted := formatDate selected (format o) in
  let dp := set_focusedDate (Some (startOfDay selected)) dp in
  let dp :=
    if onSelect o
    then fire (OnSelect (Some (copy_Date selected)) formatted (source_or_api source)) dp
    else dp in
  if negb (confirm o) then dispatchChange (set_inputValue formatted dp) else dp.

(** [_selectDate(date, source)] *)
Definition _selectDate (dp : DatePicker) (date : Date) (source : string) : DatePicker :=
  let finalDate :=
    if enableTime (options dp)
    then date_with_time date (timeHours dp) (timeMinutes dp)
    else startOfDay date in
  _applySelection dp finalDate source.

(** [_setTime(hour, minute, fromUser)] *)
Definition _setTime (dp : DatePicker) (hour minute : num) (fromUser : bool)
  : DatePicker :=
  let dp := set_timeHours (Some (Z.max 0 (Z.min 23 (or0 hour)))) dp in
  let dp :=
    set_timeMinutes
      (Some (clampMinuteToStep (Z.max 0 (Z.min 59 (or0 minute)))
               (timeStep (options dp)))) dp in
  let dp := _updateTimeInputs dp in
  match selectedDate dp with
  | Some d =>
      let newDate :=
        new_Date (getFullYear d) (getMonth d) (getDate d) (timeHours dp) (timeMinutes dp) in
      _applySelection dp newDate (if fromUser then "user" else "api")
  | None => dp
  end.

(** [setDate(dateOrString, source)] *)
Definition setDate (dp : DatePicker) (dateOrString : js_arg) (source : string)
  : outcome DatePicker :=
  let o := options dp in
  if range o then
    if falsy dateOrString then setRange dp RangeNull (source_or_api source)
    else setRange dp (RangeObject dateOrString (arg_of_date (rangeEnd dp)))
           (source_or_api source)
  else if falsy dateOrString then
    let dp := set_selectedDate None dp in
    let dp := if negb (confirm o) then set_inputValue EmptyString dp else dp in
    let dp :=
      if onSelect o then fire (OnSelect None EmptyString (source_or_api source)) dp else dp in
    Done (if negb (confirm o) then dispatchChange dp else dp)
  else
    parsed <- _normalizeDate (Some o) dateOrString ;;
    match parsed with
    | None => Done dp
    | Some p =>
        if isDateOutOfBounds p (minDate o) (maxDate o) then Done dp
        else if is_disabled o p then Done dp
        else
          let dp := set_currentViewMonth (startOfMonth p) dp in
          let dp := if enableTime o then _initTimeFromDate dp p else dp in
          Done (_selectDate dp p (source_or_api source))
    end.

(* ------------------------------------------------------------------ *)
(** ** Schedule modes *)

(** [function (v) { return v === 0 ? 7 : v; }] *)
Definition display_day (v : Z) : Z := if v =? 0 then 7 else v.

(** [_formatScheduleArray()] *)
Definition _formatScheduleArray (dp : DatePicker) : list Z :=
  match scheduleMode (options dp) with
  | ModeWeekly =>
      let arrW := sort_asc (scheduleWeeklySelected dp) in
      (* Display 1..7 with Mon=1..Sun=7 *)
      map display_day arrW
  | ModeMonthly => sort_asc (scheduleMonthlySelected dp)
  | ModeNone => []
  end.

(** [_syncScheduleValue(source)] *)
Definition _syncScheduleValue (dp : DatePicker) (source : string) : DatePicker :=
  let o := options dp in
  match scheduleMode o with
  | ModeNone => dp
  | _ =>
      let scheduleArray := _formatScheduleArray dp in
      let formattedString := join "," (map String_of_Z scheduleArray) in
      let dp := if negb (confirm o) then set_inputValue formattedString dp else dp in
      let dp :=
        if onSelectSchedule o
        then fire (OnSelectSchedule (scheduleMode o) (scheduleWeeklySelected dp)
                     (scheduleMonthlySelected dp) scheduleArray formattedString
                     (source_or_api source)) dp
        else dp in
      if negb (confirm o) then dispatchChange dp else dp
  end.

(** [_toggleWeeklyDay(dayIndex, fromUser)] *)
Definition _toggleWeeklyDay (dp : DatePicker) (dayIndex : Z) (fromUser : bool)
  : DatePicker :=
  let o := options dp in
  if negb (mode_eqb (scheduleMode o) ModeWeekly) then dp
  else
    let idx := Z.max 0 (Z.min 6 dayIndex) in
    let selected :=
      if scheduleWeeklyMulti o then
        if set_has idx (scheduleWeeklySelected dp)
        then set_delete idx (scheduleWeeklySelected dp)
        else set_insert idx (scheduleWeeklySelected dp)
      else set_insert idx [] in
    let dp := set_scheduleWeeklySelected selected dp in
    _syncScheduleValue dp (if fromUser then "user" else "api").

(** [_toggleMonthlyDay(dayOfMonth, fromUser)]; [Number(dayOfMonth) || 1]
    turns 0 into 1. *)
Definition _toggleMonthlyDay (dp : DatePicker) (dayOfMonth : Z) (fromUser : bool)
  : DatePicker :=
  let o := options dp in
  if negb (mode_eqb (scheduleMode o) ModeMonthly) then dp
  else
    let d := Z.max 1 (Z.min 31 (if dayOfMonth =? 0 then 1 else dayOfMonth)) in
    let selected :=
      if scheduleMonthlyMulti o then
        if set_has d (scheduleMonthlySelected dp)
        then set_delete d (scheduleMonthlySelected dp)
        else set_insert d (scheduleMonthlySelected dp)
      else set_insert d [] in
    let dp := set_scheduleMonthlySelected selected dp in
    _syncScheduleValue dp (if fromUser then "user" else "api").

(** [_commitValue()]: the Done button. *)
Definition _commitValue (dp : DatePicker) : DatePicker :=
  let o := options dp in
  if negb (confirm o) then dp
  else
    match scheduleMode o with
    | ModeWeekly | ModeMonthly =>
        let scheduleArray := _formatScheduleArray dp in
        let formattedString := join "," (map String_of_Z scheduleArray) in
        let dp := set_inputValue formattedString dp in
        let dp :=
          if onSelectSchedule o
          then fire (OnSelectSchedule (scheduleMode o) (scheduleWeeklySelected dp)
                       (scheduleMonthlySelected dp) scheduleArray formattedString
                       "confirm") dp
          else dp in
        let dp := dispatchChange dp in
        if negb (inline o) then close dp else dp
    | ModeNone =>
        let dp :=
          if range o then
            let formatted := _formatRangeString o (rangeStart dp) (rangeEnd dp) in
            let dp := set_inputValue formatted dp in
            if onSelectRange o
            then fire (OnSelectRange (rangeStart dp) (rangeEnd dp) formatted "confirm") dp
            else dp
          else
            let formatted :=
              match selectedDate dp with
              | Some d => formatDate d (format o)
              | None => EmptyString
              end in
            let dp := set_inputValue formatted dp in
            if onSelect o
            then fire (OnSelect (option_map copy_Date (selectedDate dp)) formatted
                         "confirm") dp
            else dp in
        let dp := dispatchChange dp in
        if negb (inline o) then close dp else dp
    end.

(** [_clearSelection()]: the Clear button. *)
Definition _clearSelection (dp : DatePicker) : outcome DatePicker :=
  let o := options dp in
  dp <- match scheduleMode o with
        | ModeWeekly =>
            Done (_syncScheduleValue (set_scheduleWeeklySelected [] dp) "user")
        | ModeMonthly =>
            Done (_syncScheduleValue (set_scheduleMonthlySelected [] dp) "user")
        | ModeNone =>
            if range o then setRange dp RangeNull "user"
            else setDate dp ArgNull "user"
        end ;;
  Done (if negb (confirm o) && negb (inline o) && autoClose o then close dp else dp).

(** [_selectToday()]: the Today button; [now] is [new Date()]. *)
Definition _selectToday (dp : DatePicker) (now : Date) : outcome DatePicker :=
  let o := options dp in
  let today := startOfDay now in
  match scheduleMode o with
  | ModeWeekly => Done (_toggleWeeklyDay dp (or0 (getDay today)) true)
  | ModeMonthly => Done (_toggleMonthlyDay dp (or0 (getDate today)) true)
  | ModeNone =>
      if isDateOutOfBounds today (minDate o) (maxDate o) then Done dp
      else if is_disabled o today then Done dp
      else
        let dp := set_currentViewMonth (startOfMonth today) dp in
        let closing (dp : DatePicker) :=
          if negb (confirm o) && autoClose o && negb (inline o) then close dp else dp in
        let at_time (h m : num) :=
          new_Date (getFullYear today) (getMonth today) (getDate today) h m in
        if range o then
          match rangeStart dp, rangeEnd dp with
          | None, None =>
              if enableTime o then
                let dp := set_startHours (getHours now) dp in
                let dp := set_startMinutes (clampMinute (getMinutes now) (timeStep o)) dp in
                setRange dp (RangeDate (at_time (startHours dp) (startMinutes dp))) "user"
              else setRange dp (RangeObject (ArgDate today) ArgNull) "user"
          | Some start, None =>
              if date_lt today start then
                if enableTime o then
                  let dp := set_startHours (getHours now) dp in
                  let dp :=
                    set_startMinutes (clampMinute (getMinutes now) (timeStep o)) dp in
                  setRange dp (RangeDate (at_time (startHours dp) (startMinutes dp))) "user"
                else setRange dp (RangeObject (ArgDate today) ArgNull) "user"
              else
                dp <- (if enableTime o then
                         let dp := set_endHours (getHours now) dp in
                         let dp :=
                           set_endMinutes (clampMinute (getMinutes now) (timeStep o)) dp in
                         setRange dp
                           (RangeObject (ArgDate start)
                              (ArgDate (at_time (endHours dp) (endMinutes dp)))) "user"
                       else
                         setRange dp (RangeObject (ArgDate start) (ArgDate today)) "user") ;;
                Done (closing dp)
          | _, _ =>
              dp <- (if enableTime o then
                       let dp := set_startHours (getHours now) dp in
                       let dp := set_endHours (getHours now) dp in
                       let dp :=
                         set_endMinutes (clampMinute (getMinutes now) (timeStep o)) dp in
                       let dp := set_startMinutes (endMinutes dp) dp in
                       setRange dp
                         (RangeObject
                            (ArgDate (at_time (startHours dp) (startMinutes dp)))
                            (ArgDate (at_time (endHours dp) (endMinutes dp)))) "user"
                     else
                       setRange dp (RangeObject (ArgDate today) (ArgDate today)) "user") ;;
              Done (closing dp)
          end
        else
          let dp :=
            if enableTime o then
              let dp := set_timeHours (getHours now) dp in
              let dp := set_timeMinutes (clampMinute (getMinutes now) (timeStep o)) dp in
              _updateTimeInputs dp
            else dp in
          let dp := _selectDate dp today "user" in
          Done (if autoClose o && negb (inline o) then close dp else dp)
  end.

(* ------------------------------------------------------------------ *)
(** ** Rendering of the day grid *)

Inductive cell : Type :=
| Filler                                  (* [dp-day is-empty] placeholder *)
| DayCell (dayDate : Date) (isOutside isToday isSelectedSingle isDisabled : bool)
| MonthDayCell (d : Z) (isSelected : bool).   (* monthly schedule: 1..31 *)

(** [for (let d = 1; d <= 31; d += 1) ... appendChild(cell)] *)
Fixpoint render_month_days (dp : DatePicker) (count : nat) (d : Z) (grid : list cell)
  : list cell :=
  match count with
  | O => grid
  | S k =>
      let c := MonthDayCell d (set_has d (scheduleMonthlySelected dp)) in
      render_month_days dp k (d + 1) (grid ++ [c])
  end.

(** [_renderWeekdays()]: the header it writes, one cell for each name of
    [options.i18n.weekdays] (the row exists from [_build] on). *)
Definition _renderWeekdays (dp : DatePicker) : list (option Date) :=
  i18n_weekdays (options dp).

(** One turn of [for (let i = 0; i < 42; i += 1)]. *)
Definition render_day (dp : DatePicker) (now gridStart : Date) (i : Z) : cell :=
  let o := options dp in
  let dayDate := addDays gridStart i in
  let isOutside := negb (num_eqb (getMonth dayDate) (getMonth (currentViewMonth dp))) in
  if negb (showOutsideDays o) && isOutside then Filler
  else
    let isToday := areSameCalendarDate dayDate now in
    let isSelectedSingle :=
      match selectedDate dp with
      | Some sel =>
          if mode_eqb (scheduleMode o) ModeNone && negb (range o)
          then areSameCalendarDate dayDate sel
          else false
      | None => false
      end in
    let disabledByBounds := isDateOutOfBounds dayDate (minDate o) (maxDate o) in
    let disabledByFn := is_disabled o dayDate in
    DayCell dayDate isOutside isToday isSelectedSingle (disabledByBounds || disabledByFn).

Fixpoint render_days (dp : DatePicker) (now gridStart : Date) (count : nat) (i : Z)
  (grid : list cell) : list cell :=
  match count with
  | O => grid
  | S k => render_days dp now gridStart k (i + 1) (grid ++ [render_day dp now gridStart i])
  end.

(** [_render()]: the children of [daysGrid] after the call ([now] is
    [new Date()]); without the element there is nothing to fill. *)
Definition _render (dp : DatePicker) (now : Date) : list cell :=
  let o := options dp in
  if negb (daysGrid dp) then []
  else
    match scheduleMode o with
    | ModeMonthly => render_month_days dp 31 1 []
    | ModeNone =>
        let firstDay := startOfMonth (currentViewMonth dp) in
        let gridStart := startOfWeek firstDay (firstDayOfWeek o) in
        (* always six weeks (42 days) *)
        render_days dp now gridStart 42 0 []
    | ModeWeekly => []
    end.

(* ------------------------------------------------------------------ *)
(** ** [updateOptions] *)

(** A partial options object: [None] when the property is absent, else
    the value after the coercion the source applies to it
    ([Boolean(x)], [x !== false], [x || default], [Number(x)]). *)
Record Partial : Type := mkPartial {
  p_onSelectSchedule : option bool;
  p_scheduleWeeklyMulti : option bool;
  p_scheduleMonthlyMulti : option bool;
  p_scheduleMode : option schedule_mode;
  p_format : option string;
  p_firstDayOfWeek : option Z;
  p_minDate : option js_arg;
  p_maxDate : option js_arg;
  p_disableDates : option (option (Date -> bool));
  p_openOnFocus : option bool;
  p_autoClose : option bool;
  p_showOutsideDays : option bool;
  p_inline : option bool;
  p_enableTime : option bool;
  p_timeStep : option num;
  p_hour12 : option bool;
  p_range : option bool;
  p_rangeSeparator : option string;
  p_confirm : option bool
}.

Definition no_change : Partial :=
  mkPartial None None None None None None None None None None None None None None
    None None None None None.

Definition set_opt {A : Type} (f : A -> Options -> Options) (v : A) (dp : DatePicker)
  : DatePicker :=
  set_options (f v (options dp)) dp.

(** [_buildTimeControls()] *)
Definition _buildTimeControls (dp : DatePicker) : DatePicker :=
  let dp := set_timeRow true dp in
  let dp :=
    match selectedDate dp with
    | Some d => _initTimeFromDate dp d
    | None => dp
    end in
  _updateTimeInputs dp.

(** [_buildRangeTimeControls()] *)
Definition _buildRangeTimeControls (dp : DatePicker) : DatePicker :=
  _updateRangeTimeInputs (set_timeRangeRow true dp).

(** The change listeners of the start and the end selects of a range with
    times ([onStartChange] and [onEndChange] in [_buildRangeTimeControls]);
    [nh] is the hour the hour and AM/PM selects give, [nm] the minute of
    the minute select.  [_updateRangeHighlight] changes classes of
    cells only. *)
Definition onStartChange (dp : DatePicker) (nh nm : Z) : DatePicker :=
  let dp := set_startHours (Some (Z.max 0 (Z.min 23 nh))) dp in
  let dp :=
    set_startMinutes
      (Some (clampMinuteToStep (Z.max 0 (Z.min 59 nm)) (timeStep (options dp)))) dp in
  match rangeStart dp with
  | Some d =>
      let dp :=
        set_rangeStart
          (Some (new_Date (getFullYear d) (getMonth d) (getDate d)
                   (startHours dp) (startMinutes dp))) dp in
      _syncRangeValue dp "user"
  | None => dp
  end.

Definition onEndChange (dp : DatePicker) (nh nm : Z) : DatePicker :=
  let dp := set_endHours (Some (Z.max 0 (Z.min 23 nh))) dp in
  let dp :=
    set_endMinutes
      (Some (clampMinuteToStep (Z.max 0 (Z.min 59 nm)) (timeStep (options dp)))) dp in
  match rangeEnd dp with
  | Some d =>
      let dp :=
        set_rangeEnd
          (Some (new_Date (getFullYear d) (getMonth d) (getDate d)
                   (endHours dp) (endMinutes dp))) dp in
      _syncRangeValue dp "user"
  | None => dp
  end.

(** How a method that can throw after it has changed fields ends: the
    state it leaves, and the exception if it throws. *)
Inductive completion : Type :=
| Returns (dp : DatePicker)
| Throws (e : exn) (dp : DatePicker).

Definition and_then (c : completion) (k : DatePicker -> completion) : completion :=
  match c with
  | Returns dp => k dp
  | Throws e dp => Throws e dp
  end.

Notation "dp <~ c ;; k" := (and_then c (fun dp => k))
  (at level 61, c at next level, right associativity).

(** A call of a method that throws, if it does, before it changes a
    field ([setDate] throws in [parseDate] only): the state at the throw
    is the state at the call. *)
Definition completed (dp : DatePicker) (r : outcome DatePicker) : completion :=
  match r with
  | Done dp' => Returns dp'
  | Raise e => Throws e dp
  end.

(** [this.calendarElement.insertBefore(node, this.footer)].  [_build]
    appends the footer to [mainContainer], which lies in [contentElement],
    the only child of [calendarElement], and nothing moves it: the footer is
    no child of [calendarElement], and the DOM throws a [NotFoundError]. *)
Definition calendarElement_insertBefore_footer (dp : DatePicker) : completion :=
  Throws NotFoundError dp.

Definition on_key {A : Type} (key : option A) (dp : DatePicker)
  (k : A -> DatePicker -> completion) : completion :=
  match key with
  | Some v => k v dp
  | None => Returns dp
  end.

Definition in_schedule_mode (dp : DatePicker) : bool :=
  negb (mode_eqb (scheduleMode (options dp)) ModeNone).

(** [if (!this.timeRow) { this._buildTimeControls(); if (this.timeRow)
    this.calendarElement.insertBefore(this.timeRow, this.footer); }] *)
Definition ensure_timeRow (dp : DatePicker) : completion :=
  if negb (timeRow dp) then
    let dp := _buildTimeControls dp in
    if timeRow dp then calendarElement_insertBefore_footer dp else Returns dp
  else Returns dp.

(** Likewise for [timeRangeRow] and [_buildRangeTimeControls]. *)
Definition ensure_timeRangeRow (dp : DatePicker) : completion :=
  if negb (timeRangeRow dp) then
    let dp := _buildRangeTimeControls dp in
    if timeRangeRow dp then calendarElement_insertBefore_footer dp else Returns dp
  else Returns dp.

(** [updateOptions(partial)], key by key in the order of the source: the
    state the call leaves, whether it returns or throws.  The final
    [_renderWeekdays()] and [_render()] redraw from the state. *)
Definition updateOptions_run (dp : DatePicker) (partial : Partial) : completion :=
  dp <~ on_key (p_onSelectSchedule partial) dp
          (fun v dp => Returns (set_opt set_onSelectSchedule v dp)) ;;
  dp <~ on_key (p_scheduleWeeklyMulti partial) dp
          (fun v dp => Returns (set_opt set_scheduleWeeklyMulti v dp)) ;;
  dp <~ on_key (p_scheduleMonthlyMulti partial) dp
          (fun v dp => Returns (set_opt set_scheduleMonthlyMulti v dp)) ;;
  dp <~ on_key (p_scheduleMode partial) dp
          (fun nextMode dp =>
             let prevMode := scheduleMode (options dp) in
             if mode_eqb nextMode prevMode then Returns dp
             else
               let dp := set_opt set_scheduleMode nextMode dp in
               let dp :=
                 if negb (mode_eqb nextMode ModeNone) then
                   (* disable time/range when schedule mode is active *)
                   let dp := set_opt set_enableTime false dp in
                   let dp := set_opt set_range false dp in
                   set_timeRangeRow false (set_timeRow false dp)
                 else dp in
               (* sync value on mode change *)
               Returns (_syncScheduleValue dp "api")) ;;
  dp <~ on_key (p_format partial) dp (fun v dp => Returns (set_opt set_format v dp)) ;;
  dp <~ on_key (p_firstDayOfWeek partial) dp
          (fun v dp => Returns (set_opt set_firstDayOfWeek v dp)) ;;
  dp <~ on_key (p_minDate partial) dp
          (fun v dp =>
             match _normalizeDate (Some (options dp)) v with
             | Done d => Returns (set_opt set_minDate d dp)
             | Raise e => Throws e dp
             end) ;;
  dp <~ on_key (p_maxDate partial) dp
          (fun v dp =>
             match _normalizeDate (Some (options dp)) v with
             | Done d => Returns (set_opt set_maxDate d dp)
             | Raise e => Throws e dp
             end) ;;
  dp <~ on_key (p_disableDates partial) dp
          (fun v dp => Returns (set_opt set_disableDates v dp)) ;;
  dp <~ on_key (p_openOnFocus partial) dp
          (fun v dp => Returns (set_opt set_openOnFocus v dp)) ;;
  dp <~ on_key (p_autoClose partial) dp
          (fun v dp => Returns (set_opt set_autoClose v dp)) ;;
  dp <~ on_key (p_showOutsideDays partial) dp
          (fun v dp => Returns (set_opt set_showOutsideDays v dp)) ;;
  dp <~ on_key (p_inline partial) dp (fun v dp => Returns (set_opt set_inline v dp)) ;;
  dp <~ on_key (p_enableTime partial) dp
          (fun v dp =>
             (* ignore enableTime in schedule mode *)
             let enable := if in_schedule_mode dp then false else v in
             if enable && negb (enableTime (options dp)) then
               let dp := set_opt set_enableTime true dp in
               (* enabling time selection forces the Done button *)
               let dp :=
                 if negb (confirm (options dp))
                 then set_doneButton true (set_opt set_confirm true dp)
                 else dp in
               if range (options dp) then
                 let dp := set_timeRow false dp in
                 ensure_timeRangeRow dp
               else
                 ensure_timeRow dp
             else if negb enable && enableTime (options dp) then
               let dp := set_opt set_enableTime false dp in
               Returns (set_timeRangeRow false (set_timeRow false dp))
             else Returns dp) ;;
  dp <~ on_key (p_timeStep partial) dp
          (fun v dp =>
             let oldStep := timeStep (options dp) in
             let step :=
               match v with
               | Some x => if 0 <? x then x else oldStep
               | None => oldStep
               end in
             let dp := set_opt set_timeStep step dp in
             if enableTime (options dp) && timeRow dp then Returns (_updateTimeInputs dp)
             else if enableTime (options dp) && timeRangeRow dp
                  then Returns (_updateRangeTimeInputs dp)
             else Returns dp) ;;
  dp <~ on_key (p_hour12 partial) dp
          (fun want12 dp =>
             if Bool.eqb want12 (hour12 (options dp)) then Returns dp
             else
               let dp := set_opt set_hour12 want12 dp in
               if enableTime (options dp) then
                 (* Rebuild time controls or adjust existing *)
                 if negb (timeRow dp) then ensure_timeRow dp
                 else Returns (_updateTimeInputs dp)
               else Returns dp) ;;
  dp <~ on_key (p_range partial) dp
          (fun v dp =>
             (* ignore range in schedule mode *)
             let wantRange := if in_schedule_mode dp then false else v in
             if Bool.eqb wantRange (range (options dp)) then Returns dp
             else
               let dp := set_opt set_range wantRange dp in
               if range (options dp) then
                 (* switch to range mode *)
                 let dp := set_timeRow false dp in
                 dp <~ (if enableTime (options dp) then ensure_timeRangeRow dp
                        else Returns dp) ;;
                 let dp := set_selectedDate None dp in
                 let existing := trim (inputValue dp) in
                 match match existing with
                       | EmptyString => Done None
                       | _ => _parseRangeString (options dp) existing
                       end with
                 | Done rg =>
                     let dp :=
                       set_rangeStart (match rg with Some p => fst p | None => None end) dp in
                     Returns
                       (set_rangeEnd (match rg with Some p => snd p | None => None end) dp)
                 | Raise e => Throws e dp
                 end
               else
                 (* switch to single mode *)
                 let carry := option_map copy_Date (rangeStart dp) in
                 let dp := set_rangeStart None dp in
                 let dp := set_rangeEnd None dp in
                 let dp := set_hoveringDate None dp in
                 let dp := set_timeRangeRow false dp in
                 dp <~ (if enableTime (options dp) then ensure_timeRow dp
                        else Returns dp) ;;
                 completed dp (setDate dp (arg_of_date carry) "api")) ;;
  dp <~ on_key (p_rangeSeparator partial) dp
          (fun v dp =>
             let sep :=
               match v with
               | EmptyString => match rangeSeparator (options dp) with EmptyString => " - " | s => s end
               | s => s
               end in
             Returns (set_opt set_rangeSeparator sep dp)) ;;
  on_key (p_confirm partial) dp
    (fun wantConfirm dp =>
       if Bool.eqb wantConfirm (confirm (options dp)) then Returns dp
       else
         let dp := set_opt set_confirm wantConfirm dp in
         Returns (set_doneButton wantConfirm dp)).

(** [updateOptions(partial)] as a call that returns the new state or
    throws. *)
Definition updateOptions (dp : DatePicker) (partial : Partial) : outcome DatePicker :=
  match updateOptions_run dp partial with
  | Returns dp' => Done dp'
  | Throws e _ => Raise e
  end.

(* ------------------------------------------------------------------ *)
(** ** Construction *)

Definition to_lower_char (c : ascii) : ascii :=
  let n := nat_of_ascii c in
  if (65 <=? n)%nat && (n <=? 90)%nat then ascii_of_nat (n + 32) else c.

Fixpoint to_lower (s : string) : string :=
  match s with
  | EmptyString => EmptyString
  | String c r => String (to_lower_char c) (to_lower r)
  end.

(** [v.substring(v.indexOf(':') + 1)] *)
Fixpoint after_colon (s : string) : string :=
  match s with
  | EmptyString => EmptyString
  | String c r => if Ascii.eqb c ":" then r else after_colon r
  end.

(** [s.split(/[,\s]+/).filter(function (s) { return s.length > 0; })] *)
Fixpoint tokens_aux (cur s : string) : list string :=
  match s with
  | EmptyString => match cur with EmptyString => [] | _ => [cur] end
  | String c r =>
      if Ascii.eqb c "," || is_space c
      then match cur with EmptyString => tokens_aux EmptyString r | _ => cur :: tokens_aux EmptyString r end
      else tokens_aux (cur +++ String c EmptyString) r
  end.

(** [Number(tok)] for a token that is a decimal integer, possibly signed;
    other spellings of numbers are outside the model. *)
Definition Number_token (tok : string) : outcome Z :=
  let unsigned (s : string) (sign : Z) :=
    match s with
    | EmptyString => Raise Unmodelled
    | _ => match Number_acc s 0 with
           | Some n => Done (sign * n)
           | None => Raise Unmodelled
           end
    end in
  match tok with
  | String "-" r => unsigned r (-1)
  | String "+" r => unsigned r 1
  | _ => unsigned tok 1
  end.

Fixpoint schedule_days (weekly : bool) (raw : list string) : outcome (list Z) :=
  match raw with
  | [] => Done []
  | tok :: rest =>
      n <- Number_token tok ;;
      days <- schedule_days weekly rest ;;
      (* for weekly mode, convert 7 (Sun) to 0 *)
      Done ((if weekly && (n =? 7) then 0 else n) :: days)
  end.

(** [_parseScheduleArray(value)] on a string *)
Definition _parseScheduleArray (o : Options) (value : string) : outcome (list Z) :=
  match value with
  | EmptyString => Done []
  | _ =>
      let v := trim value in
      let low := to_lower v in
      let listStr :=
        if starts_with "weekly:" low || starts_with "w:" low then after_colon v
        else if starts_with "monthly:" low || starts_with "m:" low then after_colon v
        else v in
      schedule_days (mode_eqb (scheduleMode o) ModeWeekly) (tokens_aux EmptyString listStr)
  end.

(** The options object given to the constructor, each property after the
    coercion the constructor applies ([Boolean(x)], [x !== false],
    [typeof x === 'function'], [Number(x)]); for [i_format] and
    [i_rangeSeparator] the empty string stands for a missing property and
    for [i_firstDayOfWeek] [None] for a value that is not an integer. *)
Record InitialOptions : Type := mkInitialOptions {
  i_format : string;
  i_firstDayOfWeek : option Z;
  i_minDate : js_arg;
  i_maxDate : js_arg;
  i_disableDates : option (Date -> bool);
  i_onSelect : bool;
  i_onSelectRange : bool;
  i_onSelectSchedule : bool;
  i_openOnFocus : bool;
  i_autoClose : bool;
  i_showOutsideDays : bool;
  i_inline : bool;
  i_enableTime : bool;
  i_timeStep : num;
  i_hour12 : bool;
  i_range : bool;
  i_rangeSeparator : string;
  i_confirm : bool;
  i_scheduleMode : schedule_mode;
  i_scheduleWeeklyMulti : bool;
  i_scheduleMonthlyMulti : bool
}.

(** [new DatePicker(input, {})]: every property missing. *)
Definition default_options : InitialOptions :=
  mkInitialOptions EmptyString None ArgNull ArgNull None false false false true true true false
    false None false false EmptyString false ModeNone true true.

(** The first block of the constructor: [this.options], then the two
    overrides (schedule mode switches time and range off, time selection
    switches confirm on). *)
Definition constructor_options (io : InitialOptions) : outcome Options :=
  let firstDayOfWeek := match i_firstDayOfWeek io with Some d => d | None => 0 end in
  let i18n := buildDefaultI18n_weekdays firstDayOfWeek in
  mn <- _normalizeDate None (i_minDate io) ;;
  mx <- _normalizeDate None (i_maxDate io) ;;
  let o :=
    mkOptions
      (match i_format io with EmptyString => DEFAULT_FORMAT | f => f end)
      firstDayOfWeek
      mn mx
      (i_disableDates io) (i_onSelect io) (i_onSelectRange io) (i_onSelectSchedule io)
      (i_openOnFocus io) (i_autoClose io) (i_showOutsideDays io) (i_inline io)
      (i_enableTime io)
      (match i_timeStep io with Some s => if 0 <? s then s else 5 | None => 5 end)
      (i_hour12 io) (i_range io)
      (match i_rangeSeparator io with EmptyString => " - " | s => s end)
      (i_confirm io) (i_scheduleMode io)
      (i_scheduleWeeklyMulti io) (i_scheduleMonthlyMulti io) i18n in
  let o :=
    if negb (mode_eqb (scheduleMode o) ModeNone)
    then set_range false (set_enableTime false o)
    else o in
  Done (if enableTime o then set_confirm true o else o).

Fixpoint set_insert_all (xs : list Z) (s : list Z) : list Z :=
  match xs with
  | [] => s
  | x :: r => set_insert_all r (set_insert x s)
  end.

(** [_build()]: which elements exist, and the time fields the time
    controls initialise. *)
Definition _build (dp : DatePicker) : DatePicker :=
  let o := options dp in
  let dp := set_daysGrid (negb (mode_eqb (scheduleMode o) ModeWeekly)) dp in
  let dp := set_timeRangeRow false (set_timeRow false dp) in
  let dp :=
    if enableTime o then
      if range o then _buildRangeTimeControls dp else _buildTimeControls dp
    else dp in
  set_doneButton (confirm o) dp.

(** The fields as the constructor initialises them, before it reads the
    value of the input and builds the elements. *)
Definition blank (o : Options) (value : string) (now : Date) : DatePicker :=
  mkDatePicker o None [] [] None None None (Some 0) (Some 0) (Some 0) (Some 0)
    None (startOfMonth now) false (Some 0) (Some 0)
    false false false false value 0%nat [].

(** [new DatePicker(input, options)]; [value] is [input.value] and [now]
    is [new Date()]. *)
Definition constructor (value : string) (io : InitialOptions) (now : Date)
  : outcome DatePicker :=
  o <- constructor_options io ;;
  let dp := blank o value now in
  let existingValue := trim value in
  dp <- match existingValue with
        | EmptyString => Done dp
        | _ =>
            match scheduleMode o with
            | ModeWeekly =>
                daysArray <- _parseScheduleArray o existingValue ;;
                Done (set_scheduleWeeklySelected
                        (set_insert_all daysArray (scheduleWeeklySelected dp)) dp)
            | ModeMonthly =>
                daysArray <- _parseScheduleArray o existingValue ;;
                Done (set_scheduleMonthlySelected
                        (set_insert_all daysArray (scheduleMonthlySelected dp)) dp)
            | ModeNone =>
                if range o then
                  rg <- _parseRangeString o existingValue ;;
                  match rg with
                  | None => Done dp
                  | Some (rs, re) =>
                      let dp := set_rangeEnd re (set_rangeStart rs dp) in
                      if enableTime o then
                        let dp :=
                          match rs with
                          | Some d =>
                              set_startMinutes (clampMinute (getMinutes d) (timeStep o))
                                (set_startHours (getHours d) dp)
                          | None => dp
                          end in
                        Done (match re with
                              | Some d =>
                                  set_endMinutes (clampMinute (getMinutes d) (timeStep o))
                                    (set_endHours (getHours d) dp)
                              | None => dp
                              end)
                      else Done dp
                  end
                else
                  parsed <- parseDate (Some existingValue) (format o) ;;
                  match parsed with
                  | None => Done dp
                  | Some d =>
                      if enableTime o
                      then Done (_initTimeFromDate (set_selectedDate (Some (copy_Date d)) dp) d)
                      else Done (set_selectedDate (Some (startOfDay d)) dp)
                  end
            end
        end ;;
  let dp := _build dp in
  Done (if inline o then open dp else dp).

(* ------------------------------------------------------------------ *)
(** ** Selection changes, interactive and programmatic *)

Inductive action : Type :=
| ClickDay (dayDate : Date)          (* click on an enabled cell of the grid *)
| ClickToday (now : Date)            (* the Today button *)
| ClickClear                         (* the Clear button *)
| ClickWeekday (dayIndex : Z)        (* a weekday toggle button *)
| ClickMonthDay (d : Z)              (* a day cell of the monthly schedule *)
| ChangeTime (hour minute : num)     (* the hour or minute select *)
| CallSetDate (dateOrString : js_arg) (source : string)
| CallSetRange (rangeOrString : range_arg) (source : string).

(** The click handler of an enabled cell ([_render]). *)
Definition click_day (dp : DatePicker) (dayDate : Date) : DatePicker :=
  let o := options dp in
  if range o then _handleRangeClick dp dayDate
  else
    let dp := _selectDate dp dayDate "user" in
    if negb (confirm o) && autoClose o && negb (inline o) && negb (enableTime o)
    then close dp else dp.

Definition perform (dp : DatePicker) (a : action) : outcome DatePicker :=
  match a with
  | ClickDay d => Done (click_day dp d)
  | ClickToday now => _selectToday dp now
  | ClickClear => _clearSelection dp
  | ClickWeekday i => Done (_toggleWeeklyDay dp i true)
  | ClickMonthDay d => Done (_toggleMonthlyDay dp d true)
  | ChangeTime h m => Done (_setTime dp h m true)
  | CallSetDate x source => setDate dp x source
  | CallSetRange x source => setRange dp x source
  end.

(* ================================================================== *)
(** * Specification vocabulary *)
(* ================================================================== *)

(* ------------------------------------------------------------------ *)
(** ** Format patterns as sequences of tokens and literal characters *)

Inductive token : Type := Tyyyy | TMM | Tdd | THH | Thh | Tmm | Ta.

Inductive item : Type :=
| Tok (t : token)
| Lit (c : ascii).

Definition token_eqb (a b : token) : bool :=
  match a, b with
  | Tyyyy, Tyyyy | TMM, TMM | Tdd, Tdd | THH, THH | Thh, Thh | Tmm, Tmm | Ta, Ta => true
  | _, _ => false
  end.

Definition token_text (t : token) : string :=
  match t with
  | Tyyyy => "yyyy" | TMM => "MM" | Tdd => "dd" | THH => "HH"
  | Thh => "hh" | Tmm => "mm" | Ta => "a"
  end.

Definition item_text (f : token -> string) (i : item) : string :=
  match i with
  | Tok t => f t
  | Lit c => String c EmptyString
  end.

(** The string spelled by a pattern when token [t] is written [f t]. *)
Fixpoint text (f : token -> string) (p : list item) : string :=
  match p with
  | [] => EmptyString
  | i :: r => item_text f i +++ text f r
  end.

Definition pattern_text (p : list item) : string := text token_text p.

Definition has_token (t : token) (p : list item) : bool :=
  existsb (fun i => match i with Tok t' => token_eqb t t' | Lit _ => false end) p.

Fixpoint tokens_of (p : list item) : list token :=
  match p with
  | [] => []
  | Tok t :: r => t :: tokens_of r
  | Lit _ :: r => tokens_of r
  end.

Fixpoint distinct (ts : list token) : bool :=
  match ts with
  | [] => true
  | t :: r => negb (existsb (token_eqb t) r) && distinct r
  end.

Definition token_letter (c : ascii) : bool :=
  existsb (Ascii.eqb c) ["y"; "M"; "d"; "H"; "h"; "m"; "a"]%char.

(** A literal character of a pattern: no letter of a token, and nothing
    that a regular expression reads as syntax, except the dot. *)
Definition plain_char (c : ascii) : bool :=
  negb (token_letter c) && (negb (is_syntax_char c) || Ascii.eqb c ".").

Definition literals_plain (p : list item) : bool :=
  forallb (fun i => match i with Tok _ => true | Lit c => plain_char c end) p.

Definition starts_nonword (p : list item) : bool :=
  match p with
  | [] => true
  | Lit c :: _ => negb (is_word_char c)
  | Tok _ :: _ => false
  end.

(** The token [a] stands alone: between the ends of the pattern or
    literals that are not word characters. *)
Fixpoint a_alone (prev_word : bool) (p : list item) : bool :=
  match p with
  | [] => true
  | Tok Ta :: r => negb prev_word && starts_nonword r && a_alone true r
  | Tok _ :: r => a_alone true r
  | Lit c :: r => a_alone (is_word_char c) r
  end.

Definition well_formed (p : list item) : bool :=
  distinct (tokens_of p)
  && has_token Tyyyy p && has_token TMM p && has_token Tdd p
  && literals_plain p && a_alone false p.

Definition has_hour (p : list item) : bool :=
  has_token THH p || (has_token Thh p && has_token Ta p).

Definition upd (f : token -> string) (t : token) (r : string) : token -> string :=
  fun t' => if token_eqb t t' then r else f t'.

(** A segment in which no match of [tok] can begin. *)
Definition inert (tok s : string) : Prop :=
  forall repl rest,
    replace_all_aux tok repl 0 (s +++ rest) = s +++ replace_all_aux tok repl 0 rest.

Fixpoint no_char (c : ascii) (s : string) : bool :=
  match s with
  | EmptyString => true
  | String x r => negb (Ascii.eqb c x) && no_char c r
  end.

Fixpoint zrange (start : Z) (count : nat) : list Z :=
  match count with
  | O => []
  | S k => start :: zrange (start + 1) k
  end.

Fixpoint all_digits (s : string) : bool :=
  match s with
  | EmptyString => true
  | String c r => is_digit c && all_digits r
  end.

Definition numeral (width : nat) (n : Z) (s : string) : bool :=
  (String.length s =? width)%nat && all_digits s
  && match Number_acc s 0 with Some v => v =? n | None => false end.

Definition rendered (t : Z) (tk : token) : string :=
  let hours24 := ES.HourFromTime t in
  let h12Raw := js_rem hours24 12 in
  match tk with
  | Tyyyy => String_of_Z (ES.YearFromDay (ES.Day t))
  | TMM => padStartNumber (ES.MonthFromDay (ES.Day t) + 1) 2
  | Tdd => padStartNumber (ES.DateFromDay (ES.Day t)) 2
  | THH => padStartNumber hours24 2
  | Thh => padStartNumber (if h12Raw =? 0 then 12 else h12Raw) 2
  | Tmm => padStartNumber (ES.MinFromTime t) 2
  | Ta => if 12 <=? hours24 then "PM" else "AM"
  end.

Definition token_width (tk : token) : nat :=
  match tk with Tyyyy => 4%nat | _ => 2%nat end.

Definition token_value (t : Z) (tk : token) : Z :=
  let hours24 := ES.HourFromTime t in
  let h12Raw := js_rem hours24 12 in
  match tk with
  | Tyyyy => ES.YearFromDay (ES.Day t)
  | TMM => ES.MonthFromDay (ES.Day t) + 1
  | Tdd => ES.DateFromDay (ES.Day t)
  | THH => hours24
  | Thh => if h12Raw =? 0 then 12 else h12Raw
  | Tmm => ES.MinFromTime t
  | Ta => 0
  end.

(** The six literal passes, for any replacement texts that the letters of
    the later tokens do not occur in. *)
Definition passes (r : token -> string) (s : string) : string :=
  replace_all "mm" (r Tmm)
    (replace_all "hh" (r Thh)
      (replace_all "HH" (r THH)
        (replace_all "dd" (r Tdd)
          (replace_all "MM" (r TMM)
            (replace_all "yyyy" (r Tyyyy) s))))).

Definition six (r : token -> string) : token -> string :=
  fun t => match t with Ta => "a" | _ => r t end.

Fixpoint last_word (prev : bool) (s : string) : bool :=
  match s with
  | EmptyString => prev
  | String c r => last_word (is_word_char c) r
  end.

Definition wa_inert (s : string) : Prop :=
  forall tr r prev rest,
    replace_word_a tr r prev (s +++ rest)
    = s +++ replace_word_a tr r (last_word prev s) rest.

Definition group_of (tk : token) : group :=
  match tk with
  | Tyyyy => GYear | TMM => GMonth | Tdd => GDay | THH => GHour24
  | Thh => GHour12 | Tmm => GMinute | Ta => GAmpm
  end.

Definition sources (tk : token) : string := group_src (group_of tk).

Definition atom_of (i : item) : atom :=
  match i with
  | Tok tk => AGroup (group_of tk)
  | Lit c => if Ascii.eqb c "." then AAny else ALit c
  end.

Fixpoint bound (rd : token -> string) (p : list item) (env : groups) : groups :=
  match p with
  | [] => env
  | Tok tk :: r => bound rd r (set_group (group_of tk) (rd tk) env)
  | Lit _ :: r => bound rd r env
  end.

(** The hour and the minute that [parseDate] reads back. *)
Definition parsed_hour (p : list item) (t : Z) : Z :=
  let h := ES.HourFromTime t in
  if has_token THH p then h
  else if has_token Thh p then
    if has_token Ta p then h else js_rem h 12
  else 0.

Definition parsed_minute (p : list item) (t : Z) : Z :=
  if has_token Tmm p then ES.MinFromTime t else 0.

(* ------------------------------------------------------------------ *)
(** ** Range selection *)

Definition valid_opt (d : option Date) : Prop :=
  match d with Some x => isValidDate x = true | None => True end.

Definition range_ordered (dp : DatePicker) : Prop :=
  match rangeStart dp, rangeEnd dp with
  | Some s, Some e => date_le s e = true
  | _, _ => True
  end.

Definition range_inv (dp : DatePicker) : Prop :=
  valid_opt (rangeStart dp) /\ valid_opt (rangeEnd dp) /\ range_ordered dp.

(** The date a click stores for [dayDate]. *)
Definition clicked (dp : DatePicker) (dayDate : Date) (h m : num) : Date :=
  if enableTime (options dp) then date_with_time dayDate h m else startOfDay dayDate.


(* ------------------------------------------------------------------ *)
(** ** Confirm mode *)

Definition quiet (dp dp' : DatePicker) : Prop :=
  confirm (options dp) = true ->
  options dp' = options dp /\ inputValue dp' = inputValue dp
  /\ changeEvents dp' = changeEvents dp.

Definition quiet_outcome (dp : DatePicker) (r : outcome DatePicker) : Prop :=
  match r with Done dp' => quiet dp dp' | Raise _ => True end.

Definition format_compiles (o : Options) : Prop :=
  exists atoms, date_regex (format o) = Done atoms.

Definition selection_text (dp : DatePicker) : string :=
  let o := options dp in
  match scheduleMode o with
  | ModeNone =>
      if range o then _formatRangeString o (rangeStart dp) (rangeEnd dp)
      else match selectedDate dp with
           | Some d => formatDate d (format o)
           | None => EmptyString
           end
  | _ => join "," (map String_of_Z (_formatScheduleArray dp))
  end.

Definition commit_notification (dp : DatePicker) : list callback :=
  let o := options dp in
  match scheduleMode o with
  | ModeNone =>
      if range o then
        if onSelectRange o
        then [OnSelectRange (rangeStart dp) (rangeEnd dp) (selection_text dp) "confirm"]
        else []
      else
        if onSelect o
        then [OnSelect (selectedDate dp) (selection_text dp) "confirm"]
        else []
  | _ =>
      if onSelectSchedule o
      then [OnSelectSchedule (scheduleMode o) (scheduleWeeklySelected dp)
              (scheduleMonthlySelected dp) (_formatScheduleArray dp)
              (selection_text dp) "confirm"]
      else []
  end.

(* ------------------------------------------------------------------ *)
(** ** Schedule modes *)

Definition single_select (dp : DatePicker) : bool :=
  match scheduleMode (options dp) with
  | ModeWeekly => negb (scheduleWeeklyMulti (options dp))
  | ModeMonthly => negb (scheduleMonthlyMulti (options dp))
  | ModeNone => false
  end.

Definition active_set (dp : DatePicker) : list Z :=
  match scheduleMode (options dp) with
  | ModeWeekly => scheduleWeeklySelected dp
  | ModeMonthly => scheduleMonthlySelected dp
  | ModeNone => []
  end.

Definition toggle (dp : DatePicker) (day : Z) (fromUser : bool) : DatePicker :=
  match scheduleMode (options dp) with
  | ModeWeekly => _toggleWeeklyDay dp day fromUser
  | ModeMonthly => _toggleMonthlyDay dp day fromUser
  | ModeNone => dp
  end.

(* ------------------------------------------------------------------ *)
(** ** Dates, patterns and pickers of the examples *)

(** 15 March 2024, 09:30, taken as the current time. *)
Definition now0 : Date := DateAt 1710495000000.

(** Calendar dates of the examples, at midnight. *)
Definition d_2024_03_10 : Date := DateAt 1710028800000.
Definition d_2024_03_15 : Date := DateAt 1710460800000.
Definition d_2024_03_20 : Date := DateAt 1710892800000.
Definition d_2025_01_01 : Date := DateAt 1735689600000.
Definition d_0999_03_15 : Date := DateAt (-30635452800000).

(** 15 March 2024, 13:30. *)
Definition d_2024_03_15_1330 : Date := DateAt 1710509400000.

(** [yyyy-MM-dd], [yyyy-MM-dd HH:mm] and [yyyy-MM-dd hh:mm a] *)
Definition iso_date : list item :=
  [Tok Tyyyy; Lit "-"; Tok TMM; Lit "-"; Tok Tdd].

Definition iso_date_time : list item :=
  iso_date ++ [Lit " "; Tok THH; Lit ":"; Tok Tmm].

Definition date_time_12h : list item :=
  iso_date ++ [Lit " "; Tok Thh; Lit ":"; Tok Tmm; Lit " "; Tok Ta].

(** The options of [new DatePicker(input, {})]. *)
Definition defaults : Options :=
  mkOptions DEFAULT_FORMAT 0 None None None false false false true true true false
    false 5 false false " - " false ModeNone true true (buildDefaultI18n_weekdays 0).

(** A picker on an empty input, built at [now0]. *)
Definition picker (o : Options) : DatePicker := _build (blank o EmptyString now0).

(** [{ range: true, onSelectRange: f }] *)
Definition range_picker : DatePicker :=
  picker (set_onSelectRange true (set_range true defaults)).

(** [{ range: true, enableTime: true }]: the constructor turns [confirm]
    on. *)
Definition range_time_picker : DatePicker :=
  picker (set_enableTime true (set_confirm true (set_range true defaults))).

(** [{ range: true, onSelectRange: f, minDate: '2024-01-01',
       maxDate: '2024-12-31' }] on an input that reads
    [2024-03-10 - 2024-03-20]. *)
Definition bounded_range_picker : DatePicker :=
  let o :=
    set_maxDate (Some (DateAt 1735603200000))
      (set_minDate (Some (DateAt 1704067200000))
         (set_onSelectRange true (set_range true defaults))) in
  _build (set_rangeEnd (Some d_2024_03_20)
            (set_rangeStart (Some d_2024_03_10)
               (blank o "2024-03-10 - 2024-03-20" now0))).

(** [{ onSelect: f, minDate: '2024-01-01', maxDate: '2024-12-31' }] *)
Definition bounded_picker : DatePicker :=
  picker (set_maxDate (Some (DateAt 1735603200000))
            (set_minDate (Some (DateAt 1704067200000))
               (set_onSelect true defaults))).

(** [{ confirm: true, onSelect: f }] *)
Definition confirm_picker : DatePicker :=
  picker (set_confirm true (set_onSelect true defaults)).

(** [{ scheduleMode: 'weekly', onSelectSchedule: f }] *)
Definition weekly_picker : DatePicker :=
  picker (set_onSelectSchedule true (set_scheduleMode ModeWeekly defaults)).

(** [{ scheduleMode: 'monthly', scheduleMonthlyMulti: false }] *)
Definition monthly_single_picker : DatePicker :=
  picker (set_scheduleMonthlyMulti false (set_scheduleMode ModeMonthly defaults)).

(** The same pickers as calls of the constructor. *)
Definition range_options : InitialOptions :=
  mkInitialOptions EmptyString None ArgNull ArgNull None false true false true true true false
    false None false true EmptyString false ModeNone true true.

Definition bounded_range_options : InitialOptions :=
  mkInitialOptions EmptyString None (ArgString "2024-01-01") (ArgString "2024-12-31") None
    false true false true true true false false None false true EmptyString false ModeNone
    true true.

Definition bounded_options : InitialOptions :=
  mkInitialOptions EmptyString None (ArgString "2024-01-01") (ArgString "2024-12-31") None
    true false false true true true false false None false false EmptyString false ModeNone
    true true.

Definition confirm_options : InitialOptions :=
  mkInitialOptions EmptyString None ArgNull ArgNull None true false false true true true false
    false None false false EmptyString true ModeNone true true.

Definition weekly_options : InitialOptions :=
  mkInitialOptions EmptyString None ArgNull ArgNull None false false true true true true false
    false None false false EmptyString false ModeWeekly true true.

Definition monthly_single_options : InitialOptions :=
  mkInitialOptions EmptyString None ArgNull ArgNull None false false false true true true false
    false None false false EmptyString false ModeMonthly true false.

(** [{ enableTime: true, confirm: false }] *)
Definition time_without_confirm : Partial :=
  mkPartial None None None None None None None None None None None None None
    (Some true) None None None None (Some false).

(** [{ enableTime: true }] *)
Definition time_only : Partial :=
  mkPartial None None None None None None None None None None None None None
    (Some true) None None None None None.

(** [{ scheduleMode: 'none' }] *)
Definition calendar_mode : Partial :=
  mkPartial None None None (Some ModeNone) None None None None None None None None None
    None None None None None None.

(** [{ firstDayOfWeek: 1 }] *)
Definition monday_first : Partial :=
  mkPartial None None None None None (Some 1) None None None None None None None
    None None None None None None.

(** [{ confirm: false }] *)
Definition confirm_off : Partial :=
  mkPartial None None None None None None None None None None None None None
    None None None None None (Some false).

(** [new DatePicker(input, { enableTime: true })] *)
Definition time_options : InitialOptions :=
  mkInitialOptions EmptyString None ArgNull ArgNull None false false false true true true false
    true None false false EmptyString false ModeNone true true.

(* ================================================================== *)
(** * Further functions of Datepicker.js *)
(* ================================================================== *)

(** [clampDate(date, minDate, maxDate)], a utility of the first revision
    of the file (its other utilities are the same in both revisions);
    [None] is [null]. *)
Definition clampDate (date : Date) (minDate maxDate : option Date) : Date :=
  if negb (isValidDate date) then date
  else
    let value := date in
    let value :=
      match minDate with
      | Some mn => if isValidDate mn && date_lt value mn then mn else value
      | None => value
      end in
    match maxDate with
    | Some mx => if isValidDate mx && date_gt value mx then mx else value
    | None => value
    end.

(** [endOfWeek(date, firstDayOfWeek)] *)
Definition endOfWeek (date : Date) (firstDayOfWeek : Z) : Date :=
  let start := startOfWeek date firstDayOfWeek in
  addDays start 6.

(** [toISODateString(date)] *)
Definition toISODateString (date : Date) : string :=
  match date with
  | InvalidDate => EmptyString
  | DateAt t =>
      join "-"
        [padStartNumber (ES.YearFromDay (ES.Day t)) 4;
         padStartNumber (ES.MonthFromDay (ES.Day t) + 1) 2;
         padStartNumber (ES.DateFromDay (ES.Day t)) 2]
  end.

(** [a < b] on Numbers: false as soon as one side is [NaN]. *)
Definition num_lt (a b : num) : bool :=
  match a, b with
  | Some x, Some y => x <? y
  | _, _ => false
  end.

(** [getDate()] of the picker. *)
Definition picker_getDate (dp : DatePicker) : option Date :=
  option_map copy_Date (selectedDate dp).

(** [getRange()] *)
Definition getRange (dp : DatePicker) : option Date * option Date :=
  if negb (range (options dp)) then (None, None)
  else (option_map copy_Date (rangeStart dp), option_map copy_Date (rangeEnd dp)).

(** [_computeYearRange()]; [now] is [new Date()]. *)
Definition _computeYearRange (dp : DatePicker) (now : Date) : num * num :=
  let o := options dp in
  let nowYear := getFullYear now in
  let start := num_sub nowYear 50 in
  let end_ := num_add nowYear 50 in
  let start :=
    match minDate o with
    | Some mn => if isValidDate mn then getFullYear mn else start
    | None => start
    end in
  let end_ :=
    match maxDate o with
    | Some mx => if isValidDate mx then getFullYear mx else end_
    | None => end_
    end in
  let viewYear := getFullYear (currentViewMonth dp) in
  let start := if num_lt viewYear start then viewYear else start in
  let end_ := if num_lt end_ viewYear then viewYear else end_ in
  if num_lt end_ start then (end_, start) else (start, end_).

(** The loop [for (y = range.start; y <= range.end; y += 1)] of
    [_rebuildYearOptions]: the values of the options it appends. *)
Fixpoint year_options (fuel : nat) (y end_ : Z) : list Z :=
  match fuel with
  | O => []
  | S k => if y <=? end_ then y :: year_options k (y + 1) end_ else []
  end.

(** [_rebuildYearOptions()]: the years it puts into the year select
    (when there is one); a bound that is [NaN] leaves the select empty. *)
Definition _rebuildYearOptions (dp : DatePicker) (now : Date) : list Z :=
  match _computeYearRange dp now with
  | (Some start, Some end_) => year_options (Z.to_nat (end_ - start + 1)) start end_
  | _ => []
  end.

(** The loop [while (m < 60)] of [_rebuildMinuteOptions]. *)
Fixpoint minute_options (fuel : nat) (m step : Z) : list Z :=
  match fuel with
  | O => []
  | S k => if m <? 60 then m :: minute_options k (m + step) step else []
  end.

(** [_rebuildMinuteOptions()]: the minutes offered by the minute select;
    the step is at least 1, so 60 iterations are enough. *)
Definition _rebuildMinuteOptions (dp : DatePicker) : list Z :=
  let step := if 0 <? timeStep (options dp) then timeStep (options dp) else 5 in
  minute_options 60 0 step.

(** [_goToPreviousMonth()] and [_goToNextMonth()]; the grid they redraw
    is [_render] of the result. *)
Definition _goToPreviousMonth (dp : DatePicker) : DatePicker :=
  set_currentViewMonth (addMonths (currentViewMonth dp) (-1)) dp.

Definition _goToNextMonth (dp : DatePicker) : DatePicker :=
  set_currentViewMonth (addMonths (currentViewMonth dp) 1) dp.

(** The keys [_onKeyDown] tells apart. *)
Inductive key : Type :=
| ArrowLeft | ArrowRight | ArrowUp | ArrowDown | Home | End_ | PageUp | PageDown
| Enter | Space | Escape | OtherKey.

(** [this.focusedDate || this.selectedDate || new Date()] *)
Definition focus_base (dp : DatePicker) (now : Date) : Date :=
  match focusedDate dp with
  | Some d => d
  | None => match selectedDate dp with Some d => d | None => now end
  end.

(** [_onKeyDown(event)]; [now] is [new Date()]. *)
Definition _onKeyDown (dp : DatePicker) (k : key) (now : Date) : DatePicker :=
  let o := options dp in
  let baseDate := focus_base dp now in
  let move (nextFocus : Date) :=
    let dp := set_focusedDate (Some (startOfDay nextFocus)) dp in
    let nextMonth := startOfMonth (startOfDay nextFocus) in
    if num_eqb (getTime nextMonth) (getTime (currentViewMonth dp)) then dp
    else set_currentViewMonth nextMonth dp in
  match k with
  | ArrowLeft => move (addDays baseDate (-1))
  | ArrowRight => move (addDays baseDate 1)
  | ArrowUp => move (addDays baseDate (-7))
  | ArrowDown => move (addDays baseDate 7)
  | Home => move (startOfWeek baseDate (firstDayOfWeek o))
  | End_ => move (addDays (startOfWeek baseDate (firstDayOfWeek o)) 6)
  | PageUp => move (addMonths baseDate (-1))
  | PageDown => move (addMonths baseDate 1)
  | Enter | Space =>
      let target := startOfDay (focus_base dp now) in
      match scheduleMode o with
      | ModeMonthly => _toggleMonthlyDay dp (or0 (getDate target)) true
      | ModeWeekly => _toggleWeeklyDay dp (or0 (getDay target)) true
      | ModeNone =>
          if isDateOutOfBounds target (minDate o) (maxDate o) then dp
          else if is_disabled o target then dp
          else if range o then _handleRangeClick dp target
          else
            let dp := _selectDate dp target "user" in
            if negb (confirm o) && autoClose o && negb (inline o) then close dp else dp
      end
  | Escape => close dp
  | OtherKey => dp
  end.

(** [setMinDate(dateOrString)] and [setMaxDate(dateOrString)] *)
Definition setMinDate (dp : DatePicker) (dateOrString : js_arg) : outcome DatePicker :=
  updateOptions dp
    (mkPartial None None None None None None (Some dateOrString) None None None None None
       None None None None None None None).

Definition setMaxDate (dp : DatePicker) (dateOrString : js_arg) : outcome DatePicker :=
  updateOptions dp
    (mkPartial None None None None None None None (Some dateOrString) None None None None
       None None None None None None None).

(** The object [getSchedule()] returns. *)
Record Schedule : Type := mkSchedule {
  sched_mode : schedule_mode;
  sched_weekly : list Z;
  sched_monthly : list Z;
  sched_array : list Z
}.

(** [getSchedule()]; [None] is [null]. *)
Definition getSchedule (dp : DatePicker) : option Schedule :=
  match scheduleMode (options dp) with
  | ModeNone => None
  | mode =>
      Some (mkSchedule mode (scheduleWeeklySelected dp) (scheduleMonthlySelected dp)
              (_formatScheduleArray dp))
  end.

(** The payload of [setSchedule]: [pl_mode] is [None] when the property is
    missing or falsy, [pl_weekly] and [pl_monthly] are [None] unless the
    property is an array (of integers). *)
Record Payload : Type := mkPayload {
  pl_mode : option schedule_mode;
  pl_weekly : option (list Z);
  pl_monthly : option (list Z)
}.

(** [setSchedule(payload, source)] for a payload that is an object; the
    final [_render()] redraws from the state and changes none of it. *)
Definition setSchedule (dp : DatePicker) (payload : Payload) (source : string)
  : outcome DatePicker :=
  dp <- match pl_mode payload with
        | Some mode =>
            if negb (mode_eqb mode (scheduleMode (options dp)))
            then updateOptions dp
                   (mkPartial None None None (Some mode) None None None None None None None
                      None None None None None None None None)
            else Done dp
        | None => Done dp
        end ;;
  let dp :=
    match scheduleMode (options dp), pl_weekly payload, pl_monthly payload with
    | ModeWeekly, Some weekly, _ =>
        set_scheduleWeeklySelected (set_insert_all weekly []) dp
    | ModeMonthly, _, Some monthly =>
        set_scheduleMonthlySelected (set_insert_all monthly []) dp
    | _, _, _ => dp
    end in
  Done (_syncScheduleValue dp (source_or_api source)).

(** Every way the selection changes other than [updateOptions]: the
    actions above, a key on the calendar, the time selects of a range, and
    [setSchedule]. *)
Inductive selection_change : Type :=
| Act (a : action)
| KeyDown (k : key) (now : Date)       (* [_onKeyDown]; [now] is [new Date()] *)
| StartTime (nh nm : Z)                (* a start select of the range times *)
| EndTime (nh nm : Z)                  (* an end select of the range times *)
| CallSetSchedule (payload : Payload) (source : string).

Definition apply_change (dp : DatePicker) (c : selection_change) : outcome DatePicker :=
  match c with
  | Act a => perform dp a
  | KeyDown k now => Done (_onKeyDown dp k now)
  | StartTime nh nm => Done (onStartChange dp nh nm)
  | EndTime nh nm => Done (onEndChange dp nh nm)
  | CallSetSchedule payload source => setSchedule dp payload source
  end.

(** The source tag a change passes to the callbacks. *)
Definition source_of (c : selection_change) : string :=
  match c with
  | Act (CallSetDate _ source) => source_or_api source
  | Act (CallSetRange _ source) => source_or_api source
  | CallSetSchedule _ source => source_or_api source
  | _ => "user"
  end.

(** [a >= b] on dates: false as soon as one side is invalid. *)
Definition date_ge (a b : Date) : bool := date_le b a.

(** [s.split('-')] *)
Fixpoint split_dash_aux (cur s : string) : list string :=
  match s with
  | EmptyString => [cur]
  | String c r =>
      if Ascii.eqb c "-" then cur :: split_dash_aux EmptyString r
      else split_dash_aux (cur +++ String c EmptyString) r
  end.

Definition split_dash (s : string) : list string := split_dash_aux EmptyString s.

(** The [data-date] attribute [_render] gives a cell; [None] when the
    cell has none. *)
Definition data_date (c : cell) : option string :=
  match c with
  | DayCell dayDate _ _ _ _ => Some (toISODateString dayDate)
  | Filler | MonthDayCell _ _ => None
  end.

(** What [_updateRangeHighlight] leaves on a [.dp-day] node: the three
    classes, and the [aria-selected] attribute it writes ([None] when it
    does not write it). *)
Record highlight : Type := mkHighlight {
  is_in_range : bool;
  is_range_start : bool;
  is_range_end : bool;
  aria_selected : option bool
}.

(** The body of [nodes.forEach] in [_updateRangeHighlight]. *)
Definition highlight_cell (effStart effEnd : option Date) (el : cell) : highlight :=
  let cleared := mkHighlight false false false None in
  match data_date el with
  | None => cleared
  | Some EmptyString => cleared
  | Some attr =>
      match split_dash attr with
      | [p0; p1; p2] =>
          let d := new_Date3 (Number_of (Some p0)) (num_sub (Number_of (Some p1)) 1)
                     (Number_of (Some p2)) in
          let inRange :=
            match effStart, effEnd with
            | Some s, Some e => date_ge d s && date_le d e
            | _, _ => false
            end in
          let isStart :=
            match effStart with Some s => areSameCalendarDate d s | None => false end in
          let isEnd :=
            match effEnd with Some e => areSameCalendarDate d e | None => false end in
          mkHighlight inRange isStart isEnd (Some (isStart || isEnd))
      | _ => cleared
      end
  end.

(** The two ends [_updateRangeHighlight] highlights between: the range,
    or from the start to the hovered day while the end is not chosen,
    swapped when the hovered day is before the start. *)
Definition effective_range (dp : DatePicker) : option Date * option Date :=
  let rs := option_map startOfDay (rangeStart dp) in
  let re := option_map startOfDay (rangeEnd dp) in
  let previewEnd :=
    match hoveringDate dp, rs, re with
    | Some h, Some _, None => Some h
    | _, _, _ => None
    end in
  let '(rs, re, previewEnd) :=
    match rs, previewEnd with
    | Some r, Some p => if date_lt p r then (Some p, Some r, None) else (rs, re, previewEnd)
    | _, _ => (rs, re, previewEnd)
    end in
  let effStart := rs in
  let effEnd :=
    match re with
    | Some e => Some e
    | None => option_map startOfDay previewEnd
    end in
  (effStart, effEnd).

(** [_updateRangeHighlight()] on the [.dp-day] nodes of the grid, the cells
    [_render] made; [None] when it returns at once. *)
Definition _updateRangeHighlight (dp : DatePicker) (nodes : list cell)
  : option (list highlight) :=
  if negb (range (options dp)) || negb (daysGrid dp) then None
  else
    let '(effStart, effEnd) := effective_range dp in
    Some (map (highlight_cell effStart effEnd) nodes).

(* ================================================================== *)
(** * Vocabulary of the further properties *)
(* ================================================================== *)

(** The number of days of month [m] (0..11) of year [y]. *)
Definition daysInMonth (y m : Z) : Z :=
  match m with
  | 1 => 28 + ES.leapDays y
  | 3 | 5 | 8 | 10 => 30
  | _ => 31
  end.

(** The bounds do not cross: a valid [minDate] is not after a valid
    [maxDate]. *)
Definition bounds_ordered (minDate maxDate : option Date) : bool :=
  match minDate, maxDate with
  | Some (DateAt a), Some (DateAt b) => a <=? b
  | _, _ => true
  end.

(** A [Set] holds no value twice. *)
Fixpoint no_repeat (l : list Z) : bool :=
  match l with
  | [] => true
  | x :: r => negb (set_has x r) && no_repeat r
  end.

(** The schedule sets hold what the comments of the constructor say:
    weekdays 0..6 and days of the month 1..31. *)
Definition schedule_valid (dp : DatePicker) : bool :=
  no_repeat (scheduleWeeklySelected dp)
  && forallb (fun x => (0 <=? x) && (x <=? 6)) (scheduleWeeklySelected dp)
  && no_repeat (scheduleMonthlySelected dp)
  && forallb (fun x => (1 <=? x) && (x <=? 31)) (scheduleMonthlySelected dp).

(** A decimal numeral: digits only, at least one. *)
Definition is_numeral (s : string) : bool :=
  match s with EmptyString => false | _ => all_digits s end.

Fixpoint no_space (s : string) : bool :=
  match s with
  | EmptyString => true
  | String c r => negb (is_space c) && no_space r
  end.

(** The configuration is consistent: the time step is positive, and a
    schedule mode excludes time selection and range selection. *)
Definition options_consistent (o : Options) : bool :=
  (0 <? timeStep o)
  && (mode_eqb (scheduleMode o) ModeNone || (negb (enableTime o) && negb (range o))).

Definition keeps (P : DatePicker -> Prop) (r : outcome DatePicker) : Prop :=
  match r with Done d => P d | Raise _ => True end.

(** The state a call leaves satisfies [P], whether it returns or throws. *)
Definition leaves (P : DatePicker -> Prop) (c : completion) : Prop :=
  match c with Returns d => P d | Throws _ d => P d end.

(* ------------------------------------------------------------------ *)
(** ** The selection and what a change tells about it *)

(** The selection of the mode the picker is in. *)
Inductive selected : Type :=
| SelDate (date : option Date)
| SelRange (start end_ : option Date)
| SelWeekly (days : list Z)
| SelMonthly (days : list Z).

Definition selection (dp : DatePicker) : selected :=
  match scheduleMode (options dp) with
  | ModeNone =>
      if range (options dp) then SelRange (rangeStart dp) (rangeEnd dp)
      else SelDate (selectedDate dp)
  | ModeWeekly => SelWeekly (scheduleWeeklySelected dp)
  | ModeMonthly => SelMonthly (scheduleMonthlySelected dp)
  end.

(** The callback of the mode is registered. *)
Definition registered (o : Options) : bool :=
  match scheduleMode o with
  | ModeNone => if range o then onSelectRange o else onSelect o
  | _ => onSelectSchedule o
  end.

(** The invocation that reports the selection, with a source tag. *)
Definition change_notification (dp : DatePicker) (source : string) : callback :=
  let o := options dp in
  match scheduleMode o with
  | ModeNone =>
      if range o
      then OnSelectRange (rangeStart dp) (rangeEnd dp) (selection_text dp) source
      else OnSelect (selectedDate dp) (selection_text dp) source
  | mode =>
      OnSelectSchedule mode (scheduleWeeklySelected dp) (scheduleMonthlySelected dp)
        (_formatScheduleArray dp) (selection_text dp) source
  end.

(** What a change does in confirm mode: the options, the bound field and
    the number of change events stay, and the callbacks are invoked at
    once: when the selection differs and the callback of the mode is
    registered, that callback alone is invoked, with the new selection. *)
Definition told (source : string) (dp dp' : DatePicker) : Prop :=
  options dp' = options dp /\ inputValue dp' = inputValue dp
  /\ changeEvents dp' = changeEvents dp
  /\ exists added,
       callbacks dp' = callbacks dp ++ added
       /\ (registered (options dp) = true -> selection dp' <> selection dp ->
           added = [change_notification dp' source]).

Definition told_outcome (source : string) (dp : DatePicker) (r : outcome DatePicker)
  : Prop :=
  match r with Done dp' => told source dp dp' | Raise _ => True end.

(** Two states with the same options, bound field, change events and
    callback log. *)
Definition silent (dp dp' : DatePicker) : Prop :=
  options dp' = options dp /\ inputValue dp' = inputValue dp
  /\ changeEvents dp' = changeEvents dp /\ callbacks dp' = callbacks dp.

Definition same_date (dp dp' : DatePicker) : Prop := selectedDate dp' = selectedDate dp.

Definition same_range (dp dp' : DatePicker) : Prop :=
  rangeStart dp' = rangeStart dp /\ rangeEnd dp' = rangeEnd dp.

Definition same_schedule (dp dp' : DatePicker) : Prop :=
  scheduleWeeklySelected dp' = scheduleWeeklySelected dp
  /\ scheduleMonthlySelected dp' = scheduleMonthlySelected dp.

(** Nothing a callback or the bound field shows has changed. *)
Definition untouched (dp dp' : DatePicker) : Prop :=
  silent dp dp' /\ same_date dp dp' /\ same_range dp dp' /\ same_schedule dp dp'.

(** The change leaves the schedule mode alone: every change but
    [setSchedule] with another mode than the present one. *)
Definition keeps_mode (dp : DatePicker) (c : selection_change) : Prop :=
  match c with
  | CallSetSchedule payload _ =>
      pl_mode payload = None \/ pl_mode payload = Some (scheduleMode (options dp))
  | _ => True
  end.

(** In confirm mode [updateOptions] writes nothing to the bound field and
    dispatches no change event, at whatever key it stops; until its last
    key, [confirm], the option stays on. *)
Definition deferred_since (dp d : DatePicker) : Prop :=
  confirm (options d) = true /\ inputValue d = inputValue dp
  /\ changeEvents d = changeEvents dp.

(** The days an arrow key moves the focus by. *)
Definition arrow_step (k : key) : option Z :=
  match k with
  | ArrowLeft => Some (-1)
  | ArrowRight => Some 1
  | ArrowUp => Some (-7)
  | ArrowDown => Some 7
  | _ => None
  end.

(** The pattern begins and ends with a token. *)
Definition token_ends (p : list item) : bool :=
  match p with
  | Tok _ :: _ => match last p (Lit " ") with Tok _ => true | Lit _ => false end
  | _ => false
  end.

(** The parts of a value that the default format accepts: four digits,
    then one or two, then one or two. *)
Definition iso_parts (y m d : string) : bool :=
  all_digits y && (String.length y =? 4)%nat
  && all_digits m && ((String.length m =? 1)%nat || (String.length m =? 2)%nat)
  && all_digits d && ((String.length d =? 1)%nat || (String.length d =? 2)%nat).

(** The array of a payload that [setSchedule] reads in a given mode. *)
Definition payload_days (mode : schedule_mode) (payload : Payload) : option (list Z) :=
  match mode with
  | ModeWeekly => pl_weekly payload
  | ModeMonthly => pl_monthly payload
  | ModeNone => None
  end.

(** The mode the picker is in once [setSchedule] has read the payload's
    mode. *)
Definition payload_mode (dp : DatePicker) (payload : Payload) : schedule_mode :=
  match pl_mode payload with
  | Some mode => mode
  | None => scheduleMode (options dp)
  end.

(** The days of the mode a schedule is in. *)
Definition days_of_schedule (s : Schedule) : list Z :=
  match sched_mode s with
  | ModeWeekly => sched_weekly s
  | ModeMonthly => sched_monthly s
  | ModeNone => []
  end.

(** The object [getSchedule()] returns, passed on as a payload. *)
Definition payload_of (s : Schedule) : Payload :=
  mkPayload (Some (sched_mode s)) (Some (sched_weekly s)) (Some (sched_monthly s)).

(** The array of [getSchedule()] for a set of days. *)
Definition schedule_array_of (mode : schedule_mode) (days : list Z) : list Z :=
  match mode with
  | ModeWeekly => map display_day (sort_asc days)
  | ModeMonthly => sort_asc days
  | ModeNone => []
  end.

(** A range picker with the range 1 March 2024, 01:00, to 4 March 2024. *)
Definition highlighted_picker : DatePicker :=
  set_rangeEnd (Some (DateAt 1709510400000))
    (set_rangeStart (Some (DateAt 1709254800000)) range_picker).

(* ================================================================== *)
(** * Facts about the date arithmetic *)
(* ================================================================== *)

Module ESFacts.
Import ES.

Ltac div_lia := Z.div_mod_to_equations; lia.

Lemma DayFromYear_succ y : DayFromYear (y + 1) = DayFromYear y + 365 + leapDays y.
Proof.
  unfold DayFromYear, leapDays, InLeapYear.
  destruct (Z.eqb_spec (y mod 4) 0), (Z.eqb_spec (y mod 100) 0), (Z.eqb_spec (y mod 400) 0);
    cbn [negb andb orb]; div_lia.
Qed.

Lemma YearFromDay_spec n :
  DayFromYear (YearFromDay n) <= n < DayFromYear (YearFromDay n + 1).
Proof.
  unfold YearFromDay.
  set (y := 1970 + n * 400 / 146097).
  destruct (Z.ltb_spec n (DayFromYear y)).
  - replace (y - 1 + 1) with y by lia. split; [|lia].
    unfold DayFromYear in *. subst y. div_lia.
  - destruct (Z.leb_spec (DayFromYear (y + 1)) n).
    + split; [lia|]. unfold DayFromYear in *. subst y. div_lia.
    + lia.
Qed.

Lemma leapDays_range y : 0 <= leapDays y <= 1.
Proof. unfold leapDays. destruct (InLeapYear y); lia. Qed.

Lemma DayWithinYear_range n :
  0 <= DayWithinYear n <= 364 + leapDays (YearFromDay n).
Proof.
  unfold DayWithinYear. pose proof (YearFromDay_spec n) as H.
  rewrite DayFromYear_succ in H. lia.
Qed.

Lemma monthOfYearDay_range d leap : 0 <= monthOfYearDay d leap <= 11.
Proof.
  unfold monthOfYearDay.
  repeat match goal with |- context [if ?c then _ else _] => destruct c end; lia.
Qed.

Lemma MonthFromDay_range n : 0 <= MonthFromDay n <= 11.
Proof. apply monthOfYearDay_range. Qed.

Lemma DateFromDay_range n : 1 <= DateFromDay n <= 31.
Proof.
  unfold DateFromDay, MonthFromDay.
  pose proof (DayWithinYear_range n) as R. pose proof (leapDays_range (YearFromDay n)).
  set (d := DayWithinYear n) in *. set (l := leapDays (YearFromDay n)) in *.
  unfold monthOfYearDay, monthStart.
  repeat match goal with
         | |- context [if ?a <? ?b then _ else _] => destruct (Z.ltb_spec a b)
         end; cbv beta iota delta [monthStart]; lia.
Qed.

(** Composing the day number back from the calendar fields. *)
Lemma MakeDay_fields n k :
  MakeDay (YearFromDay n) (MonthFromDay n) (DateFromDay n + k) = n + k.
Proof.
  unfold MakeDay. pose proof (MonthFromDay_range n) as R.
  rewrite Z.div_small, Z.mod_small by lia. rewrite Z.add_0_r.
  unfold DateFromDay, DayWithinYear. lia.
Qed.

Lemma Day_MakeDate n time : 0 <= time < msPerDay -> Day (MakeDate n time) = n.
Proof. unfold Day, MakeDate, msPerDay. intros H. div_lia. Qed.

Lemma TimeWithinDay_MakeDate n time :
  0 <= time < msPerDay -> TimeWithinDay (MakeDate n time) = time.
Proof. unfold TimeWithinDay, MakeDate, msPerDay. intros H. div_lia. Qed.

Lemma MakeTime_range h m : 0 <= h <= 23 -> 0 <= m <= 59 -> 0 <= MakeTime h m 0 0 < msPerDay.
Proof. unfold MakeTime, msPerHour, msPerMinute, msPerDay. lia. Qed.

Lemma HourFromTime_MakeDate n h m :
  0 <= h <= 23 -> 0 <= m <= 59 -> HourFromTime (MakeDate n (MakeTime h m 0 0)) = h.
Proof.
  unfold HourFromTime, MakeDate, MakeTime, msPerHour, msPerMinute, msPerDay.
  intros. div_lia.
Qed.

Lemma MinFromTime_MakeDate n h m :
  0 <= h <= 23 -> 0 <= m <= 59 -> MinFromTime (MakeDate n (MakeTime h m 0 0)) = m.
Proof.
  unfold MinFromTime, MakeDate, MakeTime, msPerHour, msPerMinute, msPerDay.
  intros. div_lia.
Qed.

Lemma HourFromTime_range t : 0 <= HourFromTime t <= 23.
Proof. unfold HourFromTime. div_lia. Qed.

Lemma MinFromTime_range t : 0 <= MinFromTime t <= 59.
Proof. unfold MinFromTime. div_lia. Qed.

End ESFacts.

(* ================================================================== *)
(** * formatDate and parseDate *)
(* ================================================================== *)

Lemma token_eqb_eq a b : token_eqb a b = true <-> a = b.
Proof. destruct a, b; cbn; split; congruence. Qed.

Lemma token_eqb_refl a : token_eqb a a = true.
Proof. destruct a; reflexivity. Qed.

Lemma token_eqb_sym a b : token_eqb a b = token_eqb b a.
Proof. destruct a, b; reflexivity. Qed.

Lemma no_char_cons c x s :
  no_char c (String x s) = true -> Ascii.eqb c x = false /\ no_char c s = true.
Proof.
  change (no_char c (String x s)) with (negb (Ascii.eqb c x) && no_char c s).
  intros H. apply andb_true_iff in H. destruct H as [H1 H2].
  apply negb_true_iff in H1. auto.
Qed.

Lemma no_char_single c x : Ascii.eqb c x = false -> no_char c (String x EmptyString) = true.
Proof.
  intros H. change (negb (Ascii.eqb c x) && true = true). rewrite H. reflexivity.
Qed.

Lemma no_char_inert c tok s : no_char c s = true -> inert (String c tok) s.
Proof.
  intros H repl rest. induction s as [|x s IH]; [reflexivity|].
  cbn in H. apply andb_true_iff in H. destruct H as [Hx Hs].
  cbn [String.append replace_all_aux].
  unfold starts_with. cbn [strip_prefix].
  apply negb_true_iff in Hx. rewrite Hx. f_equal. apply IH; exact Hs.
Qed.

Lemma replace_pass tok repl f t p :
  f t = tok ->
  (forall rest, replace_all_aux tok repl 0 (tok +++ rest)
                = repl +++ replace_all_aux tok repl 0 rest) ->
  (forall t', t' <> t -> inert tok (f t')) ->
  (forall c, In (Lit c) p -> inert tok (String c EmptyString)) ->
  replace_all tok repl (text f p) = text (upd f t repl) p.
Proof.
  intros Ft Self Other Lits. unfold replace_all.
  induction p as [|i p IH]; [reflexivity|].
  cbn [text]. destruct i as [t'|c]; cbn [item_text].
  - unfold upd at 1. destruct (token_eqb t t') eqn:E.
    + apply token_eqb_eq in E. subst t'. rewrite Ft, Self. f_equal.
      apply IH. intros c I. apply Lits. right; exact I.
    + rewrite (Other t'); [|intros ->; rewrite token_eqb_refl in E; discriminate].
      f_equal. apply IH. intros c I. apply Lits. right; exact I.
  - rewrite (Lits c); [|left; reflexivity]. f_equal.
    apply IH. intros c' I. apply Lits. right; exact I.
Qed.

Lemma zrange_In x start count :
  start <= x < start + Z.of_nat count -> In x (zrange start count).
Proof.
  revert start. induction count as [|k IH]; intros start H; [lia|].
  cbn [zrange]. destruct (Z.eq_dec x start); [left; congruence|].
  right. apply IH. lia.
Qed.

Lemma year_numeral y : 1000 <= y <= 9999 -> numeral 4 y (String_of_Z y) = true.
Proof.
  intros H.
  assert (A : forallb (fun y => numeral 4 y (String_of_Z y)) (zrange 1000 (Z.to_nat 9000)) = true)
    by (vm_compute; reflexivity).
  rewrite forallb_forall in A. apply A. apply zrange_In. lia.
Qed.

Lemma pad_numeral n : 0 <= n <= 99 -> numeral 2 n (padStartNumber n 2) = true.
Proof.
  intros H.
  assert (A : forallb (fun n => numeral 2 n (padStartNumber n 2)) (zrange 0 (Z.to_nat 100)) = true)
    by (vm_compute; reflexivity).
  rewrite forallb_forall in A. apply A. apply zrange_In. lia.
Qed.

Lemma numeral_digits w n s : numeral w n s = true -> all_digits s = true.
Proof. unfold numeral. intros H. apply andb_true_iff in H. destruct H as [H _].
  apply andb_true_iff in H. tauto. Qed.

Lemma numeral_Number w n s : numeral w n s = true -> Number_of (Some s) = Some n.
Proof.
  unfold numeral, Number_of. intros H. apply andb_true_iff in H. destruct H as [_ H].
  destruct (Number_acc s 0); [|discriminate]. apply Z.eqb_eq in H. congruence.
Qed.

Lemma numeral_length w n s : numeral w n s = true -> String.length s = w.
Proof.
  unfold numeral. intros H. apply andb_true_iff in H. destruct H as [H _].
  apply andb_true_iff in H. destruct H as [H _]. apply Nat.eqb_eq in H. exact H.
Qed.

Lemma all_digits_no_char c s :
  is_digit c = false -> all_digits s = true -> no_char c s = true.
Proof.
  intros Hc. induction s as [|x s IH]; [reflexivity|].
  cbn. intros H. apply andb_true_iff in H. destruct H as [Hx Hs].
  rewrite IH by exact Hs. rewrite andb_true_r.
  destruct (Ascii.eqb_spec c x); [subst; congruence|reflexivity].
Qed.

Import ES ESFacts.

Lemma h12_range h : 0 <= h <= 23 ->
  1 <= (if js_rem h 12 =? 0 then 12 else js_rem h 12) <= 12.
Proof.
  intros H. unfold js_rem. rewrite Z.rem_mod_nonneg by lia.
  destruct (Z.eqb_spec (h mod 12) 0); [lia|]. Z.div_mod_to_equations; lia.
Qed.

Lemma rendered_numeral t tk :
  1000 <= YearFromDay (Day t) <= 9999 -> tk <> Ta ->
  numeral (token_width tk) (token_value t tk) (rendered t tk) = true.
Proof.
  intros Y N.
  pose proof (MonthFromDay_range (Day t)). pose proof (DateFromDay_range (Day t)).
  pose proof (HourFromTime_range t) as Hh. pose proof (MinFromTime_range t).
  pose proof (h12_range _ Hh).
  destruct tk; cbn [token_width token_value rendered]; try congruence;
    first [apply year_numeral | apply pad_numeral]; lia.
Qed.

Lemma rendered_digits t tk :
  1000 <= YearFromDay (Day t) <= 9999 -> tk <> Ta -> all_digits (rendered t tk) = true.
Proof. intros Y N. eapply numeral_digits, rendered_numeral; eauto. Qed.

Lemma text_ext f g p : (forall t, f t = g t) -> text f p = text g p.
Proof.
  intros E. induction p as [|[t|c] p IH]; cbn; [reflexivity| |]; rewrite ?E, IH; reflexivity.
Qed.

Lemma plain_not_letter c x :
  plain_char c = true -> token_letter x = true -> Ascii.eqb x c = false.
Proof.
  unfold plain_char. intros H L. apply andb_true_iff in H. destruct H as [H _].
  apply negb_true_iff in H. destruct (Ascii.eqb_spec x c); [subst; congruence|reflexivity].
Qed.

Lemma literals_plain_In p c : literals_plain p = true -> In (Lit c) p -> plain_char c = true.
Proof.
  unfold literals_plain. rewrite forallb_forall. intros H I. exact (H _ I).
Qed.

Lemma literal_inert p c x tok :
  literals_plain p = true -> In (Lit c) p -> token_letter x = true ->
  inert (String x tok) (String c EmptyString).
Proof.
  intros P I L. apply no_char_inert, no_char_single, plain_not_letter;
    eauto using literals_plain_In.
Qed.

Lemma passes_text r p :
  literals_plain p = true ->
  (forall t, t <> Ta ->
     inert "MM" (r t) /\ inert "dd" (r t) /\ inert "HH" (r t)
     /\ inert "hh" (r t) /\ inert "mm" (r t)) ->
  passes r (pattern_text p) = text (six r) p.
Proof.
  intros P I. unfold passes, pattern_text.
  assert (L : forall x tok, token_letter x = true ->
            forall c, In (Lit c) p -> inert (String x tok) (String c EmptyString))
    by (intros; eapply literal_inert; eauto).
  assert (K : forall x tok (t : token), no_char x (token_text t) = true ->
            inert (String x tok) (token_text t)) by (intros; apply no_char_inert; auto).
  rewrite (replace_pass "yyyy" (r Tyyyy) token_text Tyyyy);
    [|reflexivity|reflexivity| |apply L; reflexivity].
  2:{ intros t' N. destruct t'; try congruence; apply K; reflexivity. }
  rewrite (replace_pass "MM" (r TMM) _ TMM);
    [|reflexivity|reflexivity| |apply L; reflexivity].
  2:{ intros t' N. destruct t'; try congruence; cbn [upd token_eqb];
        try (apply K; reflexivity). apply I; congruence. }
  rewrite (replace_pass "dd" (r Tdd) _ Tdd);
    [|reflexivity|reflexivity| |apply L; reflexivity].
  2:{ intros t' N. destruct t'; try congruence; cbn [upd token_eqb];
        try (apply K; reflexivity); apply I; congruence. }
  rewrite (replace_pass "HH" (r THH) _ THH);
    [|reflexivity|reflexivity| |apply L; reflexivity].
  2:{ intros t' N. destruct t'; try congruence; cbn [upd token_eqb];
        try (apply K; reflexivity); apply I; congruence. }
  rewrite (replace_pass "hh" (r Thh) _ Thh);
    [|reflexivity|reflexivity| |apply L; reflexivity].
  2:{ intros t' N. destruct t'; try congruence; cbn [upd token_eqb];
        try (apply K; reflexivity); apply I; congruence. }
  rewrite (replace_pass "mm" (r Tmm) _ Tmm);
    [|reflexivity|reflexivity| |apply L; reflexivity].
  2:{ intros t' N. destruct t'; try congruence; cbn [upd token_eqb];
        try (apply K; reflexivity); apply I; congruence. }
  apply text_ext. intros t. destruct t; reflexivity.
Qed.

Lemma no_a_wa_inert s : no_char "a" s = true -> wa_inert s.
Proof.
  intros H tr r. induction s as [|x s IH]; intros prev rest; [reflexivity|].
  apply no_char_cons in H. destruct H as [Hx Hs].
  cbn [String.append replace_word_a last_word].
  rewrite Ascii.eqb_sym in Hx. rewrite Hx. cbn [andb].
  f_equal. apply IH; exact Hs.
Qed.

Lemma starts_nonword_text f p :
  starts_nonword p = true -> starts_with_word (text f p) = false.
Proof.
  destruct p as [|[t|c] p]; cbn; try discriminate; auto.
  intros H. apply negb_true_iff in H. exact H.
Qed.

Lemma word_pass tr r f p :
  f Ta = "a" ->
  (forall t, t <> Ta -> wa_inert (f t)) ->
  literals_plain p = true ->
  forall pw prev,
    a_alone pw p = true -> (pw = false -> prev = false) ->
    replace_word_a tr r prev (text f p) = text (upd f Ta r) p.
Proof.
  intros Fa I. induction p as [|i p IH]; intros P pw prev A V; [reflexivity|].
  cbn [text]. cbn in P. apply andb_true_iff in P. destruct P as [Pi P].
  destruct i as [t|c]; cbn [item_text].
  - destruct (token_eqb Ta t) eqn:E.
    + apply token_eqb_eq in E. subst t. cbn [a_alone] in A.
      apply andb_true_iff in A. destruct A as [A A3].
      apply andb_true_iff in A. destruct A as [A1 A2].
      apply negb_true_iff in A1. rewrite (V A1). rewrite Fa.
      unfold upd at 1. cbn [token_eqb].
      cbn [String.append replace_word_a]. cbn [Ascii.eqb Bool.eqb andb negb].
      rewrite (starts_nonword_text f p A2). cbn [negb orb].
      rewrite orb_true_r. f_equal. apply (IH P true true A3). discriminate.
    + assert (N : t <> Ta) by (intros ->; discriminate).
      unfold upd at 1. rewrite E. rewrite (I t N). f_equal.
      apply (IH P true); [destruct t; try congruence; exact A|discriminate].
  - assert (C : no_char "a" (String c EmptyString) = true).
    { apply no_char_single, plain_not_letter; auto. }
    rewrite (no_a_wa_inert _ C). cbn [last_word String.append]. f_equal.
    apply (IH P (is_word_char c)); [exact A|auto].
Qed.

(** [formatDate] writes each token's field and keeps the literals. *)
Lemma formatDate_text t p :
  1000 <= YearFromDay (Day t) <= 9999 ->
  literals_plain p = true -> a_alone false p = true ->
  formatDate (DateAt t) (pattern_text p) = text (rendered t) p.
Proof.
  intros Y P A. unfold formatDate.
  change (replace_word_a true (rendered t Ta) false (passes (rendered t) (pattern_text p))
          = text (rendered t) p).
  assert (D : forall x tok tk, tk <> Ta -> is_digit x = false ->
            inert (String x tok) (rendered t tk)).
  { intros. apply no_char_inert, all_digits_no_char; auto using rendered_digits. }
  rewrite passes_text; [|exact P|].
  2:{ intros tk N. repeat split; apply D; auto. }
  rewrite (word_pass true (rendered t Ta) (six (rendered t)) p) with (pw := false);
    auto.
  - apply text_ext. intros tk. destruct tk; reflexivity.
  - intros tk N. apply no_a_wa_inert.
    replace (six (rendered t) tk) with (rendered t tk)
      by (destruct tk; try reflexivity; congruence).
    apply all_digits_no_char; auto using rendered_digits.
Qed.

Lemma text_nonempty f p :
  has_token Tyyyy p = true -> (forall t, f t <> EmptyString) -> text f p <> EmptyString.
Proof.
  intros H F. destruct p as [|[t|c] p]; cbn [text item_text].
  - discriminate H.
  - specialize (F t). destruct (f t); [congruence|discriminate].
  - discriminate.
Qed.

Lemma or_default s : s <> EmptyString -> match s with EmptyString => DEFAULT_FORMAT | _ => s end = s.
Proof. destruct s; congruence. Qed.

Lemma esc_text p :
  has_token Tyyyy p = true -> literals_plain p = true -> a_alone false p = true ->
  date_regex (pattern_text p) = new_RegExp (text sources p).
Proof.
  intros H P A. unfold date_regex.
  rewrite or_default by (apply text_nonempty; [exact H|destruct t; discriminate]).
  cbv zeta. f_equal.
  change (replace_word_a false (sources Ta) false (passes sources (pattern_text p))
          = text sources p).
  rewrite passes_text; [|exact P|].
  2:{ intros tk N. destruct tk; try congruence;
        repeat split; intros repl rest; reflexivity. }
  rewrite (word_pass false (sources Ta) (six sources) p) with (pw := false); auto.
  - apply text_ext. intros tk. destruct tk; reflexivity.
  - intros tk N. destruct tk; try congruence; intros tr r prev rest; reflexivity.
Qed.

Lemma find_group_source g rest :
  find_group all_groups (group_src g +++ rest) = Some (g, rest).
Proof. destruct g; reflexivity. Qed.

Lemma find_group_literal c rest :
  plain_char c = true -> find_group all_groups (String c rest) = None.
Proof.
  intros P.
  assert (E : Ascii.eqb "(" c = false).
  { unfold plain_char in P. apply andb_true_iff in P. destruct P as [_ P].
    destruct (Ascii.eqb_spec "(" c); [subst; discriminate|reflexivity]. }
  unfold all_groups. cbn [find_group group_src strip_prefix]. rewrite E. reflexivity.
Qed.

Lemma plain_atom c :
  plain_char c = true ->
  (if Ascii.eqb c "." then Some AAny
   else if is_syntax_char c then None else Some (ALit c))
  = Some (atom_of (Lit c)).
Proof.
  intros P. cbn [atom_of]. destruct (Ascii.eqb c ".") eqn:E; [reflexivity|].
  unfold plain_char in P. apply andb_true_iff in P. destruct P as [_ P].
  rewrite E, orb_false_r in P. apply negb_true_iff in P. rewrite P. reflexivity.
Qed.

Lemma regex_atoms_text p :
  literals_plain p = true ->
  forall fuel, (List.length p <= fuel)%nat ->
  regex_atoms fuel (text sources p) = Some (map atom_of p).
Proof.
  induction p as [|i p IH]; intros P fuel F; [destruct fuel; reflexivity|].
  cbn in P. apply andb_true_iff in P. destruct P as [Pi P].
  destruct fuel as [|fuel]; [cbn in F; lia|].
  assert (F' : (List.length p <= fuel)%nat) by (cbn in F; lia).
  cbn [text map]. destruct i as [tk|c]; cbn [item_text].
  - unfold sources at 1.
    assert (S : exists x s, group_src (group_of tk) +++ text sources p = String x s)
      by (destruct tk; cbn; eauto).
    destruct S as (x & s & S).
    cbn [regex_atoms]. rewrite S. cbn [regex_atoms]. rewrite <- S.
    rewrite find_group_source. rewrite (IH P fuel F'). reflexivity.
  - cbn [String.append regex_atoms].
    rewrite (find_group_literal c _ Pi).
    pose proof (plain_atom c Pi) as A.
    destruct (Ascii.eqb c "."); [|destruct (is_syntax_char c); [discriminate|]];
      rewrite (IH P fuel F'); cbn [option_map]; congruence.
Qed.

Lemma string_length_append s1 s2 : String.length (s1 +++ s2) = (String.length s1 + String.length s2)%nat.
Proof. induction s1; cbn; auto. Qed.

Lemma text_length f p :
  (forall t, f t <> EmptyString) -> (List.length p <= String.length (text f p))%nat.
Proof.
  intros F. induction p as [|i p IH]; cbn [text List.length]; [lia|].
  rewrite string_length_append.
  assert (1 <= String.length (item_text f i))%nat.
  { destruct i as [t|c]; cbn; [|lia]. specialize (F t). destruct (f t); [congruence|cbn; lia]. }
  lia.
Qed.

Lemma atom_groups_map p : atom_groups (map atom_of p) = map group_of (tokens_of p).
Proof.
  induction p as [|[t|c] p IH]; cbn [map atom_of tokens_of atom_groups]; [reflexivity| |].
  - rewrite IH. reflexivity.
  - destruct (Ascii.eqb c "."); exact IH.
Qed.

Lemma group_of_eqb a b : group_eqb (group_of a) (group_of b) = token_eqb a b.
Proof. destruct a, b; reflexivity. Qed.

Lemma has_duplicate_distinct ts :
  distinct ts = true -> has_duplicate (map group_of ts) = false.
Proof.
  induction ts as [|t ts IH]; [reflexivity|].
  cbn. intros H. apply andb_true_iff in H. destruct H as [H1 H2].
  rewrite (IH H2), orb_false_r. apply negb_true_iff in H1.
  rewrite <- H1. clear. induction ts as [|x ts IH]; [reflexivity|].
  cbn. rewrite group_of_eqb, IH. reflexivity.
Qed.

Lemma date_regex_pattern p :
  well_formed p = true -> date_regex (pattern_text p) = Done (map atom_of p).
Proof.
  unfold well_formed. intros W.
  repeat (apply andb_true_iff in W; destruct W as [W ?]).
  rewrite esc_text by assumption. unfold new_RegExp.
  rewrite regex_atoms_text; [|assumption|apply text_length; destruct t; discriminate].
  rewrite atom_groups_map, has_duplicate_distinct by assumption. reflexivity.
Qed.

Lemma take_digits_all s rest :
  all_digits s = true -> take_digits (String.length s) (s +++ rest) = Some (s, rest).
Proof.
  induction s as [|c s IH]; [reflexivity|].
  cbn [all_digits String.length String.append take_digits].
  intros H. apply andb_true_iff in H. destruct H as [-> H]. rewrite (IH H). reflexivity.
Qed.

Lemma take_digits_numeral w n s rest :
  numeral w n s = true -> take_digits w (s +++ rest) = Some (s, rest).
Proof.
  intros H. rewrite <- (numeral_length _ _ _ H).
  apply take_digits_all. eapply numeral_digits; eauto.
Qed.

Lemma re_match_text rd val p :
  literals_plain p = true ->
  (forall tk, tk <> Ta -> numeral (token_width tk) (val tk) (rd tk) = true) ->
  (rd Ta = "AM" \/ rd Ta = "PM") ->
  forall env, re_match (map atom_of p) (text rd p) env = Some (bound rd p env).
Proof.
  intros P N A. induction p as [|i p IH]; intros env; [reflexivity|].
  cbn in P. apply andb_true_iff in P. destruct P as [Pi P]. specialize (IH P).
  cbn [map text bound]. destruct i as [tk|c]; cbn [item_text atom_of].
  - destruct tk; cbn [group_of re_match].
    + rewrite (take_digits_numeral _ _ _ _ (N Tyyyy ltac:(discriminate))). apply IH.
    + rewrite (take_digits_numeral _ _ _ _ (N TMM ltac:(discriminate))), IH. reflexivity.
    + rewrite (take_digits_numeral _ _ _ _ (N Tdd ltac:(discriminate))), IH. reflexivity.
    + rewrite (take_digits_numeral _ _ _ _ (N THH ltac:(discriminate))), IH. reflexivity.
    + rewrite (take_digits_numeral _ _ _ _ (N Thh ltac:(discriminate))), IH. reflexivity.
    + rewrite (take_digits_numeral _ _ _ _ (N Tmm ltac:(discriminate))), IH. reflexivity.
    + destruct A as [-> | ->]; cbn [String.append strip_prefix Ascii.eqb Bool.eqb];
        rewrite IH; reflexivity.
  - destruct (Ascii.eqb_spec c ".") as [->|Nc]; cbn [String.append re_match].
    + cbn [is_line_terminator Ascii.eqb Bool.eqb orb]. apply IH.
    + rewrite Ascii.eqb_refl. apply IH.
Qed.

Lemma bound_out rd p tk :
  has_token tk p = false -> forall env, bound rd p env (group_of tk) = env (group_of tk).
Proof.
  induction p as [|[t|c] p IH]; cbn [has_token existsb bound]; intros H env; auto.
  - apply orb_false_iff in H. destruct H as [H1 H2].
    rewrite (IH H2). unfold set_group. rewrite group_of_eqb, token_eqb_sym, H1. reflexivity.
Qed.

Lemma bound_in rd p tk :
  has_token tk p = true -> forall env, bound rd p env (group_of tk) = Some (rd tk).
Proof.
  induction p as [|[t|c] p IH]; cbn [has_token existsb bound]; intros H env;
    [discriminate| |apply IH; exact H].
  destruct (has_token tk p) eqn:R; [apply IH; reflexivity|].
  rewrite (bound_out rd p tk R). fold (has_token tk p) in H. rewrite R, orb_false_r in H.
  apply token_eqb_eq in H. subst t. unfold set_group.
  rewrite group_of_eqb, token_eqb_refl. reflexivity.
Qed.

Lemma parsed_hour_range p t : 0 <= parsed_hour p t <= 23.
Proof.
  unfold parsed_hour. pose proof (HourFromTime_range t) as H.
  destruct (has_token THH p), (has_token Thh p), (has_token Ta p); try lia;
    unfold js_rem; rewrite Z.rem_mod_nonneg by lia; Z.div_mod_to_equations; lia.
Qed.

Lemma parsed_minute_range p t : 0 <= parsed_minute p t <= 59.
Proof.
  unfold parsed_minute. pose proof (MinFromTime_range t). destruct (has_token Tmm p); lia.
Qed.

Lemma rendered_nonempty t tk :
  1000 <= YearFromDay (Day t) <= 9999 -> rendered t tk <> EmptyString.
Proof.
  intros Y. destruct (token_eqb tk Ta) eqn:E.
  - apply token_eqb_eq in E. subst. cbn. destruct (12 <=? _); discriminate.
  - assert (N : tk <> Ta) by (intros ->; discriminate).
    pose proof (numeral_length _ _ _ (rendered_numeral t tk Y N)) as L.
    destruct (rendered t tk); [destruct tk; discriminate|discriminate].
Qed.

Lemma hour12_back h :
  0 <= h <= 23 ->
  let h12 := Z.min 12 (Z.max 1 (if js_rem h 12 =? 0 then 12 else js_rem h 12)) in
  js_rem h12 12 = js_rem h 12
  /\ (if 12 <=? h then js_rem h12 12 + 12 else js_rem h12 12) = h.
Proof.
  intros H. cbv zeta. unfold js_rem. rewrite !(Z.rem_mod_nonneg h 12) by lia.
  assert (R : 0 <= h mod 12 < 12) by (apply Z.mod_pos_bound; lia).
  destruct (Z.eqb_spec (h mod 12) 0) as [E|E].
  - rewrite E. cbn. destruct (Z.leb_spec 12 h); Z.div_mod_to_equations; lia.
  - replace (Z.min 12 (Z.max 1 (h mod 12))) with (h mod 12) by lia.
    rewrite Z.rem_mod_nonneg by lia. rewrite Z.mod_mod by lia.
    split; [reflexivity|]. destruct (Z.leb_spec 12 h); Z.div_mod_to_equations; lia.
Qed.

Lemma parse_formatted p t :
  well_formed p = true ->
  1000 <= YearFromDay (Day t) <= 9999 ->
  parseDate (Some (formatDate (DateAt t) (pattern_text p))) (pattern_text p)
  = Done (Some (DateAt (MakeDate (Day t)
                          (MakeTime (parsed_hour p t) (parsed_minute p t) 0 0)))).
Proof.
  intros W Y. pose proof (date_regex_pattern p W) as R.
  unfold well_formed in W.
  repeat (apply andb_true_iff in W; destruct W as [W ?]).
  rewrite formatDate_text by assumption.
  unfold parseDate.
  destruct (text (rendered t) p) as [|c v] eqn:V.
  { exfalso. revert V. apply text_nonempty; auto using rendered_nonempty. }
  rewrite <- V. rewrite R. cbn [bind].
  rewrite (re_match_text (rendered t) (token_value t));
    [|assumption|intros; apply rendered_numeral; auto
     |cbn; destruct (12 <=? _); auto].
  set (g := bound (rendered t) p no_groups).
  assert (In' : forall tk, has_token tk p = true -> g (group_of tk) = Some (rendered t tk))
    by (intros; apply bound_in; auto).
  assert (Out : forall tk, has_token tk p = false -> g (group_of tk) = None)
    by (intros tk O; unfold g; rewrite bound_out by exact O; reflexivity).
  assert (Num : forall tk, tk <> Ta ->
            Number_of (Some (rendered t tk)) = Some (token_value t tk))
    by (intros; eapply numeral_Number, rendered_numeral; eauto).
  change GYear with (group_of Tyyyy). change GMonth with (group_of TMM).
  change GDay with (group_of Tdd). change GHour24 with (group_of THH).
  change GHour12 with (group_of Thh). change GMinute with (group_of Tmm).
  change GAmpm with (group_of Ta).
  rewrite (In' Tyyyy), (In' TMM), (In' Tdd) by assumption.
  rewrite !Num by discriminate. cbn [token_value num_sub].
  pose proof (HourFromTime_range t) as Hh. pose proof (MinFromTime_range t) as Hm.
  assert (EH :
    match g (group_of THH), g (group_of Thh) with
    | Some h24, _ => num_clamp 0 23 (Number_of (Some h24))
    | None, Some h12raw =>
        if test_pm_i match g (group_of Ta) with Some x => x | None => EmptyString end
        then num_add (num_rem (num_clamp 1 12 (Number_of (Some h12raw))) 12) 12
        else num_rem (num_clamp 1 12 (Number_of (Some h12raw))) 12
    | None, None => Some 0
    end = Some (parsed_hour p t)).
  { unfold parsed_hour.
    destruct (has_token THH p) eqn:A.
    - rewrite (In' THH A), Num by discriminate. cbn [token_value num_clamp].
      f_equal. lia.
    - rewrite (Out THH A). destruct (has_token Thh p) eqn:B.
      + rewrite (In' Thh B), Num by discriminate. cbn [token_value num_clamp num_rem].
        destruct (hour12_back _ Hh) as [E1 E2].
        destruct (has_token Ta p) eqn:C.
        * rewrite (In' Ta C). cbn [rendered].
          destruct (12 <=? HourFromTime t) eqn:L; cbn [test_pm_i Ascii.eqb Bool.eqb orb andb];
            cbn [num_add]; f_equal; exact E2.
        * rewrite (Out Ta C). cbn [test_pm_i]. f_equal. exact E1.
      + rewrite (Out Thh B). reflexivity. }
  assert (EM :
    match g (group_of Tmm) with
    | Some mi => num_clamp 0 59 (Number_of (Some mi))
    | None => Some 0
    end = Some (parsed_minute p t)).
  { unfold parsed_minute. destruct (has_token Tmm p) eqn:A.
    - rewrite (In' Tmm A), Num by discriminate. cbn [token_value num_clamp]. f_equal. lia.
    - rewrite (Out Tmm A). reflexivity. }
  cbv zeta. rewrite EH, EM. cbn [new_Date].
  replace ((0 <=? YearFromDay (Day t)) && (YearFromDay (Day t) <=? 99)) with false.
  2:{ symmetry. apply andb_false_iff. right. apply Z.leb_gt. lia. }
  replace (MonthFromDay (Day t) + 1 - 1) with (MonthFromDay (Day t)) by lia.
  pose proof (MakeDay_fields (Day t) 0) as M. rewrite !Z.add_0_r in M. rewrite M.
  reflexivity.
Qed.

(** Claim C1, as amended.  For every date whose year has four digits
    (1000..9999) and every pattern made of the tokens [yyyy], [MM], [dd],
    [HH], [hh], [mm], [a] and of literal characters, in which no token
    occurs twice, [yyyy], [MM] and [dd] occur, the literals are neither
    letters of tokens nor syntax characters of a regular expression (the
    dot excepted) and [a] stands alone ([well_formed]): parsing the
    formatted string with the same pattern returns a date with the same
    year, month and day, the same hour when the pattern has [HH], or [hh]
    together with [a], and the same minute when it has [mm]. *)
Theorem format_parse_round_trip (p : list item) (t : Z) :
  well_formed p = true ->
  1000 <= YearFromDay (Day t) <= 9999 ->
  exists d' : Date,
    parseDate (Some (formatDate (DateAt t) (pattern_text p))) (pattern_text p)
    = Done (Some d')
    /\ getFullYear d' = getFullYear (DateAt t)
    /\ getMonth d' = getMonth (DateAt t)
    /\ getDate d' = getDate (DateAt t)
    /\ (has_hour p = true -> getHours d' = getHours (DateAt t))
    /\ (has_token Tmm p = true -> getMinutes d' = getMinutes (DateAt t)).
Proof.
  intros W Y. eexists. split; [apply parse_formatted; assumption|].
  pose proof (parsed_hour_range p t) as Rh. pose proof (parsed_minute_range p t) as Rm.
  pose proof (MakeTime_range _ _ Rh Rm) as Rt.
  cbn [getFullYear getMonth getDate getHours getMinutes].
  rewrite Day_MakeDate by exact Rt.
  rewrite HourFromTime_MakeDate, MinFromTime_MakeDate by assumption.
  repeat split.
  - intros H. f_equal. unfold has_hour in H. unfold parsed_hour.
    destruct (has_token THH p); [reflexivity|]. cbn in H.
    apply andb_true_iff in H. destruct H as [-> ->]. reflexivity.
  - intros H. unfold parsed_minute. rewrite H. reflexivity.
Qed.

(* ================================================================== *)
(** * clampMinuteToStep *)
(* ================================================================== *)

Lemma nearest_down (m s : Z) :
  0 < s ->
  let q := m / s in
  let r := m mod s in
  forall j, (j <= q -> Z.abs (m - j * s) = (q - j) * s + r)
         /\ (q < j -> Z.abs (m - j * s) = (j - q) * s - r).
Proof.
  intros Hs q r j.
  assert (Hm : m = s * q + r) by (apply Z.div_mod; lia).
  assert (Hr : 0 <= r < s) by (apply Z.mod_pos_bound; lia).
  split; intros Hj.
  - assert (0 <= (q - j) * s) by nia. rewrite Z.abs_eq; nia.
  - assert (s <= (j - q) * s) by nia. rewrite Z.abs_neq; nia.
Qed.

(** Claim C2, as amended.  A negative step returns the minute unchanged;
    the step 0 is replaced by the default step 5; for a positive step [s]
    the result is [v % 60], where [v = k * s] is the multiple of [s]
    nearest to [m], the lower one on a tie, so that [|m - v| <= s / 2]. *)
Theorem clampMinuteToStep_nearest (m s : Z) :
  (s < 0 -> clampMinuteToStep m s = m)
  /\ clampMinuteToStep m 0 = clampMinuteToStep m 5
  /\ (0 < s ->
      exists k : Z,
        clampMinuteToStep m s = js_rem (k * s) 60
        /\ 2 * Z.abs (m - k * s) <= s
        /\ (forall j : Z, Z.abs (m - k * s) <= Z.abs (m - j * s))
        /\ (forall j : Z, Z.abs (m - j * s) = Z.abs (m - k * s) -> k <= j)).
Proof.
  split; [|split].
  - intros Hs. unfold clampMinuteToStep.
    destruct (Z.eqb_spec s 0); [lia|].
    destruct (Z.leb_spec s 0); [reflexivity|lia].
  - reflexivity.
  - intros Hs. unfold clampMinuteToStep, ceil_div.
    destruct (Z.eqb_spec s 0); [lia|].
    destruct (Z.leb_spec s 0); [lia|].
    pose proof (nearest_down m s Hs) as N. cbv zeta in N.
    assert (Hm : m = s * (m / s) + m mod s) by (apply Z.div_mod; lia).
    assert (Hr : 0 <= m mod s < s) by (apply Z.mod_pos_bound; lia).
    set (q := m / s) in *. set (r := m mod s) in *.
    assert (Hup : - (- m / s) = if r =? 0 then q else q + 1).
    { destruct (Z.eqb_spec r 0) as [E|E].
      - assert (- m = (- q) * s) by nia.
        replace (- m) with ((- q) * s) by lia. rewrite Z.div_mul by lia. lia.
      - assert (- m / s = - q - 1); [|lia].
        symmetry. apply (Z.div_unique_pos (- m) s (- q - 1) (s - r)); nia. }
    rewrite Hup.
    assert (Ed : Z.abs (m - q * s) = r) by (rewrite Z.abs_eq; nia).
    rewrite Ed.
    destruct (Z.eqb_spec r 0) as [E|E].
    + (* m is a multiple of s *)
      replace (Z.abs (q * s - m)) with 0 by (rewrite Z.abs_eq; nia).
      destruct (Z.leb_spec r 0); [|lia].
      exists q. split; [reflexivity|]. rewrite Ed.
      split; [lia|]. split.
      * intros j. pose proof (Z.abs_nonneg (m - j * s)). lia.
      * intros j Hj. destruct (Z.le_gt_cases j q) as [L|G]; [|lia].
        destruct (N j) as [N1 _]. specialize (N1 L). nia.
    + replace (Z.abs ((q + 1) * s - m)) with (s - r) by (rewrite Z.abs_eq; nia).
      assert (Eu : Z.abs (m - (q + 1) * s) = s - r) by (rewrite Z.abs_neq; nia).
      destruct (Z.leb_spec r (s - r)) as [L|G].
      * exists q. split; [reflexivity|]. rewrite Ed. split; [lia|]. split.
        -- intros j. destruct (Z.le_gt_cases j q) as [A|A];
             destruct (N j) as [N1 N2]; [specialize (N1 A)|specialize (N2 A)]; nia.
        -- intros j Hj. destruct (Z.le_gt_cases q j) as [A|A]; [lia|].
           destruct (N j) as [N1 _]. assert (B : j <= q) by lia. specialize (N1 B). nia.
      * exists (q + 1). split; [reflexivity|]. rewrite Eu. split; [lia|]. split.
        -- intros j. destruct (Z.le_gt_cases j q) as [A|A];
             destruct (N j) as [N1 N2]; [specialize (N1 A)|specialize (N2 A)]; nia.
        -- intros j Hj. destruct (Z.le_gt_cases j q) as [A|A]; [|lia].
           destruct (N j) as [N1 _]. specialize (N1 A). nia.
Qed.

(* ================================================================== *)
(** * The selection state *)
(* ================================================================== *)

Ltac break_match :=
  match goal with
  | |- context [match ?x with _ => _ end] =>
      match x with
      | context [match _ with _ => _ end] => fail 1
      | _ => destruct x eqn:?
      end
  end.

Ltac frame := repeat (cbn; try reflexivity; try break_match).

Lemma _syncRangeValue_range dp source :
  rangeStart (_syncRangeValue dp source) = rangeStart dp
  /\ rangeEnd (_syncRangeValue dp source) = rangeEnd dp
  /\ options (_syncRangeValue dp source) = options dp.
Proof. unfold _syncRangeValue. frame; auto. Qed.

Lemma _updateRangeTimeInputs_range dp :
  rangeStart (_updateRangeTimeInputs dp) = rangeStart dp
  /\ rangeEnd (_updateRangeTimeInputs dp) = rangeEnd dp
  /\ options (_updateRangeTimeInputs dp) = options dp.
Proof. unfold _updateRangeTimeInputs. frame; auto. Qed.

Lemma range_inv_ext dp dp' :
  rangeStart dp' = rangeStart dp -> rangeEnd dp' = rangeEnd dp ->
  range_inv dp -> range_inv dp'.
Proof. unfold range_inv, range_ordered. intros -> ->. auto. Qed.





Lemma date_lt_valid a b : date_lt a b = true -> isValidDate a = true /\ isValidDate b = true.
Proof. destruct a, b; try discriminate. auto. Qed.



Lemma _handleRangeClick_second dp d start :
  range (options dp) = true ->
  rangeStart dp = Some start -> rangeEnd dp = None ->
  let e := clicked dp d (endHours dp) (endMinutes dp) in
  let dp' := _handleRangeClick dp d in
  rangeStart dp' = Some (if date_lt e start then e else start)
  /\ rangeEnd dp' = Some (if date_lt e start then start else e)
  /\ options dp' = options dp.
Proof.
  intros R S E. unfold _handleRangeClick, clicked. rewrite R, S, E. cbn [negb]. cbv zeta.
  set (e := if enableTime (options dp) then _ else _).
  assert (G : forall x, rangeStart (if negb (confirm (options dp)) && autoClose (options dp)
                                       && negb (inline (options dp)) then close x else x) = rangeStart x
              /\ rangeEnd (if negb (confirm (options dp)) && autoClose (options dp)
                                       && negb (inline (options dp)) then close x else x) = rangeEnd x
              /\ options (if negb (confirm (options dp)) && autoClose (options dp)
                                       && negb (inline (options dp)) then close x else x) = options x).
  { intros x. destruct (_ && _); cbn; auto. }
  match goal with |- context [if _ && _ && _ then close ?x else _] =>
    destruct (G x) as (-> & -> & ->) end.
  match goal with
    | |- context [_updateRangeTimeInputs ?x] =>
        destruct (_updateRangeTimeInputs_range x) as (-> & -> & ->)
  end.
  match goal with
    | |- context [_syncRangeValue ?x ?s] =>
        destruct (_syncRangeValue_range x s) as (-> & -> & ->)
  end.
  destruct (date_lt e start); cbn; rewrite ?S; auto.
Qed.











Lemma setRange_store_range dp a b source :
  let p := order_pair a b in
  rangeStart (setRange_store dp a b source)
    = drop_disabled (options dp) (drop_out_of_bounds (options dp) (fst p))
  /\ rangeEnd (setRange_store dp a b source)
    = drop_disabled (options dp) (drop_out_of_bounds (options dp) (snd p))
  /\ options (setRange_store dp a b source) = options dp.
Proof.
  cbv zeta. unfold setRange_store.
  destruct (order_pair a b) as [s e]. cbn [fst snd].
  set (s' := drop_disabled _ (drop_out_of_bounds _ s)).
  set (e' := drop_disabled _ (drop_out_of_bounds _ e)).
  destruct (enableTime (options dp)).
  - match goal with |- context [_updateRangeTimeInputs ?x] =>
      destruct (_updateRangeTimeInputs_range x) as (A & B & C);
      set (u := _updateRangeTimeInputs x) in *
    end.
    assert (A' : rangeStart u = s') by (rewrite A; destruct s', e'; reflexivity).
    assert (B' : rangeEnd u = e') by (rewrite B; destruct s', e'; reflexivity).
    assert (C' : options u = options dp) by (rewrite C; destruct s', e'; reflexivity).
    clearbody u. clear A B C.
    destruct (rangeStart u) eqn:S; cbn;
      destruct (confirm (options dp)), (onSelectRange (options dp)); cbn;
      rewrite ?S; auto; congruence.
  - cbn. destruct s'; cbn;
      destruct (confirm (options dp)), (onSelectRange (options dp)); cbn; auto.
Qed.


Lemma setRange_clear_range dp source :
  rangeStart (setRange_clear dp source) = None
  /\ rangeEnd (setRange_clear dp source) = None
  /\ options (setRange_clear dp source) = options dp.
Proof.
  unfold setRange_clear.
  destruct (confirm (options dp)), (onSelectRange (options dp)); cbn; auto.
Qed.



Lemma quiet_refl dp : quiet dp dp.
Proof. intros _. auto. Qed.

Lemma quiet_trans m dp dp' : quiet m dp' -> quiet dp m -> quiet dp dp'.
Proof.
  intros H1 H2 C. destruct (H2 C) as (A & B & D).
  destruct H1 as (A' & B' & D'); [congruence|]. repeat split; congruence.
Qed.

Lemma quiet_bind dp m (k : DatePicker -> outcome DatePicker) :
  quiet_outcome dp m -> (forall x, quiet dp x -> quiet_outcome dp (k x)) ->
  quiet_outcome dp (bind m k).
Proof. destruct m; cbn; auto. Qed.

Create HintDb quiet.

Ltac quiet_setter :=
  match goal with
  | |- quiet _ (?f _ ?y) =>
      apply (quiet_trans y); [solve [intros _; repeat split; reflexivity]|]
  | |- quiet _ (?f ?y) =>
      apply (quiet_trans y); [solve [intros _; repeat split; reflexivity]|]
  end.

Ltac quiet_step :=
  first
    [ apply quiet_refl
    | assumption
    | solve [intros C;
             match goal with
             | H : negb (confirm _) = true |- _ => rewrite C in H; discriminate H
             | H : negb (confirm _) && _ = true |- _ => rewrite C in H; discriminate H
             end]
    | eapply quiet_trans; [solve [eauto 1 with quiet]|]
    | quiet_setter
    | match goal with
      | |- quiet _ (if ?c then _ else _) => destruct c eqn:?
      | |- quiet _ (match ?c with _ => _ end) => destruct c eqn:?
      | |- quiet _ (let '(_, _) := ?c in _) => destruct c eqn:?
      end ].

Ltac quiet_auto := repeat quiet_step.

Lemma _syncRangeValue_quiet dp source : quiet dp (_syncRangeValue dp source).
Proof.
  unfold _syncRangeValue. intros C. rewrite C. cbn [negb].
  destruct (onSelectRange _); repeat split; reflexivity.
Qed.
#[local] Hint Resolve _syncRangeValue_quiet : quiet.

Lemma _updateRangeTimeInputs_quiet dp : quiet dp (_updateRangeTimeInputs dp).
Proof. unfold _updateRangeTimeInputs. cbv zeta. quiet_auto. Qed.
#[local] Hint Resolve _updateRangeTimeInputs_quiet : quiet.

Lemma _handleRangeClick_quiet dp d : quiet dp (_handleRangeClick dp d).
Proof. unfold _handleRangeClick. cbv zeta. quiet_auto. Qed.
#[local] Hint Resolve _handleRangeClick_quiet : quiet.

Lemma _applySelection_quiet dp d source : quiet dp (_applySelection dp d source).
Proof.
  unfold _applySelection. intros C. rewrite C. cbn [negb].
  destruct (onSelect _); repeat split; reflexivity.
Qed.
#[local] Hint Resolve _applySelection_quiet : quiet.

Lemma _selectDate_quiet dp d source : quiet dp (_selectDate dp d source).
Proof. unfold _selectDate. cbv zeta. quiet_auto. Qed.
#[local] Hint Resolve _selectDate_quiet : quiet.

Lemma _initTimeFromDate_quiet dp d : quiet dp (_initTimeFromDate dp d).
Proof. unfold _initTimeFromDate. cbv zeta. quiet_auto. Qed.
#[local] Hint Resolve _initTimeFromDate_quiet : quiet.

Lemma _updateTimeInputs_quiet dp : quiet dp (_updateTimeInputs dp).
Proof. unfold _updateTimeInputs. cbv zeta. quiet_auto. Qed.
#[local] Hint Resolve _updateTimeInputs_quiet : quiet.

Lemma _setTime_quiet dp h m u : quiet dp (_setTime dp h m u).
Proof. unfold _setTime. cbv zeta. quiet_auto. Qed.
#[local] Hint Resolve _setTime_quiet : quiet.

Lemma _syncScheduleValue_quiet dp source : quiet dp (_syncScheduleValue dp source).
Proof.
  unfold _syncScheduleValue. intros C. rewrite C. cbn [negb].
  destruct (scheduleMode (options dp)), (onSelectSchedule (options dp));
    repeat split; reflexivity.
Qed.
#[local] Hint Resolve _syncScheduleValue_quiet : quiet.

Lemma _toggleWeeklyDay_quiet dp i u : quiet dp (_toggleWeeklyDay dp i u).
Proof. unfold _toggleWeeklyDay. cbv zeta. quiet_auto. Qed.
#[local] Hint Resolve _toggleWeeklyDay_quiet : quiet.

Lemma _toggleMonthlyDay_quiet dp i u : quiet dp (_toggleMonthlyDay dp i u).
Proof. unfold _toggleMonthlyDay. cbv zeta. quiet_auto. Qed.
#[local] Hint Resolve _toggleMonthlyDay_quiet : quiet.

Lemma setRange_clear_quiet dp source : quiet dp (setRange_clear dp source).
Proof.
  unfold setRange_clear. intros C. rewrite C. cbn [negb].
  destruct (onSelectRange _); repeat split; reflexivity.
Qed.
#[local] Hint Resolve setRange_clear_quiet : quiet.

Lemma setRange_store_quiet dp a b source : quiet dp (setRange_store dp a b source).
Proof. unfold setRange_store. cbv zeta. quiet_auto. Qed.
#[local] Hint Resolve setRange_store_quiet : quiet.

Ltac quiet_cases :=
  repeat match goal with
    | |- quiet_outcome _ (bind ?m _) => destruct m; cbn [bind]
    | |- quiet_outcome _ (match ?x with _ => _ end) => destruct x
    | |- quiet_outcome _ (Done _) => cbn [quiet_outcome]
    | |- quiet_outcome _ (Raise _) => exact I
    end.

Lemma setRange_quiet dp arg source : quiet_outcome dp (setRange dp arg source).
Proof.
  unfold setRange. cbv zeta.
  destruct (negb (range (options dp))); [apply quiet_refl|].
  destruct arg as [|[|c s]|a b|a b|d]; quiet_cases; quiet_auto.
Qed.

Lemma quiet_outcome_step m dp r :
  quiet_outcome m r -> quiet dp m -> quiet_outcome dp r.
Proof. destruct r; cbn; eauto using quiet_trans. Qed.

Lemma setDate_quiet dp arg source : quiet_outcome dp (setDate dp arg source).
Proof.
  unfold setDate. cbv zeta.
  destruct (range (options dp)).
  - destruct (falsy arg); apply setRange_quiet.
  - destruct (falsy arg); [cbn; quiet_auto|].
    destruct (_normalizeDate _ arg) as [[p|]|]; cbn; auto; [|apply quiet_refl].
    destruct (isDateOutOfBounds _ _ _); [apply quiet_refl|].
    destruct (is_disabled _ _); [apply quiet_refl|]. cbn. quiet_auto.
Qed.

Lemma _clearSelection_quiet dp : quiet_outcome dp (_clearSelection dp).
Proof.
  unfold _clearSelection. cbv zeta.
  apply quiet_bind.
  - destruct (scheduleMode (options dp)); [|cbn; quiet_auto..].
    destruct (range (options dp)); [apply setRange_quiet|apply setDate_quiet].
  - intros x Hx. cbn. quiet_auto.
Qed.

Lemma quiet_setRange_after dp m arg source :
  quiet dp m -> quiet_outcome dp (setRange m arg source).
Proof. intros H. eapply quiet_outcome_step; [apply setRange_quiet|exact H]. Qed.

Lemma _selectToday_quiet dp now : quiet_outcome dp (_selectToday dp now).
Proof.
  unfold _selectToday. cbv zeta.
  destruct (scheduleMode (options dp)); [|cbn; quiet_auto..].
  destruct (isDateOutOfBounds _ _ _); [apply quiet_refl|].
  destruct (is_disabled _ _); [apply quiet_refl|].
  destruct (range (options dp)).
  - cbn [rangeStart rangeEnd set_currentViewMonth].
    destruct (rangeStart dp) as [start|], (rangeEnd dp) as [e|];
      repeat match goal with
        | |- quiet_outcome _ (if ?c then _ else _) => destruct c
        | |- quiet_outcome _ (bind _ _) => apply quiet_bind; [|intros x Hx; cbn; quiet_auto]
        | |- quiet_outcome _ (setRange _ _ _) => apply quiet_setRange_after; quiet_auto
        end.
  - cbn. quiet_auto.
Qed.

Lemma click_day_quiet dp d : quiet dp (click_day dp d).
Proof. unfold click_day. cbv zeta. quiet_auto. Qed.

Lemma perform_quiet dp a : quiet_outcome dp (perform dp a).
Proof.
  destruct a; cbn [perform quiet_outcome];
    auto using click_day_quiet, _selectToday_quiet, _clearSelection_quiet,
      _toggleWeeklyDay_quiet, _toggleMonthlyDay_quiet, _setTime_quiet,
      setDate_quiet, setRange_quiet.
Qed.

Lemma date_regex_default : date_regex EmptyString = date_regex DEFAULT_FORMAT.
Proof. reflexivity. Qed.

Lemma parseDate_returns v fmt atoms :
  date_regex fmt = Done atoms -> exists r, parseDate v fmt = Done r.
Proof.
  intros H. unfold parseDate. destruct v as [[|c v]|]; eauto.
  rewrite H. cbn [bind]. destruct (re_match _ _ _); eauto.
Qed.

Lemma format_or_default_compiles o :
  format_compiles o ->
  exists atoms, date_regex (match format o with EmptyString => DEFAULT_FORMAT | f => f end) = Done atoms.
Proof.
  intros [atoms H]. destruct (format o) eqn:F; eauto.
Qed.

Lemma _normalizeDate_returns o a :
  format_compiles o -> exists r, _normalizeDate (Some o) a = Done r.
Proof.
  intros H. destruct (format_or_default_compiles o H) as [atoms A].
  unfold _normalizeDate. destruct a as [|d|[|c s]]; eauto.
  - destruct (isValidDate d); eauto.
    destruct (parseDate_returns (Some "Invalid Date") _ _ A) as [r ->]. cbn. eauto.
  - destruct (parseDate_returns (Some (String c s)) _ _ A) as [r ->]. cbn. eauto.
Qed.

Lemma _parseRangeString_returns o s :
  format_compiles o -> exists r, _parseRangeString o s = Done r.
Proof.
  intros [atoms A]. unfold _parseRangeString.
  destruct (split _ s) as [|p0 [|p1 [|p2 l]]]; eauto.
  destruct (parseDate_returns (Some (trim p0)) _ _ A) as [r0 ->].
  destruct (parseDate_returns (Some (trim p1)) _ _ A) as [r1 ->]. cbn [bind].
  destruct (option_map _ r0), (option_map _ r1); eauto;
    destruct (order_pair _ _); eauto.
Qed.

Lemma setRange_returns dp arg source :
  format_compiles (options dp) -> exists dp', setRange dp arg source = Done dp'.
Proof.
  intros H. unfold setRange. cbv zeta.
  destruct (negb (range (options dp))); eauto.
  destruct arg as [|[|c s]|a b|a b|d]; eauto.
  - destruct (_parseRangeString_returns (options dp) (String c s) H) as [[[rs re]|] ->];
      cbn; eauto.
  - destruct (_normalizeDate_returns (options dp) a H) as [ra ->].
    destruct (_normalizeDate_returns (options dp) b H) as [rb ->]. cbn. eauto.
  - destruct (_normalizeDate_returns (options dp) a H) as [ra ->].
    destruct (_normalizeDate_returns (options dp) b H) as [rb ->]. cbn. eauto.
  - cbn. eauto.
Qed.

Lemma setDate_returns dp arg source :
  format_compiles (options dp) -> exists dp', setDate dp arg source = Done dp'.
Proof.
  intros H. unfold setDate. cbv zeta.
  destruct (range (options dp)).
  - destruct (falsy arg); apply setRange_returns; exact H.
  - destruct (falsy arg); eauto.
    destruct (_normalizeDate_returns (options dp) arg H) as [[p|] ->]; cbn; eauto.
    destruct (isDateOutOfBounds _ _ _); eauto. destruct (is_disabled _ _); eauto.
Qed.

Lemma _clearSelection_returns dp :
  format_compiles (options dp) -> exists dp', _clearSelection dp = Done dp'.
Proof.
  intros H. unfold _clearSelection. cbv zeta.
  destruct (scheduleMode (options dp)); cbn; eauto.
  destruct (range (options dp)).
  - destruct (setRange_returns dp RangeNull "user" H) as [x ->]. cbn. eauto.
  - destruct (setDate_returns dp ArgNull "user" H) as [x ->]. cbn. eauto.
Qed.

Lemma setRange_dates_returns dp (a b : option Date) source :
  valid_opt a -> valid_opt b ->
  exists dp', setRange dp (RangeObject (arg_of_date a) (arg_of_date b)) source = Done dp'.
Proof.
  intros Va Vb. unfold setRange. cbv zeta.
  destruct (negb (range (options dp))); eauto.
  destruct a as [x|], b as [y|]; cbn in Va, Vb; cbn [arg_of_date _normalizeDate];
    rewrite ?Va, ?Vb; cbn; eauto.
Qed.

Lemma _selectToday_returns dp now :
  format_compiles (options dp) -> exists dp', _selectToday dp now = Done dp'.
Proof.
  intros H. unfold _selectToday. cbv zeta.
  destruct (scheduleMode (options dp)); eauto.
  destruct (isDateOutOfBounds _ _ _); eauto.
  destruct (is_disabled _ _); eauto.
  destruct (range (options dp)); eauto.
  cbn [rangeStart rangeEnd set_currentViewMonth].
  destruct (rangeStart dp) as [start|], (rangeEnd dp) as [e|].
  all: repeat match goal with
       | |- exists _, (if ?c then _ else _) = _ => destruct c
       | |- exists _, bind (if ?c then _ else _) _ = _ => destruct c
       | |- exists _, bind (setRange ?x ?a ?s) _ = _ =>
           let r := fresh "r" in
           destruct (setRange_returns x a s H) as [r ->]; cbn [bind]
       end; eauto using setRange_returns.
Qed.

Lemma perform_returns dp a :
  format_compiles (options dp) -> exists dp', perform dp a = Done dp'.
Proof.
  intros H. destruct a; cbn [perform];
    eauto using _selectToday_returns, _clearSelection_returns, setDate_returns,
      setRange_returns.
Qed.

Lemma date_lt_irrefl d : date_lt d d = false.
Proof. destruct d; cbn; auto using Z.ltb_irrefl. Qed.


(** Claim C6, as amended.  Outside range mode, when the candidate, as
    [_normalizeDate] reads it, is out of bounds or rejected by the disable
    predicate, [setDate] returns and leaves every field as it was: the
    selection, the bound field and the log of callback invocations. *)
Theorem setDate_rejected_is_noop (dp : DatePicker) (arg : js_arg) (source : string)
  (p : Date) :
  range (options dp) = false ->
  _normalizeDate (Some (options dp)) arg = Done (Some p) ->
  isDateOutOfBounds p (minDate (options dp)) (maxDate (options dp)) = true
  \/ is_disabled (options dp) p = true ->
  setDate dp arg source = Done dp.
Proof.
  intros R N H. unfold setDate. cbv zeta. rewrite R.
  destruct (falsy arg) eqn:F.
  - destruct arg as [|d|[|c s]]; cbn in F, N; discriminate.
  - rewrite N. cbn [bind]. destruct H as [-> | H]; [reflexivity|].
    rewrite H. destruct (isDateOutOfBounds _ _ _); reflexivity.
Qed.

Lemma _commitValue_writes dp :
  confirm (options dp) = true ->
  inputValue (_commitValue dp) = selection_text dp
  /\ changeEvents (_commitValue dp) = S (changeEvents dp)
  /\ callbacks (_commitValue dp) = callbacks dp ++ commit_notification dp.
Proof.
  intros C. unfold _commitValue, commit_notification, selection_text, _formatScheduleArray.
  cbv zeta. rewrite C. cbn [negb].
  destruct (scheduleMode (options dp)), (range (options dp)), (onSelect (options dp)),
    (onSelectRange (options dp)), (onSelectSchedule (options dp)), (inline (options dp)),
    (selectedDate dp) eqn:S;
    cbn; rewrite ?S, ?app_nil_r; auto.
Qed.

Lemma _applySelection_notifies dp d source :
  onSelect (options dp) = true ->
  callbacks (_applySelection dp d source)
  = callbacks dp ++ [OnSelect (Some d) (formatDate d (format (options dp)))
                       (source_or_api source)].
Proof.
  intros H. unfold _applySelection. cbv zeta. rewrite H.
  destruct (confirm (options dp)); reflexivity.
Qed.

Lemma _syncRangeValue_notifies dp source :
  onSelectRange (options dp) = true ->
  callbacks (_syncRangeValue dp source)
  = callbacks dp ++ [OnSelectRange (rangeStart dp) (rangeEnd dp)
                       (_formatRangeString (options dp) (rangeStart dp) (rangeEnd dp))
                       (source_or_api source)].
Proof.
  intros H. unfold _syncRangeValue. cbv zeta. rewrite H.
  destruct (confirm (options dp)); reflexivity.
Qed.

Lemma _syncScheduleValue_notifies dp source :
  onSelectSchedule (options dp) = true ->
  scheduleMode (options dp) <> ModeNone ->
  callbacks (_syncScheduleValue dp source)
  = callbacks dp ++ [OnSelectSchedule (scheduleMode (options dp))
                       (scheduleWeeklySelected dp) (scheduleMonthlySelected dp)
                       (_formatScheduleArray dp)
                       (join "," (map String_of_Z (_formatScheduleArray dp)))
                       (source_or_api source)].
Proof.
  intros H M. unfold _syncScheduleValue. cbv zeta. rewrite H.
  destruct (scheduleMode (options dp)) eqn:E; [congruence| |];
    destruct (confirm (options dp)); reflexivity.
Qed.

Lemma insert_sorted_HdRel a x l :
  HdRel Z.le a l -> a <= x -> HdRel Z.le a (insert_sorted x l).
Proof.
  intros H L. destruct l as [|y r]; cbn.
  - constructor; exact L.
  - destruct (x <=? y); constructor; auto. inversion H; auto.
Qed.

Lemma insert_sorted_Sorted x l : Sorted Z.le l -> Sorted Z.le (insert_sorted x l).
Proof.
  induction l as [|y r IH]; cbn; intros S.
  - repeat constructor.
  - destruct (Z.leb_spec x y).
    + constructor; auto.
    + inversion S; subst. constructor; auto.
      apply insert_sorted_HdRel; auto. lia.
Qed.

Lemma sort_asc_Sorted l : Sorted Z.le (sort_asc l).
Proof. induction l; cbn; auto using insert_sorted_Sorted. Qed.

Lemma insert_sorted_perm x l : Permutation (x :: l) (insert_sorted x l).
Proof.
  induction l as [|y r IH]; cbn; auto.
  destruct (x <=? y); auto.
  rewrite perm_swap. constructor. exact IH.
Qed.

Lemma sort_asc_perm l : Permutation l (sort_asc l).
Proof.
  induction l as [|x r IH]; cbn; auto.
  rewrite <- insert_sorted_perm. constructor. exact IH.
Qed.

Lemma set_has_In x s : set_has x s = true <-> In x s.
Proof.
  unfold set_has. rewrite existsb_exists. split.
  - intros (y & I & E). apply Z.eqb_eq in E. subst; auto.
  - intros I. exists x. split; auto. apply Z.eqb_refl.
Qed.

Lemma display_without_sunday l :
  set_has 0 l = false -> map display_day (sort_asc l) = sort_asc l.
Proof.
  intros H. rewrite <- map_id. apply map_ext_in. intros v I.
  unfold display_day. destruct (Z.eqb_spec v 0); auto. subst.
  apply (Permutation_in _ (Permutation_sym (sort_asc_perm l))) in I.
  apply set_has_In in I. congruence.
Qed.

Lemma sunday_first l :
  In 0 l -> Forall (fun v => 0 <= v) l ->
  exists rest, sort_asc l = 0 :: rest.
Proof.
  intros I F.
  pose proof (sort_asc_Sorted l) as S. pose proof (sort_asc_perm l) as P.
  apply Sorted_StronglySorted in S; [|intros x y z; apply Z.le_trans].
  destruct (sort_asc l) as [|h t] eqn:E.
  - apply Permutation_sym, Permutation_nil in P. subst. destruct I.
  - exists t. f_equal.
    inversion S as [|? ? _ Hh]; subst.
    assert (Ih : In h l) by (apply (Permutation_in _ (Permutation_sym P)); left; auto).
    rewrite Forall_forall in F. specialize (F h Ih).
    apply (Permutation_in _ P) in I. destruct I as [I|I]; [auto|].
    rewrite Forall_forall in Hh. specialize (Hh 0 I). lia.
Qed.

(** The serialized schedule.  The bound field receives the comma-joined
    schedule array (at once without confirm mode, at commit with it).  In
    weekly mode the array is the selected weekdays sorted ascending by
    their internal value (0 is Sunday) with 0 then written 7: it is
    ascending when Sunday is not selected, and starts with 7 when Sunday
    is selected.  In monthly mode it is the day numbers sorted
    ascending. *)
Theorem schedule_value_order (dp : DatePicker) (source : string) :
  scheduleMode (options dp) <> ModeNone ->
  let array := _formatScheduleArray dp in
  let text := join "," (map String_of_Z array) in
  (confirm (options dp) = false -> inputValue (_syncScheduleValue dp source) = text)
  /\ (confirm (options dp) = true -> inputValue (_commitValue dp) = text)
  /\ (scheduleMode (options dp) = ModeWeekly ->
      let sorted := sort_asc (scheduleWeeklySelected dp) in
      array = map display_day sorted
      /\ Sorted Z.le sorted /\ Permutation (scheduleWeeklySelected dp) sorted
      /\ (set_has 0 (scheduleWeeklySelected dp) = false -> Sorted Z.le array)
      /\ (set_has 0 (scheduleWeeklySelected dp) = true ->
          Forall (fun v => 0 <= v) (scheduleWeeklySelected dp) ->
          exists rest, sorted = 0 :: rest /\ array = 7 :: map display_day rest))
  /\ (scheduleMode (options dp) = ModeMonthly ->
      array = sort_asc (scheduleMonthlySelected dp)
      /\ Sorted Z.le array /\ Permutation (scheduleMonthlySelected dp) array).
Proof.
  intros M. cbv zeta. split; [|split; [|split]].
  - intros C. unfold _syncScheduleValue. cbv zeta. rewrite C.
    destruct (scheduleMode (options dp)); [congruence| |];
      destruct (onSelectSchedule (options dp)); reflexivity.
  - intros C. destruct (_commitValue_writes dp C) as (-> & _).
    unfold selection_text. destruct (scheduleMode (options dp)); [congruence| |]; reflexivity.
  - intros W. unfold _formatScheduleArray. rewrite W.
    split; [reflexivity|]. split; [apply sort_asc_Sorted|].
    split; [apply sort_asc_perm|]. split.
    + intros H. fold display_day. rewrite display_without_sunday by exact H.
      apply sort_asc_Sorted.
    + intros H F. apply set_has_In in H.
      destruct (sunday_first _ H F) as [rest E]. exists rest. split; [exact E|].
      fold display_day. rewrite E. reflexivity.
  - intros W. unfold _formatScheduleArray. rewrite W.
    split; [reflexivity|]. split; [apply sort_asc_Sorted|apply sort_asc_perm].
Qed.

Section Sync.
Variable dp : DatePicker.
Variable source : string.

Lemma _syncScheduleValue_options :
  options (_syncScheduleValue dp source) = options dp.
Proof.
  unfold _syncScheduleValue.
  destruct (scheduleMode (options dp)), (confirm (options dp)),
    (onSelectSchedule (options dp)); reflexivity.
Qed.

Lemma _syncScheduleValue_weekly :
  scheduleWeeklySelected (_syncScheduleValue dp source) = scheduleWeeklySelected dp.
Proof.
  unfold _syncScheduleValue.
  destruct (scheduleMode (options dp)), (confirm (options dp)),
    (onSelectSchedule (options dp)); reflexivity.
Qed.

Lemma _syncScheduleValue_monthly :
  scheduleMonthlySelected (_syncScheduleValue dp source) = scheduleMonthlySelected dp.
Proof.
  unfold _syncScheduleValue.
  destruct (scheduleMode (options dp)), (confirm (options dp)),
    (onSelectSchedule (options dp)); reflexivity.
Qed.
End Sync.

(** Claim C9.  With multi-select off for the active sub-mode, a toggle
    leaves exactly the toggled value (clamped to the range of the
    sub-mode) in the active set, hence at most one element, and does not
    touch the options, so the same holds after every further toggle. *)
Theorem toggle_single_select (dp : DatePicker) (day : Z) (fromUser : bool) :
  single_select dp = true ->
  let dp' := toggle dp day fromUser in
  options dp' = options dp
  /\ (List.length (active_set dp') <= 1)%nat
  /\ (scheduleMode (options dp) = ModeWeekly ->
      scheduleWeeklySelected dp' = [Z.max 0 (Z.min 6 day)])
  /\ (scheduleMode (options dp) = ModeMonthly ->
      scheduleMonthlySelected dp' = [Z.max 1 (Z.min 31 (if day =? 0 then 1 else day))]).
Proof.
  unfold single_select, toggle, active_set. intros H.
  destruct (scheduleMode (options dp)) eqn:M; [discriminate| |].
  - assert (E : scheduleWeeklySelected (_toggleWeeklyDay dp day fromUser)
                = [Z.max 0 (Z.min 6 day)]).
    { unfold _toggleWeeklyDay. rewrite M. cbn [mode_eqb negb].
      apply negb_true_iff in H. rewrite H.
      rewrite _syncScheduleValue_weekly. reflexivity. }
    assert (O : options (_toggleWeeklyDay dp day fromUser) = options dp).
    { unfold _toggleWeeklyDay. rewrite M. cbn [mode_eqb negb].
      rewrite _syncScheduleValue_options. reflexivity. }
    cbv zeta. rewrite O, M, E. cbn. repeat split; auto; discriminate.
  - assert (E : scheduleMonthlySelected (_toggleMonthlyDay dp day fromUser)
                = [Z.max 1 (Z.min 31 (if day =? 0 then 1 else day))]).
    { unfold _toggleMonthlyDay. rewrite M. cbn [mode_eqb negb].
      apply negb_true_iff in H. rewrite H.
      rewrite _syncScheduleValue_monthly. reflexivity. }
    assert (O : options (_toggleMonthlyDay dp day fromUser) = options dp).
    { unfold _toggleMonthlyDay. rewrite M. cbn [mode_eqb negb].
      rewrite _syncScheduleValue_options. reflexivity. }
    cbv zeta. rewrite O, M, E. cbn. repeat split; auto; discriminate.
Qed.

(* ================================================================== *)
(** * Examples, the calendar grid and time selection *)
(* ================================================================== *)

Lemma example_dates :
  now0 = new_Date (Some 2024) (Some 2) (Some 15) (Some 9) (Some 30)
  /\ d_2024_03_10 = new_Date3 (Some 2024) (Some 2) (Some 10)
  /\ d_2024_03_15 = new_Date3 (Some 2024) (Some 2) (Some 15)
  /\ d_2024_03_20 = new_Date3 (Some 2024) (Some 2) (Some 20)
  /\ d_2025_01_01 = new_Date3 (Some 2025) (Some 0) (Some 1)
  /\ d_0999_03_15 = new_Date3 (Some 999) (Some 2) (Some 15)
  /\ d_2024_03_15_1330 = new_Date (Some 2024) (Some 2) (Some 15) (Some 13) (Some 30).
Proof. repeat split; vm_compute; reflexivity. Qed.

Lemma example_pickers :
  constructor EmptyString default_options now0 = Done (picker defaults)
  /\ constructor EmptyString range_options now0 = Done range_picker
  /\ constructor "2024-03-10 - 2024-03-20" bounded_range_options now0
     = Done bounded_range_picker
  /\ constructor EmptyString bounded_options now0 = Done bounded_picker
  /\ constructor EmptyString confirm_options now0 = Done confirm_picker
  /\ constructor EmptyString weekly_options now0 = Done weekly_picker
  /\ constructor EmptyString monthly_single_options now0 = Done monthly_single_picker.
Proof. repeat split; vm_compute; reflexivity. Qed.

Lemma example_patterns :
  pattern_text iso_date = "yyyy-MM-dd"
  /\ pattern_text iso_date_time = "yyyy-MM-dd HH:mm"
  /\ pattern_text date_time_12h = "yyyy-MM-dd hh:mm a"
  /\ well_formed iso_date = true
  /\ well_formed iso_date_time = true
  /\ well_formed date_time_12h = true.
Proof. repeat split; vm_compute; reflexivity. Qed.

(** The round trip of 15 March 2024, 13:30 through [yyyy-MM-dd hh:mm a]. *)
Lemma format_parse_round_trip_witness :
  exists d' : Date,
    parseDate (Some (formatDate (DateAt 1710509400000) (pattern_text date_time_12h)))
      (pattern_text date_time_12h) = Done (Some d')
    /\ getFullYear d' = getFullYear (DateAt 1710509400000)
    /\ getMonth d' = getMonth (DateAt 1710509400000)
    /\ getDate d' = getDate (DateAt 1710509400000)
    /\ (has_hour date_time_12h = true -> getHours d' = getHours (DateAt 1710509400000))
    /\ (has_token Tmm date_time_12h = true ->
        getMinutes d' = getMinutes (DateAt 1710509400000)).
Proof.
  apply (format_parse_round_trip date_time_12h 1710509400000).
  - vm_compute. reflexivity.
  - vm_compute. split; discriminate.
Defined.

(** Claim C1 as stated fails: a year of three digits does not match the
    group of four digits; [hh] without [a] reads 13:30 back as 01:30; a
    pattern without the date tokens gives no date; [a] written next to a
    token is left as it is by [formatDate] but expected as AM or PM by
    [parseDate]; a token written twice names a group twice, which
    [new RegExp] rejects. *)
Lemma format_parse_round_trip_fails :
  (isValidDate d_0999_03_15 = true
   /\ formatDate d_0999_03_15 "yyyy-MM-dd" = "999-03-15"
   /\ parseDate (Some (formatDate d_0999_03_15 "yyyy-MM-dd")) "yyyy-MM-dd" = Done None)
  /\ (getHours d_2024_03_15_1330 = Some 13
      /\ parseDate (Some (formatDate d_2024_03_15_1330 "yyyy-MM-dd hh:mm"))
           "yyyy-MM-dd hh:mm" = Done (Some (DateAt 1710466200000))
      /\ getHours (DateAt 1710466200000) = Some 1)
  /\ parseDate (Some (formatDate d_2024_03_15_1330 "HH:mm")) "HH:mm" = Done None
  /\ (formatDate d_2024_03_15_1330 "yyyy-MM-dd hh:mma" = "2024-03-15 01:30a"
      /\ parseDate (Some (formatDate d_2024_03_15_1330 "yyyy-MM-dd hh:mma"))
           "yyyy-MM-dd hh:mma" = Done None)
  /\ parseDate (Some (formatDate d_2024_03_15_1330 "yyyy-MM-dd yyyy"))
       "yyyy-MM-dd yyyy" = Raise SyntaxError.
Proof. repeat split; vm_compute; reflexivity. Qed.

(** Minute 58 with step 5: the nearest multiple is 60, written 0. *)
Lemma clampMinuteToStep_nearest_witness :
  exists k : Z,
    clampMinuteToStep 58 5 = js_rem (k * 5) 60
    /\ 2 * Z.abs (58 - k * 5) <= 5
    /\ (forall j : Z, Z.abs (58 - k * 5) <= Z.abs (58 - j * 5))
    /\ (forall j : Z, Z.abs (58 - j * 5) = Z.abs (58 - k * 5) -> k <= j).
Proof.
  destruct (clampMinuteToStep_nearest 58 5) as (_ & _ & H).
  apply H. lia.
Defined.

(** Claim C2 as stated fails at step 0: [Number(step) || 5] makes it 5, and
    minute 7 becomes 5. *)
Lemma clampMinuteToStep_zero_step :
  0 <= 0 /\ clampMinuteToStep 7 0 = 5 /\ clampMinuteToStep 7 0 <> 7.
Proof. split; [lia|]. split; [reflexivity|discriminate]. Qed.


(** The scenario of the specification: the stored range is 10 March to
    20 March and the field shows both. *)
Lemma range_clicks_scenario :
  let dp2 := _handleRangeClick (_handleRangeClick range_picker d_2024_03_20) d_2024_03_10 in
  rangeStart dp2 = Some d_2024_03_10 /\ rangeEnd dp2 = Some d_2024_03_20
  /\ inputValue dp2 = "2024-03-10 - 2024-03-20".
Proof. repeat split; vm_compute; reflexivity. Qed.

(** Claim C4 as stated fails: after two clicks on 10 March the end is
    10 March, it is not empty. *)
Lemma same_cell_sets_end :
  let dp1 := _handleRangeClick range_picker d_2024_03_10 in
  rangeStart dp1 = Some d_2024_03_10 /\ rangeEnd dp1 = None
  /\ rangeEnd (_handleRangeClick dp1 d_2024_03_10) = Some d_2024_03_10
  /\ rangeEnd (_handleRangeClick dp1 d_2024_03_10) <> None.
Proof. repeat split; try (vm_compute; reflexivity). vm_compute. discriminate. Qed.

(** Friday, then Monday: the field reads [1,5]. *)
Lemma schedule_value_order_witness :
  let dp := _toggleWeeklyDay (_toggleWeeklyDay weekly_picker 5 true) 1 true in
  inputValue (_syncScheduleValue dp "user") = "1,5"
  /\ Sorted Z.le (_formatScheduleArray dp).
Proof.
  set (dp := _toggleWeeklyDay (_toggleWeeklyDay weekly_picker 5 true) 1 true).
  destruct (schedule_value_order dp "user") as (A & _ & W & _).
  - vm_compute. discriminate.
  - cbv zeta. split.
    + rewrite A by (vm_compute; reflexivity). vm_compute. reflexivity.
    + destruct W as (_ & _ & _ & S & _); [vm_compute; reflexivity|].
      apply S. vm_compute. reflexivity.
Defined.

(** Claim C5.  The weekly value is not always ascending in the
    1=Monday..7=Sunday convention: [_formatScheduleArray] sorts the internal
    values (0 is Sunday) and only then writes 0 as 7, so that Monday and
    Sunday give the array [7,1] and the field [7,1]. *)
Lemma weekly_value_not_ascending :
  let dp := _toggleWeeklyDay (_toggleWeeklyDay weekly_picker 1 true) 0 true in
  scheduleWeeklySelected dp = [1; 0]
  /\ _formatScheduleArray dp = [7; 1]
  /\ inputValue dp = "7,1"
  /\ ~ Sorted Z.le (_formatScheduleArray dp).
Proof.
  repeat split; try (vm_compute; reflexivity).
  intros S. assert (E : _formatScheduleArray
    (_toggleWeeklyDay (_toggleWeeklyDay weekly_picker 1 true) 0 true) = [7; 1])
    by (vm_compute; reflexivity).
  rewrite E in S. inversion S as [|? ? _ Hd]. inversion Hd. lia.
Qed.

(** Bounds 2024-01-01 .. 2024-12-31, candidate 2025-01-01. *)
Lemma setDate_rejected_is_noop_witness :
  setDate bounded_picker (ArgDate d_2025_01_01) "api" = Done bounded_picker.
Proof.
  apply (setDate_rejected_is_noop bounded_picker (ArgDate d_2025_01_01) "api" d_2025_01_01).
  - vm_compute. reflexivity.
  - vm_compute. reflexivity.
  - left. vm_compute. reflexivity.
Defined.

(** Claim C6 as stated fails in range mode, where [setDate] hands the
    candidate to [setRange] as the start: the stored range 10..20 March
    becomes start 20 March without an end, the field is rewritten and
    [onSelectRange] is invoked. *)
Lemma setDate_rejected_in_range_mode :
  isDateOutOfBounds d_2025_01_01 (minDate (options bounded_range_picker))
    (maxDate (options bounded_range_picker)) = true
  /\ rangeStart bounded_range_picker = Some d_2024_03_10
  /\ exists dp',
       setDate bounded_range_picker (ArgDate d_2025_01_01) "api" = Done dp'
       /\ rangeStart dp' = Some d_2024_03_20 /\ rangeEnd dp' = None
       /\ inputValue dp' = "2024-03-20"
       /\ callbacks dp' = [OnSelectRange (Some d_2024_03_20) None "2024-03-20" "api"]
       /\ dp' <> bounded_range_picker.
Proof.
  split; [vm_compute; reflexivity|]. split; [vm_compute; reflexivity|].
  let r := eval vm_compute in (setDate bounded_range_picker (ArgDate d_2025_01_01) "api") in
  match r with Done ?x => exists x end.
  repeat split; try (vm_compute; reflexivity).
  intros E. apply (f_equal changeEvents) in E. vm_compute in E. discriminate.
Qed.

(** Claim C7 as stated fails: in confirm mode a click on 15 March invokes
    [onSelect] at once, before any commit. *)
Lemma confirm_mode_notifies_at_change :
  confirm (options confirm_picker) = true
  /\ callbacks confirm_picker = []
  /\ perform confirm_picker (ClickDay d_2024_03_15)
     = Done (click_day confirm_picker d_2024_03_15)
  /\ callbacks (click_day confirm_picker d_2024_03_15)
     = [OnSelect (Some d_2024_03_15) "2024-03-15" "user"]
  /\ inputValue (click_day confirm_picker d_2024_03_15) = EmptyString
  /\ callbacks (click_day confirm_picker d_2024_03_15) <> callbacks confirm_picker.
Proof. repeat split; try (vm_compute; reflexivity). vm_compute. discriminate. Qed.

(** Monthly schedule, multi off: day 10, then day 20. *)
Lemma toggle_single_select_witness :
  let dp' := toggle (toggle monthly_single_picker 10 true) 20 true in
  options dp' = options (toggle monthly_single_picker 10 true)
  /\ (List.length (active_set dp') <= 1)%nat
  /\ (scheduleMode (options (toggle monthly_single_picker 10 true)) = ModeWeekly ->
      scheduleWeeklySelected dp' = [Z.max 0 (Z.min 6 20)])
  /\ (scheduleMode (options (toggle monthly_single_picker 10 true)) = ModeMonthly ->
      scheduleMonthlySelected dp' = [Z.max 1 (Z.min 31 (if 20 =? 0 then 1 else 20))]).
Proof.
  apply (toggle_single_select (toggle monthly_single_picker 10 true) 20 true).
  vm_compute. reflexivity.
Defined.

(** The scenario of the specification: only day 20 remains. *)
Lemma monthly_single_scenario :
  scheduleMonthlySelected (toggle monthly_single_picker 10 true) = [10]
  /\ scheduleMonthlySelected (toggle (toggle monthly_single_picker 10 true) 20 true) = [20].
Proof. split; vm_compute; reflexivity. Qed.

(** [addDays] moves to midnight of the day [days] days later (years 0..99,
    which [new Date(y, m, d)] reads as 1900 + y, apart). *)
Lemma addDays_days (t k : Z) :
  ~ (0 <= YearFromDay (Day t) <= 99) ->
  addDays (DateAt t) k = DateAt (MakeDate (Day t + k) 0).
Proof.
  intros Y. unfold addDays, new_Date3, new_Date, getFullYear, getMonth.
  cbn [getDate].
  replace ((0 <=? YearFromDay (Day t)) && (YearFromDay (Day t) <=? 99)) with false
    by (symmetry; apply andb_false_iff; rewrite Z.leb_gt, Z.leb_gt; lia).
  pose proof (MakeDay_fields (Day t) 0) as E. rewrite !Z.add_0_r in E. rewrite E.
  change (MakeTime 0 0 0 0) with 0.
  cbn [getDate num_add setDate_day].
  rewrite Day_MakeDate, TimeWithinDay_MakeDate by (unfold msPerDay; lia).
  rewrite MakeDay_fields. reflexivity.
Qed.

(** [startOfWeek] goes back at most six days, to midnight of a day whose
    weekday is [firstDayOfWeek]. *)
Lemma startOfWeek_weekday (t f : Z) :
  ~ (0 <= YearFromDay (Day t) <= 99) -> 0 <= f <= 6 ->
  exists n, startOfWeek (DateAt t) f = DateAt (MakeDate n 0)
    /\ Day t - 6 <= n <= Day t /\ WeekDay n = f.
Proof.
  intros Y F. unfold startOfWeek. cbn [getDay].
  rewrite addDays_days by exact Y. eexists. split; [reflexivity|].
  unfold WeekDay, js_rem. generalize (Day t). intros n.
  assert (0 <= (n + 4) mod 7 < 7) by (apply Z.mod_pos_bound; lia).
  rewrite Z.rem_mod_nonneg by lia.
  split.
  - assert (0 <= ((n + 4) mod 7 - f + 7) mod 7 < 7) by (apply Z.mod_pos_bound; lia).
    lia.
  - Z.div_mod_to_equations. lia.
Qed.

Lemma render_days_length dp now g count i grid :
  List.length (render_days dp now g count i grid) = (List.length grid + count)%nat.
Proof.
  revert i grid. induction count as [|k IH]; intros i grid; cbn [render_days].
  - lia.
  - rewrite IH, length_app. cbn. lia.
Qed.

Lemma render_days_old dp now g count i grid k :
  (k < List.length grid)%nat ->
  nth_error (render_days dp now g count i grid) k = nth_error grid k.
Proof.
  revert i grid. induction count as [|n IH]; intros i grid H; cbn [render_days]; auto.
  rewrite IH by (rewrite length_app; cbn; lia).
  apply nth_error_app1. exact H.
Qed.

Lemma render_days_new dp now g count i grid k :
  (k < count)%nat ->
  nth_error (render_days dp now g count i grid) (List.length grid + k)
  = Some (render_day dp now g (i + Z.of_nat k)).
Proof.
  revert i grid k. induction count as [|n IH]; intros i grid k H; [lia|].
  cbn [render_days]. destruct k as [|k].
  - rewrite render_days_old by (rewrite length_app; cbn; lia).
    rewrite Nat.add_0_r, nth_error_app2, Nat.sub_diag by lia.
    cbn. rewrite Z.add_0_r. reflexivity.
  - replace (List.length grid + S k)%nat
      with (List.length (grid ++ [render_day dp now g i]) + k)%nat
      by (rewrite length_app; cbn; lia).
    rewrite IH by lia. f_equal. f_equal. lia.
Qed.

(** March 2024 with the week starting on Sunday: the grid runs from
    25 February to 6 April, and without the outside days the first five
    and the last six cells are placeholders. *)
Lemma march_2024_grid :
  nth_error (_render (picker defaults) now0) 0
  = Some (DayCell (DateAt 1708819200000) true false false false)
  /\ nth_error (_render (picker defaults) now0) 5
     = Some (DayCell (DateAt 1709251200000) false false false false)
  /\ nth_error (_render (picker defaults) now0) 41
     = Some (DayCell (DateAt 1712361600000) true false false false)
  /\ List.length (_render (picker (set_showOutsideDays false defaults)) now0) = 42%nat
  /\ nth_error (_render (picker (set_showOutsideDays false defaults)) now0) 0 = Some Filler
  /\ nth_error (_render (picker (set_showOutsideDays false defaults)) now0) 5
     = Some (DayCell (DateAt 1709251200000) false false false false).
Proof. repeat split; vm_compute; reflexivity. Qed.

(** What does hold for claim C10: after the first block of the
    constructor a time-enabled picker has confirm on. *)
Lemma constructor_time_forces_confirm (io : InitialOptions) (o : Options) :
  constructor_options io = Done o ->
  (enableTime o = true -> confirm o = true)
  /\ (i_enableTime io = true -> i_scheduleMode io = ModeNone -> enableTime o = true).
Proof.
  unfold constructor_options.
  destruct (_normalizeDate None (i_minDate io)) as [mn|]; cbn [bind]; [|discriminate].
  destruct (_normalizeDate None (i_maxDate io)) as [mx|]; cbn [bind]; [|discriminate].
  cbn [scheduleMode enableTime].
  destruct (i_scheduleMode io), (i_enableTime io); cbn; intros [= <-]; cbn;
    split; congruence.
Qed.

(** What claim C10 says of [updateOptions({ enableTime: true })] outside
    schedule mode, on a picker without time selection: the call switches
    time selection and confirm on, and then throws, because it inserts the
    new time row before a footer that is no child of [calendarElement]. *)
Lemma updateOptions_time_only (dp : DatePicker) :
  scheduleMode (options dp) = ModeNone ->
  enableTime (options dp) = false ->
  timeRow dp = false -> timeRangeRow dp = false ->
  exists dp',
    updateOptions_run dp time_only = Throws NotFoundError dp'
    /\ updateOptions dp time_only = Raise NotFoundError
    /\ enableTime (options dp') = true /\ confirm (options dp') = true
    /\ doneButton dp' = (doneButton dp || negb (confirm (options dp))).
Proof.
  destruct dp as [o sel wk mo rs re hov sh sm eh em foc view isop th tm dg tr trr done
                  value events cbs].
  destruct o as [fmt fdow mn mx dis os osr oss oof ac sod inl et step h12 rg sep cf
                 mode wm mm wd].
  cbn [options scheduleMode enableTime timeRow timeRangeRow]. intros -> -> -> ->.
  unfold updateOptions, updateOptions_run, time_only, on_key, in_schedule_mode,
    ensure_timeRow, ensure_timeRangeRow, calendarElement_insertBefore_footer.
  cbn [p_onSelectSchedule p_scheduleWeeklyMulti p_scheduleMonthlyMulti p_scheduleMode
       p_format p_firstDayOfWeek p_minDate p_maxDate p_disableDates p_openOnFocus
       p_autoClose p_showOutsideDays p_inline p_enableTime p_timeStep p_hour12 p_range
       p_rangeSeparator p_confirm and_then].
  unfold _buildTimeControls, _buildRangeTimeControls, _updateTimeInputs,
    _initTimeFromDate, _updateRangeTimeInputs.
  destruct cf, rg, done, sel as [[|t]|], rs as [[|t1]|], re as [[|t2]|];
    cbn; eexists; (split; [reflexivity|]); cbn; auto.
Qed.

(** The same call with [confirm: false] besides: it throws in the
    [enableTime] branch and never reaches the [confirm] key. *)
Lemma time_without_confirm_throws :
  exists dp',
    updateOptions_run (picker defaults) time_without_confirm = Throws NotFoundError dp'
    /\ enableTime (options dp') = true /\ confirm (options dp') = true
    /\ doneButton dp' = true /\ timeRow dp' = true.
Proof. eexists. split; [vm_compute; reflexivity|]. repeat split. Qed.

(** Claim C10 does not hold after [updateOptions({ confirm: false })].  A
    picker built with
    [{ enableTime: true }] has confirm forced on; [updateOptions({ confirm:
    false })] on it reaches the [confirm] key, which no test of
    [enableTime] guards: it switches confirm off and removes the Done
    button, so the picker ends with time selection on and confirm mode
    off. *)
Theorem time_enabled_without_confirm :
  exists dp dp',
    constructor EmptyString time_options now0 = Done dp
    /\ enableTime (options dp) = true /\ confirm (options dp) = true
    /\ doneButton dp = true
    /\ updateOptions dp confirm_off = Done dp'
    /\ enableTime (options dp') = true
    /\ confirm (options dp') = false
    /\ doneButton dp' = false.
Proof.
  let r := eval vm_compute in (constructor EmptyString time_options now0) in
  match r with Done ?x => exists x;
    let r2 := eval vm_compute in (updateOptions x confirm_off) in
    match r2 with Done ?y => exists y end end.
  repeat split; vm_compute; reflexivity.
Qed.

(* ================================================================== *)
(** * Further properties: dates, navigation, schedules, parsing and highlighting *)
(* ================================================================== *)

Ltac month_cases m :=
  let C := fresh "C" in
  assert (m = 0 \/ m = 1 \/ m = 2 \/ m = 3 \/ m = 4 \/ m = 5 \/ m = 6 \/ m = 7 \/ m = 8
          \/ m = 9 \/ m = 10 \/ m = 11) as C by lia;
  repeat (destruct C as [C|C]); subst m.

Lemma DayFromYear_mono y y' : y < y' -> DayFromYear (y + 1) <= DayFromYear y'.
Proof. unfold DayFromYear. intros H. div_lia. Qed.

Lemma YearFromDay_unique y n :
  DayFromYear y <= n < DayFromYear (y + 1) -> YearFromDay n = y.
Proof.
  intros H. pose proof (YearFromDay_spec n) as S.
  destruct (Z.lt_trichotomy (YearFromDay n) y) as [L|[E|G]]; [|exact E|].
  - pose proof (DayFromYear_mono _ _ L). lia.
  - pose proof (DayFromYear_mono _ _ G). lia.
Qed.

Lemma daysInMonth_range y m : 28 <= daysInMonth y m <= 31.
Proof.
  unfold daysInMonth. pose proof (leapDays_range y).
  repeat match goal with |- context [match ?x with _ => _ end] => destruct x end; lia.
Qed.

Lemma monthStart_end y m :
  0 <= m <= 11 ->
  0 <= monthStart m (leapDays y)
  /\ monthStart m (leapDays y) + daysInMonth y m <= 365 + leapDays y.
Proof.
  intros H. pose proof (leapDays_range y). month_cases m;
    cbv beta iota delta [monthStart daysInMonth]; lia.
Qed.

Lemma monthOfYearDay_monthStart y m d :
  0 <= m <= 11 -> 1 <= d <= daysInMonth y m ->
  monthOfYearDay (monthStart m (leapDays y) + d - 1) (leapDays y) = m.
Proof.
  intros H Hd. pose proof (leapDays_range y). unfold monthOfYearDay.
  month_cases m; cbv beta iota delta [monthStart daysInMonth] in Hd |- *;
    repeat match goal with
           | |- context [if ?a <? ?b then _ else _] => destruct (Z.ltb_spec a b)
           end; lia.
Qed.

Lemma MakeDay_small y m d :
  0 <= m <= 11 -> MakeDay y m d = DayFromYear y + monthStart m (leapDays y) + d - 1.
Proof. intros H. unfold MakeDay. rewrite Z.div_small, Z.mod_small, Z.add_0_r by lia. lia. Qed.

(** The calendar fields of the day that [MakeDay] composes. *)
Lemma MakeDay_inv y m d :
  0 <= m <= 11 -> 1 <= d <= daysInMonth y m ->
  YearFromDay (MakeDay y m d) = y
  /\ MonthFromDay (MakeDay y m d) = m
  /\ DateFromDay (MakeDay y m d) = d.
Proof.
  intros Hm Hd. rewrite MakeDay_small by exact Hm.
  pose proof (monthStart_end y m Hm) as E.
  assert (Y : YearFromDay (DayFromYear y + monthStart m (leapDays y) + d - 1) = y).
  { apply YearFromDay_unique. rewrite DayFromYear_succ. lia. }
  assert (M : MonthFromDay (DayFromYear y + monthStart m (leapDays y) + d - 1) = m).
  { unfold MonthFromDay, DayWithinYear. rewrite Y.
    replace (DayFromYear y + monthStart m (leapDays y) + d - 1 - DayFromYear y)
      with (monthStart m (leapDays y) + d - 1) by lia.
    apply monthOfYearDay_monthStart; assumption. }
  split; [exact Y|]. split; [exact M|].
  unfold DateFromDay, DayWithinYear. rewrite M, Y. lia.
Qed.

(** [MakeDay] carries a month outside 0..11 into the year. *)
Lemma MakeDay_normal y m d :
  MakeDay y m d = MakeDay (y + m / 12) (m mod 12) d.
Proof.
  unfold MakeDay. pose proof (Z.mod_pos_bound m 12 ltac:(lia)).
  rewrite (Z.div_small (m mod 12)), (Z.mod_small (m mod 12)) by lia.
  rewrite Z.add_0_r. reflexivity.
Qed.

Lemma MakeDay_next_month y m :
  0 <= m <= 11 -> MakeDay y (m + 1) 0 = MakeDay y m (daysInMonth y m).
Proof.
  intros H. rewrite (MakeDay_small y m) by exact H.
  destruct (Z.eq_dec m 11) as [->|N].
  - unfold MakeDay. change ((11 + 1) / 12) with 1. change ((11 + 1) mod 12) with 0.
    rewrite DayFromYear_succ. cbv beta iota delta [monthStart daysInMonth]. lia.
  - rewrite MakeDay_small by lia. pose proof (leapDays_range y).
    assert (exists m', m' = m + 1) as [m' E] by eauto. rewrite <- E.
    month_cases m; try lia; assert (m' = 1 \/ m' = 2 \/ m' = 3 \/ m' = 4 \/ m' = 5
      \/ m' = 6 \/ m' = 7 \/ m' = 8 \/ m' = 9 \/ m' = 10 \/ m' = 11) as C' by lia;
      repeat (destruct C' as [C'|C']); try lia; clear E; subst m';
      cbv beta iota delta [monthStart daysInMonth]; lia.
Qed.

Lemma new_Date3_plain y m d :
  ~ (0 <= y <= 99) ->
  new_Date3 (Some y) (Some m) (Some d) = DateAt (MakeDate (MakeDay y m d) 0).
Proof.
  intros Y. unfold new_Date3, new_Date.
  replace ((0 <=? y) && (y <=? 99)) with false
    by (symmetry; apply andb_false_iff; rewrite Z.leb_gt, Z.leb_gt; lia).
  reflexivity.
Qed.

Lemma Day_midnight n : Day (MakeDate n 0) = n.
Proof. apply Day_MakeDate. unfold msPerDay. lia. Qed.

Lemma TimeWithinDay_midnight n : TimeWithinDay (MakeDate n 0) = 0.
Proof. apply TimeWithinDay_MakeDate. unfold msPerDay. lia. Qed.

Lemma fields_day n : MakeDay (YearFromDay n) (MonthFromDay n) (DateFromDay n) = n.
Proof. pose proof (MakeDay_fields n 0) as E. rewrite !Z.add_0_r in E. exact E. Qed.

Lemma startOfDay_plain t :
  ~ (0 <= YearFromDay (Day t) <= 99) ->
  startOfDay (DateAt t) = DateAt (MakeDate (Day t) 0).
Proof.
  intros Y. unfold startOfDay. cbn [getFullYear getMonth getDate].
  rewrite new_Date3_plain by exact Y. rewrite fields_day. reflexivity.
Qed.

Lemma same_day_iff a b :
  areSameCalendarDate (DateAt a) (DateAt b) = true <-> Day a = Day b.
Proof.
  unfold areSameCalendarDate.
  cbn [isValidDate negb orb getFullYear getMonth getDate num_eqb]. split.
  - intros H. apply andb_true_iff in H. destruct H as [H D].
    apply andb_true_iff in H. destruct H as [Y M].
    apply Z.eqb_eq in Y, M, D.
    rewrite <- (fields_day (Day a)), <- (fields_day (Day b)). congruence.
  - intros ->. rewrite !Z.eqb_refl. reflexivity.
Qed.

Lemma addDays_plain t k :
  ~ (0 <= YearFromDay (Day t) <= 99) ->
  addDays (DateAt t) k = DateAt (MakeDate (Day t + k) 0).
Proof.
  intros Y. unfold addDays. cbn [getFullYear getMonth getDate].
  rewrite new_Date3_plain by exact Y. rewrite fields_day.
  cbn [getDate num_add setDate_day].
  rewrite Day_midnight, TimeWithinDay_midnight, MakeDay_fields. reflexivity.
Qed.

Lemma startOfWeek_plain t f :
  ~ (0 <= YearFromDay (Day t) <= 99) -> 0 <= f <= 6 ->
  startOfWeek (DateAt t) f = DateAt (MakeDate (Day t - (WeekDay (Day t) - f) mod 7) 0).
Proof.
  intros Y F. unfold startOfWeek. cbn [getDay].
  rewrite addDays_plain by exact Y. unfold js_rem.
  assert (0 <= WeekDay (Day t) < 7) by (unfold WeekDay; apply Z.mod_pos_bound; lia).
  rewrite Z.rem_mod_nonneg by lia.
  replace ((WeekDay (Day t) - f + 7) mod 7) with ((WeekDay (Day t) - f) mod 7)
    by (rewrite <- (Z.mod_add (WeekDay (Day t) - f) 1 7) by lia; f_equal; lia).
  reflexivity.
Qed.

Lemma startOfMonth_plain t :
  ~ (0 <= YearFromDay (Day t) <= 99) ->
  startOfMonth (DateAt t) = DateAt (MakeDate (Day t - DateFromDay (Day t) + 1) 0).
Proof.
  intros Y. unfold startOfMonth. cbn [getFullYear getMonth].
  rewrite new_Date3_plain by exact Y.
  pose proof (MakeDay_fields (Day t) (1 - DateFromDay (Day t))) as E.
  replace (DateFromDay (Day t) + (1 - DateFromDay (Day t))) with 1 in E by lia.
  rewrite E. f_equal. f_equal. lia.
Qed.

(** The date of a day is at most the length of its month. *)
Lemma DateFromDay_le n :
  DateFromDay n <= daysInMonth (YearFromDay n) (MonthFromDay n).
Proof.
  unfold DateFromDay, MonthFromDay.
  pose proof (DayWithinYear_range n) as R. pose proof (leapDays_range (YearFromDay n)).
  set (d := DayWithinYear n) in *. set (l := leapDays (YearFromDay n)) in *.
  unfold monthOfYearDay.
  repeat match goal with
         | |- context [if ?a <? ?b then _ else _] => destruct (Z.ltb_spec a b)
         end; cbv beta iota delta [monthStart daysInMonth]; fold l; lia.
Qed.

(** The fields of the days of the month of day [n]. *)
Lemma month_day_fields n d :
  1 <= d <= daysInMonth (YearFromDay n) (MonthFromDay n) ->
  YearFromDay (n - DateFromDay n + d) = YearFromDay n
  /\ MonthFromDay (n - DateFromDay n + d) = MonthFromDay n
  /\ DateFromDay (n - DateFromDay n + d) = d.
Proof.
  intros H.
  pose proof (MakeDay_fields n (d - DateFromDay n)) as E.
  replace (DateFromDay n + (d - DateFromDay n)) with d in E by lia.
  replace (n - DateFromDay n + d) with (n + (d - DateFromDay n)) by lia.
  rewrite <- E. apply MakeDay_inv; [apply MonthFromDay_range|exact H].
Qed.

Lemma DayFromYear_le y y' : y <= y' -> DayFromYear y <= DayFromYear y'.
Proof. unfold DayFromYear. intros H. div_lia. Qed.

Lemma YearFromDay_mono n n' : n <= n' -> YearFromDay n <= YearFromDay n'.
Proof.
  intros H. pose proof (YearFromDay_spec n) as S. pose proof (YearFromDay_spec n') as S'.
  destruct (Z.le_gt_cases (YearFromDay n) (YearFromDay n')) as [L|G]; [exact L|].
  pose proof (DayFromYear_le (YearFromDay n' + 1) (YearFromDay n) ltac:(lia)). lia.
Qed.

Lemma plain_year y : 100 <= y -> ~ (0 <= y <= 99).
Proof. lia. Qed.

Lemma endOfMonth_plain t :
  ~ (0 <= YearFromDay (Day t) <= 99) ->
  endOfMonth (DateAt t)
  = DateAt (MakeDate (Day t - DateFromDay (Day t)
                      + daysInMonth (YearFromDay (Day t)) (MonthFromDay (Day t))) 0).
Proof.
  intros Y. unfold endOfMonth. cbn [getFullYear getMonth num_add].
  rewrite new_Date3_plain by exact Y.
  rewrite MakeDay_next_month by apply MonthFromDay_range.
  set (dim := daysInMonth _ _).
  pose proof (MakeDay_fields (Day t) (dim - DateFromDay (Day t))) as E.
  replace (DateFromDay (Day t) + (dim - DateFromDay (Day t))) with dim in E by lia.
  rewrite E. f_equal. f_equal. lia.
Qed.

Lemma addMonths_plain t k :
  ~ (0 <= YearFromDay (Day t) <= 99) ->
  addMonths (DateAt t) k
  = DateAt (MakeDate (MakeDay (YearFromDay (Day t)) (MonthFromDay (Day t) + k) 1) 0).
Proof.
  intros Y. unfold addMonths. cbn [getFullYear getMonth].
  rewrite new_Date3_plain by exact Y.
  pose proof (MakeDay_inv (YearFromDay (Day t)) (MonthFromDay (Day t)) 1
                (MonthFromDay_range _)) as (A & B & C).
  { pose proof (daysInMonth_range (YearFromDay (Day t)) (MonthFromDay (Day t))). lia. }
  cbn [getMonth num_add setMonth].
  rewrite Day_midnight, TimeWithinDay_midnight, A, B, C. reflexivity.
Qed.

(** The fields of the first day of the month [k] months from month [m]
    of year [y]. *)
Lemma MakeDay_first y m :
  YearFromDay (MakeDay y m 1) = y + m / 12
  /\ MonthFromDay (MakeDay y m 1) = m mod 12
  /\ DateFromDay (MakeDay y m 1) = 1.
Proof.
  rewrite MakeDay_normal. apply MakeDay_inv.
  - pose proof (Z.mod_pos_bound m 12). lia.
  - pose proof (daysInMonth_range (y + m / 12) (m mod 12)). lia.
Qed.

(** X1.  Two valid dates are the same calendar date exactly when they
    fall on the same day number; an invalid date is the same calendar date
    as none. *)
Theorem areSameCalendarDate_same_day :
  (forall d, areSameCalendarDate InvalidDate d = false
             /\ areSameCalendarDate d InvalidDate = false)
  /\ forall a b : Z, areSameCalendarDate (DateAt a) (DateAt b) = true <-> Day a = Day b.
Proof.
  split.
  - intros d. split; [reflexivity|]. destruct d; reflexivity.
  - apply same_day_iff.
Qed.

(** X2.  From the year 100 on, [startOfDay] is the midnight that begins
    the day of the date: same calendar date, at most a day earlier, and a
    fixed point of [startOfDay]. *)
Theorem startOfDay_midnight (t : Z) :
  100 <= YearFromDay (Day t) ->
  exists t0,
    startOfDay (DateAt t) = DateAt t0
    /\ TimeWithinDay t0 = 0 /\ t0 <= t < t0 + msPerDay
    /\ areSameCalendarDate (DateAt t0) (DateAt t) = true
    /\ startOfDay (DateAt t0) = DateAt t0.
Proof.
  intros Y. apply plain_year in Y. exists (MakeDate (Day t) 0).
  assert (D : Day (MakeDate (Day t) 0) = Day t) by apply Day_midnight.
  split; [apply startOfDay_plain; exact Y|].
  split; [apply TimeWithinDay_midnight|].
  split; [unfold MakeDate, Day, msPerDay; div_lia|].
  split; [apply same_day_iff; exact D|].
  rewrite startOfDay_plain by (rewrite D; exact Y). rewrite D. reflexivity.
Qed.

Lemma startOfDay_midnight_witness :
  exists t0,
    startOfDay (DateAt 1710509400000) = DateAt t0
    /\ TimeWithinDay t0 = 0 /\ t0 <= 1710509400000 < t0 + msPerDay
    /\ areSameCalendarDate (DateAt t0) (DateAt 1710509400000) = true
    /\ startOfDay (DateAt t0) = DateAt t0.
Proof. apply (startOfDay_midnight 1710509400000). vm_compute. discriminate. Defined.

(** X3.  [addDays] adds whole days and composes additively: moving by [a]
    days and then by [b] days is moving by [a + b] days (both dates from
    the year 100 on); the result is the midnight of that day. *)
Theorem addDays_compose (t a b : Z) :
  100 <= YearFromDay (Day t) ->
  100 <= YearFromDay (Day t + a) ->
  addDays (addDays (DateAt t) a) b = addDays (DateAt t) (a + b)
  /\ addDays (DateAt t) (a + b) = DateAt ((Day t + a + b) * msPerDay).
Proof.
  intros Y Y'. apply plain_year in Y, Y'. rewrite (addDays_plain t a) by exact Y.
  rewrite addDays_plain by (rewrite Day_midnight; exact Y').
  rewrite Day_midnight, addDays_plain by exact Y.
  unfold MakeDate. split; f_equal; lia.
Qed.

Lemma addDays_compose_witness :
  addDays (addDays (DateAt 1710509400000) 20) (-3) = addDays (DateAt 1710509400000) (20 + -3)
  /\ addDays (DateAt 1710509400000) (20 + -3)
     = DateAt ((Day 1710509400000 + 20 + -3) * msPerDay).
Proof.
  apply (addDays_compose 1710509400000 20 (-3)).
  - vm_compute. discriminate.
  - vm_compute. discriminate.
Defined.

(** X4.  For a first day of the week in 0..6 (dates from the year 100
    on), [startOfWeek] is the midnight of the last day, at or before the
    date, whose weekday is [firstDayOfWeek], and [endOfWeek] is the
    midnight six days later: the week holds the date. *)
Theorem week_bounds (t f : Z) :
  100 <= YearFromDay (Day t - 6) -> 0 <= f <= 6 ->
  exists n,
    startOfWeek (DateAt t) f = DateAt (n * msPerDay)
    /\ endOfWeek (DateAt t) f = DateAt ((n + 6) * msPerDay)
    /\ WeekDay n = f
    /\ n <= Day t <= n + 6.
Proof.
  intros Y6 F. exists (Day t - (WeekDay (Day t) - f) mod 7).
  pose proof (Z.mod_pos_bound (WeekDay (Day t) - f) 7 ltac:(lia)) as B.
  assert (Y : ~ (0 <= YearFromDay (Day t) <= 99)).
  { pose proof (YearFromDay_mono (Day t - 6) (Day t) ltac:(lia)). lia. }
  assert (Y' : ~ (0 <= YearFromDay (Day t - (WeekDay (Day t) - f) mod 7) <= 99)).
  { pose proof (YearFromDay_mono (Day t - 6) (Day t - (WeekDay (Day t) - f) mod 7)
                  ltac:(lia)). lia. }
  unfold endOfWeek. rewrite startOfWeek_plain by assumption.
  rewrite addDays_plain by (rewrite Day_midnight; exact Y').
  rewrite Day_midnight. unfold MakeDate. rewrite !Z.add_0_r.
  split; [reflexivity|]. split; [reflexivity|].
  split; [|lia].
  clear - F. unfold WeekDay. generalize (Day t). intros n. div_lia.
Qed.

Lemma week_bounds_witness :
  exists n,
    startOfWeek (DateAt 1710509400000) 1 = DateAt (n * msPerDay)
    /\ endOfWeek (DateAt 1710509400000) 1 = DateAt ((n + 6) * msPerDay)
    /\ WeekDay n = 1
    /\ n <= Day 1710509400000 <= n + 6.
Proof.
  apply (week_bounds 1710509400000 1).
  - vm_compute. discriminate.
  - lia.
Defined.

(** X5.  From the year 100 on, [startOfMonth] and [endOfMonth] are the
    midnights of the first and of the last day of the month of the date:
    same year and month, day 1 and day [daysInMonth], and the date lies
    between them. *)
Theorem month_bounds (t : Z) :
  100 <= YearFromDay (Day t) ->
  let y := YearFromDay (Day t) in
  let m := MonthFromDay (Day t) in
  exists n,
    startOfMonth (DateAt t) = DateAt (n * msPerDay)
    /\ endOfMonth (DateAt t) = DateAt ((n + daysInMonth y m - 1) * msPerDay)
    /\ n <= Day t <= n + daysInMonth y m - 1
    /\ (YearFromDay n = y /\ MonthFromDay n = m /\ DateFromDay n = 1)
    /\ (YearFromDay (n + daysInMonth y m - 1) = y
        /\ MonthFromDay (n + daysInMonth y m - 1) = m
        /\ DateFromDay (n + daysInMonth y m - 1) = daysInMonth y m).
Proof.
  intros Y y m. apply plain_year in Y.
  exists (Day t - DateFromDay (Day t) + 1).
  pose proof (DateFromDay_range (Day t)) as R.
  pose proof (DateFromDay_le (Day t)) as L. fold y m in L.
  pose proof (daysInMonth_range y m) as DR.
  rewrite startOfMonth_plain, endOfMonth_plain by exact Y. fold y m.
  unfold MakeDate. rewrite !Z.add_0_r.
  split; [reflexivity|]. split; [f_equal; lia|]. split; [lia|].
  split.
  - apply (month_day_fields (Day t) 1). fold y m. lia.
  - replace (Day t - DateFromDay (Day t) + 1 + daysInMonth y m - 1)
      with (Day t - DateFromDay (Day t) + daysInMonth y m) by lia.
    apply (month_day_fields (Day t) (daysInMonth y m)). fold y m. lia.
Qed.

Lemma month_bounds_witness :
  let y := YearFromDay (Day 1710509400000) in
  let m := MonthFromDay (Day 1710509400000) in
  exists n,
    startOfMonth (DateAt 1710509400000) = DateAt (n * msPerDay)
    /\ endOfMonth (DateAt 1710509400000) = DateAt ((n + daysInMonth y m - 1) * msPerDay)
    /\ n <= Day 1710509400000 <= n + daysInMonth y m - 1
    /\ (YearFromDay n = y /\ MonthFromDay n = m /\ DateFromDay n = 1)
    /\ (YearFromDay (n + daysInMonth y m - 1) = y
        /\ MonthFromDay (n + daysInMonth y m - 1) = m
        /\ DateFromDay (n + daysInMonth y m - 1) = daysInMonth y m).
Proof. apply (month_bounds 1710509400000). vm_compute. discriminate. Defined.

(** X6.  From the year 100 on, [addMonths] gives the midnight of the
    first day of the month [k] months away, counting months across years,
    and composes additively; by no month it gives the start of the
    month. *)
Theorem addMonths_compose (t a b : Z) :
  100 <= YearFromDay (Day t) ->
  100 <= YearFromDay (Day t) + (MonthFromDay (Day t) + a) / 12 ->
  (exists n,
     addMonths (DateAt t) a = DateAt (n * msPerDay)
     /\ YearFromDay n * 12 + MonthFromDay n
        = YearFromDay (Day t) * 12 + MonthFromDay (Day t) + a
     /\ DateFromDay n = 1)
  /\ addMonths (addMonths (DateAt t) a) b = addMonths (DateAt t) (a + b)
  /\ addMonths (DateAt t) 0 = startOfMonth (DateAt t).
Proof.
  intros Y Y'. apply plain_year in Y.
  set (y := YearFromDay (Day t)) in *. set (m := MonthFromDay (Day t)) in *.
  pose proof (MakeDay_first y (m + a)) as (A & B & C).
  split; [|split].
  - exists (MakeDay y (m + a) 1). rewrite addMonths_plain by exact Y. fold y m.
    unfold MakeDate. rewrite Z.add_0_r. split; [reflexivity|].
    rewrite A, B. split; [div_lia|exact C].
  - rewrite (addMonths_plain t a) by exact Y. fold y m.
    rewrite addMonths_plain by (rewrite Day_midnight, A; lia).
    rewrite Day_midnight, A, B. rewrite addMonths_plain by exact Y. fold y m.
    f_equal. f_equal.
    rewrite (MakeDay_normal (y + (m + a) / 12)), (MakeDay_normal y (m + (a + b))).
    f_equal; div_lia.
  - rewrite addMonths_plain by exact Y. fold y m. rewrite Z.add_0_r.
    unfold startOfMonth. cbn [getFullYear getMonth]. fold y m.
    rewrite new_Date3_plain by exact Y. reflexivity.
Qed.

Lemma addMonths_compose_witness :
  (exists n,
     addMonths (DateAt 1710509400000) 11 = DateAt (n * msPerDay)
     /\ YearFromDay n * 12 + MonthFromDay n
        = YearFromDay (Day 1710509400000) * 12 + MonthFromDay (Day 1710509400000) + 11
     /\ DateFromDay n = 1)
  /\ addMonths (addMonths (DateAt 1710509400000) 11) (-14)
     = addMonths (DateAt 1710509400000) (11 + -14)
  /\ addMonths (DateAt 1710509400000) 0 = startOfMonth (DateAt 1710509400000).
Proof.
  apply (addMonths_compose 1710509400000 11 (-14)).
  - vm_compute. discriminate.
  - vm_compute. discriminate.
Defined.

Lemma record_eta_view dp : set_currentViewMonth (currentViewMonth dp) dp = dp.
Proof. destruct dp. reflexivity. Qed.

Lemma currentViewMonth_set v dp : currentViewMonth (set_currentViewMonth v dp) = v.
Proof. destruct dp. reflexivity. Qed.

Lemma set_currentViewMonth_twice a b dp :
  set_currentViewMonth a (set_currentViewMonth b dp) = set_currentViewMonth a dp.
Proof. destruct dp. reflexivity. Qed.

(** X7.  From the year 101 on, [_goToPreviousMonth] and [_goToNextMonth]
    undo each other: the view comes back to the first day of the month
    it showed, and a picker whose view is already the first day of a
    month comes back to the same state. *)
Theorem month_navigation_inverse (dp : DatePicker) (t : Z) :
  currentViewMonth dp = DateAt t ->
  101 <= YearFromDay (Day t) ->
  currentViewMonth (_goToPreviousMonth (_goToNextMonth dp)) = startOfMonth (DateAt t)
  /\ currentViewMonth (_goToNextMonth (_goToPreviousMonth dp)) = startOfMonth (DateAt t)
  /\ (startOfMonth (DateAt t) = DateAt t ->
      _goToPreviousMonth (_goToNextMonth dp) = dp
      /\ _goToNextMonth (_goToPreviousMonth dp) = dp).
Proof.
  intros V Y.
  pose proof (MonthFromDay_range (Day t)) as R.
  assert (P : ~ (0 <= YearFromDay (Day t) <= 99)) by lia.
  assert (A : forall a b, 100 <= YearFromDay (Day t) + (MonthFromDay (Day t) + a) / 12 ->
              a + b = 0 ->
              addMonths (addMonths (DateAt t) a) b = startOfMonth (DateAt t)).
  { intros a b Ha E.
    pose proof (MakeDay_first (YearFromDay (Day t)) (MonthFromDay (Day t) + a))
      as (A1 & A2 & A3).
    rewrite (addMonths_plain t a) by exact P.
    rewrite addMonths_plain by (rewrite Day_midnight, A1; lia).
    rewrite Day_midnight, A1, A2.
    rewrite (MakeDay_normal (YearFromDay (Day t) + (MonthFromDay (Day t) + a) / 12)).
    unfold startOfMonth. cbn [getFullYear getMonth]. rewrite new_Date3_plain by exact P.
    rewrite (MakeDay_normal (YearFromDay (Day t)) (MonthFromDay (Day t))).
    f_equal. f_equal. f_equal; div_lia. }
  assert (N : addMonths (addMonths (DateAt t) 1) (-1) = startOfMonth (DateAt t)).
  { apply A; [div_lia|reflexivity]. }
  assert (Q : addMonths (addMonths (DateAt t) (-1)) 1 = startOfMonth (DateAt t)).
  { apply A; [div_lia|reflexivity]. }
  unfold _goToPreviousMonth, _goToNextMonth.
  rewrite !currentViewMonth_set, !set_currentViewMonth_twice, V, N, Q.
  split; [reflexivity|]. split; [reflexivity|].
  intros ->. rewrite <- V, record_eta_view. split; reflexivity.
Qed.

Lemma month_navigation_inverse_witness :
  currentViewMonth (_goToPreviousMonth (_goToNextMonth (picker defaults)))
  = startOfMonth (DateAt 1709251200000)
  /\ currentViewMonth (_goToNextMonth (_goToPreviousMonth (picker defaults)))
     = startOfMonth (DateAt 1709251200000)
  /\ (startOfMonth (DateAt 1709251200000) = DateAt 1709251200000 ->
      _goToPreviousMonth (_goToNextMonth (picker defaults)) = picker defaults
      /\ _goToNextMonth (_goToPreviousMonth (picker defaults)) = picker defaults).
Proof.
  apply (month_navigation_inverse (picker defaults) 1709251200000).
  - vm_compute. reflexivity.
  - vm_compute. discriminate.
Defined.

(** The day number of the first cell of the grid, and the dates of the
    cells, for a view from the year 100 on. *)
Lemma grid_dates t f i :
  0 <= f <= 6 -> 100 <= YearFromDay (Day t - 37) ->
  let first := Day t - DateFromDay (Day t) + 1 in
  let g := first - (WeekDay first - f) mod 7 in
  addDays (startOfWeek (startOfMonth (DateAt t)) f) i = DateAt (MakeDate (g + i) 0).
Proof.
  intros F Y first g.
  pose proof (DateFromDay_range (Day t)) as R.
  pose proof (Z.mod_pos_bound (WeekDay first - f) 7 ltac:(lia)) as B.
  assert (P : forall n, Day t - 37 <= n -> ~ (0 <= YearFromDay n <= 99)).
  { intros n H. pose proof (YearFromDay_mono _ _ H). lia. }
  rewrite startOfMonth_plain by (apply P; lia). fold first.
  rewrite startOfWeek_plain by (rewrite ?Day_midnight; try apply P; lia).
  rewrite Day_midnight. fold g.
  rewrite addDays_plain by (rewrite Day_midnight; apply P; lia).
  rewrite Day_midnight. reflexivity.
Qed.

Lemma grid_start_weekday n f : 0 <= f <= 6 -> WeekDay (n - (WeekDay n - f) mod 7) = f.
Proof. intros F. unfold WeekDay. div_lia. Qed.

Lemma render_cell dp now i :
  daysGrid dp = true -> scheduleMode (options dp) = ModeNone -> (i < 42)%nat ->
  nth_error (_render dp now) i
  = Some (render_day dp now
            (startOfWeek (startOfMonth (currentViewMonth dp)) (firstDayOfWeek (options dp)))
            (Z.of_nat i)).
Proof.
  intros G M H. unfold _render. rewrite G, M. cbn [negb].
  apply (render_days_new dp now _ 42 0 [] i H).
Qed.

Lemma render_length dp now :
  daysGrid dp = true -> scheduleMode (options dp) = ModeNone ->
  List.length (_render dp now) = 42%nat.
Proof.
  intros G M. unfold _render. rewrite G, M. cbn [negb]. apply render_days_length.
Qed.

Lemma buildDefaultI18n_weekdays_days f c :
  0 <= f <= 6 -> (c < 7)%nat ->
  exists label,
    nth_error (buildDefaultI18n_weekdays f) c = Some (Some label)
    /\ getDay label = Some ((f + Z.of_nat c) mod 7).
Proof.
  intros F C.
  assert (f = 0 \/ f = 1 \/ f = 2 \/ f = 3 \/ f = 4 \/ f = 5 \/ f = 6) as Hf by lia.
  do 7 (destruct c as [|c]; [
    repeat (destruct Hf as [Hf|Hf]); subst f;
    (match goal with
     | |- exists l, nth_error (buildDefaultI18n_weekdays ?f) ?c = _ /\ _ =>
         let r := eval vm_compute in (nth_error (buildDefaultI18n_weekdays f) c) in
         match r with Some (Some ?l) => exists l end
     end); split; vm_compute; reflexivity |]).
  lia.
Qed.

(** The first cell of the grid, by day number. *)
Lemma grid_start t f :
  0 <= f <= 6 -> 100 <= YearFromDay (Day t - 37) ->
  let first := Day t - DateFromDay (Day t) + 1 in
  let g := first - (WeekDay first - f) mod 7 in
  startOfWeek (startOfMonth (DateAt t)) f = DateAt (g * msPerDay)
  /\ WeekDay g = f /\ first - 6 <= g <= first.
Proof.
  intros F Y first g.
  pose proof (DateFromDay_range (Day t)) as R.
  pose proof (Z.mod_pos_bound (WeekDay first - f) 7 ltac:(lia)) as B.
  assert (P : forall n, Day t - 37 <= n -> ~ (0 <= YearFromDay n <= 99)).
  { intros n H. pose proof (YearFromDay_mono _ _ H). lia. }
  split; [|split; [apply grid_start_weekday; exact F|lia]].
  rewrite startOfMonth_plain by (apply P; lia). fold first.
  rewrite startOfWeek_plain by (rewrite ?Day_midnight; try apply P; lia).
  rewrite Day_midnight. fold g. unfold MakeDate. rewrite Z.add_0_r. reflexivity.
Qed.

(** What holds of claim C8, for a picker that has the grid element.  In
    calendar mode [_render] produces exactly 42 cells.  With [first] the
    day number of the first day of the view month, the grid starts on day
    [g], the last day at or before [first] whose weekday is
    [firstDayOfWeek], and the cell at index [i] is built from the midnight
    of day [g + i], which is [addDays(gridStart, i)]: it is a placeholder
    exactly when outside days are hidden and that day is outside the view
    month, and a day cell carrying that date otherwise. *)
Lemma calendar_grid_42 (dp : DatePicker) (now : Date) (t : Z) :
  daysGrid dp = true ->
  scheduleMode (options dp) = ModeNone ->
  currentViewMonth dp = DateAt t ->
  0 <= firstDayOfWeek (options dp) <= 6 ->
  100 <= YearFromDay (Day t - 37) ->
  let first := Day t - DateFromDay (Day t) + 1 in
  let g := first - (WeekDay first - firstDayOfWeek (options dp)) mod 7 in
  let gridStart :=
    startOfWeek (startOfMonth (currentViewMonth dp)) (firstDayOfWeek (options dp)) in
  gridStart = DateAt (g * msPerDay)
  /\ WeekDay g = firstDayOfWeek (options dp) /\ first - 6 <= g <= first
  /\ List.length (_render dp now) = 42%nat
  /\ forall i : nat, (i < 42)%nat ->
       let dayDate := DateAt ((g + Z.of_nat i) * msPerDay) in
       let isOutside := negb (MonthFromDay (g + Z.of_nat i) =? MonthFromDay (Day t)) in
       addDays gridStart (Z.of_nat i) = dayDate
       /\ exists c : cell,
            nth_error (_render dp now) i = Some c
            /\ if negb (showOutsideDays (options dp)) && isOutside
               then c = Filler
               else exists isToday isSelected isDisabled,
                      c = DayCell dayDate isOutside isToday isSelected isDisabled.
Proof.
  intros G M V F Y first g gridStart.
  destruct (grid_start t _ F Y) as (S & W & B). fold first in S, W, B. fold g in S, W, B.
  unfold gridStart. rewrite V.
  split; [exact S|]. split; [exact W|]. split; [exact B|].
  split; [apply render_length; assumption|].
  intros i I. cbv zeta.
  set (dayDate := DateAt ((g + Z.of_nat i) * msPerDay)).
  set (isOutside := negb (MonthFromDay (g + Z.of_nat i) =? MonthFromDay (Day t))).
  assert (D : addDays (startOfWeek (startOfMonth (DateAt t)) (firstDayOfWeek (options dp)))
                (Z.of_nat i) = dayDate).
  { rewrite grid_dates by assumption. fold first. fold g. unfold dayDate, MakeDate.
    rewrite Z.add_0_r. reflexivity. }
  split; [exact D|].
  eexists. split; [apply render_cell; assumption|].
  unfold render_day. cbv zeta. rewrite V, D.
  assert (O : negb (num_eqb (getMonth dayDate) (getMonth (DateAt t))) = isOutside).
  { unfold dayDate, isOutside. cbn [getMonth num_eqb].
    replace ((g + Z.of_nat i) * msPerDay) with (MakeDate (g + Z.of_nat i) 0)
      by (unfold MakeDate; lia).
    rewrite Day_midnight. reflexivity. }
  rewrite O. destruct (negb (showOutsideDays (options dp)) && isOutside); eauto.
Qed.

(** The grid of a default picker showing March 2024. *)
Lemma calendar_grid_42_witness :
  List.length (_render (picker defaults) now0) = 42%nat
  /\ nth_error (_render (picker defaults) now0) 0
     = Some (DayCell (DateAt (19778 * msPerDay)) true false false false)
  /\ WeekDay 19778 = 0.
Proof.
  destruct (calendar_grid_42 (picker defaults) now0 1709251200000)
    as (_ & _ & _ & L & _); try (vm_compute; reflexivity).
  - vm_compute. split; discriminate.
  - vm_compute. discriminate.
  - split; [exact L|]. split; vm_compute; reflexivity.
Qed.

(** Claim C8 does not hold of a picker that was built in weekly mode and
    then switched to calendar mode.  A picker built in weekly mode has no
    grid element; [updateOptions({ scheduleMode: 'none' })] puts it into
    calendar mode and re-attaches only elements that exist, so that
    [_render] produces no cell at all, where the same options given to
    the constructor produce the 42 cells. *)
Theorem calendar_grid_missing :
  exists dp dp' built,
    constructor EmptyString weekly_options now0 = Done dp
    /\ updateOptions dp calendar_mode = Done dp'
    /\ scheduleMode (options dp') = ModeNone
    /\ daysGrid dp' = false
    /\ _render dp' now0 = []
    /\ constructor EmptyString default_options now0 = Done built
    /\ firstDayOfWeek (options built) = firstDayOfWeek (options dp')
    /\ currentViewMonth built = currentViewMonth dp'
    /\ List.length (_render built now0) = 42%nat.
Proof.
  let r := eval vm_compute in (constructor EmptyString weekly_options now0) in
  match r with Done ?x => exists x;
    let r2 := eval vm_compute in (updateOptions x calendar_mode) in
    match r2 with Done ?y => exists y end end.
  let r := eval vm_compute in (constructor EmptyString default_options now0) in
  match r with Done ?x => exists x end.
  repeat split; vm_compute; reflexivity.
Qed.

(** X9.  Every day of the displayed month has exactly one cell in the
    42-cell grid: a day cell that is not marked outside, carrying the
    year, the month and that day; no other cell carries the same calendar
    date. *)
Theorem month_days_in_grid (dp : DatePicker) (now : Date) (t d : Z) :
  daysGrid dp = true ->
  scheduleMode (options dp) = ModeNone ->
  currentViewMonth dp = DateAt t ->
  0 <= firstDayOfWeek (options dp) <= 6 ->
  100 <= YearFromDay (Day t - 37) ->
  1 <= d <= daysInMonth (YearFromDay (Day t)) (MonthFromDay (Day t)) ->
  exists (i : nat) (dayDate : Date) (isToday isSelected isDisabled : bool),
    nth_error (_render dp now) i = Some (DayCell dayDate false isToday isSelected isDisabled)
    /\ getFullYear dayDate = getFullYear (DateAt t)
    /\ getMonth dayDate = getMonth (DateAt t)
    /\ getDate dayDate = Some d
    /\ forall (j : nat) (other : Date) (a b c e : bool),
         nth_error (_render dp now) j = Some (DayCell other a b c e) ->
         areSameCalendarDate other dayDate = true -> j = i.
Proof.
  intros G M V F Y D.
  set (f := firstDayOfWeek (options dp)) in *.
  set (first := Day t - DateFromDay (Day t) + 1).
  set (k := (WeekDay first - f) mod 7).
  pose proof (Z.mod_pos_bound (WeekDay first - f) 7 ltac:(lia)) as B. fold k in B.
  pose proof (daysInMonth_range (YearFromDay (Day t)) (MonthFromDay (Day t))) as DR.
  pose proof (month_day_fields (Day t) d D) as (A1 & A2 & A3).
  assert (I : (Z.to_nat (k + d - 1) < 42)%nat) by lia.
  assert (C : forall j, (j < 42)%nat ->
            addDays (startOfWeek (startOfMonth (currentViewMonth dp)) f) (Z.of_nat j)
            = DateAt (MakeDate (first - k + Z.of_nat j) 0)).
  { intros j _. rewrite V. apply grid_dates; assumption. }
  pose proof (render_cell dp now _ G M I) as R. fold f in R.
  unfold render_day in R. rewrite (C _ I), V in R.
  replace (first - k + Z.of_nat (Z.to_nat (k + d - 1))) with (Day t - DateFromDay (Day t) + d)
    in R by (unfold first; lia).
  cbn [getMonth num_eqb] in R. rewrite Day_midnight, A2, Z.eqb_refl in R.
  cbn [negb] in R. rewrite andb_false_r in R.
  eexists _, _, _, _, _. split; [exact R|].
  cbn [getFullYear getMonth getDate]. rewrite Day_midnight, A1, A2, A3.
  split; [reflexivity|]. split; [reflexivity|]. split; [reflexivity|].
  intros j other a b c e H S.
  assert (J : (j < 42)%nat).
  { rewrite <- (render_length dp now G M). apply nth_error_Some. congruence. }
  rewrite (render_cell dp now j G M J) in H. fold f in H. unfold render_day in H.
  destruct (negb (showOutsideDays (options dp)) && _); [discriminate|].
  injection H as <- _ _ _ _. rewrite (C _ J) in S.
  apply same_day_iff in S. rewrite !Day_midnight in S. unfold first in S. lia.
Qed.

Lemma month_days_in_grid_witness :
  exists (i : nat) (dayDate : Date) (isToday isSelected isDisabled : bool),
    nth_error (_render (picker defaults) now0) i
    = Some (DayCell dayDate false isToday isSelected isDisabled)
    /\ getFullYear dayDate = getFullYear (DateAt 1709251200000)
    /\ getMonth dayDate = getMonth (DateAt 1709251200000)
    /\ getDate dayDate = Some 31
    /\ forall (j : nat) (other : Date) (a b c e : bool),
         nth_error (_render (picker defaults) now0) j = Some (DayCell other a b c e) ->
         areSameCalendarDate other dayDate = true -> j = i.
Proof.
  apply (month_days_in_grid (picker defaults) now0 1709251200000 31).
  - vm_compute. reflexivity.
  - vm_compute. reflexivity.
  - vm_compute. reflexivity.
  - vm_compute. split; discriminate.
  - vm_compute. discriminate.
  - vm_compute. split; discriminate.
Defined.

Lemma clampMinuteToStep_minute m s :
  0 <= m -> 0 < s -> 0 <= clampMinuteToStep m s <= 59.
Proof.
  intros M S. unfold clampMinuteToStep, js_rem, ceil_div.
  destruct (Z.eqb_spec s 0); [lia|].
  destruct (Z.leb_spec s 0); [lia|].
  assert (0 <= m / s * s) by (apply Z.mul_nonneg_nonneg; [apply Z.div_pos|]; lia).
  assert (0 <= - (- m / s) * s).
  { apply Z.mul_nonneg_nonneg; [|lia]. div_lia. }
  destruct (_ <=? _).
  - pose proof (Z.rem_bound_pos (m / s * s) 60). lia.
  - pose proof (Z.rem_bound_pos (- (- m / s) * s) 60). lia.
Qed.

Lemma divisor_cases :
  forallb (fun s =>
    if 60 mod s =? 0 then
      forallb (fun m =>
        let r := clampMinuteToStep m s in
        (r mod s =? 0) && (clampMinuteToStep r s =? r)
        && existsb (Z.eqb r) (minute_options 60 0 s))
        (zrange 0 60)
    else true) (zrange 1 60) = true.
Proof. vm_compute. reflexivity. Qed.

Lemma divisor_facts m s :
  0 <= m <= 59 -> 0 < s -> 60 mod s = 0 ->
  let r := clampMinuteToStep m s in
  r mod s = 0 /\ clampMinuteToStep r s = r /\ In r (minute_options 60 0 s).
Proof.
  intros M S D.
  assert (s <= 60) by (apply Z.mod_divide in D; [|lia]; apply Z.divide_pos_le in D; lia).
  pose proof divisor_cases as A. rewrite forallb_forall in A.
  specialize (A s (zrange_In s 1 60 ltac:(lia))). cbv beta in A.
  rewrite D in A. cbn [Z.eqb] in A. rewrite forallb_forall in A.
  specialize (A m (zrange_In m 0 60 ltac:(lia))). cbv zeta in A.
  apply andb_true_iff in A. destruct A as [A C]. apply andb_true_iff in A.
  destruct A as [A B]. apply Z.eqb_eq in A, B.
  cbv zeta. split; [exact A|]. split; [exact B|].
  apply existsb_exists in C. destruct C as (x & I & E). apply Z.eqb_eq in E.
  subst x. exact I.
Qed.

(** X10.  For a minute in 0..59 and a positive step,
    [clampMinuteToStep] returns a minute in 0..59; when the step divides
    60 the result is a multiple of the step and snapping it again changes
    nothing. *)
Theorem clampMinuteToStep_on_divisors (m s : Z) :
  0 <= m <= 59 -> 0 < s ->
  0 <= clampMinuteToStep m s <= 59
  /\ (60 mod s = 0 ->
      clampMinuteToStep m s mod s = 0
      /\ clampMinuteToStep (clampMinuteToStep m s) s = clampMinuteToStep m s).
Proof.
  intros M S. split; [apply clampMinuteToStep_minute; lia|].
  intros D. pose proof (divisor_facts m s M S D) as (A & B & _). split; assumption.
Qed.

Lemma clampMinuteToStep_on_divisors_witness :
  0 <= clampMinuteToStep 38 15 <= 59
  /\ (60 mod 15 = 0 ->
      clampMinuteToStep 38 15 mod 15 = 0
      /\ clampMinuteToStep (clampMinuteToStep 38 15) 15 = clampMinuteToStep 38 15).
Proof. apply (clampMinuteToStep_on_divisors 38 15); lia. Defined.

(** X11.  When the time step divides 60, every snapped minute is one of
    the minutes that [_rebuildMinuteOptions] offers in the minute
    select. *)
Theorem minute_is_an_option (dp : DatePicker) (m : Z) :
  0 <= m <= 59 -> 0 < timeStep (options dp) -> 60 mod timeStep (options dp) = 0 ->
  In (clampMinuteToStep m (timeStep (options dp))) (_rebuildMinuteOptions dp).
Proof.
  intros M S D. unfold _rebuildMinuteOptions.
  destruct (Z.ltb_spec 0 (timeStep (options dp))); [|lia].
  apply (divisor_facts m _ M S D).
Qed.

Lemma minute_is_an_option_witness :
  In (clampMinuteToStep 38 (timeStep (options (picker defaults))))
     (_rebuildMinuteOptions (picker defaults)).
Proof.
  apply (minute_is_an_option (picker defaults) 38).
  - lia.
  - vm_compute. reflexivity.
  - vm_compute. reflexivity.
Defined.

(** Off the divisors of 60 a snapped minute can miss the options. *)
Lemma minute_not_an_option :
  clampMinuteToStep 59 21 = 3
  /\ minute_options 60 0 21 = [0; 21; 42]
  /\ clampMinuteToStep (clampMinuteToStep 59 21) 21 = 0.
Proof. repeat split; vm_compute; reflexivity. Qed.

Lemma clampMinuteToStep_any_step m s : 0 <= m <= 59 -> 0 <= clampMinuteToStep m s <= 59.
Proof.
  intros M. destruct (Z.lt_trichotomy s 0) as [N|[->|P]].
  - unfold clampMinuteToStep. destruct (Z.eqb_spec s 0); [lia|].
    destruct (Z.leb_spec s 0); lia.
  - change (clampMinuteToStep m 0) with (clampMinuteToStep m 5).
    apply clampMinuteToStep_minute; lia.
  - apply clampMinuteToStep_minute; lia.
Qed.

Lemma new_Date_plain y m d h mi :
  ~ (0 <= y <= 99) ->
  new_Date (Some y) (Some m) (Some d) (Some h) (Some mi)
  = DateAt (MakeDate (MakeDay y m d) (MakeTime h mi 0 0)).
Proof.
  intros Y. unfold new_Date.
  replace ((0 <=? y) && (y <=? 99)) with false
    by (symmetry; apply andb_false_iff; rewrite Z.leb_gt, Z.leb_gt; lia).
  reflexivity.
Qed.

(** X12.  Whatever hour and minute it is given, [_setTime] leaves an
    hour in 0..23 and a minute in 0..59 in the time fields; a selected
    date (from the year 100 on) keeps its calendar day and takes exactly
    that hour and minute, and no selection stays no selection. *)
Theorem _setTime_keeps_time_valid (dp : DatePicker) (hour minute : num) (fromUser : bool) :
  let dp' := _setTime dp hour minute fromUser in
  exists h m,
    timeHours dp' = Some h /\ 0 <= h <= 23
    /\ timeMinutes dp' = Some m /\ 0 <= m <= 59
    /\ (selectedDate dp = None -> selectedDate dp' = None)
    /\ (forall t, selectedDate dp = Some (DateAt t) -> 100 <= YearFromDay (Day t) ->
        selectedDate dp' = Some (DateAt (MakeDate (Day t) (MakeTime h m 0 0)))
        /\ areSameCalendarDate (DateAt (MakeDate (Day t) (MakeTime h m 0 0))) (DateAt t) = true
        /\ getHours (DateAt (MakeDate (Day t) (MakeTime h m 0 0))) = Some h
        /\ getMinutes (DateAt (MakeDate (Day t) (MakeTime h m 0 0))) = Some m).
Proof.
  cbv zeta.
  set (h := Z.max 0 (Z.min 23 (or0 hour))).
  set (m0 := clampMinuteToStep (Z.max 0 (Z.min 59 (or0 minute))) (timeStep (options dp))).
  assert (H : 0 <= h <= 23) by (unfold h; lia).
  assert (M0 : 0 <= m0 <= 59) by (apply clampMinuteToStep_any_step; lia).
  set (step := if 0 <? timeStep (options dp) then timeStep (options dp) else 5).
  set (m := if negb (enableTime (options dp)) || negb (timeRow dp) then m0
            else clampMinuteToStep m0 step).
  assert (M : 0 <= m <= 59).
  { unfold m. destruct (_ || _); [exact M0|]. apply clampMinuteToStep_any_step. exact M0. }
  exists h, m.
  assert (E : exists dp1, timeHours dp1 = Some h /\ timeMinutes dp1 = Some m
              /\ selectedDate dp1 = selectedDate dp /\ 
              _setTime dp hour minute fromUser =
              match selectedDate dp1 with
              | Some d => _applySelection dp1
                   (new_Date (getFullYear d) (getMonth d) (getDate d) (timeHours dp1)
                      (timeMinutes dp1)) (if fromUser then "user" else "api")
              | None => dp1
              end).
  { unfold _setTime. cbv zeta. fold h.
    eexists. split; [|split; [|split; [|reflexivity]]].
    - unfold _updateTimeInputs. destruct dp. cbn. destruct (_ || _); reflexivity.
    - unfold _updateTimeInputs. destruct dp as [o]. cbn. fold m0.
      unfold m. cbn. destruct (_ || _); reflexivity.
    - unfold _updateTimeInputs. destruct dp. cbn. destruct (_ || _); reflexivity. }
  destruct E as (dp1 & E1 & E2 & E3 & E4). rewrite E4.
  destruct (selectedDate dp) as [d|] eqn:S; rewrite E3.
  - assert (A : timeHours (_applySelection dp1 (new_Date (getFullYear d) (getMonth d)
                 (getDate d) (timeHours dp1) (timeMinutes dp1))
                 (if fromUser then "user" else "api")) = Some h
                /\ timeMinutes (_applySelection dp1 (new_Date (getFullYear d) (getMonth d)
                 (getDate d) (timeHours dp1) (timeMinutes dp1))
                 (if fromUser then "user" else "api")) = Some m
                /\ selectedDate (_applySelection dp1 (new_Date (getFullYear d) (getMonth d)
                 (getDate d) (timeHours dp1) (timeMinutes dp1))
                 (if fromUser then "user" else "api"))
                   = Some (new_Date (getFullYear d) (getMonth d)
                 (getDate d) (timeHours dp1) (timeMinutes dp1))).
    { unfold _applySelection. cbv zeta. rewrite <- E1, <- E2.
      destruct dp1. cbn. destruct (onSelect _), (confirm _); cbn; auto. }
    destruct A as (A1 & A2 & A3).
    split; [exact A1|]. split; [exact H|]. split; [exact A2|]. split; [exact M|].
    split; [discriminate|].
    intros t [= ->] Y. rewrite A3, E1, E2. cbn [getFullYear getMonth getDate].
    rewrite new_Date_plain by lia. rewrite fields_day.
    pose proof (MakeTime_range h m H M) as T.
    split; [reflexivity|].
    split; [apply same_day_iff; apply Day_MakeDate; exact T|].
    cbn [getHours getMinutes].
    rewrite HourFromTime_MakeDate, MinFromTime_MakeDate by assumption. split; reflexivity.
  - split; [exact E1|]. split; [exact H|]. split; [exact E2|]. split; [exact M|].
    split; [intros _; congruence|]. intros t. discriminate.
Qed.

(** X13.  For a valid date and bounds that do not cross, [clampDate]
    returns a date that [isDateOutOfBounds] accepts; it returns the date
    itself when the date is within the bounds, and clamping twice is
    clamping once. *)
Theorem clampDate_in_bounds (date : Date) (minDate maxDate : option Date) :
  isValidDate date = true ->
  bounds_ordered minDate maxDate = true ->
  isDateOutOfBounds (clampDate date minDate maxDate) minDate maxDate = false
  /\ (isDateOutOfBounds date minDate maxDate = false ->
      clampDate date minDate maxDate = date)
  /\ clampDate (clampDate date minDate maxDate) minDate maxDate
     = clampDate date minDate maxDate.
Proof.
  intros V O. destruct date as [|t]; [discriminate|].
  assert (A : forall d, isValidDate d = true ->
              isDateOutOfBounds d minDate maxDate = false -> clampDate d minDate maxDate = d).
  { intros [|x] _; [discriminate|]. unfold isDateOutOfBounds, clampDate, date_gt.
    cbn [isValidDate negb].
    destruct minDate as [[|a]|], maxDate as [[|b]|]; cbn [isValidDate andb date_lt];
      repeat match goal with
             | |- context [?x <? ?y] => destruct (Z.ltb_spec x y)
             end; cbn [andb date_lt]; try discriminate; try reflexivity;
      repeat match goal with
             | |- context [?x <? ?y] => destruct (Z.ltb_spec x y)
             end; try discriminate; try reflexivity. }
  assert (B : isValidDate (clampDate (DateAt t) minDate maxDate) = true
              /\ isDateOutOfBounds (clampDate (DateAt t) minDate maxDate) minDate maxDate
                 = false).
  { unfold isDateOutOfBounds, clampDate, date_gt. cbn [isValidDate negb].
    destruct minDate as [[|a]|] eqn:Mn, maxDate as [[|b]|] eqn:Mx;
      cbn [isValidDate andb date_lt];
      cbn [bounds_ordered] in O; try apply Z.leb_le in O;
      repeat match goal with
             | |- context [?x <? ?y] => destruct (Z.ltb_spec x y); cbn [isValidDate negb andb date_lt]
             end; try (split; reflexivity); lia. }
  destruct B as [B1 B2]. split; [exact B2|]. split; [apply A; exact V|].
  apply A; assumption.
Qed.

Lemma clampDate_in_bounds_witness :
  isDateOutOfBounds
    (clampDate d_2025_01_01 (minDate (options bounded_picker)) (maxDate (options bounded_picker)))
    (minDate (options bounded_picker)) (maxDate (options bounded_picker)) = false
  /\ (isDateOutOfBounds d_2025_01_01 (minDate (options bounded_picker))
        (maxDate (options bounded_picker)) = false ->
      clampDate d_2025_01_01 (minDate (options bounded_picker))
        (maxDate (options bounded_picker)) = d_2025_01_01)
  /\ clampDate
       (clampDate d_2025_01_01 (minDate (options bounded_picker))
          (maxDate (options bounded_picker)))
       (minDate (options bounded_picker)) (maxDate (options bounded_picker))
     = clampDate d_2025_01_01 (minDate (options bounded_picker))
         (maxDate (options bounded_picker)).
Proof.
  apply (clampDate_in_bounds d_2025_01_01).
  - reflexivity.
  - vm_compute. reflexivity.
Defined.

Lemma year_options_In fuel y start end_ :
  start <= y <= end_ -> (Z.to_nat (end_ - start + 1) <= fuel)%nat ->
  In y (year_options fuel start end_).
Proof.
  revert start. induction fuel as [|k IH]; intros start H F; [lia|].
  cbn [year_options]. destruct (Z.leb_spec start end_); [|lia].
  destruct (Z.eq_dec y start) as [->|N]; [left; reflexivity|].
  right. apply IH; lia.
Qed.

Lemma year_options_bounds fuel y start end_ :
  In y (year_options fuel start end_) -> start <= y <= end_.
Proof.
  revert start. induction fuel as [|k IH]; intros start H; [destruct H|].
  cbn [year_options] in H. destruct (Z.leb_spec start end_); [|destruct H].
  destruct H as [<-|H]; [lia|]. apply IH in H. lia.
Qed.

(** X14.  With a valid clock and a valid view month, [_computeYearRange]
    gives a range of years that holds the year of the view month, whatever
    the bounds are, and [_rebuildYearOptions] offers exactly the years of
    that range, the view's year among them. *)
Theorem year_range_holds_view (dp : DatePicker) (now : Date) :
  isValidDate now = true ->
  isValidDate (currentViewMonth dp) = true ->
  exists start end_ viewYear,
    _computeYearRange dp now = (Some start, Some end_)
    /\ getFullYear (currentViewMonth dp) = Some viewYear
    /\ start <= viewYear <= end_
    /\ (forall y, In y (_rebuildYearOptions dp now) <-> start <= y <= end_)
    /\ In viewYear (_rebuildYearOptions dp now).
Proof.
  intros N V. destruct now as [|tn]; [discriminate|].
  destruct (currentViewMonth dp) as [|tv] eqn:E; [discriminate|].
  assert (R : exists s e, _computeYearRange dp (DateAt tn) = (Some s, Some e)
              /\ s <= YearFromDay (Day tv) <= e).
  { unfold _computeYearRange. rewrite E. cbn [getFullYear num_sub num_add].
    set (vy := YearFromDay (Day tv)). set (ny := YearFromDay (Day tn)).
    destruct (minDate (options dp)) as [[|a]|], (maxDate (options dp)) as [[|b]|];
      cbn [isValidDate getFullYear num_lt];
      repeat match goal with
             | |- context [?x <? ?y] => destruct (Z.ltb_spec x y); cbn [num_lt]
             end; eexists _, _; (split; [reflexivity|]); lia. }
  destruct R as (s & e & R1 & R2). exists s, e, (YearFromDay (Day tv)).
  split; [exact R1|]. split; [reflexivity|]. split; [exact R2|].
  unfold _rebuildYearOptions. rewrite R1. split.
  - intros y. split; [apply year_options_bounds|].
    intros H. apply year_options_In; [exact H|lia].
  - apply year_options_In; [exact R2|lia].
Qed.

Lemma year_range_holds_view_witness :
  exists start end_ viewYear,
    _computeYearRange bounded_picker now0 = (Some start, Some end_)
    /\ getFullYear (currentViewMonth bounded_picker) = Some viewYear
    /\ start <= viewYear <= end_
    /\ (forall y, In y (_rebuildYearOptions bounded_picker now0) <-> start <= y <= end_)
    /\ In viewYear (_rebuildYearOptions bounded_picker now0).
Proof.
  apply (year_range_holds_view bounded_picker now0).
  - reflexivity.
  - vm_compute. reflexivity.
Defined.

Lemma set_has_app x a b : set_has x (a ++ b) = set_has x a || set_has x b.
Proof. unfold set_has. apply existsb_app. Qed.

Lemma set_has_insert x y s : set_has x (set_insert y s) = (x =? y) || set_has x s.
Proof.
  unfold set_insert. destruct (set_has y s) eqn:H.
  - destruct (Z.eqb_spec x y) as [->|]; [rewrite H|]; reflexivity.
  - rewrite set_has_app. cbn. rewrite orb_false_r. apply orb_comm.
Qed.

Lemma set_has_delete x y s : set_has x (set_delete y s) = negb (x =? y) && set_has x s.
Proof.
  unfold set_delete, set_has. induction s as [|z r IH]; cbn.
  - rewrite andb_false_r. reflexivity.
  - destruct (Z.eqb_spec z y) as [->|N]; cbn.
    + rewrite IH. destruct (Z.eqb_spec x y); cbn; reflexivity.
    + rewrite IH. destruct (Z.eqb_spec x z) as [->|]; cbn.
      * destruct (Z.eqb_spec z y); [contradiction|]. reflexivity.
      * reflexivity.
Qed.

Lemma no_repeat_app a x : no_repeat a = true -> set_has x a = false -> no_repeat (a ++ [x]) = true.
Proof.
  induction a as [|y r IH]; cbn; intros N H; [reflexivity|].
  apply andb_true_iff in N. destruct N as [N1 N2].
  apply orb_false_iff in H. destruct H as [H1 H2].
  rewrite set_has_app, IH by assumption. cbn.
  apply negb_true_iff in N1. rewrite N1, orb_false_r. cbn.
  rewrite Z.eqb_sym, H1. reflexivity.
Qed.

Lemma no_repeat_insert x s : no_repeat s = true -> no_repeat (set_insert x s) = true.
Proof.
  intros N. unfold set_insert. destruct (set_has x s) eqn:H; [exact N|].
  apply no_repeat_app; assumption.
Qed.

Lemma no_repeat_delete x s : no_repeat s = true -> no_repeat (set_delete x s) = true.
Proof.
  induction s as [|y r IH]; intros N; [reflexivity|].
  cbn [no_repeat] in N. apply andb_true_iff in N. destruct N as [N1 N2].
  change (set_delete x (y :: r))
    with (if negb (y =? x) then y :: set_delete x r else set_delete x r).
  destruct (negb (y =? x)); [|apply IH; exact N2].
  cbn [no_repeat]. rewrite IH by exact N2. rewrite set_has_delete.
  apply negb_true_iff in N1. rewrite N1, andb_false_r. reflexivity.
Qed.

Lemma forallb_insert (p : Z -> bool) x s :
  p x = true -> forallb p s = true -> forallb p (set_insert x s) = true.
Proof.
  intros P F. unfold set_insert. destruct (set_has x s); [exact F|].
  rewrite forallb_app, F. cbn. rewrite P. reflexivity.
Qed.

Lemma forallb_delete (p : Z -> bool) x s :
  forallb p s = true -> forallb p (set_delete x s) = true.
Proof.
  unfold set_delete. induction s as [|y r IH]; cbn; intros F; [reflexivity|].
  apply andb_true_iff in F. destruct F as [F1 F2].
  destruct (negb (y =? x)); cbn; rewrite ?F1, IH by exact F2; reflexivity.
Qed.

Lemma _toggleWeeklyDay_sets dp day u :
  scheduleMonthlySelected (_toggleWeeklyDay dp day u) = scheduleMonthlySelected dp
  /\ scheduleWeeklySelected (_toggleWeeklyDay dp day u)
     = if negb (mode_eqb (scheduleMode (options dp)) ModeWeekly)
       then scheduleWeeklySelected dp
       else
         let idx := Z.max 0 (Z.min 6 day) in
         if scheduleWeeklyMulti (options dp) then
           if set_has idx (scheduleWeeklySelected dp)
           then set_delete idx (scheduleWeeklySelected dp)
           else set_insert idx (scheduleWeeklySelected dp)
         else set_insert idx [].
Proof.
  unfold _toggleWeeklyDay. destruct (negb _); [split; reflexivity|].
  rewrite _syncScheduleValue_weekly, _syncScheduleValue_monthly.
  destruct dp; split; reflexivity.
Qed.

Lemma _toggleMonthlyDay_sets dp day u :
  scheduleWeeklySelected (_toggleMonthlyDay dp day u) = scheduleWeeklySelected dp
  /\ scheduleMonthlySelected (_toggleMonthlyDay dp day u)
     = if negb (mode_eqb (scheduleMode (options dp)) ModeMonthly)
       then scheduleMonthlySelected dp
       else
         let d := Z.max 1 (Z.min 31 (if day =? 0 then 1 else day)) in
         if scheduleMonthlyMulti (options dp) then
           if set_has d (scheduleMonthlySelected dp)
           then set_delete d (scheduleMonthlySelected dp)
           else set_insert d (scheduleMonthlySelected dp)
         else set_insert d [].
Proof.
  unfold _toggleMonthlyDay. destruct (negb _); [split; reflexivity|].
  rewrite _syncScheduleValue_weekly, _syncScheduleValue_monthly.
  destruct dp; split; reflexivity.
Qed.

Lemma _toggleWeeklyDay_options dp day u : options (_toggleWeeklyDay dp day u) = options dp.
Proof.
  unfold _toggleWeeklyDay. destruct (negb _); [reflexivity|].
  rewrite _syncScheduleValue_options. destruct dp; reflexivity.
Qed.

Lemma _toggleMonthlyDay_options dp day u : options (_toggleMonthlyDay dp day u) = options dp.
Proof.
  unfold _toggleMonthlyDay. destruct (negb _); [reflexivity|].
  rewrite _syncScheduleValue_options. destruct dp; reflexivity.
Qed.

(** X15.  The toggles keep the schedule sets valid: once the weekly set
    holds weekdays 0..6 and the monthly set days 1..31, each without
    repetition, they still do after [_toggleWeeklyDay] and after
    [_toggleMonthlyDay], whatever day is passed. *)
Theorem toggles_keep_schedule_valid (dp : DatePicker) (day : Z) (fromUser : bool) :
  schedule_valid dp = true ->
  schedule_valid (_toggleWeeklyDay dp day fromUser) = true
  /\ schedule_valid (_toggleMonthlyDay dp day fromUser) = true.
Proof.
  unfold schedule_valid. intros H.
  apply andb_true_iff in H. destruct H as [H M2].
  apply andb_true_iff in H. destruct H as [H M1].
  apply andb_true_iff in H. destruct H as [W1 W2].
  destruct (_toggleWeeklyDay_sets dp day fromUser) as [A B].
  destruct (_toggleMonthlyDay_sets dp day fromUser) as [C D].
  rewrite A, B, C, D. cbv zeta. split.
  - clear A B C D. rewrite M1, M2, !andb_true_r.
    destruct (negb _); [rewrite W1, W2; reflexivity|].
    assert (P : (0 <=? Z.max 0 (Z.min 6 day)) && (Z.max 0 (Z.min 6 day) <=? 6) = true)
      by (apply andb_true_iff; split; apply Z.leb_le; lia).
    destruct (scheduleWeeklyMulti _).
    + destruct (set_has _ _).
      * rewrite no_repeat_delete, forallb_delete by assumption. reflexivity.
      * rewrite no_repeat_insert, forallb_insert by assumption. reflexivity.
    + rewrite no_repeat_insert, forallb_insert by (try exact P; reflexivity). reflexivity.
  - clear A B C D. rewrite W1, W2. cbn [andb].
    destruct (negb _); [rewrite M1, M2; reflexivity|].
    set (d := Z.max 1 (Z.min 31 (if day =? 0 then 1 else day))).
    assert (P : (1 <=? d) && (d <=? 31) = true)
      by (apply andb_true_iff; split; apply Z.leb_le; unfold d; lia).
    destruct (scheduleMonthlyMulti _).
    + destruct (set_has _ _).
      * rewrite no_repeat_delete, forallb_delete by assumption. reflexivity.
      * rewrite no_repeat_insert, forallb_insert by assumption. reflexivity.
    + rewrite no_repeat_insert, forallb_insert by (try exact P; reflexivity). reflexivity.
Qed.

Lemma toggles_keep_schedule_valid_witness :
  schedule_valid (_toggleWeeklyDay weekly_picker 9 true) = true
  /\ schedule_valid (_toggleMonthlyDay weekly_picker 9 true) = true.
Proof. apply (toggles_keep_schedule_valid weekly_picker 9 true). vm_compute. reflexivity. Defined.

Lemma toggle_flips dp day fromUser :
  single_select dp = false ->
  forall x,
    set_has x (active_set (toggle dp day fromUser))
    = if x =? match scheduleMode (options dp) with
              | ModeMonthly => Z.max 1 (Z.min 31 (if day =? 0 then 1 else day))
              | _ => Z.max 0 (Z.min 6 day)
              end
      then match scheduleMode (options dp) with
           | ModeNone => false
           | _ => negb (set_has x (active_set dp))
           end
      else set_has x (active_set dp).
Proof.
  intros S x. unfold single_select in S.
  unfold toggle, active_set.
  destruct (scheduleMode (options dp)) eqn:M.
  - rewrite M. destruct (x =? _); reflexivity.
  - apply negb_false_iff in S.
    rewrite _toggleWeeklyDay_options, M. destruct (_toggleWeeklyDay_sets dp day fromUser) as [_ B].
    rewrite B, M, S. cbn [mode_eqb negb]. cbv zeta.
    destruct (set_has (Z.max 0 (Z.min 6 day)) (scheduleWeeklySelected dp)) eqn:H.
    + rewrite set_has_delete.
      destruct (Z.eqb_spec x (Z.max 0 (Z.min 6 day))) as [->|]; cbn;
        [rewrite H|]; reflexivity.
    + rewrite set_has_insert.
      destruct (Z.eqb_spec x (Z.max 0 (Z.min 6 day))) as [->|]; cbn;
        [rewrite H|]; reflexivity.
  - apply negb_false_iff in S.
    rewrite _toggleMonthlyDay_options, M. destruct (_toggleMonthlyDay_sets dp day fromUser) as [_ B].
    rewrite B, M, S. cbn [mode_eqb negb]. cbv zeta.
    set (d := Z.max 1 (Z.min 31 (if day =? 0 then 1 else day))).
    destruct (set_has d (scheduleMonthlySelected dp)) eqn:H.
    + rewrite set_has_delete.
      destruct (Z.eqb_spec x d) as [->|]; cbn; [rewrite H|]; reflexivity.
    + rewrite set_has_insert.
      destruct (Z.eqb_spec x d) as [->|]; cbn; [rewrite H|]; reflexivity.
Qed.

Lemma toggle_options dp day u : options (toggle dp day u) = options dp.
Proof.
  unfold toggle. destruct (scheduleMode (options dp)); [reflexivity| |].
  - apply _toggleWeeklyDay_options.
  - apply _toggleMonthlyDay_options.
Qed.

(** X16.  In a schedule mode with multi-select on, a toggle flips the
    membership of the toggled day (clamped to the range of the sub-mode)
    in the active set and of no other value; toggling the same day twice
    leaves every membership as it was. *)
Theorem toggle_multi_flips_membership (dp : DatePicker) (day : Z) (fromUser u' : bool) :
  in_schedule_mode dp = true ->
  single_select dp = false ->
  let idx :=
    match scheduleMode (options dp) with
    | ModeMonthly => Z.max 1 (Z.min 31 (if day =? 0 then 1 else day))
    | _ => Z.max 0 (Z.min 6 day)
    end in
  (forall x,
     set_has x (active_set (toggle dp day fromUser))
     = if x =? idx then negb (set_has x (active_set dp)) else set_has x (active_set dp))
  /\ (forall x,
        set_has x (active_set (toggle (toggle dp day fromUser) day u'))
        = set_has x (active_set dp)).
Proof.
  intros I S. cbv zeta.
  assert (N : scheduleMode (options dp) <> ModeNone).
  { unfold in_schedule_mode in I. intros E. rewrite E in I. discriminate. }
  split.
  - intros x. rewrite (toggle_flips dp day fromUser S x).
    destruct (scheduleMode (options dp)); [contradiction| |]; reflexivity.
  - intros x.
    assert (S' : single_select (toggle dp day fromUser) = false).
    { unfold single_select. rewrite toggle_options. exact S. }
    rewrite (toggle_flips _ day u' S' x), toggle_options, (toggle_flips dp day fromUser S x).
    clear - N. unfold active_set.
    destruct (scheduleMode (options dp)); [contradiction| |]; destruct (x =? _);
      try reflexivity; apply negb_involutive.
Qed.

Lemma toggle_multi_flips_membership_witness :
  let idx :=
    match scheduleMode (options weekly_picker) with
    | ModeMonthly => Z.max 1 (Z.min 31 (if 3 =? 0 then 1 else 3))
    | _ => Z.max 0 (Z.min 6 3)
    end in
  (forall x,
     set_has x (active_set (toggle weekly_picker 3 true))
     = if x =? idx then negb (set_has x (active_set weekly_picker))
       else set_has x (active_set weekly_picker))
  /\ (forall x,
        set_has x (active_set (toggle (toggle weekly_picker 3 true) 3 true))
        = set_has x (active_set weekly_picker)).
Proof.
  apply (toggle_multi_flips_membership weekly_picker 3 true true).
  - vm_compute. reflexivity.
  - vm_compute. reflexivity.
Defined.

Lemma digit_not_space c : is_digit c = true -> is_space c = false.
Proof. destruct c as [[] [] [] [] [] [] [] []]; try discriminate; reflexivity. Qed.

Lemma digit_not_comma c : is_digit c = true -> Ascii.eqb c "," = false.
Proof. destruct c as [[] [] [] [] [] [] [] []]; try discriminate; reflexivity. Qed.

Lemma digit_lower c : is_digit c = true -> to_lower_char c = c.
Proof. destruct c as [[] [] [] [] [] [] [] []]; try discriminate; reflexivity. Qed.

Lemma digit_not_w c : is_digit c = true -> Ascii.eqb "w" c = false /\ Ascii.eqb "m" c = false.
Proof. destruct c as [[] [] [] [] [] [] [] []]; try discriminate; split; reflexivity. Qed.

Lemma append_assoc (a b c : string) : (a +++ b) +++ c = a +++ (b +++ c).
Proof. induction a as [|x a IH]; cbn; [reflexivity|]. rewrite IH. reflexivity. Qed.

Lemma append_empty (a : string) : a +++ EmptyString = a.
Proof. induction a as [|x a IH]; cbn; [reflexivity|]. rewrite IH. reflexivity. Qed.

(** Reading a numeral: the characters join the token being read. *)
Lemma tokens_aux_digits s cur r :
  all_digits s = true -> tokens_aux cur (s +++ r) = tokens_aux (cur +++ s) r.
Proof.
  revert cur. induction s as [|c s IH]; intros cur H.
  - cbn. rewrite append_empty. reflexivity.
  - cbn [all_digits] in H. apply andb_true_iff in H. destruct H as [D H].
    cbn [String.append tokens_aux].
    rewrite (digit_not_comma c D), (digit_not_space c D). cbn [orb].
    rewrite IH by exact H. rewrite append_assoc. reflexivity.
Qed.

Lemma tokens_aux_join l :
  forallb is_numeral l = true -> tokens_aux EmptyString (join "," l) = l.
Proof.
  induction l as [|x r IH]; intros H; [reflexivity|].
  cbn [forallb] in H. apply andb_true_iff in H. destruct H as [X H].
  assert (D : all_digits x = true) by (destruct x; [discriminate|exact X]).
  destruct r as [|y r'].
  - cbn [join]. rewrite <- (append_empty x) at 1. rewrite tokens_aux_digits by exact D.
    cbn. destruct x; [discriminate|reflexivity].
  - change (join "," (x :: y :: r')) with (x +++ "," +++ join "," (y :: r')).
    rewrite tokens_aux_digits by exact D. cbn [String.append tokens_aux].
    cbn [Ascii.eqb Bool.eqb orb]. change (EmptyString +++ x) with x.
    destruct x as [|c x']; [discriminate|]. rewrite IH by exact H. reflexivity.
Qed.

Lemma trim_right_no_space s : no_space s = true -> trim_right s = s.
Proof.
  induction s as [|c r IH]; intros H; [reflexivity|].
  cbn [no_space] in H. apply andb_true_iff in H. destruct H as [C H].
  cbn [trim_right]. rewrite IH by exact H. apply negb_true_iff in C. rewrite C.
  destruct r; reflexivity.
Qed.

Lemma trim_no_space s : no_space s = true -> trim s = s.
Proof.
  intros H. unfold trim.
  assert (trim_left s = s) as ->.
  { destruct s as [|c r]; [reflexivity|]. cbn in H |- *.
    apply andb_true_iff in H. destruct H as [C _]. apply negb_true_iff in C.
    rewrite C. reflexivity. }
  apply trim_right_no_space. exact H.
Qed.

Lemma no_space_append a b : no_space (a +++ b) = no_space a && no_space b.
Proof. induction a as [|c a IH]; cbn; [reflexivity|]. rewrite IH, andb_assoc. reflexivity. Qed.

Lemma digits_no_space s : all_digits s = true -> no_space s = true.
Proof.
  induction s as [|c r IH]; intros H; [reflexivity|].
  cbn in H |- *. apply andb_true_iff in H. destruct H as [D H].
  rewrite (digit_not_space c D), IH by exact H. reflexivity.
Qed.

Lemma join_no_space l : forallb is_numeral l = true -> no_space (join "," l) = true.
Proof.
  induction l as [|x r IH]; intros H; [reflexivity|].
  cbn [forallb] in H. apply andb_true_iff in H. destruct H as [X H].
  assert (D : all_digits x = true) by (destruct x; [discriminate|exact X]).
  destruct r as [|y r'].
  - cbn [join]. apply digits_no_space. exact D.
  - change (join "," (x :: y :: r')) with (x +++ "," +++ join "," (y :: r')).
    rewrite !no_space_append, digits_no_space, IH by assumption. reflexivity.
Qed.

(** A value that starts with a digit has none of the prefixes of the
    legacy form. *)
Lemma join_head l :
  forallb is_numeral l = true -> l <> [] ->
  exists c r, join "," l = String c r /\ is_digit c = true.
Proof.
  intros H N. destruct l as [|x r]; [contradiction|].
  cbn [forallb] in H. apply andb_true_iff in H. destruct H as [X _].
  destruct x as [|c x']; [discriminate|]. cbn in X.
  apply andb_true_iff in X. destruct X as [D _].
  destruct r; cbn; eauto.
Qed.

Lemma day_numerals :
  forallb (fun n =>
    is_numeral (String_of_Z n)
    && match Number_token (String_of_Z n) with Done v => v =? n | Raise _ => false end)
    (zrange 0 32) = true.
Proof. vm_compute. reflexivity. Qed.

Lemma day_numeral n :
  0 <= n <= 31 ->
  is_numeral (String_of_Z n) = true /\ Number_token (String_of_Z n) = Done n.
Proof.
  intros H. pose proof day_numerals as A. rewrite forallb_forall in A.
  specialize (A n (zrange_In n 0 32 ltac:(lia))).
  apply andb_true_iff in A. destruct A as [A B]. split; [exact A|].
  destruct (Number_token (String_of_Z n)); [|discriminate].
  apply Z.eqb_eq in B. congruence.
Qed.

Lemma schedule_days_numerals weekly l :
  forallb (fun x => (0 <=? x) && (x <=? 31)) l = true ->
  schedule_days weekly (map String_of_Z l)
  = Done (map (fun n => if weekly && (n =? 7) then 0 else n) l).
Proof.
  induction l as [|x r IH]; intros H; [reflexivity|].
  cbn [forallb] in H. apply andb_true_iff in H. destruct H as [X H].
  apply andb_true_iff in X. destruct X as [X1 X2]. apply Z.leb_le in X1, X2.
  cbn [map schedule_days]. destruct (day_numeral x ltac:(lia)) as [_ ->].
  cbn [bind]. rewrite IH by exact H. reflexivity.
Qed.

Lemma numerals_of_days l :
  forallb (fun x => (0 <=? x) && (x <=? 31)) l = true ->
  forallb is_numeral (map String_of_Z l) = true.
Proof.
  induction l as [|x r IH]; intros H; [reflexivity|].
  cbn [forallb] in H. apply andb_true_iff in H. destruct H as [X H].
  apply andb_true_iff in X. destruct X as [X1 X2]. apply Z.leb_le in X1, X2.
  cbn [map forallb]. destruct (day_numeral x ltac:(lia)) as [-> _]. apply IH. exact H.
Qed.

(** Parsing the comma-joined numerals of days 0..31. *)
Lemma parse_joined o l :
  forallb (fun x => (0 <=? x) && (x <=? 31)) l = true ->
  _parseScheduleArray o (join "," (map String_of_Z l))
  = Done (map (fun n => if mode_eqb (scheduleMode o) ModeWeekly && (n =? 7) then 0 else n) l).
Proof.
  intros H. pose proof (numerals_of_days l H) as N.
  destruct l as [|x r]; [reflexivity|].
  destruct (join_head (map String_of_Z (x :: r)) N ltac:(discriminate)) as (c & s & E & D).
  unfold _parseScheduleArray. rewrite E. rewrite <- E.
  rewrite trim_no_space by (apply join_no_space; exact N).
  assert (P : forall p, starts_with (String "w" p) (to_lower (join "," (map String_of_Z (x :: r)))) = false
                     /\ starts_with (String "m" p) (to_lower (join "," (map String_of_Z (x :: r)))) = false).
  { intros p. rewrite E. unfold starts_with. cbn [to_lower strip_prefix].
    rewrite (digit_lower c D). destruct (digit_not_w c D) as [-> ->]. split; reflexivity. }
  destruct (P "eekly:") as [-> _]. destruct (P ":") as [-> ->].
  destruct (P "onthly:") as [_ ->]. cbn [orb].
  rewrite tokens_aux_join by exact N. apply schedule_days_numerals. exact H.
Qed.

Lemma forallb_sort_asc (p : Z -> bool) l :
  forallb p l = true -> forallb p (sort_asc l) = true.
Proof.
  intros H. rewrite forallb_forall in *. intros x I. apply H.
  apply (Permutation_in x (Permutation_sym (sort_asc_perm l))). exact I.
Qed.

Lemma no_repeat_NoDup l : no_repeat l = true <-> NoDup l.
Proof.
  induction l as [|x r IH]; cbn.
  - split; [constructor|reflexivity].
  - rewrite andb_true_iff, negb_true_iff, IH. split.
    + intros [H N]. constructor; [|exact N].
      intros I. apply set_has_In in I. congruence.
    + intros N. inversion N as [|? ? H N']. subst. split; [|exact N'].
      destruct (set_has x r) eqn:E; [|reflexivity]. apply set_has_In in E. contradiction.
Qed.

Lemma no_repeat_sort_asc l : no_repeat l = true -> no_repeat (sort_asc l) = true.
Proof.
  rewrite !no_repeat_NoDup. apply Permutation_NoDup, sort_asc_perm.
Qed.

Lemma schedule_array_days dp :
  schedule_valid dp = true ->
  forallb (fun x => (0 <=? x) && (x <=? 31)) (_formatScheduleArray dp) = true
  /\ map (fun n => if mode_eqb (scheduleMode (options dp)) ModeWeekly && (n =? 7)
                   then 0 else n) (_formatScheduleArray dp)
     = sort_asc (active_set dp)
  /\ no_repeat (sort_asc (active_set dp)) = true.
Proof.
  unfold schedule_valid. intros H.
  apply andb_true_iff in H. destruct H as [H M2].
  apply andb_true_iff in H. destruct H as [H M1].
  apply andb_true_iff in H. destruct H as [W1 W2].
  unfold _formatScheduleArray, active_set.
  destruct (scheduleMode (options dp)); cbn [mode_eqb andb].
  - repeat split; reflexivity.
  - apply forallb_sort_asc in W2. apply no_repeat_sort_asc in W1.
    split; [|split; [|exact W1]].
    + rewrite forallb_forall in *. intros x I. apply in_map_iff in I.
      destruct I as (y & <- & I). specialize (W2 y I).
      apply andb_true_iff in W2. destruct W2 as [A B]. apply Z.leb_le in A, B.
      unfold display_day. destruct (Z.eqb_spec y 0); apply andb_true_iff; split;
        apply Z.leb_le; lia.
    + rewrite map_map. rewrite <- map_id. apply map_ext_in. intros y I.
      rewrite forallb_forall in W2. specialize (W2 y I).
      apply andb_true_iff in W2. destruct W2 as [A B]. apply Z.leb_le in A, B.
      unfold display_day. destruct (Z.eqb_spec y 0) as [->|]; [reflexivity|].
      destruct (Z.eqb_spec y 7); [lia|reflexivity].
  - apply forallb_sort_asc in M2. apply no_repeat_sort_asc in M1.
    split; [|split; [|exact M1]].
    + rewrite forallb_forall in *. intros x I. specialize (M2 x I).
      apply andb_true_iff in M2. destruct M2 as [A B]. apply Z.leb_le in A, B.
      apply andb_true_iff; split; apply Z.leb_le; lia.
    + rewrite <- map_id. apply map_ext. intros y. reflexivity.
Qed.

Lemma _syncScheduleValue_text dp source :
  in_schedule_mode dp = true -> confirm (options dp) = false ->
  inputValue (_syncScheduleValue dp source)
  = join "," (map String_of_Z (_formatScheduleArray dp)).
Proof.
  unfold in_schedule_mode, _syncScheduleValue. intros I C. cbv zeta. rewrite C.
  destruct (scheduleMode (options dp)); [discriminate| |];
    destruct (onSelectSchedule (options dp)); destruct dp; reflexivity.
Qed.

(** X17.  In a schedule mode without confirm, when the selected days are
    distinct weekdays 0..6 and days of the month 1..31, the text that
    [_syncScheduleValue] writes into the field is read back by
    [_parseScheduleArray] as the selected days of the mode in ascending
    order. *)
Theorem schedule_text_round_trip (dp : DatePicker) (source : string) :
  schedule_valid dp = true ->
  in_schedule_mode dp = true ->
  confirm (options dp) = false ->
  _parseScheduleArray (options dp) (inputValue (_syncScheduleValue dp source))
  = Done (sort_asc (active_set dp)).
Proof.
  intros V I C. rewrite _syncScheduleValue_text by assumption.
  destruct (schedule_array_days dp V) as (A & B & _).
  rewrite parse_joined by exact A. rewrite B. reflexivity.
Qed.

Lemma schedule_text_round_trip_witness :
  let dp := _toggleWeeklyDay (_toggleWeeklyDay weekly_picker 1 true) 0 true in
  _parseScheduleArray (options dp) (inputValue (_syncScheduleValue dp "user"))
  = Done (sort_asc (active_set dp)).
Proof.
  apply (schedule_text_round_trip
           (_toggleWeeklyDay (_toggleWeeklyDay weekly_picker 1 true) 0 true) "user").
  - vm_compute. reflexivity.
  - vm_compute. reflexivity.
  - vm_compute. reflexivity.
Defined.

Lemma no_repeat_snoc a x r :
  no_repeat (a ++ x :: r) = true ->
  set_has x a = false /\ no_repeat ((a ++ [x]) ++ r) = true.
Proof.
  intros H. rewrite <- app_assoc. cbn [app]. split; [|exact H].
  apply no_repeat_NoDup in H. apply NoDup_remove_2 in H.
  destruct (set_has x a) eqn:E; [|reflexivity].
  apply set_has_In in E. exfalso. apply H. apply in_or_app. left. exact E.
Qed.

Lemma set_insert_all_fresh l acc :
  no_repeat (acc ++ l) = true -> set_insert_all l acc = acc ++ l.
Proof.
  revert acc. induction l as [|x r IH]; intros acc H; cbn [set_insert_all].
  - rewrite app_nil_r. reflexivity.
  - destruct (no_repeat_snoc acc x r H) as [A B].
    unfold set_insert. rewrite A. rewrite IH by exact B.
    rewrite <- app_assoc. reflexivity.
Qed.

Lemma _build_schedule dp :
  enableTime (options dp) = false ->
  scheduleWeeklySelected (_build dp) = scheduleWeeklySelected dp
  /\ scheduleMonthlySelected (_build dp) = scheduleMonthlySelected dp
  /\ options (_build dp) = options dp.
Proof.
  intros E. unfold _build. rewrite E. destruct dp. repeat split; reflexivity.
Qed.

(** X18.  A picker constructed on the text that [_syncScheduleValue] wrote
    (schedule mode, no confirm, valid selected days), with options of the
    same schedule mode, is built without error, is in that mode and starts
    with the same selected days, in ascending order. *)
Theorem schedule_survives_reconstruction
  (dp : DatePicker) (source : string) (io : InitialOptions) (o : Options) (now : Date) :
  schedule_valid dp = true ->
  in_schedule_mode dp = true ->
  confirm (options dp) = false ->
  constructor_options io = Done o ->
  scheduleMode o = scheduleMode (options dp) ->
  exists dp2,
    constructor (inputValue (_syncScheduleValue dp source)) io now = Done dp2
    /\ scheduleMode (options dp2) = scheduleMode (options dp)
    /\ active_set dp2 = sort_asc (active_set dp).
Proof.
  intros V I C O M.
  pose proof (_syncScheduleValue_text dp source I C) as T.
  destruct (schedule_array_days dp V) as (A & B & N).
  pose proof (parse_joined o _ A) as P. rewrite M, B in P.
  assert (ET : enableTime o = false).
  { clear - O I M. unfold in_schedule_mode in I. rewrite <- M in I. clear M.
    unfold constructor_options in O.
    destruct (_normalizeDate None (i_minDate io)); [|discriminate].
    destruct (_normalizeDate None (i_maxDate io)); [|discriminate].
    revert O I. cbn [bind scheduleMode enableTime].
    destruct (i_scheduleMode io), (i_enableTime io); cbn; intros [= <-]; cbn;
      congruence. }
  assert (TR : trim (inputValue (_syncScheduleValue dp source))
               = inputValue (_syncScheduleValue dp source)).
  { rewrite T. apply trim_no_space, join_no_space, numerals_of_days. exact A. }
  unfold constructor. rewrite O. cbn [bind]. rewrite TR, T.
  set (text := join "," (map String_of_Z (_formatScheduleArray dp))) in *.
  set (b := blank o text now).
  assert (BO : options b = o) by reflexivity.
  assert (BW : scheduleWeeklySelected b = []) by reflexivity.
  assert (BM : scheduleMonthlySelected b = []) by reflexivity.
  clearbody b.
  assert (K : forall q, options q = o -> active_set q = sort_asc (active_set dp) ->
              exists dp2,
                (let dp := _build q in Done (if inline o then open dp else dp)) = Done dp2
                /\ scheduleMode (options dp2) = scheduleMode (options dp)
                /\ active_set dp2 = sort_asc (active_set dp)).
  { intros q Q1 Q2. cbv zeta. eexists. split; [reflexivity|].
    destruct (_build_schedule q ltac:(rewrite Q1; exact ET)) as (W & Mo & Op).
    assert (Z1 : forall r, options r = options q ->
                 scheduleWeeklySelected r = scheduleWeeklySelected q ->
                 scheduleMonthlySelected r = scheduleMonthlySelected q ->
                 scheduleMode (options r) = scheduleMode (options dp)
                 /\ active_set r = sort_asc (active_set dp)).
    { intros r R1 R2 R3. rewrite R1, Q1. split; [exact M|]. rewrite <- Q2.
      unfold active_set. rewrite R1, R2, R3. reflexivity. }
    destruct (inline o).
    - apply Z1; unfold open; destruct (_build q); cbn in *; congruence.
    - apply Z1; congruence. }
  unfold in_schedule_mode in I. rewrite <- M in I.
  destruct text eqn:TE.
  - cbn [bind]. apply K; [exact BO|].
    unfold _parseScheduleArray in P. injection P as P.
    rewrite <- P. unfold active_set. rewrite BO.
    destruct (scheduleMode o); [reflexivity| |]; assumption.
  - destruct (scheduleMode o) eqn:MO; [discriminate| |].
    + rewrite P. cbn [bind]. rewrite BW. rewrite set_insert_all_fresh by exact N. cbn [app].
      apply K; [destruct b; exact BO|].
      unfold active_set at 1.
      replace (options (set_scheduleWeeklySelected (sort_asc (active_set dp)) b)) with o
        by (destruct b; exact (eq_sym BO)).
      rewrite MO. destruct b; reflexivity.
    + rewrite P. cbn [bind]. rewrite BM. rewrite set_insert_all_fresh by exact N. cbn [app].
      apply K; [destruct b; exact BO|].
      unfold active_set at 1.
      replace (options (set_scheduleMonthlySelected (sort_asc (active_set dp)) b)) with o
        by (destruct b; exact (eq_sym BO)).
      rewrite MO. destruct b; reflexivity.
Qed.

(** No field update but that of [options] touches the options. *)
Lemma options_set_selectedDate v dp : options (set_selectedDate v dp) = options dp.
Proof. destruct dp; reflexivity. Qed.

Lemma options_set_scheduleWeeklySelected v dp : options (set_scheduleWeeklySelected v dp) = options dp.
Proof. destruct dp; reflexivity. Qed.

Lemma options_set_scheduleMonthlySelected v dp : options (set_scheduleMonthlySelected v dp) = options dp.
Proof. destruct dp; reflexivity. Qed.

Lemma options_set_rangeStart v dp : options (set_rangeStart v dp) = options dp.
Proof. destruct dp; reflexivity. Qed.

Lemma options_set_rangeEnd v dp : options (set_rangeEnd v dp) = options dp.
Proof. destruct dp; reflexivity. Qed.

Lemma options_set_hoveringDate v dp : options (set_hoveringDate v dp) = options dp.
Proof. destruct dp; reflexivity. Qed.

Lemma options_set_startHours v dp : options (set_startHours v dp) = options dp.
Proof. destruct dp; reflexivity. Qed.

Lemma options_set_startMinutes v dp : options (set_startMinutes v dp) = options dp.
Proof. destruct dp; reflexivity. Qed.

Lemma options_set_endHours v dp : options (set_endHours v dp) = options dp.
Proof. destruct dp; reflexivity. Qed.

Lemma options_set_endMinutes v dp : options (set_endMinutes v dp) = options dp.
Proof. destruct dp; reflexivity. Qed.

Lemma options_set_focusedDate v dp : options (set_focusedDate v dp) = options dp.
Proof. destruct dp; reflexivity. Qed.

Lemma options_set_currentViewMonth v dp : options (set_currentViewMonth v dp) = options dp.
Proof. destruct dp; reflexivity. Qed.

Lemma options_set_isOpen v dp : options (set_isOpen v dp) = options dp.
Proof. destruct dp; reflexivity. Qed.

Lemma options_set_timeHours v dp : options (set_timeHours v dp) = options dp.
Proof. destruct dp; reflexivity. Qed.

Lemma options_set_timeMinutes v dp : options (set_timeMinutes v dp) = options dp.
Proof. destruct dp; reflexivity. Qed.

Lemma options_set_daysGrid v dp : options (set_daysGrid v dp) = options dp.
Proof. destruct dp; reflexivity. Qed.

Lemma options_set_timeRow v dp : options (set_timeRow v dp) = options dp.
Proof. destruct dp; reflexivity. Qed.

Lemma options_set_timeRangeRow v dp : options (set_timeRangeRow v dp) = options dp.
Proof. destruct dp; reflexivity. Qed.

Lemma options_set_doneButton v dp : options (set_doneButton v dp) = options dp.
Proof. destruct dp; reflexivity. Qed.

Lemma options_set_inputValue v dp : options (set_inputValue v dp) = options dp.
Proof. destruct dp; reflexivity. Qed.

Lemma options_set_changeEvents v dp : options (set_changeEvents v dp) = options dp.
Proof. destruct dp; reflexivity. Qed.

Lemma options_set_callbacks v dp : options (set_callbacks v dp) = options dp.
Proof. destruct dp; reflexivity. Qed.

Lemma options_set_options o dp : options (set_options o dp) = o.
Proof. destruct dp; reflexivity. Qed.

Create Rewrite HintDb opts.

#[export] Hint Rewrite options_set_selectedDate options_set_scheduleWeeklySelected options_set_scheduleMonthlySelected options_set_rangeStart options_set_rangeEnd options_set_hoveringDate options_set_startHours options_set_startMinutes options_set_endHours options_set_endMinutes options_set_focusedDate options_set_currentViewMonth options_set_isOpen options_set_timeHours options_set_timeMinutes options_set_daysGrid options_set_timeRow options_set_timeRangeRow options_set_doneButton options_set_inputValue options_set_changeEvents options_set_callbacks options_set_options : opts.

Ltac opt_frame :=
  repeat match goal with
         | |- context [if ?c then _ else _] => destruct c
         | |- context [match ?x with _ => _ end] => destruct x
         end;
  try reflexivity.

Lemma _applySelection_options dp d s : options (_applySelection dp d s) = options dp.
Proof. unfold _applySelection. cbv zeta. destruct dp as [o]. cbn. opt_frame. Qed.

Lemma _selectDate_options dp d s : options (_selectDate dp d s) = options dp.
Proof. unfold _selectDate. apply _applySelection_options. Qed.

Lemma _initTimeFromDate_options dp d : options (_initTimeFromDate dp d) = options dp.
Proof. unfold _initTimeFromDate. destruct (negb _); [reflexivity|]. destruct dp; reflexivity. Qed.

Lemma _updateTimeInputs_options dp : options (_updateTimeInputs dp) = options dp.
Proof. unfold _updateTimeInputs. cbv zeta. destruct (_ || _); [reflexivity|]. destruct dp; reflexivity. Qed.

Lemma _setTime_options dp h m u : options (_setTime dp h m u) = options dp.
Proof.
  unfold _setTime. cbv zeta.
  match goal with |- context [_updateTimeInputs ?q] =>
    assert (E : options (_updateTimeInputs q) = options dp)
      by (rewrite _updateTimeInputs_options; destruct dp; reflexivity);
    generalize dependent (_updateTimeInputs q) end.
  intros q E. destruct (selectedDate q); [|exact E].
  rewrite _applySelection_options. exact E.
Qed.

Lemma _updateRangeTimeInputs_options dp : options (_updateRangeTimeInputs dp) = options dp.
Proof. apply _updateRangeTimeInputs_range. Qed.

Lemma _syncRangeValue_options dp s : options (_syncRangeValue dp s) = options dp.
Proof. apply _syncRangeValue_range. Qed.

Lemma setRange_options dp a s dp' : setRange dp a s = Done dp' -> options dp' = options dp.
Proof.
  unfold setRange. cbv zeta. destruct (negb _); [intros [= <-]; reflexivity|].
  destruct a as [|[|c r]|x y|x y|d].
  - intros [= <-]. apply setRange_clear_range.
  - intros [= <-]. apply setRange_clear_range.
  - destruct (_parseRangeString _ _) as [[[a b]|]|]; cbn [bind]; intros [= <-];
      apply setRange_store_range.
  - destruct (_normalizeDate _ x); cbn [bind]; [|discriminate].
    destruct (_normalizeDate _ y); cbn [bind]; [|discriminate].
    intros [= <-]. apply setRange_store_range.
  - destruct (_normalizeDate _ x); cbn [bind]; [|discriminate].
    destruct (_normalizeDate _ y); cbn [bind]; [|discriminate].
    intros [= <-]. apply setRange_store_range.
  - unfold _normalizeDate. cbn [bind]. intros [= <-]. apply setRange_store_range.
Qed.

Lemma setDate_options dp a s dp' : setDate dp a s = Done dp' -> options dp' = options dp.
Proof.
  unfold setDate. cbv zeta. destruct (range (options dp)).
  - destruct (falsy a); apply setRange_options.
  - destruct (falsy a).
    + intros [= <-]. destruct dp as [o]. cbn. opt_frame.
    + destruct (_normalizeDate _ a) as [[p|]|]; cbn [bind]; try discriminate;
        [|intros [= <-]; reflexivity].
      destruct (isDateOutOfBounds _ _ _); [intros [= <-]; reflexivity|].
      destruct (is_disabled _ _); [intros [= <-]; reflexivity|].
      intros [= <-]. rewrite _selectDate_options.
      destruct (enableTime (options dp)); rewrite ?_initTimeFromDate_options;
        destruct dp; reflexivity.
Qed.

Lemma close_options dp : options (close dp) = options dp.
Proof. destruct dp; reflexivity. Qed.

Lemma _handleRangeClick_options dp d : options (_handleRangeClick dp d) = options dp.
Proof.
  unfold _handleRangeClick. cbv zeta. destruct (negb _); [reflexivity|].
  destruct (rangeStart dp), (rangeEnd dp);
    repeat first [rewrite close_options | rewrite _updateRangeTimeInputs_options
                 | rewrite _syncRangeValue_options
                 | match goal with |- context [if ?c then _ else _] => destruct c end];
    destruct dp; reflexivity.
Qed.

Lemma click_day_options dp d : options (click_day dp d) = options dp.
Proof.
  unfold click_day. cbv zeta. destruct (range _); [apply _handleRangeClick_options|].
  destruct (_ && _); rewrite ?close_options; apply _selectDate_options.
Qed.

Lemma _clearSelection_options dp dp' : _clearSelection dp = Done dp' -> options dp' = options dp.
Proof.
  unfold _clearSelection. cbv zeta.
  destruct (scheduleMode (options dp)).
  - destruct (range (options dp)).
    + destruct (setRange dp RangeNull "user") eqn:E; cbn [bind]; [|discriminate].
      apply setRange_options in E. intros [= <-].
      destruct (_ && _); rewrite ?close_options; exact E.
    + destruct (setDate dp ArgNull "user") eqn:E; cbn [bind]; [|discriminate].
      apply setDate_options in E. intros [= <-].
      destruct (_ && _); rewrite ?close_options; exact E.
  - cbn [bind]. intros [= <-].
    destruct (_ && _); rewrite ?close_options, _syncScheduleValue_options;
      destruct dp; reflexivity.
  - cbn [bind]. intros [= <-].
    destruct (_ && _); rewrite ?close_options, _syncScheduleValue_options;
      destruct dp; reflexivity.
Qed.

Ltac via_setRange dp :=
  match goal with
  | |- setRange ?q ?a ?s = Done _ -> _ =>
      let E := fresh "E" in
      intros E; apply setRange_options in E; rewrite E; destruct dp; reflexivity
  | |- bind (setRange ?q ?a ?s) _ = Done _ -> _ =>
      let E := fresh "E" in
      destruct (setRange q a s) eqn:E; cbn [bind]; [|discriminate];
      apply setRange_options in E; intros [= <-];
      repeat match goal with |- context [if ?c then _ else _] => destruct c end;
      rewrite ?close_options, E; destruct dp; reflexivity
  end.

Lemma _selectToday_options dp now dp' :
  _selectToday dp now = Done dp' -> options dp' = options dp.
Proof.
  unfold _selectToday. cbv zeta.
  destruct (scheduleMode (options dp)).
  - destruct (isDateOutOfBounds _ _ _); [intros [= <-]; reflexivity|].
    destruct (is_disabled _ _); [intros [= <-]; reflexivity|].
    destruct (range (options dp)).
    + repeat match goal with
             | |- context [if ?c then _ else _] => destruct c
             | |- context [match ?x with Some _ => _ | None => _ end] => destruct x
             end; via_setRange dp.
    + intros [= <-].
      repeat match goal with |- context [if ?c then _ else _] => destruct c end;
        rewrite ?close_options, _selectDate_options, ?_updateTimeInputs_options;
        destruct dp; reflexivity.
  - intros [= <-]. apply _toggleWeeklyDay_options.
  - intros [= <-]. apply _toggleMonthlyDay_options.
Qed.

Lemma perform_options dp a dp' : perform dp a = Done dp' -> options dp' = options dp.
Proof.
  destruct a; cbn [perform].
  - intros [= <-]. apply click_day_options.
  - apply _selectToday_options.
  - apply _clearSelection_options.
  - intros [= <-]. apply _toggleWeeklyDay_options.
  - intros [= <-]. apply _toggleMonthlyDay_options.
  - intros [= <-]. apply _setTime_options.
  - apply setDate_options.
  - apply setRange_options.
Qed.

Lemma _commitValue_options dp : options (_commitValue dp) = options dp.
Proof.
  unfold _commitValue. cbv zeta. destruct dp as [o]. cbn.
  repeat match goal with
         | |- context [if ?c then _ else _] => destruct c
         | |- context [match ?x with _ => _ end] => destruct x
         end; reflexivity.
Qed.

Lemma _onKeyDown_options dp k now : options (_onKeyDown dp k now) = options dp.
Proof.
  unfold _onKeyDown. cbv zeta.
  assert (M : forall d,
    options (if num_eqb (getTime (startOfMonth (startOfDay d)))
                  (getTime (currentViewMonth (set_focusedDate (Some (startOfDay d)) dp)))
             then set_focusedDate (Some (startOfDay d)) dp
             else set_currentViewMonth (startOfMonth (startOfDay d))
                    (set_focusedDate (Some (startOfDay d)) dp)) = options dp).
  { intros d. destruct (num_eqb _ _); destruct dp; reflexivity. }
  destruct k; try apply M; try reflexivity; try apply close_options.
  - destruct (scheduleMode (options dp)).
    + repeat match goal with |- context [if ?c then _ else _] => destruct c end;
        rewrite ?close_options, ?_handleRangeClick_options, ?_selectDate_options;
        reflexivity.
    + apply _toggleWeeklyDay_options.
    + apply _toggleMonthlyDay_options.
  - destruct (scheduleMode (options dp)).
    + repeat match goal with |- context [if ?c then _ else _] => destruct c end;
        rewrite ?close_options, ?_handleRangeClick_options, ?_selectDate_options;
        reflexivity.
    + apply _toggleWeeklyDay_options.
    + apply _toggleMonthlyDay_options.
Qed.

(** X19.  Interaction never changes the options: every user action
    ([perform]), every key ([_onKeyDown]), [_commitValue] and the two month
    buttons leave [this.options] as it was. *)
Theorem interaction_keeps_options (dp : DatePicker) :
  (forall a dp', perform dp a = Done dp' -> options dp' = options dp)
  /\ (forall k now, options (_onKeyDown dp k now) = options dp)
  /\ options (_commitValue dp) = options dp
  /\ options (_goToPreviousMonth dp) = options dp
  /\ options (_goToNextMonth dp) = options dp.
Proof.
  split; [apply perform_options|]. split; [apply _onKeyDown_options|].
  split; [apply _commitValue_options|].
  unfold _goToPreviousMonth, _goToNextMonth. destruct dp; split; reflexivity.
Qed.

#[export] Hint Rewrite _applySelection_options _selectDate_options _initTimeFromDate_options
  _updateTimeInputs_options _setTime_options _updateRangeTimeInputs_options
  _syncRangeValue_options _handleRangeClick_options close_options
  _syncScheduleValue_options : opts.

Lemma keeps_bind P m k :
  keeps P m -> (forall x0, P x0 -> keeps P (k x0)) -> keeps P (bind m k).
Proof. destruct m; cbn; auto. Qed.

Lemma leaves_and_then P c k :
  leaves P c -> (forall x0, P x0 -> leaves P (k x0)) -> leaves P (and_then c k).
Proof. destruct c; cbn; auto. Qed.

Lemma leaves_on_key {A} P (key : option A) dp k :
  P dp -> (forall v d, P d -> leaves P (k v d)) -> leaves P (on_key key dp k).
Proof. intros H K. destruct key; cbn; auto. Qed.

Lemma leaves_keeps P dp partial :
  leaves P (updateOptions_run dp partial) -> keeps P (updateOptions dp partial).
Proof. unfold updateOptions. destruct (updateOptions_run dp partial); cbn; auto. Qed.

Lemma _buildTimeControls_options dp : options (_buildTimeControls dp) = options dp.
Proof.
  unfold _buildTimeControls. cbv zeta. rewrite _updateTimeInputs_options.
  destruct (selectedDate _); rewrite ?_initTimeFromDate_options; destruct dp; reflexivity.
Qed.

Lemma _buildRangeTimeControls_options dp : options (_buildRangeTimeControls dp) = options dp.
Proof.
  unfold _buildRangeTimeControls. rewrite _updateRangeTimeInputs_options.
  destruct dp; reflexivity.
Qed.

#[export] Hint Rewrite _buildTimeControls_options _buildRangeTimeControls_options : opts.

(** The time rows are built without a change of the options, whether the
    insertion that follows throws or not. *)
Lemma ensure_timeRow_options dp :
  leaves (fun d => options d = options dp) (ensure_timeRow dp).
Proof.
  unfold ensure_timeRow, calendarElement_insertBefore_footer. cbv zeta.
  destruct (negb (timeRow dp)); [|reflexivity].
  destruct (timeRow (_buildTimeControls dp)); cbn; apply _buildTimeControls_options.
Qed.

Lemma ensure_timeRangeRow_options dp :
  leaves (fun d => options d = options dp) (ensure_timeRangeRow dp).
Proof.
  unfold ensure_timeRangeRow, calendarElement_insertBefore_footer. cbv zeta.
  destruct (negb (timeRangeRow dp)); [|reflexivity].
  destruct (timeRangeRow (_buildRangeTimeControls dp)); cbn;
    apply _buildRangeTimeControls_options.
Qed.

Lemma leaves_step (P Q : DatePicker -> Prop) c k :
  leaves P c -> (forall x0, P x0 -> Q x0) -> (forall x0, P x0 -> leaves Q (k x0)) ->
  leaves Q (and_then c k).
Proof. destruct c; cbn; auto. Qed.

Lemma leaves_impl (P Q : DatePicker -> Prop) c :
  leaves P c -> (forall d, P d -> Q d) -> leaves Q c.
Proof. destruct c; cbn; auto. Qed.

Ltac split_ifs :=
  repeat match goal with
         | |- context [if ?c then _ else _] => destruct c eqn:?
         end.

Ltac fields d :=
  let o := fresh "o" in
  destruct d as [o];
  destruct o as [fmt fdow mn mx dis os osr oss oof ac sod inl et step h12 rg sep cf mode
                 wm mm wd];
  unfold options_consistent in *; cbn in *.

Ltac bools :=
  repeat match goal with
         | H : _ && _ = true |- _ => apply andb_true_iff in H; destruct H
         end;
  repeat match goal with
         | H : (0 <? _) = true |- _ => rewrite H; clear H
         end;
  cbn;
  repeat match goal with
         | x : schedule_mode |- _ => destruct x
         | H : context [if ?x then _ else _] |- _ => is_var x; destruct x
         | H : context [negb ?x] |- _ => is_var x; destruct x
         | H : context [Bool.eqb ?x _] |- _ => is_var x; destruct x
         | H : context [Bool.eqb _ ?x] |- _ => is_var x; destruct x
         | |- context [negb ?x] => is_var x; destruct x
         end; cbn in *; try reflexivity; try congruence;
  try (apply andb_true_iff; split; [assumption|reflexivity]).

(** A state whose options are those of a consistent state is
    consistent. *)
Lemma consistent_same_options d d' :
  options_consistent (options d) = true -> options d' = options d ->
  options_consistent (options d') = true.
Proof. intros H E. rewrite E. exact H. Qed.

Lemma updateOptions_run_consistent dp partial :
  options_consistent (options dp) = true ->
  leaves (fun d => options_consistent (options d) = true) (updateOptions_run dp partial).
Proof.
  intros H. unfold updateOptions_run.
  repeat (apply leaves_and_then; [|intros ? ?]).
  all: try (apply leaves_on_key; [assumption|]).
  all: intros v d Hd; clear - Hd; unfold leaves, set_opt, in_schedule_mode in *.
  all: try (destruct d as [o]; destruct o; cbn in *; exact Hd).
  - (* scheduleMode *)
    destruct (mode_eqb v (scheduleMode (options d))) eqn:E; [exact Hd|].
    rewrite _syncScheduleValue_options. destruct v; fields d; bools.
  - (* minDate *)
    destruct (_normalizeDate _ _); [|exact Hd].
    destruct d as [o]; destruct o; cbn in *; exact Hd.
  - (* maxDate *)
    destruct (_normalizeDate _ _); [|exact Hd].
    destruct d as [o]; destruct o; cbn in *; exact Hd.
  - (* enableTime *)
    match goal with
    | |- match (if ?c then _ else _) with _ => _ end => destruct c eqn:C
    end.
    + match goal with
      | |- match (if ?c then _ else _) with _ => _ end => destruct c eqn:R
      end.
      * eapply leaves_impl; [apply ensure_timeRangeRow_options|].
        cbv beta. intros q ->. revert R C. fields d. intros R C. bools.
      * eapply leaves_impl; [apply ensure_timeRow_options|].
        cbv beta. intros q ->. revert R C. fields d. intros R C. bools.
    + split_ifs; fields d; bools.
  - (* timeStep *)
    split_ifs; rewrite ?_updateTimeInputs_options, ?_updateRangeTimeInputs_options;
      fields d; destruct v as [x|]; cbn; split_ifs;
      try assumption;
      match goal with
      | H : (0 <? ?x) = true |- (0 <? ?x) && _ = true =>
          rewrite H; apply andb_true_iff in Hd; destruct Hd as [_ Hd]; exact Hd
      end.
  - (* hour12 *)
    destruct (Bool.eqb _ _); [exact Hd|].
    match goal with
    | |- match (if ?c then _ else _) with _ => _ end => destruct c
    end; [|destruct d as [o]; destruct o; cbn in *; exact Hd].
    match goal with
    | |- match (if ?c then _ else _) with _ => _ end => destruct c
    end.
    + eapply leaves_impl; [apply ensure_timeRow_options|].
      cbv beta. intros q ->. destruct d as [o]; destruct o; cbn in *; exact Hd.
    + rewrite _updateTimeInputs_options. destruct d as [o]; destruct o; cbn in *; exact Hd.
  - (* range *)
    destruct (Bool.eqb _ _) eqn:E; [exact Hd|].
    match goal with |- context [range (options ?q)] => destruct (range (options q)) eqn:R end.
    + apply (leaves_step (fun q => options q = options
               (set_options (set_range (if negb (mode_eqb (scheduleMode (options d)) ModeNone)
                                        then false else v) (options d)) d))).
      * destruct (enableTime _).
        -- eapply leaves_impl; [apply ensure_timeRangeRow_options|].
           cbv beta. intros q ->. destruct d; reflexivity.
        -- destruct d; reflexivity.
      * intros q Q. rewrite Q. revert R. fields d. intros R. bools.
      * intros q Q.
        match goal with |- leaves _ (match ?m with _ => _ end) => destruct m end; cbn.
        -- autorewrite with opts. rewrite Q. revert R. fields d. intros R. bools.
        -- autorewrite with opts. rewrite Q. revert R. fields d. intros R. bools.
    + apply (leaves_step (fun q => options q = options
               (set_options (set_range (if negb (mode_eqb (scheduleMode (options d)) ModeNone)
                                        then false else v) (options d)) d))).
      * destruct (enableTime _).
        -- eapply leaves_impl; [apply ensure_timeRow_options|].
           cbv beta. intros q ->. destruct d; reflexivity.
        -- destruct d; reflexivity.
      * intros q Q. rewrite Q. revert R. fields d. intros R. bools.
      * intros q Q. unfold completed.
        match goal with |- leaves _ (match ?m with _ => _ end) => destruct m eqn:S end; cbn.
        -- apply setDate_options in S. rewrite S, Q. revert R. fields d. intros R. bools.
        -- rewrite Q. revert R. fields d. intros R. bools.
  - (* confirm *)
    destruct (Bool.eqb _ _); [exact Hd|].
    destruct d as [o]; destruct o; cbn in *; exact Hd.
Qed.

Lemma updateOptions_consistent dp partial :
  options_consistent (options dp) = true ->
  keeps (fun d => options_consistent (options d) = true) (updateOptions dp partial).
Proof. intros H. apply leaves_keeps, updateOptions_run_consistent. exact H. Qed.

Lemma _build_options dp : options (_build dp) = options dp.
Proof.
  unfold _build. cbv zeta. autorewrite with opts.
  split_ifs; autorewrite with opts; reflexivity.
Qed.

Lemma open_options dp : options (open dp) = options dp.
Proof. destruct dp; reflexivity. Qed.

(** The picker that the constructor returns carries the options of its
    first block. *)
Lemma constructor_options_of value io now dp :
  constructor value io now = Done dp -> constructor_options io = Done (options dp).
Proof.
  unfold constructor. destruct (constructor_options io) as [o|]; cbn [bind]; [|discriminate].
  cbv zeta.
  match goal with |- bind ?m _ = _ -> _ => destruct m as [q|] eqn:E end;
    cbn [bind]; [|discriminate].
  intros [= <-].
  assert (O : options q = o).
  { revert E. destruct (trim value); [intros [= <-]; reflexivity|].
    destruct (scheduleMode o).
    - destruct (range o).
      + destruct (_parseRangeString _ _) as [[[rs re]|]|]; cbn [bind]; try discriminate.
        * destruct (enableTime o); intros [= <-]; destruct rs, re;
            autorewrite with opts; reflexivity.
        * intros [= <-]. reflexivity.
      + destruct (parseDate _ _) as [[d|]|]; cbn [bind]; try discriminate.
        * destruct (enableTime o); intros [= <-]; autorewrite with opts; reflexivity.
        * intros [= <-]. reflexivity.
    - destruct (_parseScheduleArray _ _); cbn [bind]; [|discriminate].
      intros [= <-]. autorewrite with opts. reflexivity.
    - destruct (_parseScheduleArray _ _); cbn [bind]; [|discriminate].
      intros [= <-]. autorewrite with opts. reflexivity. }
  destruct (inline o); rewrite ?open_options, _build_options, O; reflexivity.
Qed.

Lemma constructor_options_consistent io o :
  constructor_options io = Done o -> options_consistent o = true.
Proof.
  unfold constructor_options.
  destruct (_normalizeDate None (i_minDate io)); cbn [bind]; [|discriminate].
  destruct (_normalizeDate None (i_maxDate io)); cbn [bind]; [|discriminate].
  cbn [scheduleMode enableTime].
  assert (T : 0 < match i_timeStep io with
                  | Some s => if 0 <? s then s else 5
                  | None => 5
                  end).
  { destruct (i_timeStep io) as [s|]; [|lia]. destruct (Z.ltb_spec 0 s); lia. }
  apply Z.ltb_lt in T.
  destruct (i_scheduleMode io), (i_enableTime io), (i_range io); cbn; intros [= <-];
    unfold options_consistent; cbn; rewrite T; reflexivity.
Qed.

(** The weekday names of a constructed picker are those that
    [buildDefaultI18n] makes for its first day of the week. *)
Lemma constructor_weekdays value io now dp :
  constructor value io now = Done dp ->
  i18n_weekdays (options dp) = buildDefaultI18n_weekdays (firstDayOfWeek (options dp)).
Proof.
  intros H. apply constructor_options_of in H. revert H.
  unfold constructor_options. cbv zeta.
  destruct (_normalizeDate None (i_minDate io)) as [mn|]; cbn [bind]; [|discriminate].
  destruct (_normalizeDate None (i_maxDate io)) as [mx|]; cbn [bind]; [|discriminate].
  cbn [scheduleMode enableTime].
  destruct (i_scheduleMode io), (i_enableTime io); cbn; intros [= <-]; reflexivity.
Qed.

(** [updateOptions({ firstDayOfWeek: 1 })] moves the grid and leaves the
    names as they were: the header still begins with Sunday, the grid
    with a Monday. *)
Lemma weekday_header_left_behind :
  exists dp dp',
    constructor EmptyString default_options now0 = Done dp
    /\ updateOptions dp monday_first = Done dp'
    /\ firstDayOfWeek (options dp') = 1
    /\ _renderWeekdays dp' = _renderWeekdays dp
    /\ (exists label,
          nth_error (_renderWeekdays dp') 0 = Some (Some label) /\ getDay label = Some 0)
    /\ (exists dayDate,
          nth_error (_render dp' now0) 0 = Some (DayCell dayDate true false false false)
          /\ getDay dayDate = Some 1).
Proof.
  let r := eval vm_compute in (constructor EmptyString default_options now0) in
  match r with Done ?x => exists x;
    let r2 := eval vm_compute in (updateOptions x monday_first) in
    match r2 with Done ?y => exists y end end.
  split; [vm_compute; reflexivity|]. split; [vm_compute; reflexivity|].
  split; [vm_compute; reflexivity|]. split; [vm_compute; reflexivity|]. split.
  - match goal with |- exists l, nth_error ?h 0 = _ /\ _ =>
      let r := eval vm_compute in (nth_error h 0) in
      match r with Some (Some ?l) => exists l end end.
    split; vm_compute; reflexivity.
  - match goal with |- exists l, nth_error ?h 0 = _ /\ _ =>
      let r := eval vm_compute in (nth_error h 0) in
      match r with Some (DayCell ?l _ _ _ _) => exists l end end.
    split; vm_compute; reflexivity.
Qed.

(** X8.  As long as the options are those the constructor made (no
    interaction changes them), the header and the grid agree: the name
    that [_renderWeekdays] writes in column [i mod 7], which
    [buildDefaultI18n] took from [buildWeekdayOrder], names the weekday
    [(firstDayOfWeek + i) mod 7], and that is the weekday of the date of
    cell [i] of the grid. *)
Theorem header_matches_grid
  (value : string) (io : InitialOptions) (built : Date) (dp0 dp : DatePicker)
  (now : Date) (t : Z) :
  constructor value io built = Done dp0 ->
  options dp = options dp0 ->
  daysGrid dp = true ->
  scheduleMode (options dp) = ModeNone ->
  currentViewMonth dp = DateAt t ->
  0 <= firstDayOfWeek (options dp) <= 6 ->
  100 <= YearFromDay (Day t - 37) ->
  forall (i : nat) (dayDate : Date) (isOutside isToday isSelected isDisabled : bool),
    nth_error (_render dp now) i
    = Some (DayCell dayDate isOutside isToday isSelected isDisabled) ->
    exists label,
      nth_error (_renderWeekdays dp) (i mod 7) = Some (Some label)
      /\ getDay dayDate = getDay label
      /\ getDay label = Some ((firstDayOfWeek (options dp) + Z.of_nat i) mod 7).
Proof.
  intros C O G M V F Y i dayDate a b c d H.
  assert (W : _renderWeekdays dp = buildDefaultI18n_weekdays (firstDayOfWeek (options dp))).
  { unfold _renderWeekdays. rewrite O. apply (constructor_weekdays value io built). exact C. }
  assert (I : (i < 42)%nat).
  { rewrite <- (render_length dp now G M). apply nth_error_Some. congruence. }
  rewrite (render_cell dp now i G M I) in H. unfold render_day in H.
  destruct (negb (showOutsideDays (options dp)) && _); [discriminate|].
  injection H as <- _ _ _ _.
  rewrite V, grid_dates by assumption. cbn [getDay]. rewrite Day_midnight.
  rewrite W.
  set (f := firstDayOfWeek (options dp)) in *.
  set (first := Day t - DateFromDay (Day t) + 1).
  destruct (buildDefaultI18n_weekdays_days f (i mod 7) F) as (label & L1 & L2).
  { apply Nat.mod_upper_bound. discriminate. }
  exists label. split; [exact L1|].
  assert (E : WeekDay (first - (WeekDay first - f) mod 7 + Z.of_nat i)
              = (f + Z.of_nat i) mod 7).
  { pose proof (grid_start_weekday first f F) as W'. unfold WeekDay in *.
    generalize dependent (first - ((first + 4) mod 7 - f) mod 7). intros n W'.
    rewrite <- W'. div_lia. }
  assert (E' : (f + Z.of_nat (i mod 7)) mod 7 = (f + Z.of_nat i) mod 7).
  { rewrite Nat2Z.inj_mod. change (Z.of_nat 7) with 7. div_lia. }
  rewrite L2, E, E'. split; reflexivity.
Qed.

Lemma header_matches_grid_witness :
  exists label,
    nth_error (_renderWeekdays (picker defaults)) (5 mod 7) = Some (Some label)
    /\ getDay (DateAt 1709251200000) = getDay label
    /\ getDay label
       = Some ((firstDayOfWeek (options (picker defaults)) + Z.of_nat 5) mod 7).
Proof.
  apply (header_matches_grid EmptyString default_options now0 (picker defaults)
           (picker defaults) now0 1709251200000) with
    (isOutside := false) (isToday := false) (isSelected := false) (isDisabled := false).
  - vm_compute. reflexivity.
  - reflexivity.
  - vm_compute. reflexivity.
  - vm_compute. reflexivity.
  - vm_compute. reflexivity.
  - vm_compute. split; discriminate.
  - vm_compute. discriminate.
  - vm_compute. reflexivity.
Defined.

(** The date of a click, with a time of day, is on the day of the cell. *)
Lemma date_with_time_same_day t h m :
  100 <= YearFromDay (Day t) -> 0 <= or0 h <= 23 -> 0 <= or0 m <= 59 ->
  areSameCalendarDate (date_with_time (DateAt t) h m) (DateAt t) = true.
Proof.
  intros Y H M. unfold date_with_time. cbn [getFullYear getMonth getDate].
  rewrite new_Date_plain by lia. rewrite fields_day.
  apply same_day_iff. apply Day_MakeDate. apply MakeTime_range; assumption.
Qed.

Lemma clicked_same_day dp t h m :
  100 <= YearFromDay (Day t) -> 0 <= or0 h <= 23 -> 0 <= or0 m <= 59 ->
  areSameCalendarDate (clicked dp (DateAt t) h m) (DateAt t) = true.
Proof.
  intros Y H M. unfold clicked. destruct (enableTime (options dp)).
  - apply date_with_time_same_day; assumption.
  - rewrite startOfDay_plain by lia. apply same_day_iff. apply Day_midnight.
Qed.

(** Claim C4, as amended.  In range mode, with a start and no end, a click
    never starts a new range: it stores the clicked date (with the end
    time when time selection is on) as the end, or, when that lies before
    the start, as the start with the old start as the end.  A second click
    on the cell of the start therefore leaves start and end both on the
    date of that cell; with time selection off both are that date. *)
Theorem same_cell_second_click (dp : DatePicker) (d start : Date) :
  range (options dp) = true ->
  rangeStart dp = Some start -> rangeEnd dp = None ->
  let dp' := _handleRangeClick dp d in
  let e := clicked dp d (endHours dp) (endMinutes dp) in
  (rangeStart dp' = Some (if date_lt e start then e else start)
   /\ rangeEnd dp' = Some (if date_lt e start then start else e))
  /\ (forall t, d = DateAt t -> 100 <= YearFromDay (Day t) ->
      0 <= or0 (endHours dp) <= 23 -> 0 <= or0 (endMinutes dp) <= 59 ->
      areSameCalendarDate start d = true ->
      exists s' e',
        rangeStart dp' = Some s' /\ rangeEnd dp' = Some e'
        /\ areSameCalendarDate s' d = true /\ areSameCalendarDate e' d = true
        /\ date_le s' e' = true)
  /\ (enableTime (options dp) = false -> start = startOfDay d ->
      rangeStart dp' = Some start /\ rangeEnd dp' = Some start).
Proof.
  intros R S E. destruct (_handleRangeClick_second dp d start R S E) as (A & B & _).
  cbv zeta in *. split; [split; assumption|]. split.
  - intros t -> Y Hh Hm Sd.
    pose proof (clicked_same_day dp t (endHours dp) (endMinutes dp) Y Hh Hm) as C.
    rewrite A, B.
    destruct start as [|ts]; [discriminate Sd|].
    destruct (clicked dp (DateAt t) (endHours dp) (endMinutes dp)) as [|te] eqn:K;
      [discriminate C|].
    cbn [date_lt]. destruct (Z.ltb_spec te ts).
    + exists (DateAt te), (DateAt ts). repeat split; try assumption.
      cbn. apply Z.leb_le. lia.
    + exists (DateAt ts), (DateAt te). repeat split; try assumption.
      cbn. apply Z.leb_le. lia.
  - intros T ->. rewrite A, B. unfold clicked. rewrite T.
    rewrite date_lt_irrefl. auto.
Qed.

(** Two clicks on 10 March. *)
Lemma same_cell_second_click_witness :
  let dp1 := _handleRangeClick range_picker d_2024_03_10 in
  let dp' := _handleRangeClick dp1 d_2024_03_10 in
  (range (options dp1) = true /\ rangeStart dp1 = Some d_2024_03_10
   /\ rangeEnd dp1 = None)
  /\ (exists s' e',
        rangeStart dp' = Some s' /\ rangeEnd dp' = Some e'
        /\ areSameCalendarDate s' d_2024_03_10 = true
        /\ areSameCalendarDate e' d_2024_03_10 = true
        /\ date_le s' e' = true)
  /\ rangeStart dp' = Some d_2024_03_10 /\ rangeEnd dp' = Some d_2024_03_10.
Proof.
  cbv zeta.
  assert (R : range (options (_handleRangeClick range_picker d_2024_03_10)) = true)
    by (vm_compute; reflexivity).
  assert (S : rangeStart (_handleRangeClick range_picker d_2024_03_10)
              = Some d_2024_03_10) by (vm_compute; reflexivity).
  assert (E : rangeEnd (_handleRangeClick range_picker d_2024_03_10) = None)
    by (vm_compute; reflexivity).
  destruct (same_cell_second_click _ d_2024_03_10 d_2024_03_10 R S E)
    as (_ & B & C).
  split; [auto|]. split.
  - apply (B 1710028800000).
    + reflexivity.
    + vm_compute. discriminate.
    + vm_compute. split; discriminate.
    + vm_compute. split; discriminate.
    + vm_compute. reflexivity.
  - apply C; vm_compute; reflexivity.
Defined.

(** With time selection on, start time 10:00 and end time 09:00: the
    second click on 10 March stores 09:00 as the start and 10:00 as the
    end, both on 10 March. *)
Lemma same_cell_with_time :
  let dp0 := set_endHours (Some 9) (set_startHours (Some 10) range_time_picker) in
  let dp1 := _handleRangeClick dp0 d_2024_03_10 in
  let dp' := _handleRangeClick dp1 d_2024_03_10 in
  rangeStart dp1 = Some (DateAt (1710028800000 + 10 * 3600000))
  /\ rangeEnd dp1 = None
  /\ rangeStart dp' = Some (DateAt (1710028800000 + 9 * 3600000))
  /\ rangeEnd dp' = Some (DateAt (1710028800000 + 10 * 3600000)).
Proof. repeat split; vm_compute; reflexivity. Qed.

(* ------------------------------------------------------------------ *)
(** ** Confirm mode: what a selection change tells, and when *)

Lemma source_or_api_twice s : source_or_api (source_or_api s) = source_or_api s.
Proof. destruct s; reflexivity. Qed.

Lemma untouched_refl dp : untouched dp dp.
Proof. repeat split; reflexivity. Qed.

Lemma untouched_trans m dp dp' : untouched dp m -> untouched m dp' -> untouched dp dp'.
Proof.
  unfold untouched, silent, same_date, same_range, same_schedule.
  intros ((A & B & C & D) & E & (F & G) & H & I)
         ((A' & B' & C' & D') & E' & (F' & G') & H' & I').
  repeat split; congruence.
Qed.

Lemma untouched_selection dp dp' : untouched dp dp' -> selection dp' = selection dp.
Proof.
  unfold untouched, silent, same_date, same_range, same_schedule, selection.
  intros ((A & _) & E & (F & G) & H & I). rewrite A, E, F, G, H, I. reflexivity.
Qed.

Lemma untouched_text dp dp' : untouched dp dp' -> selection_text dp' = selection_text dp.
Proof.
  unfold untouched, silent, same_date, same_range, same_schedule, selection_text,
    _formatScheduleArray.
  intros ((A & _) & E & (F & G) & H & I). rewrite A, E, F, G, H, I. reflexivity.
Qed.

Lemma untouched_notification dp dp' s :
  untouched dp dp' -> change_notification dp' s = change_notification dp s.
Proof.
  intros U. pose proof (untouched_text dp dp' U) as T. revert T U.
  unfold untouched, silent, same_date, same_range, same_schedule, change_notification,
    _formatScheduleArray.
  intros T ((A & _) & E & (F & G) & H & I). cbv zeta. rewrite T, A, E, F, G, H, I.
  reflexivity.
Qed.

Lemma told_untouched s dp dp' : untouched dp dp' -> told s dp dp'.
Proof.
  intros U. pose proof (untouched_selection dp dp' U) as S.
  destruct U as ((A & B & C & D) & _).
  unfold told. repeat split; auto. exists []. rewrite app_nil_r. split; [exact D|].
  intros _ N. contradiction.
Qed.

Lemma told_pre s m dp dp' : untouched dp m -> told s m dp' -> told s dp dp'.
Proof.
  intros U T. pose proof (untouched_selection dp m U) as S.
  destruct U as ((A & B & C & D) & _).
  destruct T as (A' & B' & C' & added & D' & N).
  unfold told. repeat split; try congruence.
  exists added. split; [congruence|]. rewrite <- A, <- S. exact N.
Qed.

Lemma told_post s m dp dp' : told s dp m -> untouched m dp' -> told s dp dp'.
Proof.
  intros T U. pose proof (untouched_selection m dp' U) as S.
  pose proof (untouched_notification m dp' s U) as E.
  destruct U as ((A & B & C & D) & _).
  destruct T as (A' & B' & C' & added & D' & N).
  unfold told. repeat split; try congruence.
  exists added. split; [congruence|]. rewrite S, E. exact N.
Qed.

Lemma told_outcome_pre s m dp r :
  untouched dp m -> told_outcome s m r -> told_outcome s dp r.
Proof. destruct r; cbn; eauto using told_pre. Qed.

Lemma told_bind s dp m (k : DatePicker -> outcome DatePicker) :
  told_outcome s dp m -> (forall x, told s dp x -> told_outcome s dp (k x)) ->
  told_outcome s dp (bind m k).
Proof. destruct m; cbn; auto. Qed.

(** The three ways a selection is announced. *)
Lemma told_by_date s dp dp' :
  options dp' = options dp -> inputValue dp' = inputValue dp ->
  changeEvents dp' = changeEvents dp ->
  same_range dp dp' -> same_schedule dp dp' ->
  callbacks dp'
  = callbacks dp
    ++ (if onSelect (options dp)
        then [OnSelect (selectedDate dp')
                (match selectedDate dp' with
                 | Some d => formatDate d (format (options dp))
                 | None => EmptyString
                 end) s]
        else []) ->
  told s dp dp'.
Proof.
  intros O I E (Rs & Re) (W & M) K. unfold told. repeat split; auto.
  eexists. split; [exact K|].
  unfold registered, selection, change_notification, selection_text. cbv zeta.
  rewrite O, Rs, Re, W, M.
  destruct (scheduleMode (options dp)); [|intros _ N; contradiction..].
  destruct (range (options dp)); [intros _ N; contradiction|].
  intros -> _. reflexivity.
Qed.

Lemma told_by_range s dp dp' :
  options dp' = options dp -> inputValue dp' = inputValue dp ->
  changeEvents dp' = changeEvents dp ->
  same_date dp dp' -> same_schedule dp dp' ->
  callbacks dp'
  = callbacks dp
    ++ (if onSelectRange (options dp)
        then [OnSelectRange (rangeStart dp') (rangeEnd dp')
                (_formatRangeString (options dp) (rangeStart dp') (rangeEnd dp')) s]
        else []) ->
  told s dp dp'.
Proof.
  intros O I E D (W & M) K. unfold same_date in D. unfold told. repeat split; auto.
  eexists. split; [exact K|].
  unfold registered, selection, change_notification, selection_text. cbv zeta.
  rewrite O, D, W, M.
  destruct (scheduleMode (options dp)); [|intros _ N; contradiction..].
  destruct (range (options dp)); [|intros _ N; contradiction].
  intros -> _. reflexivity.
Qed.

Lemma told_by_schedule s dp dp' :
  options dp' = options dp -> inputValue dp' = inputValue dp ->
  changeEvents dp' = changeEvents dp ->
  same_date dp dp' -> same_range dp dp' ->
  callbacks dp'
  = callbacks dp
    ++ (match scheduleMode (options dp) with
        | ModeNone => []
        | mode =>
            if onSelectSchedule (options dp)
            then [OnSelectSchedule mode (scheduleWeeklySelected dp')
                    (scheduleMonthlySelected dp') (_formatScheduleArray dp')
                    (join "," (map String_of_Z (_formatScheduleArray dp'))) s]
            else []
        end) ->
  told s dp dp'.
Proof.
  intros O I E D (Rs & Re) K. unfold same_date in D. unfold told. repeat split; auto.
  eexists. split; [exact K|].
  unfold registered, selection, change_notification, selection_text. cbv zeta.
  rewrite O, D, Rs, Re.
  destruct (scheduleMode (options dp)); [intros _ N; contradiction| |];
    intros -> _; reflexivity.
Qed.

Section ConfirmMode.

Variable dp : DatePicker.
Hypothesis C : confirm (options dp) = true.

Lemma _applySelection_told d s :
  told (source_or_api s) dp (_applySelection dp d s).
Proof.
  unfold _applySelection. cbv zeta. cbn [options set_selectedDate set_focusedDate].
  rewrite C. cbn [negb].
  destruct (onSelect (options dp)) eqn:OS; apply told_by_date; rewrite ?OS; cbn;
    rewrite ?app_nil_r; try reflexivity; repeat split; reflexivity.
Qed.

Lemma _syncRangeValue_told s (m : DatePicker) :
  silent dp m -> same_date dp m -> same_schedule dp m ->
  told (source_or_api s) dp (_syncRangeValue m s).
Proof.
  intros (O & I & E & K) D S. unfold _syncRangeValue. cbv zeta. rewrite O, C. cbn [negb].
  unfold same_date, same_schedule in *.
  destruct (onSelectRange (options dp)) eqn:OS; apply told_by_range; rewrite ?OS; cbn;
    rewrite ?app_nil_r; try assumption; rewrite ?K; reflexivity.
Qed.

Lemma _syncScheduleValue_told s (m : DatePicker) :
  silent dp m -> same_date dp m -> same_range dp m ->
  told (source_or_api s) dp (_syncScheduleValue m s).
Proof.
  intros (O & I & E & K) D S. unfold _syncScheduleValue. cbv zeta. rewrite O, C. cbn [negb].
  unfold same_date, same_range in *.
  destruct (scheduleMode (options dp)) eqn:M, (onSelectSchedule (options dp)) eqn:OS;
    apply told_by_schedule; rewrite ?M, ?OS; cbn; rewrite ?app_nil_r; try assumption;
    rewrite ?K; try reflexivity; unfold _formatScheduleArray; cbn [options]; rewrite ?O, ?M;
    reflexivity.
Qed.

End ConfirmMode.

Ltac same_fields := solve [repeat split; reflexivity].

Lemma _updateRangeTimeInputs_untouched dp : untouched dp (_updateRangeTimeInputs dp).
Proof.
  unfold _updateRangeTimeInputs. cbv zeta.
  destruct (negb _ || negb _); [apply untouched_refl|].
  destruct (rangeStart dp); cbn [rangeEnd set_startHours set_startMinutes];
    destruct (rangeEnd dp); same_fields.
Qed.

Lemma _updateTimeInputs_untouched dp : untouched dp (_updateTimeInputs dp).
Proof.
  unfold _updateTimeInputs. cbv zeta.
  destruct (negb _ || negb _); [apply untouched_refl|]. same_fields.
Qed.

Lemma _initTimeFromDate_untouched dp d : untouched dp (_initTimeFromDate dp d).
Proof.
  unfold _initTimeFromDate. destruct (negb _); [apply untouched_refl|]. same_fields.
Qed.

Ltac untouched_chain :=
  repeat first
    [ apply untouched_refl
    | match goal with
      | |- untouched _ (if ?c then _ else _) => destruct c
      | |- untouched _ (match ?c with _ => _ end) => destruct c eqn:?
      | |- untouched _ (_updateRangeTimeInputs ?q) =>
          apply (untouched_trans q); [|apply _updateRangeTimeInputs_untouched]
      | |- untouched _ (_updateTimeInputs ?q) =>
          apply (untouched_trans q); [|apply _updateTimeInputs_untouched]
      | |- untouched _ (_initTimeFromDate ?q _) =>
          apply (untouched_trans q); [|apply _initTimeFromDate_untouched]
      | |- untouched _ (close ?q) => apply (untouched_trans q); [|same_fields]
      | |- untouched _ (?f _ ?q) => apply (untouched_trans q); [|same_fields]
      end ].

Lemma untouched_confirm dp m :
  confirm (options dp) = true -> untouched dp m -> confirm (options m) = true.
Proof. intros C ((O & _) & _). rewrite O. exact C. Qed.

Section Changes.

Variable dp : DatePicker.
Hypothesis C : confirm (options dp) = true.

Lemma _selectDate_told d s : told (source_or_api s) dp (_selectDate dp d s).
Proof. unfold _selectDate. cbv zeta. apply _applySelection_told; exact C. Qed.

Lemma _setTime_told h m : told "user" dp (_setTime dp h m true).
Proof.
  unfold _setTime. cbv zeta.
  match goal with
  | |- told _ _ (match selectedDate ?x with _ => _ end) =>
      assert (U : untouched dp x)
        by (eapply untouched_trans; [|apply _updateTimeInputs_untouched]; same_fields);
      generalize dependent x
  end.
  intros x U. destruct (selectedDate x) eqn:S.
  - apply (told_pre _ x); [exact U|].
    apply (_applySelection_told x (untouched_confirm _ _ C U) _ "user").
  - apply told_untouched. exact U.
Qed.

Lemma _handleRangeClick_told d : told "user" dp (_handleRangeClick dp d).
Proof.
  unfold _handleRangeClick. cbv zeta. rewrite C. cbn [negb andb].
  destruct (negb (range (options dp))); [apply told_untouched, untouched_refl|].
  destruct (rangeStart dp) as [start|] eqn:S, (rangeEnd dp) as [e|] eqn:E.
  all: try (eapply told_post; [|apply _updateRangeTimeInputs_untouched]).
  all: try (apply (_syncRangeValue_told dp C "user"); same_fields).
  destruct (date_lt _ start); apply (_syncRangeValue_told dp C "user"); same_fields.
Qed.

Lemma click_day_told d : told "user" dp (click_day dp d).
Proof.
  unfold click_day. cbv zeta. rewrite C. cbn [negb andb].
  destruct (range (options dp)); [apply _handleRangeClick_told|].
  apply (_selectDate_told d "user").
Qed.

Lemma _toggleWeeklyDay_told i : told "user" dp (_toggleWeeklyDay dp i true).
Proof.
  unfold _toggleWeeklyDay. cbv zeta.
  destruct (negb _); [apply told_untouched, untouched_refl|].
  apply (_syncScheduleValue_told dp C "user"); same_fields.
Qed.

Lemma _toggleMonthlyDay_told d : told "user" dp (_toggleMonthlyDay dp d true).
Proof.
  unfold _toggleMonthlyDay. cbv zeta.
  destruct (negb _); [apply told_untouched, untouched_refl|].
  apply (_syncScheduleValue_told dp C "user"); same_fields.
Qed.

End Changes.

Section Setters.

Variable dp : DatePicker.
Hypothesis C : confirm (options dp) = true.

Lemma setRange_clear_told s : told (source_or_api s) dp (setRange_clear dp s).
Proof.
  unfold setRange_clear. cbv zeta. rewrite C. cbn [negb].
  destruct (onSelectRange (options dp)) eqn:OS; apply told_by_range; rewrite ?OS; cbn;
    rewrite ?app_nil_r; try reflexivity; repeat split; reflexivity.
Qed.

Lemma setRange_store_told a b s : told (source_or_api s) dp (setRange_store dp a b s).
Proof.
  unfold setRange_store. cbv zeta. rewrite C. cbn [negb].
  destruct (order_pair a b) as [a' b'].
  set (x := drop_disabled _ (drop_out_of_bounds _ a')).
  set (y := drop_disabled _ (drop_out_of_bounds _ b')).
  match goal with
  | |- told _ _ (if _ then fire _ ?m else ?m) =>
      assert (U : untouched (set_rangeEnd y (set_rangeStart x dp)) m)
        by untouched_chain;
      revert U; generalize m
  end.
  intros q ((O & I & E & K) & D & (Rs & Re) & S).
  cbn in O, I, E, K, D, S. unfold same_date, same_schedule in *.
  destruct (onSelectRange (options dp)) eqn:OS; apply told_by_range; rewrite ?OS; cbn;
    rewrite ?app_nil_r; try assumption; rewrite ?K; reflexivity.
Qed.

Lemma setRange_told arg s : told_outcome (source_or_api s) dp (setRange dp arg s).
Proof.
  unfold setRange. cbv zeta.
  destruct (negb (range (options dp))); [apply told_untouched, untouched_refl|].
  destruct arg as [|[|c r]|a b|a b|d]; try apply setRange_clear_told.
  - destruct (_parseRangeString _ _) as [[[rs re]|]|]; cbn [bind told_outcome];
      auto using setRange_store_told.
  - destruct (_normalizeDate _ a); cbn [bind told_outcome]; auto.
    destruct (_normalizeDate _ b); cbn [bind told_outcome]; auto using setRange_store_told.
  - destruct (_normalizeDate _ a); cbn [bind told_outcome]; auto.
    destruct (_normalizeDate _ b); cbn [bind told_outcome]; auto using setRange_store_told.
  - cbn [_normalizeDate bind told_outcome]. apply setRange_store_told.
Qed.

Lemma setDate_told arg s : told_outcome (source_or_api s) dp (setDate dp arg s).
Proof.
  unfold setDate. cbv zeta. rewrite C. cbn [negb].
  destruct (range (options dp)).
  - destruct (falsy arg);
      match goal with
      | |- told_outcome _ _ (setRange _ ?a ?x) =>
          pose proof (setRange_told a x) as T; rewrite source_or_api_twice in T; exact T
      end.
  - destruct (falsy arg).
    + destruct (onSelect (options dp)) eqn:OS; apply told_by_date; rewrite ?OS; cbn;
        rewrite ?app_nil_r; try reflexivity; repeat split; reflexivity.
    + destruct (_normalizeDate _ arg) as [[p|]|]; cbn [bind told_outcome]; auto;
        try (apply told_untouched, untouched_refl).
      destruct (isDateOutOfBounds _ _ _); [apply told_untouched, untouched_refl|].
      destruct (is_disabled _ _); [apply told_untouched, untouched_refl|].
      cbn [told_outcome].
      match goal with
      | |- told _ _ (_selectDate ?x _ _) =>
          assert (U : untouched dp x)
            by (destruct (enableTime (options dp));
                [eapply untouched_trans; [|apply _initTimeFromDate_untouched]|]; same_fields);
          apply (told_pre _ x); [exact U|];
          pose proof (_selectDate_told x (untouched_confirm _ _ C U) p (source_or_api s))
            as T;
          rewrite source_or_api_twice in T; exact T
      end.
Qed.

End Setters.

Section MoreChanges.

Variable dp : DatePicker.
Hypothesis C : confirm (options dp) = true.

Lemma told_closing s x (c : bool) : told s dp x -> told s dp (if c then close x else x).
Proof.
  intros T. destruct c; [|exact T]. eapply told_post; [exact T|]. same_fields.
Qed.

Lemma _clearSelection_told : told_outcome "user" dp (_clearSelection dp).
Proof.
  unfold _clearSelection. cbv zeta. apply told_bind.
  - destruct (scheduleMode (options dp)); cbn [told_outcome].
    + destruct (range (options dp)).
      * apply (setRange_told dp C RangeNull "user").
      * apply (setDate_told dp C ArgNull "user").
    + apply (_syncScheduleValue_told dp C "user"); same_fields.
    + apply (_syncScheduleValue_told dp C "user"); same_fields.
  - intros x T. cbn [told_outcome]. apply told_closing. exact T.
Qed.

Lemma setRange_after m arg :
  untouched dp m -> told_outcome "user" dp (setRange m arg "user").
Proof.
  intros U. apply (told_outcome_pre _ m); [exact U|].
  apply (setRange_told m (untouched_confirm _ _ C U) arg "user").
Qed.

Lemma _selectToday_told now : told_outcome "user" dp (_selectToday dp now).
Proof.
  unfold _selectToday. cbv zeta.
  destruct (scheduleMode (options dp)).
  - destruct (isDateOutOfBounds _ _ _); [apply told_untouched, untouched_refl|].
    destruct (is_disabled _ _); [apply told_untouched, untouched_refl|].
    destruct (range (options dp)).
    + cbn [rangeStart rangeEnd set_currentViewMonth].
      destruct (rangeStart dp) as [start|], (rangeEnd dp) as [e|];
        repeat match goal with
          | |- told_outcome _ _ (if ?c then _ else _) => destruct c
          | |- told_outcome _ _ (bind _ _) =>
              apply told_bind;
              [|intros x Hx; cbn [told_outcome]; apply told_closing; exact Hx]
          | |- told_outcome _ _ (setRange _ _ _) => apply setRange_after; untouched_chain
          end.
    + cbn [told_outcome]. apply told_closing.
      match goal with
      | |- told _ _ (_selectDate ?x _ _) =>
          assert (U : untouched dp x) by untouched_chain;
          apply (told_pre _ x); [exact U|];
          apply (_selectDate_told x (untouched_confirm _ _ C U) _ "user")
      end.
  - apply (_toggleWeeklyDay_told dp C).
  - apply (_toggleMonthlyDay_told dp C).
Qed.

Lemma perform_told a : told_outcome (source_of (Act a)) dp (perform dp a).
Proof.
  destruct a; cbn [perform source_of told_outcome].
  - apply click_day_told; exact C.
  - apply _selectToday_told.
  - apply _clearSelection_told.
  - apply _toggleWeeklyDay_told; exact C.
  - apply _toggleMonthlyDay_told; exact C.
  - apply _setTime_told; exact C.
  - apply setDate_told; exact C.
  - apply setRange_told; exact C.
Qed.

Lemma _onKeyDown_told k now : told "user" dp (_onKeyDown dp k now).
Proof.
  unfold _onKeyDown. cbv zeta. rewrite C. cbn [negb andb].
  destruct k; try solve [apply told_untouched; untouched_chain].
  all: destruct (scheduleMode (options dp));
    try apply (_toggleWeeklyDay_told dp C); try apply (_toggleMonthlyDay_told dp C).
  all: destruct (isDateOutOfBounds _ _ _); [apply told_untouched, untouched_refl|].
  all: destruct (is_disabled _ _); [apply told_untouched, untouched_refl|].
  all: destruct (range (options dp)); [apply (_handleRangeClick_told dp C)|].
  all: apply (_selectDate_told dp C _ "user").
Qed.

Lemma onStartChange_told nh nm : told "user" dp (onStartChange dp nh nm).
Proof.
  unfold onStartChange. cbv zeta. cbn [rangeStart set_startHours set_startMinutes].
  destruct (rangeStart dp); [|apply told_untouched; same_fields].
  apply (_syncRangeValue_told dp C "user"); same_fields.
Qed.

Lemma onEndChange_told nh nm : told "user" dp (onEndChange dp nh nm).
Proof.
  unfold onEndChange. cbv zeta. cbn [rangeEnd set_endHours set_endMinutes].
  destruct (rangeEnd dp); [|apply told_untouched; same_fields].
  apply (_syncRangeValue_told dp C "user"); same_fields.
Qed.

End MoreChanges.

(** [updateOptions({ scheduleMode: mode })] with another mode than the
    present one, in confirm mode. *)
Lemma updateOptions_switch dp mode :
  confirm (options dp) = true ->
  mode_eqb mode (scheduleMode (options dp)) = false ->
  exists dp1,
    updateOptions dp
      (mkPartial None None None (Some mode) None None None None None None None None None
         None None None None None None) = Done dp1
    /\ scheduleMode (options dp1) = mode
    /\ confirm (options dp1) = true
    /\ onSelectSchedule (options dp1) = onSelectSchedule (options dp)
    /\ inputValue dp1 = inputValue dp /\ changeEvents dp1 = changeEvents dp
    /\ exists added, callbacks dp1 = callbacks dp ++ added.
Proof.
  intros C E. unfold updateOptions, updateOptions_run, on_key.
  cbn [p_onSelectSchedule p_scheduleWeeklyMulti p_scheduleMonthlyMulti p_scheduleMode
       p_format p_firstDayOfWeek p_minDate p_maxDate p_disableDates p_openOnFocus
       p_autoClose p_showOutsideDays p_inline p_enableTime p_timeStep p_hour12 p_range
       p_rangeSeparator p_confirm and_then].
  rewrite E. cbn [and_then]. eexists. split; [reflexivity|].
  match goal with
  | |- context [_syncScheduleValue ?x _] =>
      assert (X : scheduleMode (options x) = mode /\ confirm (options x) = true
                  /\ onSelectSchedule (options x) = onSelectSchedule (options dp)
                  /\ inputValue x = inputValue dp /\ changeEvents x = changeEvents dp
                  /\ callbacks x = callbacks dp)
        by (clear E; destruct mode, dp as [o]; destruct o; cbn in *; repeat split; auto);
      generalize dependent x
  end.
  intros x (M & Cx & S & I & V & K).
  destruct (_syncScheduleValue_told x Cx "api" x) as (O' & I' & V' & added & K' & _);
    try same_fields.
  rewrite O'. repeat split; try congruence. exists added. congruence.
Qed.

Section Schedule.

Variable dp : DatePicker.
Hypothesis C : confirm (options dp) = true.

Lemma setSchedule_stores_told (payload : Payload) s :
  told (source_or_api s) dp
    (_syncScheduleValue
       match scheduleMode (options dp), pl_weekly payload, pl_monthly payload with
       | ModeWeekly, Some weekly, _ =>
           set_scheduleWeeklySelected (set_insert_all weekly []) dp
       | ModeMonthly, _, Some monthly =>
           set_scheduleMonthlySelected (set_insert_all monthly []) dp
       | _, _, _ => dp
       end (source_or_api s)).
Proof.
  rewrite <- (source_or_api_twice s) at 1.
  apply (_syncScheduleValue_told dp C (source_or_api s)).
  all: destruct (scheduleMode (options dp)), (pl_weekly payload), (pl_monthly payload);
    same_fields.
Qed.

(** [setSchedule] returns; the bound field and the change events stay;
    its last step is [_syncScheduleValue]. *)
Lemma setSchedule_told payload s :
  exists dp',
    setSchedule dp payload s = Done dp'
    /\ inputValue dp' = inputValue dp /\ changeEvents dp' = changeEvents dp
    /\ confirm (options dp') = true
    /\ (exists added,
          callbacks dp' = callbacks dp ++ added
          /\ (options dp' = options dp -> registered (options dp) = true ->
              selection dp' <> selection dp ->
              added = [change_notification dp' (source_or_api s)]))
    /\ (scheduleMode (options dp') <> ModeNone ->
        onSelectSchedule (options dp') = true ->
        exists earlier,
          callbacks dp'
          = callbacks dp ++ earlier ++ [change_notification dp' (source_or_api s)])
    /\ (pl_mode payload = None \/ pl_mode payload = Some (scheduleMode (options dp)) ->
        options dp' = options dp).
Proof.
  unfold setSchedule.
  assert (Last : forall x dp',
            confirm (options x) = true ->
            told (source_or_api s) x dp' ->
            dp' = _syncScheduleValue
                    match scheduleMode (options x), pl_weekly payload, pl_monthly payload with
                    | ModeWeekly, Some weekly, _ =>
                        set_scheduleWeeklySelected (set_insert_all weekly []) x
                    | ModeMonthly, _, Some monthly =>
                        set_scheduleMonthlySelected (set_insert_all monthly []) x
                    | _, _, _ => x
                    end (source_or_api s) ->
            scheduleMode (options dp') <> ModeNone ->
            onSelectSchedule (options dp') = true ->
            callbacks dp' = callbacks x ++ [change_notification dp' (source_or_api s)]).
  { intros x dp' Cx (O & _) -> M S. rewrite O in M, S.
    rewrite _syncScheduleValue_notifies.
    - rewrite source_or_api_twice.
      unfold change_notification, selection_text. cbv zeta.
      rewrite !_syncScheduleValue_options.
      assert (E : forall q, options q = options x ->
                  _formatScheduleArray (_syncScheduleValue q (source_or_api s))
                  = _formatScheduleArray q
                  /\ scheduleWeeklySelected (_syncScheduleValue q (source_or_api s))
                     = scheduleWeeklySelected q
                  /\ scheduleMonthlySelected (_syncScheduleValue q (source_or_api s))
                     = scheduleMonthlySelected q).
      { intros q Oq. unfold _formatScheduleArray. rewrite _syncScheduleValue_options.
        unfold _syncScheduleValue. rewrite Oq, Cx.
        destruct (scheduleMode (options x)), (onSelectSchedule (options x)); cbn; auto. }
      match goal with
      | |- context [_syncScheduleValue ?q _] =>
          assert (Oq : options q = options x)
            by (destruct (scheduleMode (options x)), (pl_weekly payload),
                  (pl_monthly payload); reflexivity);
          destruct (E q Oq) as (E1 & E2 & E3); rewrite E1, E2, E3, Oq
      end.
      destruct (scheduleMode (options x)), (pl_weekly payload), (pl_monthly payload);
        try congruence; reflexivity.
    - destruct (scheduleMode (options x)), (pl_weekly payload), (pl_monthly payload);
        cbn; exact S.
    - destruct (scheduleMode (options x)) eqn:Mx, (pl_weekly payload), (pl_monthly payload);
        cbn; rewrite ?Mx; congruence. }
  assert (Same : exists dp',
            Done (_syncScheduleValue
                    match scheduleMode (options dp), pl_weekly payload, pl_monthly payload with
                    | ModeWeekly, Some weekly, _ =>
                        set_scheduleWeeklySelected (set_insert_all weekly []) dp
                    | ModeMonthly, _, Some monthly =>
                        set_scheduleMonthlySelected (set_insert_all monthly []) dp
                    | _, _, _ => dp
                    end (source_or_api s)) = Done dp'
            /\ inputValue dp' = inputValue dp /\ changeEvents dp' = changeEvents dp
            /\ confirm (options dp') = true
            /\ (exists added,
                  callbacks dp' = callbacks dp ++ added
                  /\ (options dp' = options dp -> registered (options dp) = true ->
                      selection dp' <> selection dp ->
                      added = [change_notification dp' (source_or_api s)]))
            /\ (scheduleMode (options dp') <> ModeNone ->
                onSelectSchedule (options dp') = true ->
                exists earlier,
                  callbacks dp'
                  = callbacks dp ++ earlier ++ [change_notification dp' (source_or_api s)])
            /\ (pl_mode payload = None
                \/ pl_mode payload = Some (scheduleMode (options dp)) ->
                options dp' = options dp)).
  { eexists. split; [reflexivity|].
    pose proof (setSchedule_stores_told payload s) as T.
    pose proof T as (O & I & V & added & K & N).
    repeat split; auto; [congruence|eauto|].
    intros M S. exists []. apply (Last dp); auto. }
  destruct (pl_mode payload) as [mode|]; [|exact Same].
  destruct (mode_eqb mode (scheduleMode (options dp))) eqn:E; cbn [negb]; [exact Same|].
  clear Same.
  destruct (updateOptions_switch dp mode C E) as (dp1 & -> & M1 & C1 & S1 & I1 & V1 & a1 & K1).
  cbn [bind]. eexists. split; [reflexivity|].
  match goal with
  | |- context [_syncScheduleValue ?q _] =>
      assert (T : told (source_or_api s) dp1 (_syncScheduleValue q (source_or_api s)))
  end.
  { rewrite <- (source_or_api_twice s) at 1.
    apply (_syncScheduleValue_told dp1 C1 (source_or_api s)).
    all: destruct (scheduleMode (options dp1)), (pl_weekly payload), (pl_monthly payload);
      same_fields. }
  pose proof T as (O & I & V & a2 & K & _).
  repeat split; try congruence.
  - exists (a1 ++ a2). split; [rewrite K, K1, app_assoc; reflexivity|].
    intros O' _ _. exfalso. rewrite O in O'. rewrite <- O', M1 in E.
    destruct mode; discriminate E.
  - intros M S. exists a1. rewrite app_assoc, <- K1.
    apply (Last dp1); auto.
  - intros [N|N]; [discriminate N|]. injection N as ->.
    destruct (scheduleMode (options dp)); discriminate E.
Qed.

End Schedule.

Lemma deferred_quiet dp d d' : deferred_since dp d -> quiet d d' -> deferred_since dp d'.
Proof.
  intros (Cd & I & E) Q. destruct (Q Cd) as (O & I' & E').
  unfold deferred_since. rewrite O, I', E'. auto.
Qed.

Lemma deferred_set_opt {A} dp d (f : A -> Options -> Options) v :
  (forall o, confirm (f v o) = confirm o) ->
  deferred_since dp d -> deferred_since dp (set_opt f v d).
Proof.
  intros F (Cd & I & E). unfold deferred_since, set_opt. destruct d; cbn in *.
  rewrite F. auto.
Qed.

Lemma deferred_confirm_on dp d :
  deferred_since dp d -> deferred_since dp (set_opt set_confirm true d).
Proof. intros (Cd & I & E). unfold deferred_since. destruct d; cbn in *. auto. Qed.

Lemma _buildTimeControls_quiet dp : quiet dp (_buildTimeControls dp).
Proof.
  unfold _buildTimeControls. cbv zeta.
  eapply quiet_trans; [apply _updateTimeInputs_quiet|].
  destruct (selectedDate _); [eapply quiet_trans; [apply _initTimeFromDate_quiet|]|];
    intros _; repeat split; reflexivity.
Qed.

Lemma _buildRangeTimeControls_quiet dp : quiet dp (_buildRangeTimeControls dp).
Proof.
  unfold _buildRangeTimeControls.
  eapply quiet_trans; [apply _updateRangeTimeInputs_quiet|].
  intros _; repeat split; reflexivity.
Qed.

Lemma ensure_timeRow_deferred dp d :
  deferred_since dp d -> leaves (deferred_since dp) (ensure_timeRow d).
Proof.
  intros H. unfold ensure_timeRow, calendarElement_insertBefore_footer. cbv zeta.
  destruct (negb (timeRow d)); [|exact H].
  destruct (timeRow (_buildTimeControls d)); cbn;
    apply (deferred_quiet dp d); auto using _buildTimeControls_quiet.
Qed.

Lemma ensure_timeRangeRow_deferred dp d :
  deferred_since dp d -> leaves (deferred_since dp) (ensure_timeRangeRow d).
Proof.
  intros H. unfold ensure_timeRangeRow, calendarElement_insertBefore_footer. cbv zeta.
  destruct (negb (timeRangeRow d)); [|exact H].
  destruct (timeRangeRow (_buildRangeTimeControls d)); cbn;
    apply (deferred_quiet dp d); auto using _buildRangeTimeControls_quiet.
Qed.

Ltac deferred_setters :=
  repeat first
    [ assumption
    | apply deferred_confirm_on
    | apply deferred_set_opt; [intros o; destruct o; reflexivity|]
    | match goal with
      | |- deferred_since _ (set_opt _ _ _) => fail 1
      | |- deferred_since ?a (?f _ ?q) =>
          apply (deferred_quiet a q); [|intros _; repeat split; reflexivity]
      end ].

Lemma updateOptions_run_deferred dp partial :
  confirm (options dp) = true ->
  leaves (fun d => inputValue d = inputValue dp /\ changeEvents d = changeEvents dp)
    (updateOptions_run dp partial).
Proof.
  intros C.
  assert (H0 : deferred_since dp dp) by (repeat split; auto).
  unfold updateOptions_run.
  repeat (apply (leaves_step (deferred_since dp));
          [|intros ? (_ & ? & ?); split; assumption|intros ? ?]).
  all: try (apply leaves_on_key; [assumption|]).
  all: try (intros v d Hd; clear - Hd; unfold in_schedule_mode in * ).
  all: try solve [cbn [leaves]; deferred_setters].
  - (* scheduleMode *)
    destruct (mode_eqb v (scheduleMode (options d))); [exact Hd|]. cbn [leaves].
    apply (deferred_quiet dp (if negb (mode_eqb v ModeNone)
                              then set_timeRangeRow false (set_timeRow false
                                     (set_opt set_range false (set_opt set_enableTime false
                                        (set_opt set_scheduleMode v d))))
                              else set_opt set_scheduleMode v d));
      [|apply _syncScheduleValue_quiet].
    destruct (negb _); deferred_setters.
  - (* minDate *)
    destruct (_normalizeDate _ _); cbn [leaves]; deferred_setters.
  - (* maxDate *)
    destruct (_normalizeDate _ _); cbn [leaves]; deferred_setters.
  - (* enableTime *)
    match goal with
    | |- leaves _ (if ?c then _ else _) => destruct c
    end.
    + match goal with
      | |- leaves _ (if range (options ?q) then _ else _) =>
          assert (Q : deferred_since dp q);
          [|destruct (range (options q));
            [apply ensure_timeRangeRow_deferred|apply ensure_timeRow_deferred];
            deferred_setters]
      end.
      destruct (negb _); deferred_setters.
    + destruct (negb _ && _); cbn [leaves]; deferred_setters.
  - (* timeStep *)
    match goal with
    | |- leaves _ (if enableTime (options ?q) && _ then _ else _) =>
        assert (Q : deferred_since dp q) by deferred_setters;
        destruct (enableTime (options q) && timeRow q);
        [|destruct (enableTime (options q) && timeRangeRow q)]; cbn [leaves]
    end.
    + eapply deferred_quiet; [exact Q|apply _updateTimeInputs_quiet].
    + eapply deferred_quiet; [exact Q|apply _updateRangeTimeInputs_quiet].
    + exact Q.
  - (* hour12 *)
    destruct (Bool.eqb _ _); [exact Hd|].
    match goal with
    | |- leaves _ (if enableTime (options ?q) then _ else _) =>
        assert (Q : deferred_since dp q) by deferred_setters;
        destruct (enableTime (options q)); [|exact Q];
        destruct (negb (timeRow q)); [apply ensure_timeRow_deferred; exact Q|]
    end.
    cbn [leaves]. eapply deferred_quiet; [exact Q|apply _updateTimeInputs_quiet].
  - (* range *)
    destruct (Bool.eqb _ _); [exact Hd|].
    match goal with
    | |- leaves _ (if range (options ?q) then _ else _) =>
        assert (Q : deferred_since dp q) by deferred_setters;
        destruct (range (options q))
    end.
    + apply (leaves_step (deferred_since dp)); [|auto|].
      * match goal with
        | |- leaves _ (if ?c then _ else _) => destruct c
        end; [apply ensure_timeRangeRow_deferred|cbn [leaves]]; deferred_setters.
      * intros x X.
        match goal with
        | |- leaves _ (match ?c with _ => _ end) => destruct c
        end; cbn [leaves]; deferred_setters.
    + apply (leaves_step (deferred_since dp)); [|auto|].
      * match goal with
        | |- leaves _ (if ?c then _ else _) => destruct c
        end; [apply ensure_timeRow_deferred|cbn [leaves]]; deferred_setters.
      * intros x X. pose proof (setDate_quiet x (arg_of_date (option_map copy_Date
                                  (rangeStart d))) "api") as S.
        cbn [rangeStart set_opt set_options] in *.
        destruct (setDate x _ _); cbn [completed leaves quiet_outcome] in *;
          [eapply deferred_quiet; eauto|exact X].
  - (* confirm *)
    match goal with
    | H : deferred_since dp ?x |- leaves _ (on_key _ ?x _) => destruct H as (_ & I & E)
    end.
    destruct (p_confirm partial) as [v|]; cbn [on_key leaves]; [|auto].
    destruct (Bool.eqb _ _); cbn [leaves]; auto.
Qed.

Lemma apply_change_told dp c dp' :
  confirm (options dp) = true -> apply_change dp c = Done dp' ->
  inputValue dp' = inputValue dp /\ changeEvents dp' = changeEvents dp
  /\ confirm (options dp') = true
  /\ (keeps_mode dp c -> options dp' = options dp)
  /\ exists added,
       callbacks dp' = callbacks dp ++ added
       /\ (options dp' = options dp -> registered (options dp) = true ->
           selection dp' <> selection dp ->
           added = [change_notification dp' (source_of c)]).
Proof.
  intros C H.
  assert (T : (exists payload s, c = CallSetSchedule payload s)
              \/ told (source_of c) dp dp').
  { destruct c as [a|k now|nh nm|nh nm|payload s]; cbn [apply_change] in H.
    - right. pose proof (perform_told dp C a) as T. rewrite H in T. exact T.
    - right. injection H as <-. apply _onKeyDown_told; exact C.
    - right. injection H as <-. apply onStartChange_told; exact C.
    - right. injection H as <-. apply onEndChange_told; exact C.
    - left. eauto. }
  destruct T as [(payload & s & ->)|(O & I & V & added & K & N)].
  - cbn [apply_change keeps_mode source_of] in *.
    destruct (setSchedule_told dp C payload s) as (x & E & I & V & Cx & A & _ & M).
    rewrite E in H. injection H as <-. auto.
  - repeat split; auto; [congruence|eauto].
Qed.

Lemma apply_change_returns dp c :
  confirm (options dp) = true -> format_compiles (options dp) ->
  exists dp', apply_change dp c = Done dp'.
Proof.
  intros C F. destruct c as [a|k now|nh nm|nh nm|payload s]; cbn [apply_change]; eauto.
  - apply perform_returns; exact F.
  - destruct (setSchedule_told dp C payload s) as (x & E & _). eauto.
Qed.

(** Claim C7, as amended.  In confirm mode no selection change (a click on
    a day, Today, Clear, a weekday or month-day toggle, a time select, Enter
    or Space on the focused day, [setDate], [setRange], [setSchedule])
    writes the bound field or dispatches a change event, and confirm mode
    stays on; neither does [updateOptions], whether it returns or throws;
    the changes return whenever the format compiles.  [_commitValue] writes
    the serialized selection, dispatches the change event and notifies with
    source [confirm].  The callbacks are not deferred: a change that leaves
    the schedule mode alone leaves the options as they were, and when it
    changes the selection of the mode and the callback of the mode is
    registered, that callback is invoked at the change, once, with the new
    selection, its text and the source of the change; [setSchedule] ends
    with that invocation whenever it leaves the picker in a schedule mode;
    [_applySelection], [_syncRangeValue] and [_syncScheduleValue] invoke
    their callback whatever the confirm option is. *)
Theorem confirm_defers_write_back (dp : DatePicker) :
  confirm (options dp) = true ->
  (forall c dp', apply_change dp c = Done dp' ->
     inputValue dp' = inputValue dp /\ changeEvents dp' = changeEvents dp
     /\ confirm (options dp') = true
     /\ (keeps_mode dp c -> options dp' = options dp)
     /\ exists added,
          callbacks dp' = callbacks dp ++ added
          /\ (options dp' = options dp -> registered (options dp) = true ->
              selection dp' <> selection dp ->
              added = [change_notification dp' (source_of c)]))
  /\ (forall c, format_compiles (options dp) -> exists dp', apply_change dp c = Done dp')
  /\ (forall payload source dp',
        setSchedule dp payload source = Done dp' ->
        scheduleMode (options dp') <> ModeNone ->
        onSelectSchedule (options dp') = true ->
        exists earlier,
          callbacks dp'
          = callbacks dp ++ earlier ++ [change_notification dp' (source_or_api source)])
  /\ (forall partial,
        leaves (fun d => inputValue d = inputValue dp /\ changeEvents d = changeEvents dp)
          (updateOptions_run dp partial))
  /\ (inputValue (_commitValue dp) = selection_text dp
      /\ changeEvents (_commitValue dp) = S (changeEvents dp)
      /\ callbacks (_commitValue dp) = callbacks dp ++ commit_notification dp)
  /\ (forall d source,
        onSelect (options dp) = true ->
        callbacks (_applySelection dp d source)
        = callbacks dp ++ [OnSelect (Some d) (formatDate d (format (options dp)))
                             (source_or_api source)])
  /\ (forall source,
        onSelectRange (options dp) = true ->
        callbacks (_syncRangeValue dp source)
        = callbacks dp ++ [OnSelectRange (rangeStart dp) (rangeEnd dp)
                             (_formatRangeString (options dp) (rangeStart dp) (rangeEnd dp))
                             (source_or_api source)])
  /\ (forall source,
        onSelectSchedule (options dp) = true ->
        scheduleMode (options dp) <> ModeNone ->
        callbacks (_syncScheduleValue dp source)
        = callbacks dp ++ [OnSelectSchedule (scheduleMode (options dp))
                             (scheduleWeeklySelected dp) (scheduleMonthlySelected dp)
                             (_formatScheduleArray dp)
                             (join "," (map String_of_Z (_formatScheduleArray dp)))
                             (source_or_api source)]).
Proof.
  intros C. split; [|split; [|split; [|split; [|split; [|split; [|split]]]]]].
  - intros c dp' H. apply apply_change_told; assumption.
  - intros c F. apply apply_change_returns; assumption.
  - intros payload source dp' H.
    destruct (setSchedule_told dp C payload source) as (x & E & _ & _ & _ & _ & L & _).
    rewrite E in H. injection H as <-. exact L.
  - intros partial. apply updateOptions_run_deferred; exact C.
  - apply _commitValue_writes; exact C.
  - intros. apply _applySelection_notifies; auto.
  - intros. apply _syncRangeValue_notifies; auto.
  - intros. apply _syncScheduleValue_notifies; auto.
Qed.

(** A confirm-mode picker: a click on 15 March leaves the field empty and
    invokes [onSelect] at once; so does Enter on the focused day; the commit
    writes the field. *)
Lemma confirm_defers_write_back_witness :
  confirm (options confirm_picker) = true
  /\ (forall c dp', apply_change confirm_picker c = Done dp' ->
        inputValue dp' = inputValue confirm_picker
        /\ changeEvents dp' = changeEvents confirm_picker
        /\ confirm (options dp') = true)
  /\ (exists dp',
        apply_change confirm_picker (Act (ClickDay d_2024_03_15)) = Done dp'
        /\ inputValue dp' = EmptyString
        /\ callbacks dp' = [OnSelect (Some d_2024_03_15) "2024-03-15" "user"])
  /\ (forall partial,
        leaves (fun d => inputValue d = inputValue confirm_picker
                         /\ changeEvents d = changeEvents confirm_picker)
          (updateOptions_run confirm_picker partial))
  /\ inputValue (_commitValue (click_day confirm_picker d_2024_03_15)) = "2024-03-15".
Proof.
  assert (C : confirm (options confirm_picker) = true) by (vm_compute; reflexivity).
  assert (C' : confirm (options (click_day confirm_picker d_2024_03_15)) = true)
    by (vm_compute; reflexivity).
  destruct (confirm_defers_write_back confirm_picker C) as (A & _ & _ & U & _).
  destruct (confirm_defers_write_back (click_day confirm_picker d_2024_03_15) C')
    as (_ & _ & _ & _ & (E & _) & _).
  split; [exact C|]. split; [|split; [|split]].
  - intros c dp' H. destruct (A c dp' H) as (I & V & K & _). auto.
  - exists (click_day confirm_picker d_2024_03_15). split; [reflexivity|].
    destruct (A (Act (ClickDay d_2024_03_15)) _ eq_refl) as (I & _ & _ & _ & added & K & N).
    split; [rewrite I; reflexivity|].
    rewrite K, N.
    + vm_compute. reflexivity.
    + vm_compute. reflexivity.
    + vm_compute. reflexivity.
    + vm_compute. discriminate.
  - exact U.
  - rewrite E. vm_compute. reflexivity.
Defined.

(** X20.  The options stay consistent, that is the time step is positive
    and a schedule mode excludes time selection and range selection: the
    constructor establishes this whatever options it is given, and
    [updateOptions] and every user action preserve it. *)
Theorem configuration_stays_consistent :
  (forall value io now dp,
     constructor value io now = Done dp -> options_consistent (options dp) = true)
  /\ (forall dp partial dp',
        options_consistent (options dp) = true ->
        updateOptions dp partial = Done dp' ->
        options_consistent (options dp') = true)
  /\ (forall dp a dp',
        options_consistent (options dp) = true ->
        perform dp a = Done dp' ->
        options_consistent (options dp') = true).
Proof.
  split; [|split].
  - intros value io now dp H. apply constructor_options_of in H.
    apply (constructor_options_consistent io). exact H.
  - intros dp partial dp' C U. pose proof (updateOptions_consistent dp partial C) as K.
    rewrite U in K. exact K.
  - intros dp a dp' C P. rewrite (perform_options dp a dp' P). exact C.
Qed.

Lemma updateOptions_minDate dp x :
  setMinDate dp x
  = (d <- _normalizeDate (Some (options dp)) x ;;
     Done (set_opt set_minDate d dp)).
Proof.
  unfold setMinDate, updateOptions, updateOptions_run.
  cbn [on_key p_onSelectSchedule p_scheduleWeeklyMulti
    p_scheduleMonthlyMulti p_scheduleMode p_format p_firstDayOfWeek p_minDate p_maxDate
    p_disableDates p_openOnFocus p_autoClose p_showOutsideDays p_inline p_enableTime
    p_timeStep p_hour12 p_range p_rangeSeparator p_confirm and_then].
  destruct (_normalizeDate _ _); reflexivity.
Qed.

Lemma updateOptions_maxDate dp x :
  setMaxDate dp x
  = (d <- _normalizeDate (Some (options dp)) x ;;
     Done (set_opt set_maxDate d dp)).
Proof.
  unfold setMaxDate, updateOptions, updateOptions_run.
  cbn [on_key p_onSelectSchedule p_scheduleWeeklyMulti
    p_scheduleMonthlyMulti p_scheduleMode p_format p_firstDayOfWeek p_minDate p_maxDate
    p_disableDates p_openOnFocus p_autoClose p_showOutsideDays p_inline p_enableTime
    p_timeStep p_hour12 p_range p_rangeSeparator p_confirm and_then].
  destruct (_normalizeDate _ _); reflexivity.
Qed.

(** X21.  [setMinDate] and [setMaxDate] return exactly when the bound
    can be normalised, and then store the normalised bound and nothing
    else: the selection, the range, the bound field and the notification
    log are as before, also when the selection now lies outside the
    bounds. *)
Theorem bounds_setters_keep_selection (dp : DatePicker) (x : js_arg) :
  (forall dp', setMinDate dp x = Done dp' <->
     exists d, _normalizeDate (Some (options dp)) x = Done d
               /\ dp' = set_options (set_minDate d (options dp)) dp)
  /\ (forall dp', setMaxDate dp x = Done dp' <->
        exists d, _normalizeDate (Some (options dp)) x = Done d
                  /\ dp' = set_options (set_maxDate d (options dp)) dp)
  /\ (forall dp', setMinDate dp x = Done dp' \/ setMaxDate dp x = Done dp' ->
        selectedDate dp' = selectedDate dp
        /\ rangeStart dp' = rangeStart dp /\ rangeEnd dp' = rangeEnd dp
        /\ inputValue dp' = inputValue dp
        /\ callbacks dp' = callbacks dp /\ changeEvents dp' = changeEvents dp).
Proof.
  rewrite updateOptions_minDate, updateOptions_maxDate.
  destruct (_normalizeDate (Some (options dp)) x) as [d|]; cbn [bind].
  - split; [|split].
    + intros dp'. split.
      * intros [= <-]. exists d. split; reflexivity.
      * intros (d' & [= <-] & ->). reflexivity.
    + intros dp'. split.
      * intros [= <-]. exists d. split; reflexivity.
      * intros (d' & [= <-] & ->). reflexivity.
    + intros dp' [[= <-]|[= <-]]; destruct dp; cbn; repeat split.
  - split; [|split].
    + intros dp'. split; [discriminate|]. intros (d' & H & _). discriminate.
    + intros dp'. split; [discriminate|]. intros (d' & H & _). discriminate.
    + intros dp' [H|H]; discriminate.
Qed.

(** With the maximum moved before it, a selected date stays selected and
    is then out of bounds. *)
Lemma selection_left_out_of_bounds :
  exists dp1 dp2,
    setDate bounded_picker (ArgString "2024-03-15") "api" = Done dp1
    /\ selectedDate dp1 = Some d_2024_03_15
    /\ setMaxDate dp1 (ArgString "2024-03-10") = Done dp2
    /\ selectedDate dp2 = Some d_2024_03_15
    /\ isDateOutOfBounds d_2024_03_15 (minDate (options dp2)) (maxDate (options dp2)) = true.
Proof.
  let r := eval vm_compute in (setDate bounded_picker (ArgString "2024-03-15") "api") in
  match r with Done ?x => exists x;
    let r2 := eval vm_compute in (setMaxDate x (ArgString "2024-03-10")) in
    match r2 with Done ?y => exists y end end.
  repeat split; vm_compute; reflexivity.
Qed.

Lemma keep_time_plain et t :
  ~ (0 <= YearFromDay (Day t) <= 99) ->
  keep_time et (DateAt t) = DateAt (if et then t else MakeDate (Day t) 0).
Proof.
  intros Y. unfold keep_time, copy_Date. destruct et; [reflexivity|].
  apply startOfDay_plain. exact Y.
Qed.

Lemma selectedDate_applySelection dp d s :
  selectedDate (_applySelection dp d s) = Some d
  /\ focusedDate (_applySelection dp d s) = Some (startOfDay d)
  /\ (confirm (options dp) = false ->
      inputValue (_applySelection dp d s) = formatDate d (format (options dp))).
Proof.
  unfold _applySelection, copy_Date. cbv zeta. destruct dp as [o]. cbn.
  destruct (onSelect o), (confirm o); cbn; repeat split; congruence.
Qed.

(** X22.  Outside range mode, [setDate] with a date (from the year 100
    on) that the bounds and the disable predicate accept stores it, and
    [getDate] returns it: the midnight of its day without time selection,
    else its day and hour with the minute snapped to the time step (the
    seconds are dropped); the bound field shows it unless confirm mode is
    on, and [setDate(null)] then makes [getDate] return [null]. *)
Theorem setDate_then_getDate (dp : DatePicker) (t : Z) (source : string) :
  range (options dp) = false ->
  100 <= YearFromDay (Day t) ->
  let o := options dp in
  let stored :=
    DateAt (MakeDate (Day t)
              (if enableTime o
               then MakeTime (HourFromTime t)
                      (clampMinuteToStep (MinFromTime t) (timeStep o)) 0 0
               else 0)) in
  isDateOutOfBounds (keep_time (enableTime o) (DateAt t)) (minDate o) (maxDate o) = false ->
  is_disabled o (keep_time (enableTime o) (DateAt t)) = false ->
  exists dp',
    setDate dp (ArgDate (DateAt t)) source = Done dp'
    /\ picker_getDate dp' = Some stored
    /\ areSameCalendarDate stored (DateAt t) = true
    /\ (confirm o = false -> inputValue dp' = formatDate stored (format o))
    /\ exists dp'', setDate dp' ArgNull source = Done dp'' /\ picker_getDate dp'' = None.
Proof.
  intros R Y o stored B D. assert (P : ~ (0 <= YearFromDay (Day t) <= 99)) by lia.
  change (range o = false) in R.
  unfold setDate. cbv zeta. fold o. rewrite R. cbn [falsy].
  unfold _normalizeDate. cbn [isValidDate bind]. fold o.
  rewrite B, D.
  set (dp1 := if enableTime o
              then _initTimeFromDate
                     (set_currentViewMonth (startOfMonth (keep_time (enableTime o) (DateAt t))) dp)
                     (keep_time (enableTime o) (DateAt t))
              else set_currentViewMonth (startOfMonth (keep_time (enableTime o) (DateAt t))) dp).
  assert (O1 : options dp1 = o).
  { unfold dp1. destruct (enableTime o); autorewrite with opts; reflexivity. }
  assert (F : (if enableTime (options dp1)
               then date_with_time (keep_time (enableTime o) (DateAt t)) (timeHours dp1)
                      (timeMinutes dp1)
               else startOfDay (keep_time (enableTime o) (DateAt t))) = stored).
  { rewrite O1. unfold stored, dp1. rewrite keep_time_plain by exact P.
    destruct (enableTime o) eqn:ET.
    - unfold _initTimeFromDate. cbn [isValidDate negb]. autorewrite with opts. fold o.
      assert (TM : forall q, timeHours (set_timeMinutes
                     (clampMinute (getMinutes (DateAt t)) (timeStep o))
                     (set_timeHours (getHours (DateAt t)) q)) = Some (HourFromTime t)
                   /\ timeMinutes (set_timeMinutes
                     (clampMinute (getMinutes (DateAt t)) (timeStep o))
                     (set_timeHours (getHours (DateAt t)) q))
                      = Some (clampMinuteToStep (MinFromTime t) (timeStep o))).
      { intros q. destruct q; split; reflexivity. }
      destruct (TM (set_currentViewMonth (startOfMonth (DateAt t)) dp)) as [-> ->].
      unfold date_with_time. cbn [getFullYear getMonth getDate or0].
      rewrite new_Date_plain by exact P. rewrite fields_day. reflexivity.
    - rewrite startOfDay_plain by (rewrite Day_midnight; exact P).
      rewrite Day_midnight. reflexivity. }
  exists (_selectDate dp1 (keep_time (enableTime o) (DateAt t)) (source_or_api source)).
  unfold _selectDate. rewrite F.
  destruct (selectedDate_applySelection dp1 stored (source_or_api source)) as (S1 & _ & S3).
  split; [reflexivity|]. unfold picker_getDate. rewrite S1.
  split; [reflexivity|]. split.
  - unfold stored. apply same_day_iff. apply Day_MakeDate.
    destruct (enableTime o); [|unfold msPerDay; lia].
    apply MakeTime_range; [apply HourFromTime_range|].
    apply clampMinuteToStep_any_step. apply MinFromTime_range.
  - split; [rewrite O1 in S3; exact S3|].
    rewrite _applySelection_options, O1. fold o. rewrite R. cbn [falsy].
    eexists. split; [reflexivity|].
    destruct (confirm o), (onSelect o); cbn; reflexivity.
Qed.

Lemma setDate_then_getDate_witness :
  let o := options bounded_picker in
  let stored :=
    DateAt (MakeDate (Day 1710509400000)
              (if enableTime o
               then MakeTime (HourFromTime 1710509400000)
                      (clampMinuteToStep (MinFromTime 1710509400000) (timeStep o)) 0 0
               else 0)) in
  exists dp',
    setDate bounded_picker (ArgDate (DateAt 1710509400000)) "api" = Done dp'
    /\ picker_getDate dp' = Some stored
    /\ areSameCalendarDate stored (DateAt 1710509400000) = true
    /\ (confirm o = false -> inputValue dp' = formatDate stored (format o))
    /\ exists dp'', setDate dp' ArgNull "api" = Done dp'' /\ picker_getDate dp'' = None.
Proof.
  apply (setDate_then_getDate bounded_picker 1710509400000 "api").
  - vm_compute. reflexivity.
  - vm_compute. discriminate.
  - vm_compute. reflexivity.
  - vm_compute. reflexivity.
Defined.

Lemma _clearSelection_post (dp dp' : DatePicker) :
  _clearSelection dp = Done dp' ->
  selection_text dp' = EmptyString
  /\ (confirm (options dp) = false -> inputValue dp' = EmptyString)
  /\ match scheduleMode (options dp) with
     | ModeNone =>
         if range (options dp)
         then getRange dp' = (None, None)
         else picker_getDate dp' = None
     | _ => active_set dp' = [] /\ _formatScheduleArray dp' = []
     end.
Proof.
  intros H. pose proof (_clearSelection_options dp dp' H) as O.
  unfold selection_text, getRange, picker_getDate, active_set, _formatScheduleArray.
  rewrite O. revert H. unfold _clearSelection. cbv zeta.
  destruct (scheduleMode (options dp)) eqn:M.
  - destruct (range (options dp)) eqn:R.
    + unfold setRange. rewrite R. cbn [negb bind]. intros [= <-].
      assert (A : rangeStart (setRange_clear dp "user") = None
                  /\ rangeEnd (setRange_clear dp "user") = None
                  /\ (confirm (options dp) = false ->
                      inputValue (setRange_clear dp "user") = EmptyString)).
      { unfold setRange_clear. cbv zeta.
        destruct (confirm (options dp)), (onSelectRange (options dp)); destruct dp; cbn;
          repeat split; congruence. }
      destruct A as (A1 & A2 & A3).
      assert (B : forall q, rangeStart q = None -> rangeEnd q = None ->
                  _formatRangeString (options dp) (rangeStart q) (rangeEnd q) = EmptyString
                  /\ (option_map copy_Date (rangeStart q), option_map copy_Date (rangeEnd q))
                     = (None, None)).
      { intros q -> ->. split; reflexivity. }
      destruct (_ && _).
      * destruct (B (close (setRange_clear dp "user"))) as [-> ->];
          try (destruct (setRange_clear dp "user"); cbn in *; assumption).
        cbn [negb]. split; [reflexivity|]. split; [|reflexivity].
        intros C. destruct (setRange_clear dp "user"); cbn in *. auto.
      * destruct (B (setRange_clear dp "user") A1 A2) as [-> ->].
        cbn [negb]. split; [reflexivity|]. split; [exact A3|reflexivity].
    + unfold setDate. rewrite R. cbn [falsy bind]. intros [= <-].
      destruct (_ && _), (confirm (options dp)), (onSelect (options dp)); destruct dp; cbn;
        repeat split; congruence.
  - cbn [bind]. intros [= <-].
    assert (A : forall q, scheduleWeeklySelected q = [] ->
                (confirm (options dp) = false -> inputValue q = EmptyString) ->
                join "," (map String_of_Z (map display_day (sort_asc (scheduleWeeklySelected q))))
                = EmptyString
                /\ (confirm (options dp) = false -> inputValue q = EmptyString)
                /\ scheduleWeeklySelected q = []
                   /\ map display_day (sort_asc (scheduleWeeklySelected q)) = []).
    { intros q -> I. repeat split; auto. }
    apply A.
    + destruct (_ && _); unfold close; autorewrite with opts.
      all: rewrite ?_syncScheduleValue_weekly; try (destruct dp; reflexivity).
      all: match goal with |- scheduleWeeklySelected (set_isOpen _ ?q) = _ =>
             transitivity (scheduleWeeklySelected q); [destruct q; reflexivity|] end.
      all: rewrite _syncScheduleValue_weekly; destruct dp; reflexivity.
    + intros C.
      assert (T : inputValue (_syncScheduleValue (set_scheduleWeeklySelected [] dp) "user")
                  = EmptyString).
      { rewrite _syncScheduleValue_text.
        - unfold _formatScheduleArray. autorewrite with opts. rewrite M.
          destruct dp; reflexivity.
        - unfold in_schedule_mode. autorewrite with opts. rewrite M. reflexivity.
        - autorewrite with opts. exact C. }
      destruct (_ && _); [|exact T].
      unfold close. destruct (_syncScheduleValue _ _); cbn in *; exact T.
  - cbn [bind]. intros [= <-].
    assert (A : forall q, scheduleMonthlySelected q = [] ->
                (confirm (options dp) = false -> inputValue q = EmptyString) ->
                join "," (map String_of_Z (sort_asc (scheduleMonthlySelected q)))
                = EmptyString
                /\ (confirm (options dp) = false -> inputValue q = EmptyString)
                /\ scheduleMonthlySelected q = []
                   /\ sort_asc (scheduleMonthlySelected q) = []).
    { intros q -> I. repeat split; auto. }
    apply A.
    + destruct (_ && _); unfold close.
      all: try match goal with |- scheduleMonthlySelected (set_isOpen _ ?q) = _ =>
             transitivity (scheduleMonthlySelected q); [destruct q; reflexivity|] end.
      all: rewrite _syncScheduleValue_monthly; destruct dp; reflexivity.
    + intros C.
      assert (T : inputValue (_syncScheduleValue (set_scheduleMonthlySelected [] dp) "user")
                  = EmptyString).
      { rewrite _syncScheduleValue_text.
        - unfold _formatScheduleArray. autorewrite with opts. rewrite M.
          destruct dp; reflexivity.
        - unfold in_schedule_mode. autorewrite with opts. rewrite M. reflexivity.
        - autorewrite with opts. exact C. }
      destruct (_ && _); [|exact T].
      unfold close. destruct (_syncScheduleValue _ _); cbn in *; exact T.
Qed.

Lemma _clearSelection_done dp : exists dp', _clearSelection dp = Done dp'.
Proof.
  unfold _clearSelection. cbv zeta.
  destruct (scheduleMode (options dp)); cbn [bind]; eauto.
  destruct (range (options dp)) eqn:R.
  - unfold setRange. rewrite R. cbn [negb bind]. eauto.
  - unfold setDate. rewrite R. cbn [falsy bind]. eauto.
Qed.

(** X23.  [_clearSelection] always returns, whatever the format, and
    leaves nothing selected in any mode: the serialised selection is
    empty, [getDate] is [null], [getRange] has no endpoint, the schedule
    set is empty; unless confirm mode is on the bound field is emptied. *)
Theorem _clearSelection_empties (dp : DatePicker) :
  exists dp',
    _clearSelection dp = Done dp'
    /\ selection_text dp' = EmptyString
    /\ (confirm (options dp) = false -> inputValue dp' = EmptyString)
    /\ match scheduleMode (options dp) with
       | ModeNone =>
           if range (options dp)
           then getRange dp' = (None, None)
           else picker_getDate dp' = None
       | _ => active_set dp' = [] /\ _formatScheduleArray dp' = []
       end.
Proof.
  destruct (_clearSelection_done dp) as [dp' H]. exists dp'.
  split; [exact H|]. apply _clearSelection_post. exact H.
Qed.

Lemma getTime_eq a b : num_eqb (getTime a) (getTime b) = true -> a = b.
Proof.
  destruct a, b; cbn; try discriminate. intros H. apply Z.eqb_eq in H. congruence.
Qed.

(** What a key that moves the focus to [nextFocus] leaves behind. *)
Lemma move_focus dp nextFocus :
  let dp1 := set_focusedDate (Some (startOfDay nextFocus)) dp in
  let nextMonth := startOfMonth (startOfDay nextFocus) in
  let dp' := if num_eqb (getTime nextMonth) (getTime (currentViewMonth dp1)) then dp1
             else set_currentViewMonth nextMonth dp1 in
  focusedDate dp' = Some (startOfDay nextFocus)
  /\ currentViewMonth dp' = nextMonth
  /\ selectedDate dp' = selectedDate dp
  /\ rangeStart dp' = rangeStart dp /\ rangeEnd dp' = rangeEnd dp
  /\ inputValue dp' = inputValue dp /\ callbacks dp' = callbacks dp.
Proof.
  cbv zeta. destruct (num_eqb _ _) eqn:E.
  - apply getTime_eq in E. rewrite <- E. destruct dp; cbn; repeat split.
  - destruct dp; cbn; repeat split.
Qed.

Lemma arrow_key dp k s now t :
  arrow_step k = Some s ->
  focus_base dp now = DateAt t ->
  ~ (0 <= YearFromDay (Day t) <= 99) ->
  ~ (0 <= YearFromDay (Day t + s) <= 99) ->
  let dp' := _onKeyDown dp k now in
  focusedDate dp' = Some (DateAt (MakeDate (Day t + s) 0))
  /\ currentViewMonth dp' = startOfMonth (DateAt (MakeDate (Day t + s) 0))
  /\ selectedDate dp' = selectedDate dp
  /\ rangeStart dp' = rangeStart dp /\ rangeEnd dp' = rangeEnd dp
  /\ inputValue dp' = inputValue dp /\ callbacks dp' = callbacks dp.
Proof.
  intros K B Y Y'. cbv zeta.
  assert (F : startOfDay (addDays (DateAt t) s) = DateAt (MakeDate (Day t + s) 0)).
  { rewrite addDays_plain by exact Y.
    rewrite startOfDay_plain by (rewrite Day_midnight; exact Y').
    rewrite Day_midnight. reflexivity. }
  unfold _onKeyDown. cbv zeta. rewrite B.
  destruct k; try discriminate; injection K as <-;
    match goal with |- context [addDays (DateAt t) ?s] =>
      pose proof (move_focus dp (addDays (DateAt t) s)) as M end;
    cbv zeta in M; rewrite F in M; rewrite ?F; exact M.
Qed.

(** X24.  An arrow key moves the focus by -1, +1, -7 or +7 days (left,
    right, up, down) from the focused date, else the selected date, else
    today, to the midnight of the new day; the view becomes the month of
    the new focus.  A second arrow key adds its step.  The selection, the
    range, the field and the callback log are untouched. *)
Theorem arrow_keys_move_focus
  (dp : DatePicker) (k k' : key) (s s' t : Z) (now now' : Date) :
  arrow_step k = Some s ->
  arrow_step k' = Some s' ->
  focus_base dp now = DateAt t ->
  100 <= YearFromDay (Day t - 14) ->
  let dp1 := _onKeyDown dp k now in
  let dp2 := _onKeyDown dp1 k' now' in
  focusedDate dp1 = Some (DateAt ((Day t + s) * msPerDay))
  /\ currentViewMonth dp1 = startOfMonth (DateAt ((Day t + s) * msPerDay))
  /\ focusedDate dp2 = Some (DateAt ((Day t + s + s') * msPerDay))
  /\ currentViewMonth dp2 = startOfMonth (DateAt ((Day t + s + s') * msPerDay))
  /\ (selectedDate dp2 = selectedDate dp
      /\ rangeStart dp2 = rangeStart dp /\ rangeEnd dp2 = rangeEnd dp
      /\ inputValue dp2 = inputValue dp /\ callbacks dp2 = callbacks dp).
Proof.
  intros K K' B Y. cbv zeta.
  assert (S : -7 <= s <= 7) by (destruct k; cbn in K; inversion K; lia).
  assert (S' : -7 <= s' <= 7) by (destruct k'; cbn in K'; inversion K'; lia).
  assert (P : forall n, Day t - 14 <= n -> ~ (0 <= YearFromDay n <= 99)).
  { intros n H. pose proof (YearFromDay_mono _ _ H). lia. }
  destruct (arrow_key dp k s now t K B (P (Day t) ltac:(lia)) (P (Day t + s) ltac:(lia)))
    as (A1 & A2 & A3 & A4 & A5 & A6 & A7).
  assert (B' : focus_base (_onKeyDown dp k now) now' = DateAt (MakeDate (Day t + s) 0)).
  { unfold focus_base. rewrite A1. reflexivity. }
  destruct (arrow_key (_onKeyDown dp k now) k' s' now' _ K' B') as
    (C1 & C2 & C3 & C4 & C5 & C6 & C7);
    try (rewrite Day_midnight; apply P; lia).
  rewrite Day_midnight in C1, C2.
  unfold MakeDate in *. rewrite Z.add_0_r in *.
  repeat split; congruence.
Qed.

Lemma arrow_keys_move_focus_witness :
  let dp1 := _onKeyDown (picker defaults) ArrowRight now0 in
  let dp2 := _onKeyDown dp1 ArrowLeft now0 in
  focusedDate dp1 = Some (DateAt ((Day 1710495000000 + 1) * msPerDay))
  /\ currentViewMonth dp1 = startOfMonth (DateAt ((Day 1710495000000 + 1) * msPerDay))
  /\ focusedDate dp2 = Some (DateAt ((Day 1710495000000 + 1 + -1) * msPerDay))
  /\ currentViewMonth dp2 = startOfMonth (DateAt ((Day 1710495000000 + 1 + -1) * msPerDay))
  /\ (selectedDate dp2 = selectedDate (picker defaults)
      /\ rangeStart dp2 = rangeStart (picker defaults)
      /\ rangeEnd dp2 = rangeEnd (picker defaults)
      /\ inputValue dp2 = inputValue (picker defaults)
      /\ callbacks dp2 = callbacks (picker defaults)).
Proof.
  apply (arrow_keys_move_focus (picker defaults) ArrowRight ArrowLeft 1 (-1) 1710495000000
           now0 now0).
  - reflexivity.
  - reflexivity.
  - vm_compute. reflexivity.
  - vm_compute. discriminate.
Defined.

Lemma text_app f q r : text f (q ++ r) = text f q +++ text f r.
Proof.
  induction q as [|i q IH]; cbn [app text]; [reflexivity|].
  rewrite IH, append_assoc. reflexivity.
Qed.

Lemma trim_right_app a b :
  no_space b = true -> b <> EmptyString -> trim_right (a +++ b) = a +++ b.
Proof.
  intros N E. induction a as [|c a IH]; cbn [String.append].
  - apply trim_right_no_space. exact N.
  - cbn [trim_right]. rewrite IH.
    destruct (a +++ b) eqn:AB; [|reflexivity].
    destruct a; [cbn in AB; contradiction|discriminate].
Qed.

Lemma rendered_no_space t tk :
  1000 <= YearFromDay (Day t) <= 9999 -> no_space (rendered t tk) = true.
Proof.
  intros Y. destruct (token_eqb tk Ta) eqn:E.
  - apply token_eqb_eq in E. subst. cbn. destruct (12 <=? _); reflexivity.
  - apply digits_no_space, rendered_digits; [exact Y|]. intros ->. discriminate.
Qed.

Lemma trim_text t p :
  1000 <= YearFromDay (Day t) <= 9999 -> token_ends p = true ->
  trim (text (rendered t) p) = text (rendered t) p.
Proof.
  intros Y E. unfold token_ends in E.
  destruct p as [|[tk|c] p']; try discriminate.
  destruct (@exists_last _ (Tok tk :: p') ltac:(discriminate)) as (q & x & Q).
  rewrite Q in E |- *. rewrite last_last in E. destruct x as [tk'|]; [|discriminate].
  unfold trim.
  assert (L : trim_left (text (rendered t) (q ++ [Tok tk'])) = text (rendered t) (q ++ [Tok tk'])).
  { rewrite <- Q. cbn [text item_text].
    pose proof (rendered_nonempty t tk Y) as NE. pose proof (rendered_no_space t tk Y) as NS.
    destruct (rendered t tk) as [|c r]; [contradiction|].
    cbn in NS |- *. apply andb_true_iff in NS. destruct NS as [C _].
    apply negb_true_iff in C. rewrite C. reflexivity. }
  rewrite L, text_app. cbn [text item_text]. rewrite append_empty.
  apply trim_right_app; [apply rendered_no_space; exact Y|apply rendered_nonempty; exact Y].
Qed.

Lemma _build_selectedDate dp : selectedDate (_build dp) = selectedDate dp.
Proof.
  unfold _build, _buildRangeTimeControls, _buildTimeControls, _updateRangeTimeInputs,
    _updateTimeInputs, _initTimeFromDate. cbv zeta.
  destruct dp as [o]. cbn.
  repeat match goal with
         | |- context [if ?c then _ else _] => destruct c; cbn
         | |- context [match ?x with _ => _ end] => destruct x; cbn
         end; reflexivity.
Qed.

(** X25.  A picker constructed on the text [formatDate] writes for a date
    of the years 1000 to 9999, with single-date options whose format is a
    well-formed pattern that begins and ends with a token, is built without
    error and starts with that calendar day selected; without time
    selection the selected date is the start of that day. *)
Theorem selection_survives_reconstruction
  (p : list item) (t : Z) (io : InitialOptions) (o : Options) (now : Date) :
  well_formed p = true ->
  token_ends p = true ->
  1000 <= YearFromDay (Day t) <= 9999 ->
  constructor_options io = Done o ->
  format o = pattern_text p ->
  range o = false ->
  scheduleMode o = ModeNone ->
  exists dp2 d,
    constructor (formatDate (DateAt t) (format o)) io now = Done dp2
    /\ selectedDate dp2 = Some d
    /\ areSameCalendarDate d (DateAt t) = true
    /\ (enableTime o = false -> d = startOfDay (DateAt t)).
Proof.
  intros W E Y O F R M.
  pose proof (parse_formatted p t W Y) as P.
  assert (T : formatDate (DateAt t) (pattern_text p) = text (rendered t) p).
  { unfold well_formed in W.
    repeat (apply andb_true_iff in W; destruct W as [W ?]).
    apply formatDate_text; assumption. }
  assert (NE : text (rendered t) p <> EmptyString).
  { unfold well_formed in W.
    repeat (apply andb_true_iff in W; destruct W as [W ?]).
    apply text_nonempty; [assumption|]. intros tk. apply rendered_nonempty. exact Y. }
  pose proof (parsed_hour_range p t) as Hh. pose proof (parsed_minute_range p t) as Hm.
  pose proof (MakeTime_range _ _ Hh Hm) as TR.
  set (parsed := DateAt (MakeDate (Day t) (MakeTime (parsed_hour p t) (parsed_minute p t) 0 0)))
    in *.
  assert (PD : Day (MakeDate (Day t) (MakeTime (parsed_hour p t) (parsed_minute p t) 0 0))
               = Day t) by (apply Day_MakeDate; exact TR).
  unfold constructor. rewrite O. cbn [bind]. rewrite F, T, trim_text by assumption.
  rewrite <- T. rewrite M, R.
  destruct (formatDate (DateAt t) (pattern_text p)) eqn:FE; [congruence|].
  rewrite P. cbn [bind].
  assert (S : startOfDay parsed = startOfDay (DateAt t)).
  { unfold parsed. rewrite !startOfDay_plain by (rewrite ?PD; lia). rewrite PD. reflexivity. }
  assert (B : forall q, selectedDate (if inline o then open (_build q) else _build q)
                        = selectedDate q).
  { intros q. destruct (inline o); [|apply _build_selectedDate].
    unfold open. transitivity (selectedDate (_build q)); [|apply _build_selectedDate].
    destruct (_build q); reflexivity. }
  destruct (enableTime o) eqn:ET; cbn [bind].
  - eexists. exists parsed. split; [reflexivity|]. rewrite B. split; [|split].
    + unfold _initTimeFromDate, copy_Date, parsed. cbn [isValidDate negb].
      autorewrite with opts. unfold blank.
      match goal with |- selectedDate ?q = _ => destruct q eqn:Q end.
      cbn in *. unfold set_timeMinutes, set_timeHours, set_selectedDate in Q. cbn in Q.
      injection Q. intros. subst. reflexivity.
    + unfold parsed. apply same_day_iff. exact PD.
    + discriminate.
  - eexists. exists (startOfDay parsed). split; [reflexivity|]. rewrite B. split; [|split].
    + reflexivity.
    + rewrite S. rewrite startOfDay_plain by lia. apply same_day_iff. apply Day_midnight.
    + intros _. exact S.
Qed.

Lemma default_regex :
  date_regex DEFAULT_FORMAT
  = Done [AGroup GYear; ALit "-"; AGroup GMonth; ALit "-"; AGroup GDay].
Proof. vm_compute. reflexivity. Qed.

Lemma take_digits_inv n s v r :
  take_digits n s = Some (v, r) ->
  s = v +++ r /\ all_digits v = true /\ String.length v = n.
Proof.
  revert s v r. induction n as [|k IH]; intros s v r H.
  - cbn in H. injection H as <- <-. repeat split.
  - cbn [take_digits] in H. destruct s as [|c s]; [discriminate|].
    destruct (is_digit c) eqn:D; [|discriminate].
    destruct (take_digits k s) as [[v' r']|] eqn:T; [|discriminate].
    injection H as <- <-. destruct (IH _ _ _ T) as (-> & A & L).
    cbn. rewrite D, A, L. repeat split.
Qed.

Lemma all_digits_Number s : all_digits s = true -> forall acc, exists v, Number_acc s acc = Some v.
Proof.
  induction s as [|c s IH]; intros H acc; cbn; [eauto|].
  cbn in H. apply andb_true_iff in H. destruct H as [-> H]. apply IH. exact H.
Qed.

Lemma short_digits s :
  all_digits s = true -> ((String.length s =? 1)%nat || (String.length s =? 2)%nat) = true ->
  (exists a, s = String a EmptyString /\ is_digit a = true)
  \/ (exists a b, s = String a (String b EmptyString) /\ is_digit a = true /\ is_digit b = true).
Proof.
  intros D L. destruct s as [|a [|b [|c s]]]; try discriminate; cbn in D.
  - left. exists a. rewrite andb_true_r in D. auto.
  - right. exists a, b. rewrite andb_true_r in D. apply andb_true_iff in D. tauto.
Qed.

Lemma dash_not_digit : is_digit "-" = false.
Proof. reflexivity. Qed.

(** The match of the default format on a value of the right shape. *)
Lemma re_match_iso y m d :
  iso_parts y m d = true ->
  exists env,
    re_match [AGroup GYear; ALit "-"; AGroup GMonth; ALit "-"; AGroup GDay]
      (y +++ "-" +++ m +++ "-" +++ d) no_groups = Some env
    /\ env GYear = Some y /\ env GMonth = Some m /\ env GDay = Some d
    /\ env GHour24 = None /\ env GHour12 = None /\ env GMinute = None.
Proof.
  unfold iso_parts. intros H.
  apply andb_true_iff in H. destruct H as [H Ld].
  apply andb_true_iff in H. destruct H as [H Dd].
  apply andb_true_iff in H. destruct H as [H Lm].
  apply andb_true_iff in H. destruct H as [H Dm].
  apply andb_true_iff in H. destruct H as [Dy Ly].
  apply Nat.eqb_eq in Ly.
  assert (T : forall rest, take_digits 4 (y +++ rest) = Some (y, rest)).
  { intros rest. rewrite <- Ly. apply take_digits_all. exact Dy. }
  cbn [re_match]. rewrite T.
  cbn [String.append re_match Ascii.eqb Bool.eqb].
  destruct (short_digits m Dm Lm) as [(a & -> & A)|(a & b & -> & A & B)];
    destruct (short_digits d Dd Ld) as [(c & -> & C)|(c & e & -> & C & E)];
    cbn [String.append take_digits re_match orelse Ascii.eqb Bool.eqb];
    rewrite ?A, ?B, ?C, ?E, ?dash_not_digit;
    cbn [String.append take_digits re_match orelse Ascii.eqb Bool.eqb];
    rewrite ?A, ?B, ?C, ?E, ?dash_not_digit;
    cbn [String.append take_digits re_match orelse Ascii.eqb Bool.eqb];
    eexists; (split; [reflexivity|]); repeat split.
Qed.

Lemma iso_parts_intro y m d :
  all_digits y = true -> String.length y = 4%nat ->
  all_digits m = true -> (String.length m = 1 \/ String.length m = 2)%nat ->
  all_digits d = true -> (String.length d = 1 \/ String.length d = 2)%nat ->
  iso_parts y m d = true.
Proof.
  intros Dy Ly Dm Lm Dd Ld. unfold iso_parts. rewrite Dy, Ly, Dm, Dd. cbn [andb Nat.eqb].
  destruct Lm as [->| ->], Ld as [->| ->]; reflexivity.
Qed.

(** Only values of that shape match. *)
Lemma re_match_iso_inv s env :
  re_match [AGroup GYear; ALit "-"; AGroup GMonth; ALit "-"; AGroup GDay] s no_groups
  = Some env ->
  exists y m d, iso_parts y m d = true /\ s = y +++ "-" +++ m +++ "-" +++ d.
Proof.
  cbn [re_match]. destruct (take_digits 4 s) as [[y r1]|] eqn:T1; [|discriminate].
  apply take_digits_inv in T1. destruct T1 as (-> & Dy & Ly).
  destruct r1 as [|c1 r2]; [discriminate|].
  destruct (Ascii.eqb c1 "-") eqn:E1; [|discriminate].
  apply Ascii.eqb_eq in E1. subst c1.
  assert (K : forall m r3 env0,
            all_digits m = true -> (String.length m = 1 \/ String.length m = 2)%nat ->
            r2 = m +++ r3 ->
            match r3 with
            | String x s' =>
                if Ascii.eqb x "-"
                then
                  orelse
                    match take_digits 2 s' with
                    | Some (v, s'0) =>
                        match s'0 with
                        | EmptyString => Some (set_group GDay v env0)
                        | String _ _ => None
                        end
                    | None => None
                    end
                    match take_digits 1 s' with
                    | Some (v, s'0) =>
                        match s'0 with
                        | EmptyString => Some (set_group GDay v env0)
                        | String _ _ => None
                        end
                    | None => None
                    end
                else None
            | EmptyString => None
            end <> None ->
            exists y0 m0 d, iso_parts y0 m0 d = true
                            /\ y +++ String "-" r2 = y0 +++ "-" +++ m0 +++ "-" +++ d).
  { intros m r3 env0 Dm Lm -> H. destruct r3 as [|x r4]; [congruence|].
    destruct (Ascii.eqb x "-") eqn:E2; [|congruence].
    apply Ascii.eqb_eq in E2. subst x.
    assert (D : exists d, all_digits d = true
                /\ (String.length d = 1 \/ String.length d = 2)%nat /\ r4 = d).
    { destruct (take_digits 2 r4) as [[v [|? ?]]|] eqn:T2.
      - apply take_digits_inv in T2. destruct T2 as (-> & Dv & Lv).
        exists v. rewrite append_empty. auto.
      - destruct (take_digits 1 r4) as [[v' [|? ?]]|] eqn:T3; cbn [orelse] in H;
          try congruence.
        apply take_digits_inv in T3. destruct T3 as (-> & Dv & Lv).
        exists v'. rewrite append_empty. auto.
      - destruct (take_digits 1 r4) as [[v' [|? ?]]|] eqn:T3; cbn [orelse] in H;
          try congruence.
        apply take_digits_inv in T3. destruct T3 as (-> & Dv & Lv).
        exists v'. rewrite append_empty. auto. }
    destruct D as (d & Dd & Ld & ->).
    exists y, m, d. split; [apply iso_parts_intro; assumption|reflexivity]. }
  intros H.
  destruct (take_digits 2 r2) as [[m r3]|] eqn:T2.
  - destruct (match r3 with
              | String x s' => if Ascii.eqb x "-" then _ else None
              | EmptyString => None
              end) eqn:R in H.
    + apply take_digits_inv in T2. destruct T2 as (E & Dm & Lm).
      apply (K m r3 (set_group GMonth m (set_group GYear y no_groups))); auto.
      cbn [re_match] in R. rewrite R. discriminate.
    + cbn [orelse] in H.
      destruct (take_digits 1 r2) as [[m' r3']|] eqn:T3; [|discriminate].
      apply take_digits_inv in T3. destruct T3 as (E & Dm & Lm).
      apply (K m' r3' (set_group GMonth m' (set_group GYear y no_groups))); auto.
      cbn [re_match] in H. rewrite H. discriminate.
  - cbn [orelse] in H.
    destruct (take_digits 1 r2) as [[m' r3']|] eqn:T3; [|discriminate].
    apply take_digits_inv in T3. destruct T3 as (E & Dm & Lm).
    apply (K m' r3' (set_group GMonth m' (set_group GYear y no_groups))); auto.
    cbn [re_match] in H. rewrite H. discriminate.
Qed.

Lemma digits_Number s : all_digits s = true -> exists v, Number_of (Some s) = Some v.
Proof. intros H. exact (all_digits_Number s H 0). Qed.

Lemma iso_parts_digits y m d :
  iso_parts y m d = true ->
  all_digits y = true /\ all_digits m = true /\ all_digits d = true.
Proof.
  unfold iso_parts. intros H. repeat (apply andb_true_iff in H; destruct H as [H ?]).
  auto.
Qed.

Lemma MakeDay_date y m d : MakeDay y m d = MakeDay y m 1 + (d - 1).
Proof. unfold MakeDay. lia. Qed.

(** The value of [parseDate] with the default format on a value of the
    accepted shape. *)
Lemma parseDate_iso y m d :
  iso_parts y m d = true ->
  parseDate (Some (y +++ "-" +++ m +++ "-" +++ d)) DEFAULT_FORMAT
  = Done (Some (new_Date3 (Number_of (Some y)) (num_sub (Number_of (Some m)) 1)
                  (Number_of (Some d))))
  /\ isValidDate (new_Date3 (Number_of (Some y)) (num_sub (Number_of (Some m)) 1)
                    (Number_of (Some d))) = true.
Proof.
  intros I. destruct (re_match_iso y m d I) as (env & R & Gy & Gm & Gd & G24 & G12 & Gmi).
  destruct (iso_parts_digits y m d I) as (Dy & Dm & Dd).
  destruct (digits_Number y Dy) as [Y EY], (digits_Number m Dm) as [M EM],
    (digits_Number d Dd) as [D ED].
  assert (V : isValidDate (new_Date3 (Number_of (Some y)) (num_sub (Number_of (Some m)) 1)
                             (Number_of (Some d))) = true).
  { rewrite EY, EM, ED. reflexivity. }
  split; [|exact V].
  unfold parseDate. rewrite default_regex. cbn [bind].
  assert (N : y +++ "-" +++ m +++ "-" +++ d <> EmptyString).
  { destruct y; [discriminate I|discriminate]. }
  destruct (y +++ "-" +++ m +++ "-" +++ d) eqn:S; [congruence|]. rewrite R.
  cbv zeta. rewrite Gy, Gm, Gd, G24, G12, Gmi.
  fold (new_Date3 (Number_of (Some y)) (num_sub (Number_of (Some m)) 1) (Number_of (Some d))).
  rewrite V. reflexivity.
Qed.

Lemma parseDate_default_total s :
  (exists y m d, iso_parts y m d = true /\ s = y +++ "-" +++ m +++ "-" +++ d)
  \/ parseDate (Some s) DEFAULT_FORMAT = Done None.
Proof.
  unfold parseDate. rewrite default_regex. cbn [bind].
  destruct s as [|c s]; [right; reflexivity|].
  destruct (re_match _ (String c s) no_groups) as [env|] eqn:R; [|right; reflexivity].
  left. apply re_match_iso_inv in R. exact R.
Qed.

(** 30 February is read as 1 March. *)
Example parseDate_rolls_over :
  parseDate (Some "2024-02-30") DEFAULT_FORMAT = parseDate (Some "2024-03-01") DEFAULT_FORMAT
  /\ parseDate (Some "2024-13-01") DEFAULT_FORMAT = parseDate (Some "2025-01-01") DEFAULT_FORMAT
  /\ parseDate (Some "0099-01-01") DEFAULT_FORMAT = parseDate (Some "1999-01-01") DEFAULT_FORMAT.
Proof. vm_compute. repeat split. Qed.

(** X26.  With the default format [parseDate] never raises and accepts
    exactly the values made of four digits, a dash, one or two digits, a
    dash and one or two digits; every other value gives [null].  Month and
    day are not validated: an accepted value always gives a valid date,
    the one [new Date(year, month - 1, day)] makes, which for a year from
    100 on is the day [day - 1] days after the first day of the (possibly
    overflowing) month. *)
Theorem parseDate_default_format (s : string) :
  exists r,
    parseDate (Some s) DEFAULT_FORMAT = Done r
    /\ (forall d0,
          r = Some d0 <->
          exists y m d,
            iso_parts y m d = true /\ s = y +++ "-" +++ m +++ "-" +++ d
            /\ d0 = new_Date3 (Number_of (Some y)) (num_sub (Number_of (Some m)) 1)
                      (Number_of (Some d)))
    /\ (forall d0, r = Some d0 ->
          isValidDate d0 = true
          /\ forall y m d Y M D,
               s = y +++ "-" +++ m +++ "-" +++ d -> iso_parts y m d = true ->
               Number_of (Some y) = Some Y -> Number_of (Some m) = Some M ->
               Number_of (Some d) = Some D -> 100 <= Y ->
               d0 = DateAt ((MakeDay Y (M - 1) 1 + (D - 1)) * msPerDay)
               /\ YearFromDay (MakeDay Y (M - 1) 1) = Y + (M - 1) / 12
               /\ MonthFromDay (MakeDay Y (M - 1) 1) = (M - 1) mod 12
               /\ DateFromDay (MakeDay Y (M - 1) 1) = 1).
Proof.
  destruct (parseDate_default_total s) as [(y & m & d & I & ->)|N].
  - destruct (parseDate_iso y m d I) as [P V].
    eexists. split; [exact P|]. split.
    + intros d0. split.
      * intros [= <-]. exists y, m, d. auto.
      * intros (y' & m' & d' & I' & E & ->).
        destruct (parseDate_iso y' m' d' I') as [P' _]. rewrite <- E in P'. congruence.
    + intros d0 [= <-]. split; [exact V|].
      intros y' m' d' Y M D E I' EY EM ED HY.
      destruct (parseDate_iso y' m' d' I') as [P' _]. rewrite <- E in P'.
      assert (Q : new_Date3 (Number_of (Some y)) (num_sub (Number_of (Some m)) 1)
                    (Number_of (Some d))
                  = new_Date3 (Some Y) (Some (M - 1)) (Some D)).
      { rewrite <- EY, <- ED. change (Some (M - 1)) with (num_sub (Some M) 1).
        rewrite <- EM. congruence. }
      change (new_Date3 (Number_of (Some y)) (num_sub (Number_of (Some m)) 1)
                (Number_of (Some d))
              = DateAt ((MakeDay Y (M - 1) 1 + (D - 1)) * msPerDay)
              /\ YearFromDay (MakeDay Y (M - 1) 1) = Y + (M - 1) / 12
              /\ MonthFromDay (MakeDay Y (M - 1) 1) = (M - 1) mod 12
              /\ DateFromDay (MakeDay Y (M - 1) 1) = 1).
      rewrite Q.
      split; [|apply MakeDay_first].
      rewrite new_Date3_plain by lia. unfold MakeDate.
      rewrite (MakeDay_date Y (M - 1) D). f_equal. lia.
  - exists None. split; [exact N|]. split.
    + intros d0. split; [discriminate|].
      intros (y & m & d & I & -> & _). destruct (parseDate_iso y m d I) as [P _]. congruence.
    + discriminate.
Qed.




Lemma mode_eqb_eq a b : mode_eqb a b = true <-> a = b.
Proof. destruct a, b; cbn; split; congruence. Qed.

(** [updateOptions({ scheduleMode: mode })] *)
Lemma updateOptions_scheduleMode dp mode :
  exists dp',
    updateOptions dp
      (mkPartial None None None (Some mode) None None None None None None None None None
         None None None None None None) = Done dp'
    /\ scheduleMode (options dp') = mode
    /\ scheduleWeeklySelected dp' = scheduleWeeklySelected dp
    /\ scheduleMonthlySelected dp' = scheduleMonthlySelected dp.
Proof.
  unfold updateOptions, updateOptions_run, on_key.
  cbn [p_onSelectSchedule p_scheduleWeeklyMulti p_scheduleMonthlyMulti p_scheduleMode
       p_format p_firstDayOfWeek p_minDate p_maxDate p_disableDates p_openOnFocus
       p_autoClose p_showOutsideDays p_inline p_enableTime p_timeStep p_hour12 p_range
       p_rangeSeparator p_confirm and_then].
  destruct (mode_eqb mode (scheduleMode (options dp))) eqn:E.
  - apply mode_eqb_eq in E. cbn [and_then]. eexists. split; [reflexivity|]. auto.
  - cbn [and_then]. eexists. split; [reflexivity|].
    rewrite _syncScheduleValue_options, _syncScheduleValue_weekly,
      _syncScheduleValue_monthly.
    destruct mode, dp; cbn; auto.
Qed.

(** What [setSchedule] stores and what [getSchedule] then returns. *)
Lemma setSchedule_days dp payload source l :
  payload_days (payload_mode dp payload) payload = Some l ->
  exists dp',
    setSchedule dp payload source = Done dp'
    /\ scheduleMode (options dp') = payload_mode dp payload
    /\ active_set dp' = set_insert_all l []
    /\ getSchedule dp'
       = Some (mkSchedule (payload_mode dp payload) (scheduleWeeklySelected dp')
                 (scheduleMonthlySelected dp')
                 (schedule_array_of (payload_mode dp payload) (set_insert_all l [])))
    /\ (pl_mode payload = None \/ pl_mode payload = Some (scheduleMode (options dp)) ->
        options dp' = options dp).
Proof.
  intros P. unfold setSchedule.
  assert (E : exists dp1,
            match pl_mode payload with
            | Some mode =>
                if negb (mode_eqb mode (scheduleMode (options dp)))
                then updateOptions dp
                       (mkPartial None None None (Some mode) None None None None None None
                          None None None None None None None None None)
                else Done dp
            | None => Done dp
            end = Done dp1
            /\ scheduleMode (options dp1) = payload_mode dp payload
            /\ (pl_mode payload = None \/ pl_mode payload = Some (scheduleMode (options dp)) ->
                dp1 = dp)).
  { unfold payload_mode. destruct (pl_mode payload) as [mode|].
    - destruct (mode_eqb mode (scheduleMode (options dp))) eqn:M; cbn [negb].
      + apply mode_eqb_eq in M. exists dp. auto.
      + destruct (updateOptions_scheduleMode dp mode) as (dp1 & U & S & _).
        exists dp1. split; [exact U|]. split; [exact S|].
        intros [N|N]; [discriminate|]. injection N as ->.
        destruct (scheduleMode (options dp)); discriminate.
    - exists dp. auto. }
  destruct E as (dp1 & -> & S & K). cbn [bind]. eexists. split; [reflexivity|].
  unfold getSchedule, active_set, _formatScheduleArray.
  rewrite _syncScheduleValue_options, _syncScheduleValue_weekly, _syncScheduleValue_monthly.
  rewrite S. unfold payload_days in P.
  destruct (payload_mode dp payload) eqn:PM; [discriminate| |]; rewrite P.
  - assert (O : options (set_scheduleWeeklySelected (set_insert_all l []) dp1) = options dp1)
      by (destruct dp1; reflexivity).
    rewrite O, S. repeat split; try (destruct dp1; reflexivity).
    intros N. rewrite (K N). reflexivity.
  - destruct (pl_weekly payload);
      assert (O : options (set_scheduleMonthlySelected (set_insert_all l []) dp1)
                  = options dp1)
        by (destruct dp1; reflexivity);
      rewrite O, S; repeat split; try (destruct dp1; reflexivity);
      intros N; rewrite (K N); reflexivity.
Qed.

(** In single-select weekly mode [setSchedule] still stores several days,
    and days that are no weekday. *)
Example setSchedule_not_validated :
  exists dp',
    setSchedule (picker (set_scheduleWeeklyMulti false (set_scheduleMode ModeWeekly defaults)))
      (mkPayload None (Some [1; 9; 1; 3]) None) "api" = Done dp'
    /\ scheduleWeeklySelected dp' = [1; 9; 3]
    /\ single_select dp' = true
    /\ schedule_valid dp' = false.
Proof. eexists. split; [reflexivity|]. vm_compute. auto. Qed.



(** X28.  The object [getSchedule] returns restores the schedule: passed
    to [setSchedule] of any picker, whatever mode that picker is in, it
    puts the picker into the schedule's mode with the same days, and
    [getSchedule] of that picker returns the same mode, days and array. *)
Theorem schedule_transfers
  (dp1 dp2 : DatePicker) (s : Schedule) (source : string) :
  getSchedule dp1 = Some s ->
  schedule_valid dp1 = true ->
  exists dp2' s',
    setSchedule dp2 (payload_of s) source = Done dp2'
    /\ getSchedule dp2' = Some s'
    /\ sched_mode s' = sched_mode s
    /\ days_of_schedule s' = days_of_schedule s
    /\ sched_array s' = sched_array s
    /\ active_set dp2' = active_set dp1.
Proof.
  intros G V.
  assert (M : sched_mode s = scheduleMode (options dp1)
              /\ days_of_schedule s = active_set dp1
              /\ sched_array s = schedule_array_of (sched_mode s) (active_set dp1)
              /\ sched_mode s <> ModeNone).
  { revert G. unfold getSchedule, days_of_schedule, active_set, _formatScheduleArray.
    destruct (scheduleMode (options dp1)); [discriminate| |]; intros [= <-];
      cbn; repeat split; discriminate. }
  destruct M as (M1 & M2 & M3 & M4).
  assert (N : no_repeat (active_set dp1) = true).
  { revert V. unfold schedule_valid, active_set. intros V.
    apply andb_true_iff in V. destruct V as [V _].
    apply andb_true_iff in V. destruct V as [V V2].
    apply andb_true_iff in V. destruct V as [V1 _].
    destruct (scheduleMode (options dp1)); auto. }
  assert (P : payload_days (payload_mode dp2 (payload_of s)) (payload_of s)
              = Some (days_of_schedule s)).
  { unfold payload_days, payload_mode, payload_of, days_of_schedule.
    cbn [pl_mode pl_weekly pl_monthly]. destruct (sched_mode s); congruence. }
  destruct (setSchedule_days dp2 (payload_of s) source _ P) as (dp' & R & S & A & G' & _).
  assert (F : set_insert_all (days_of_schedule s) [] = active_set dp1).
  { rewrite M2. apply (set_insert_all_fresh (active_set dp1) []). exact N. }
  rewrite F in A, G'. change (payload_mode dp2 (payload_of s)) with (sched_mode s) in S, G'.
  exists dp'. eexists. split; [exact R|]. split; [exact G'|].
  cbn [sched_mode sched_array]. split; [reflexivity|].
  split; [|split; [congruence|exact A]].
  rewrite M2, <- A. unfold days_of_schedule, active_set. cbn [sched_mode sched_weekly sched_monthly].
  rewrite S. reflexivity.
Qed.

Lemma schedule_transfers_witness :
  exists dp2' s',
    setSchedule monthly_single_picker
      (payload_of (mkSchedule ModeWeekly [3; 1] [] [1; 3])) "api" = Done dp2'
    /\ getSchedule dp2' = Some s'
    /\ sched_mode s' = ModeWeekly
    /\ days_of_schedule s' = [3; 1]
    /\ sched_array s' = [1; 3]
    /\ active_set dp2' = [3; 1].
Proof.
  apply (schedule_transfers (set_scheduleWeeklySelected [3; 1] weekly_picker)
           monthly_single_picker (mkSchedule ModeWeekly [3; 1] [] [1; 3]) "api");
    reflexivity.
Defined.

Lemma pad4_numeral y : 0 <= y <= 9999 -> numeral 4 y (padStartNumber y 4) = true.
Proof.
  intros H.
  assert (A : forallb (fun y => numeral 4 y (padStartNumber y 4)) (zrange 0 (Z.to_nat 10000))
              = true) by (vm_compute; reflexivity).
  rewrite forallb_forall in A. apply A. apply zrange_In. lia.
Qed.

Lemma numeral_iso_parts Y M D y m d :
  numeral 4 Y y = true -> numeral 2 M m = true -> numeral 2 D d = true ->
  iso_parts y m d = true.
Proof.
  intros A B C. apply iso_parts_intro;
    eauto using numeral_digits, numeral_length.
Qed.

(** The text of [toISODateString] and what [parseDate] reads from it. *)
Lemma toISODateString_parse t :
  0 <= YearFromDay (Day t) <= 9999 ->
  parseDate (Some (toISODateString (DateAt t))) DEFAULT_FORMAT
  = Done (Some (startOfDay (DateAt t))).
Proof.
  intros Y. pose proof (MonthFromDay_range (Day t)). pose proof (DateFromDay_range (Day t)).
  pose proof (pad4_numeral _ Y) as Ny.
  pose proof (pad_numeral (MonthFromDay (Day t) + 1) ltac:(lia)) as Nm.
  pose proof (pad_numeral (DateFromDay (Day t)) ltac:(lia)) as Nd.
  destruct (parseDate_iso _ _ _ (numeral_iso_parts _ _ _ _ _ _ Ny Nm Nd)) as [P _].
  unfold toISODateString. cbn [join].
  rewrite (numeral_Number _ _ _ Ny), (numeral_Number _ _ _ Nm), (numeral_Number _ _ _ Nd)
    in P.
  cbn [num_sub] in P. replace (MonthFromDay (Day t) + 1 - 1) with (MonthFromDay (Day t)) in P
    by lia.
  exact P.
Qed.

Lemma split_dash_digits a cur rest :
  all_digits a = true ->
  split_dash_aux cur (a +++ rest) = split_dash_aux (cur +++ a) rest.
Proof.
  revert cur. induction a as [|c a IH]; intros cur H; cbn [String.append].
  - rewrite append_empty. reflexivity.
  - cbn [all_digits] in H. apply andb_true_iff in H. destruct H as [D H].
    cbn [split_dash_aux].
    destruct (Ascii.eqb_spec c "-") as [->|_]; [discriminate D|].
    rewrite IH by exact H. rewrite append_assoc. reflexivity.
Qed.

Lemma split_dash_iso y m d :
  all_digits y = true -> all_digits m = true -> all_digits d = true ->
  split_dash (y +++ "-" +++ m +++ "-" +++ d) = [y; m; d].
Proof.
  intros Y M D. unfold split_dash.
  rewrite split_dash_digits by exact Y. cbn [String.append split_dash_aux Ascii.eqb Bool.eqb].
  rewrite split_dash_digits by exact M. cbn [String.append split_dash_aux Ascii.eqb Bool.eqb].
  rewrite <- (append_empty d) at 1. rewrite split_dash_digits by exact D.
  reflexivity.
Qed.

(** The highlight of the cell of a day, by day numbers. *)
Lemma highlight_day_cell effStart effEnd t o td sel dis :
  100 <= YearFromDay (Day t) <= 9999 ->
  highlight_cell effStart effEnd (DayCell (DateAt t) o td sel dis)
  = let d := DateAt (MakeDate (Day t) 0) in
    let isStart :=
      match effStart with Some s => areSameCalendarDate d s | None => false end in
    let isEnd :=
      match effEnd with Some e => areSameCalendarDate d e | None => false end in
    mkHighlight
      match effStart, effEnd with
      | Some s, Some e => date_ge d s && date_le d e
      | _, _ => false
      end isStart isEnd (Some (isStart || isEnd)).
Proof.
  intros Y. pose proof (MonthFromDay_range (Day t)). pose proof (DateFromDay_range (Day t)).
  pose proof (pad4_numeral (YearFromDay (Day t)) ltac:(lia)) as Ny.
  pose proof (pad_numeral (MonthFromDay (Day t) + 1) ltac:(lia)) as Nm.
  pose proof (pad_numeral (DateFromDay (Day t)) ltac:(lia)) as Nd.
  unfold highlight_cell, data_date, toISODateString. cbn [join].
  rewrite split_dash_iso by eauto using numeral_digits.
  rewrite (numeral_Number _ _ _ Ny), (numeral_Number _ _ _ Nm), (numeral_Number _ _ _ Nd).
  cbn [num_sub]. replace (MonthFromDay (Day t) + 1 - 1) with (MonthFromDay (Day t)) by lia.
  rewrite new_Date3_plain by lia. rewrite fields_day.
  destruct (padStartNumber (YearFromDay (Day t)) 4) eqn:E; [discriminate Ny|].
  reflexivity.
Qed.

Lemma same_day_eqb a b : areSameCalendarDate (DateAt a) (DateAt b) = (Day a =? Day b).
Proof.
  destruct (Z.eqb_spec (Day a) (Day b)) as [E|N].
  - apply same_day_iff. exact E.
  - destruct (areSameCalendarDate (DateAt a) (DateAt b)) eqn:S; [|reflexivity].
    apply same_day_iff in S. contradiction.
Qed.

Lemma midnight_le n m : date_le (DateAt (MakeDate n 0)) (DateAt (MakeDate m 0)) = (n <=? m).
Proof.
  unfold date_le, MakeDate, msPerDay.
  destruct (Z.leb_spec n m), (Z.leb_spec (n * 86400000 + 0) (m * 86400000 + 0)); lia.
Qed.

Lemma midnight_lt n m : date_lt (DateAt (MakeDate n 0)) (DateAt (MakeDate m 0)) = (n <? m).
Proof.
  unfold date_lt, MakeDate, msPerDay.
  destruct (Z.ltb_spec n m), (Z.ltb_spec (n * 86400000 + 0) (m * 86400000 + 0)); lia.
Qed.

Lemma midnight_time e : TimeWithinDay e = 0 -> e = MakeDate (Day e) 0.
Proof. unfold TimeWithinDay, Day, MakeDate, msPerDay. intros H. div_lia. Qed.

(** The ends of the highlighted range, by day numbers. *)
Lemma effective_range_chosen dp s e :
  rangeStart dp = Some (DateAt s) -> 100 <= YearFromDay (Day s) ->
  rangeEnd dp = Some (DateAt e) -> 100 <= YearFromDay (Day e) ->
  effective_range dp
  = (Some (DateAt (MakeDate (Day s) 0)), Some (DateAt (MakeDate (Day e) 0))).
Proof.
  intros S Ys E Ye. unfold effective_range. rewrite S, E. cbn [option_map].
  rewrite !startOfDay_plain by lia.
  destruct (hoveringDate dp); reflexivity.
Qed.

Lemma effective_range_hover dp s e :
  rangeStart dp = Some (DateAt s) -> 100 <= YearFromDay (Day s) ->
  rangeEnd dp = None ->
  hoveringDate dp = Some (DateAt e) -> 100 <= YearFromDay (Day e) -> TimeWithinDay e = 0 ->
  effective_range dp
  = (Some (DateAt (MakeDate (Z.min (Day s) (Day e)) 0)),
     Some (DateAt (MakeDate (Z.max (Day s) (Day e)) 0))).
Proof.
  intros S Ys E H Ye T. unfold effective_range. rewrite S, E, H. cbn [option_map].
  rewrite !startOfDay_plain by lia.
  rewrite (midnight_time e T) at 1. rewrite midnight_lt.
  destruct (Z.ltb_spec (Day e) (Day s)) as [L|G].
  - rewrite Z.min_r, Z.max_l by lia. rewrite <- (midnight_time e T). reflexivity.
  - rewrite Z.min_l, Z.max_r by lia. cbn [option_map].
    rewrite startOfDay_plain by lia. reflexivity.
Qed.

Lemma effective_range_open dp s :
  rangeStart dp = Some (DateAt s) -> 100 <= YearFromDay (Day s) ->
  rangeEnd dp = None -> hoveringDate dp = None ->
  effective_range dp = (Some (DateAt (MakeDate (Day s) 0)), None).
Proof.
  intros S Ys E H. unfold effective_range. rewrite S, E, H. cbn [option_map].
  rewrite !startOfDay_plain by lia. reflexivity.
Qed.

Lemma highlight_between lo hi t o td sel dis :
  100 <= YearFromDay (Day t) <= 9999 ->
  highlight_cell (Some (DateAt (MakeDate lo 0))) (Some (DateAt (MakeDate hi 0)))
    (DayCell (DateAt t) o td sel dis)
  = mkHighlight ((lo <=? Day t) && (Day t <=? hi)) (Day t =? lo) (Day t =? hi)
      (Some ((Day t =? lo) || (Day t =? hi))).
Proof.
  intros Y. rewrite highlight_day_cell by exact Y. cbv zeta.
  unfold date_ge. rewrite !midnight_le, !same_day_eqb, !Day_midnight. reflexivity.
Qed.

(** X29.  For a date of a year from 0 to 9999 [parseDate] with the default
    format reads the text of [toISODateString] back as the start of that
    day; the text has ten characters, and from the year 1000 on it is the
    one [formatDate] writes with the default format.  An invalid date gives
    the empty text, which parses to [null]. *)
Theorem toISODateString_round_trip (t : Z) :
  0 <= YearFromDay (Day t) <= 9999 ->
  parseDate (Some (toISODateString (DateAt t))) DEFAULT_FORMAT
  = Done (Some (startOfDay (DateAt t)))
  /\ (1000 <= YearFromDay (Day t) ->
      toISODateString (DateAt t) = formatDate (DateAt t) DEFAULT_FORMAT)
  /\ String.length (toISODateString (DateAt t)) = 10%nat
  /\ toISODateString InvalidDate = EmptyString
  /\ parseDate (Some (toISODateString InvalidDate)) DEFAULT_FORMAT = Done None.
Proof.
  intros Y. split; [apply toISODateString_parse; exact Y|].
  pose proof (MonthFromDay_range (Day t)). pose proof (DateFromDay_range (Day t)).
  pose proof (pad4_numeral _ Y) as Ny.
  pose proof (pad_numeral (MonthFromDay (Day t) + 1) ltac:(lia)) as Nm.
  pose proof (pad_numeral (DateFromDay (Day t)) ltac:(lia)) as Nd.
  split; [|split; [|split; reflexivity]].
  - intros Y'.
    change DEFAULT_FORMAT with (pattern_text iso_date).
    rewrite formatDate_text by (try reflexivity; lia).
    unfold toISODateString. cbn [join text iso_date rendered item_text].
    rewrite append_empty.
    assert (E : padStartNumber (YearFromDay (Day t)) 4 = String_of_Z (YearFromDay (Day t))).
    { assert (A : forallb (fun y => String.eqb (padStartNumber y 4) (String_of_Z y))
                    (zrange 1000 (Z.to_nat 9000)) = true) by (vm_compute; reflexivity).
      rewrite forallb_forall in A. apply String.eqb_eq, A, zrange_In. lia. }
    rewrite E. reflexivity.
  - unfold toISODateString. cbn [join].
    rewrite !string_length_append.
    rewrite (numeral_length _ _ _ Ny), (numeral_length _ _ _ Nm), (numeral_length _ _ _ Nd).
    reflexivity.
Qed.

Lemma toISODateString_round_trip_witness :
  parseDate (Some (toISODateString (DateAt (-30610224000000 + 34000)))) DEFAULT_FORMAT
  = Done (Some (startOfDay (DateAt (-30610224000000 + 34000))))
  /\ (1000 <= YearFromDay (Day (-30610224000000 + 34000)) ->
      toISODateString (DateAt (-30610224000000 + 34000))
      = formatDate (DateAt (-30610224000000 + 34000)) DEFAULT_FORMAT)
  /\ String.length (toISODateString (DateAt (-30610224000000 + 34000))) = 10%nat
  /\ toISODateString InvalidDate = EmptyString
  /\ parseDate (Some (toISODateString InvalidDate)) DEFAULT_FORMAT = Done None.
Proof.
  apply (toISODateString_round_trip (-30610224000000 + 34000)). vm_compute.
  split; discriminate.
Defined.

(** X30.  In range mode [_updateRangeHighlight] marks the cells of the grid
    by calendar day, whatever the time of day of the range's ends.  For the
    cell of a day (years 100 to 9999) when the range has a start: with an
    end chosen the cell is in range from the start's day to the end's day
    and is the start or the end on those days; with no end but a hovered
    day (a midnight) the range runs from the earlier to the later of start
    and hovered day; with neither, only the start is marked.  The cell is
    [aria-selected] exactly when it is the start or the end. *)
Theorem range_highlight_by_day
  (dp : DatePicker) (nodes : list cell) (i : nat) (s t : Z)
  (isOutside isToday isSelected isDisabled : bool) :
  range (options dp) = true -> daysGrid dp = true ->
  rangeStart dp = Some (DateAt s) -> 100 <= YearFromDay (Day s) ->
  nth_error nodes i = Some (DayCell (DateAt t) isOutside isToday isSelected isDisabled) ->
  100 <= YearFromDay (Day t) <= 9999 ->
  exists hs h,
    _updateRangeHighlight dp nodes = Some hs
    /\ List.length hs = List.length nodes
    /\ nth_error hs i = Some h
    /\ aria_selected h = Some (is_range_start h || is_range_end h)
    /\ (forall e, rangeEnd dp = Some (DateAt e) -> 100 <= YearFromDay (Day e) ->
        is_in_range h = (Day s <=? Day t) && (Day t <=? Day e)
        /\ is_range_start h = (Day t =? Day s)
        /\ is_range_end h = (Day t =? Day e))
    /\ (forall e, rangeEnd dp = None -> hoveringDate dp = Some (DateAt e) ->
        100 <= YearFromDay (Day e) -> TimeWithinDay e = 0 ->
        is_in_range h
        = (Z.min (Day s) (Day e) <=? Day t) && (Day t <=? Z.max (Day s) (Day e))
        /\ is_range_start h = (Day t =? Z.min (Day s) (Day e))
        /\ is_range_end h = (Day t =? Z.max (Day s) (Day e)))
    /\ (rangeEnd dp = None -> hoveringDate dp = None ->
        is_in_range h = false
        /\ is_range_start h = (Day t =? Day s)
        /\ is_range_end h = false).
Proof.
  intros R G S Ys N Yt. unfold _updateRangeHighlight. rewrite R, G. cbn [negb orb].
  destruct (effective_range dp) as [effStart effEnd] eqn:E.
  eexists. eexists. split; [reflexivity|]. split; [apply length_map|].
  split; [apply map_nth_error; exact N|].
  split.
  { rewrite highlight_day_cell by exact Yt. reflexivity. }
  split; [|split].
  - intros e Re Ye. rewrite (effective_range_chosen dp s e S Ys Re Ye) in E.
    injection E as <- <-. rewrite highlight_between by exact Yt. cbn. repeat split; reflexivity.
  - intros e Re H Ye T. rewrite (effective_range_hover dp s e S Ys Re H Ye T) in E.
    injection E as <- <-. rewrite highlight_between by exact Yt. cbn. repeat split; reflexivity.
  - intros Re H. rewrite (effective_range_open dp s S Ys Re H) in E.
    injection E as <- <-. rewrite highlight_day_cell by exact Yt. cbv zeta.
    rewrite same_day_eqb, !Day_midnight. cbn. repeat split; reflexivity.
Qed.

Lemma range_highlight_by_day_witness :
  exists hs h,
    _updateRangeHighlight highlighted_picker (_render highlighted_picker now0) = Some hs
    /\ List.length hs = List.length (_render highlighted_picker now0)
    /\ nth_error hs 5 = Some h
    /\ aria_selected h = Some (is_range_start h || is_range_end h)
    /\ (forall e, rangeEnd highlighted_picker = Some (DateAt e) ->
        100 <= YearFromDay (Day e) ->
        is_in_range h = (Day 1709254800000 <=? Day 1709251200000) && (Day 1709251200000 <=? Day e)
        /\ is_range_start h = (Day 1709251200000 =? Day 1709254800000)
        /\ is_range_end h = (Day 1709251200000 =? Day e))
    /\ (forall e, rangeEnd highlighted_picker = None ->
        hoveringDate highlighted_picker = Some (DateAt e) ->
        100 <= YearFromDay (Day e) -> TimeWithinDay e = 0 ->
        is_in_range h
        = (Z.min (Day 1709254800000) (Day e) <=? Day 1709251200000)
          && (Day 1709251200000 <=? Z.max (Day 1709254800000) (Day e))
        /\ is_range_start h = (Day 1709251200000 =? Z.min (Day 1709254800000) (Day e))
        /\ is_range_end h = (Day 1709251200000 =? Z.max (Day 1709254800000) (Day e)))
    /\ (rangeEnd highlighted_picker = None -> hoveringDate highlighted_picker = None ->
        is_in_range h = false
        /\ is_range_start h = (Day 1709251200000 =? Day 1709254800000)
        /\ is_range_end h = false).
Proof.
  apply (range_highlight_by_day highlighted_picker (_render highlighted_picker now0) 5
           1709254800000 1709251200000 false false false false).
  - vm_compute. reflexivity.
  - vm_compute. reflexivity.
  - vm_compute. reflexivity.
  - vm_compute. discriminate.
  - vm_compute. reflexivity.
  - vm_compute. split; discriminate.
Defined.

Lemma schedule_survives_reconstruction_witness :
  exists dp2,
    constructor
      (inputValue (_syncScheduleValue (set_scheduleWeeklySelected [3; 1] weekly_picker) "user"))
      weekly_options now0 = Done dp2
    /\ scheduleMode (options dp2)
       = scheduleMode (options (set_scheduleWeeklySelected [3; 1] weekly_picker))
    /\ active_set dp2
       = sort_asc (active_set (set_scheduleWeeklySelected [3; 1] weekly_picker)).
Proof.
  eapply (schedule_survives_reconstruction
            (set_scheduleWeeklySelected [3; 1] weekly_picker) "user" weekly_options).
  - vm_compute. reflexivity.
  - vm_compute. reflexivity.
  - vm_compute. reflexivity.
  - vm_compute. reflexivity.
  - vm_compute. reflexivity.
Defined.

Lemma selection_survives_reconstruction_witness :
  exists dp2 d,
    constructor (formatDate (DateAt 1710509400000) (format defaults)) default_options now0
    = Done dp2
    /\ selectedDate dp2 = Some d
    /\ areSameCalendarDate d (DateAt 1710509400000) = true
    /\ (enableTime defaults = false -> d = startOfDay (DateAt 1710509400000)).
Proof.
  apply (selection_survives_reconstruction iso_date 1710509400000 default_options defaults
           now0).
  - vm_compute. reflexivity.
  - vm_compute. reflexivity.
  - vm_compute. split; discriminate.
  - vm_compute. reflexivity.
  - vm_compute. reflexivity.
  - vm_compute. reflexivity.
  - vm_compute. reflexivity.
Defined.
